(** * Validation of Istio configuration: a shallow embedding of
      pilot/pkg/model/validation.go

    The Go code is embedded function by function.  Go strings are byte
    strings ([string], one [ascii] per byte); Go's fixed-width integers are
    [Z] with the wrap-around written where the code computes with them;
    an [error] value is [option error], [None] being Go's [nil]; a map that
    is only looked up is a [gset]/[gmap], a map that is ranged over is a
    [gmap] walked in the order of [map_to_list]; a call that can panic
    returns in the [result] monad. *)

From Stdlib Require Import ZArith Ascii String List Lia Bool Permutation SpecFloat.
From stdpp Require Import base decidable option list gmap strings.

Local Open Scope string_scope.
Local Open Scope Z_scope.

(** ** Go strings *)

Module GoStrings.

(** [len(s)], the number of bytes. *)
Definition len (s : string) : Z := Z.of_nat (String.length s).

Definition bytes (s : string) : list ascii := list_ascii_of_string s.
Definition of_bytes (l : list ascii) : string := string_of_list_ascii l.

(** [strings.Split(s, sep)] for a one-byte separator: the pieces between
    the separators, the empty string included ([Split("", ".")] is
    [[""]]). *)
Fixpoint split_bytes (sep : ascii) (cur : list ascii) (l : list ascii)
  : list (list ascii) :=
  match l with
  | [] => [rev cur]
  | c :: t => if Ascii.eqb c sep then rev cur :: split_bytes sep [] t
              else split_bytes sep (c :: cur) t
  end.

Definition Split (s : string) (sep : ascii) : list string :=
  map of_bytes (split_bytes sep [] (bytes s)).

(** [strings.SplitN(s, sep, 2)]: the piece before the first separator and,
    when there is a separator, everything after it. *)
Fixpoint cut_bytes (sep : ascii) (cur : list ascii) (l : list ascii)
  : list ascii * option (list ascii) :=
  match l with
  | [] => (rev cur, None)
  | c :: t => if Ascii.eqb c sep then (rev cur, Some t)
              else cut_bytes sep (c :: cur) t
  end.

Definition SplitN2 (s : string) (sep : ascii) : string * option string :=
  let '(h, t) := cut_bytes sep [] (bytes s) in (of_bytes h, of_bytes <$> t).

(** [strings.Count(s, sep)] for a one-byte separator. *)
Definition Count (s : string) (sep : ascii) : Z :=
  Z.of_nat (List.length (List.filter (fun c => Ascii.eqb c sep) (bytes s))).

(** [strings.Contains(s, sep)] for a one-byte separator. *)
Definition Contains (s : string) (sep : ascii) : bool :=
  existsb (Ascii.eqb sep) (bytes s).

(** [strings.HasPrefix(s, prefix)]. *)
Definition HasPrefix (s prefix : string) : bool := String.prefix prefix s.

(** [strings.TrimPrefix(s, prefix)]. *)
Definition TrimPrefix (s prefix : string) : string :=
  if HasPrefix s prefix
  then String.substring (String.length prefix)
         (String.length s - String.length prefix) s
  else s.

(** [path.IsAbs(p)] is [len(p) > 0 && p[0] == '/']. *)
Definition path_IsAbs (p : string) : bool :=
  match p with
  | String c _ => Ascii.eqb c "/"
  | EmptyString => false
  end.

End GoStrings.

(** ** Regular expressions

    The three expressions of the file are compiled from their source text
    by [regexp.MustCompile] and used through [MatchString], which reports
    whether the expression matches somewhere in the string: only [^] and
    [$] tie a match to the ends.  [parse] reads the syntax the three
    expressions use (literals, [\c], classes with ranges, groups, [|], [?],
    [*], [^], [$]) with the precedence of Go's parser: postfix operators
    bind tightest, then concatenation, then alternation. *)

Module Regexp.

Inductive regex : Type :=
| Eps                                   (* the empty expression *)
| Chr (c : ascii)                       (* a literal byte *)
| Class (items : list (ascii * ascii))  (* [lo-hi...] ; a single byte is lo-lo *)
| Bol                                   (* ^ : at the beginning of the text *)
| Eol                                   (* $ : at the end of the text *)
| Cat (r1 r2 : regex)
| Alt (r1 r2 : regex)
| Opt (r : regex)
| Star (r : regex).

(** *** Parsing *)

(** The items of a class up to the closing bracket: [c-d] is a range when
    the byte after [-] is not the closing bracket, anything else is a
    single byte. *)
Fixpoint parseClass (fuel : nat) (s : list ascii) (acc : list (ascii * ascii))
  : option (regex * list ascii) :=
  match fuel with
  | O => None
  | S fuel' =>
      match s with
      | [] => None
      | "]"%char :: t => Some (Class (rev acc), t)
      | lo :: "-"%char :: hi :: t =>
          if Ascii.eqb hi "]" then parseClass fuel' ("-"%char :: hi :: t) ((lo, lo) :: acc)
          else parseClass fuel' t ((lo, hi) :: acc)
      | c :: t => parseClass fuel' t ((c, c) :: acc)
      end
  end.

Fixpoint parseAlt (fuel : nat) (s : list ascii) {struct fuel}
  : option (regex * list ascii) :=
  match fuel with
  | O => None
  | S fuel' =>
      let parseAtom (s : list ascii) : option (regex * list ascii) :=
        match s with
        | [] => None
        | "("%char :: t =>
            match parseAlt fuel' t with
            | Some (r, ")"%char :: t') => Some (r, t')
            | _ => None
            end
        | "["%char :: t => parseClass (S (List.length t)) t []
        | "\"%char :: c :: t => Some (Chr c, t)
        | "^"%char :: t => Some (Bol, t)
        | "$"%char :: t => Some (Eol, t)
        | c :: t => Some (Chr c, t)
        end in
      let parseRep (s : list ascii) : option (regex * list ascii) :=
        match parseAtom s with
        | Some (r, "?"%char :: t) => Some (Opt r, t)
        | Some (r, "*"%char :: t) => Some (Star r, t)
        | other => other
        end in
      let parseCat :=
        fix parseCat (m : nat) (s : list ascii) {struct m}
          : option (regex * list ascii) :=
          match m with
          | O => None
          | S m' =>
              match s with
              | [] => Some (Eps, s)
              | "|"%char :: _ => Some (Eps, s)
              | ")"%char :: _ => Some (Eps, s)
              | _ =>
                  match parseRep s with
                  | Some (r, t) =>
                      match parseCat m' t with
                      | Some (Eps, t') => Some (r, t')
                      | Some (r', t') => Some (Cat r r', t')
                      | None => None
                      end
                  | None => None
                  end
              end
          end in
      match parseCat (S (List.length s)) s with
      | Some (r, "|"%char :: t) =>
          match parseAlt fuel' t with
          | Some (r', t') => Some (Alt r r', t')
          | None => None
          end
      | other => other
      end
  end.

(** [regexp.MustCompile(src)]; [None] is the panic of [MustCompile] on a
    text that does not parse. *)
Definition Compile (src : string) : option regex :=
  match parseAlt (S (String.length src)) (GoStrings.bytes src) with
  | Some (r, []) => Some r
  | _ => None
  end.

(** *** Matching

    A position in the text is the suffix still to read, together with
    whether it is the beginning of the text.  [run r p] lists the
    positions where a match of [r] that starts at [p] can end. *)

Definition pos : Type := bool * list ascii.

Definition inClass (items : list (ascii * ascii)) (c : ascii) : bool :=
  existsb (fun '(lo, hi) => (nat_of_ascii lo <=? nat_of_ascii c)%nat
                            && (nat_of_ascii c <=? nat_of_ascii hi)%nat) items.

Definition shorter (p q : pos) : bool := (List.length (snd q) <? List.length (snd p))%nat.

(** Zero or more rounds of [step]; a round that consumes nothing adds no
    position, so the number of useful rounds is at most the length of
    the text. *)
Fixpoint iterate (fuel : nat) (step : pos -> list pos) (p : pos) : list pos :=
  p :: match fuel with
       | O => []
       | S fuel' => flat_map (iterate fuel' step) (List.filter (shorter p) (step p))
       end.

Fixpoint run (r : regex) (p : pos) : list pos :=
  match r with
  | Eps => [p]
  | Chr c => match snd p with
             | c' :: t => if Ascii.eqb c c' then [(false, t)] else []
             | [] => []
             end
  | Class items => match snd p with
                   | c' :: t => if inClass items c' then [(false, t)] else []
                   | [] => []
                   end
  | Bol => if fst p then [p] else []
  | Eol => match snd p with [] => [p] | _ => [] end
  | Cat r1 r2 => flat_map (run r2) (run r1 p)
  | Alt r1 r2 => run r1 p ++ run r2 p
  | Opt r1 => run r1 p ++ [p]
  | Star r1 => iterate (List.length (snd p)) (run r1) p
  end.

(** The start positions of a text, leftmost first. *)
Fixpoint starts (first : bool) (s : list ascii) : list pos :=
  (first, s) :: match s with
                | [] => []
                | _ :: t => starts false t
                end.

(** [re.MatchString(s)]. *)
Definition MatchString (re : regex) (s : string) : bool :=
  existsb (fun p => match run re p with [] => false | _ => true end)
          (starts true (GoStrings.bytes s)).

End Regexp.

(** ** The constants of the file *)

Definition dns1123LabelMaxLength : Z := 63.
Definition dns1123LabelFmt : string := "[a-zA-Z0-9]([-a-z-A-Z0-9]*[a-zA-Z0-9])?".
(** a wild-card prefix is an '*', a normal DNS1123 label with a leading '*'
    or '*-', or a normal DNS1123 label *)
Definition wildcardPrefix : string := "\*|(\*|\*-)?(" +:+ dns1123LabelFmt +:+ ")".
Definition qualifiedNameFmt : string := "[-A-Za-z0-9_./]*".

Definition UnixAddressPrefix : string := "unix://".

(** [regexp.MustCompile] panics at package initialisation on a text that
    does not compile; the three texts do compile (see [regexps_compile]),
    so the default is never used. *)
Definition MustCompile (src : string) : Regexp.regex :=
  default Regexp.Eps (Regexp.Compile src).

Definition dns1123LabelRegexp : Regexp.regex :=
  Eval vm_compute in MustCompile ("^" +:+ dns1123LabelFmt +:+ "$").
Definition tagRegexp : Regexp.regex :=
  Eval vm_compute in MustCompile ("^" +:+ qualifiedNameFmt +:+ "$").
Definition wildcardPrefixRegexp : Regexp.regex :=
  Eval vm_compute in MustCompile ("^" +:+ wildcardPrefix +:+ "$").

(** ** The configuration messages

    The generated protobuf types, with the fields the validators read.  A
    singular message field is a pointer and may be unset ([option]); the
    elements of a repeated message field and the values of a map are
    never nil.  Enumerations and the fixed-width integers are [Z]. *)

(** Floating point numbers are read only through comparisons with
    constants; a [float32] or [float64] value is given by its IEEE 754
    description. *)
Definition float32 : Type := spec_float.
Definition float64 : Type := spec_float.

Module duration.
(** [duration.Duration] of golang/protobuf; [types.Duration] of gogo has
    the same two fields. *)
Record Duration : Type := { Seconds : Z (* int64 *); Nanos : Z (* int32 *) }.
End duration.
Import duration.

Module networking.

Record Port : Type :=
  { Port_Number : Z (* uint32 *); Port_Protocol : string; Port_Name : string }.

Definition Server_TLSOptions_PASSTHROUGH : Z := 0.
Definition Server_TLSOptions_SIMPLE : Z := 1.
Definition Server_TLSOptions_MUTUAL : Z := 2.

Record Server_TLSOptions : Type :=
  { TLSOptions_Mode : Z;
    TLSOptions_ServerCertificate : string;
    TLSOptions_CaCertificates : string }.

Record Server : Type :=
  { Server_Port : option Port;
    Server_Hosts : list string;
    Server_Tls : option Server_TLSOptions }.

Record Gateway : Type := { Gateway_Servers : list Server }.

Definition ServiceEntry_NONE : Z := 0.
Definition ServiceEntry_STATIC : Z := 1.
Definition ServiceEntry_DNS : Z := 2.

(** The generated table [ServiceEntry_Resolution_name]; a missing key
    reads as the empty string. *)
Definition ServiceEntry_Resolution_name (r : Z) : string :=
  if r =? 0 then "NONE" else if r =? 1 then "STATIC" else if r =? 2 then "DNS" else "".

Record ServiceEntry_Endpoint : Type :=
  { Endpoint_Address : string;
    Endpoint_Ports : gmap string Z (* map[string]uint32 *);
    Endpoint_Labels : gmap string string }.

Record ServiceEntry : Type :=
  { ServiceEntry_Hosts : list string;
    ServiceEntry_Addresses : list string;
    ServiceEntry_Ports : list Port;
    ServiceEntry_Resolution : Z;
    ServiceEntry_Endpoints : list ServiceEntry_Endpoint }.

(** The oneof [port] of a [PortSelector]. *)
Inductive isPortSelector_Port : Type :=
| PortSelector_Number (n : Z)
| PortSelector_Name (s : string).

Record PortSelector : Type := { PortSelector_Port : option isPortSelector_Port }.

Definition PortSelector_GetName (m : PortSelector) : string :=
  match PortSelector_Port m with Some (PortSelector_Name s) => s | _ => "" end.
Definition PortSelector_GetNumber (m : PortSelector) : Z :=
  match PortSelector_Port m with Some (PortSelector_Number n) => n | _ => 0 end.

Record Destination : Type :=
  { Destination_Host : string;
    Destination_Subset : string;
    Destination_Port : option PortSelector }.

Record DestinationWeight : Type :=
  { DestinationWeight_Destination : option Destination;
    DestinationWeight_Weight : Z (* int32 *) }.

Record HTTPRedirect : Type := { HTTPRedirect_Uri : string; HTTPRedirect_Authority : string }.
Record HTTPRewrite : Type := { HTTPRewrite_Uri : string; HTTPRewrite_Authority : string }.

Record HTTPRetry : Type :=
  { HTTPRetry_Attempts : Z (* int32 *); HTTPRetry_PerTryTimeout : option Duration }.

Record CorsPolicy : Type :=
  { CorsPolicy_AllowMethods : list string;
    CorsPolicy_AllowHeaders : list string;
    CorsPolicy_ExposeHeaders : list string;
    CorsPolicy_MaxAge : option Duration }.

(** The oneof [error_type] of an abort. *)
Inductive isHTTPFaultInjection_Abort_ErrorType : Type :=
| HTTPFaultInjection_Abort_HttpStatus (HttpStatus : Z)
| HTTPFaultInjection_Abort_GrpcStatus (GrpcStatus : string)
| HTTPFaultInjection_Abort_Http2Error (Http2Error : string).

Record HTTPFaultInjection_Abort : Type :=
  { Abort_Percent : Z (* int32 *);
    Abort_ErrorType : option isHTTPFaultInjection_Abort_ErrorType }.

Definition Abort_GetHttpStatus (a : HTTPFaultInjection_Abort) : Z :=
  match Abort_ErrorType a with Some (HTTPFaultInjection_Abort_HttpStatus n) => n | _ => 0 end.

(** The oneof [http_delay_type] of a delay. *)
Inductive isHTTPFaultInjection_Delay_HttpDelayType : Type :=
| HTTPFaultInjection_Delay_FixedDelay (FixedDelay : option Duration)
| HTTPFaultInjection_Delay_ExponentialDelay (ExponentialDelay : option Duration).

Record HTTPFaultInjection_Delay : Type :=
  { Delay_Percent : Z (* int32 *);
    Delay_HttpDelayType : option isHTTPFaultInjection_Delay_HttpDelayType }.

Record HTTPFaultInjection : Type :=
  { HTTPFaultInjection_Delay_ : option HTTPFaultInjection_Delay;
    HTTPFaultInjection_Abort_ : option HTTPFaultInjection_Abort }.

(** Of a match only the header names and the source labels are read. *)
Record HTTPMatchRequest : Type :=
  { HTTPMatchRequest_Headers : gset string (* the keys of map[string]*StringMatch *);
    HTTPMatchRequest_SourceLabels : gmap string string }.

Record HTTPRoute : Type :=
  { HTTPRoute_Match : list HTTPMatchRequest;
    HTTPRoute_Route : list DestinationWeight;
    HTTPRoute_Redirect : option HTTPRedirect;
    HTTPRoute_Rewrite : option HTTPRewrite;
    HTTPRoute_WebsocketUpgrade : bool;
    HTTPRoute_Timeout : option Duration;
    HTTPRoute_Retries : option HTTPRetry;
    HTTPRoute_Fault : option HTTPFaultInjection;
    HTTPRoute_Mirror : option Destination;
    HTTPRoute_CorsPolicy : option CorsPolicy;
    HTTPRoute_AppendHeaders : gmap string string }.

(** The TCP routes are only counted. *)
Record VirtualService : Type :=
  { VirtualService_Hosts : list string;
    VirtualService_Gateways : list string;
    VirtualService_Http : list HTTPRoute;
    VirtualService_Tcp : nat (* len(Tcp) *) }.

Definition TLSSettings_DISABLE : Z := 0.
Definition TLSSettings_SIMPLE : Z := 1.
Definition TLSSettings_MUTUAL : Z := 2.

Record TLSSettings : Type :=
  { TLSSettings_Mode : Z;
    TLSSettings_ClientCertificate : string;
    TLSSettings_PrivateKey : string }.

Record OutlierDetection : Type :=
  { OutlierDetection_ConsecutiveErrors : Z (* int32 *);
    OutlierDetection_Interval : option Duration;
    OutlierDetection_BaseEjectionTime : option Duration;
    OutlierDetection_MaxEjectionPercent : Z (* int32 *) }.

Record ConnectionPoolSettings_TCPSettings : Type :=
  { TCPSettings_MaxConnections : Z (* int32 *);
    TCPSettings_ConnectTimeout : option Duration }.

Record ConnectionPoolSettings_HTTPSettings : Type :=
  { HTTPSettings_Http1MaxPendingRequests : Z;
    HTTPSettings_Http2MaxRequests : Z;
    HTTPSettings_MaxRequestsPerConnection : Z;
    HTTPSettings_MaxRetries : Z }.

Record ConnectionPoolSettings : Type :=
  { ConnectionPoolSettings_Tcp : option ConnectionPoolSettings_TCPSettings;
    ConnectionPoolSettings_Http : option ConnectionPoolSettings_HTTPSettings }.

(** Of the load balancer settings nothing is read but their presence. *)
Record TrafficPolicy : Type :=
  { TrafficPolicy_LoadBalancer : option unit;
    TrafficPolicy_ConnectionPool : option ConnectionPoolSettings;
    TrafficPolicy_OutlierDetection : option OutlierDetection;
    TrafficPolicy_Tls : option TLSSettings }.

Record Subset : Type :=
  { Subset_Name : string;
    Subset_Labels : gmap string string;
    Subset_TrafficPolicy : option TrafficPolicy }.

Record DestinationRule : Type :=
  { DestinationRule_Host : string;
    DestinationRule_TrafficPolicy : option TrafficPolicy;
    DestinationRule_Subsets : list Subset }.

End networking.

Module routing.

Record IstioService : Type :=
  { IstioService_Name : string;
    IstioService_Namespace : string;
    IstioService_Domain : string;
    IstioService_Service : string;
    IstioService_Labels : gmap string string }.

(** The oneof [match_type] of a [StringMatch]. *)
Inductive isStringMatch_MatchType : Type :=
| StringMatch_Exact (Exact : string)
| StringMatch_Prefix (Prefix : string)
| StringMatch_Regex (Regex : string).

Record StringMatch : Type := { StringMatch_MatchType : option isStringMatch_MatchType }.

Record DestinationWeight : Type :=
  { DestinationWeight_Labels : gmap string string;
    DestinationWeight_Weight : Z (* int32 *) }.

Record EgressRule_Port : Type :=
  { EgressRule_Port_Port : Z (* int32 *); EgressRule_Port_Protocol : string }.

Record EgressRule : Type :=
  { EgressRule_Destination : option IstioService;
    EgressRule_Ports : list EgressRule_Port;
    EgressRule_UseEgressProxy : bool }.

Record IngressRule : Type := { IngressRule_Destination : option IstioService }.

Record L4MatchAttributes : Type :=
  { L4MatchAttributes_SourceSubnet : list string;
    L4MatchAttributes_DestinationSubnet : list string }.

Record MatchRequest : Type := { MatchRequest_Headers : gmap string StringMatch }.

Record MatchCondition : Type :=
  { MatchCondition_Source : option IstioService;
    MatchCondition_Tcp : option L4MatchAttributes;
    MatchCondition_Udp : option L4MatchAttributes;
    MatchCondition_Request : option MatchRequest }.

Record HTTPRewrite : Type := { HTTPRewrite_Uri : string; HTTPRewrite_Authority : string }.
Record HTTPRedirect : Type := { HTTPRedirect_Uri : string; HTTPRedirect_Authority : string }.

Record CorsPolicy : Type :=
  { CorsPolicy_AllowMethods : list string;
    CorsPolicy_AllowHeaders : list string;
    CorsPolicy_ExposeHeaders : list string;
    CorsPolicy_MaxAge : option Duration }.

Record HTTPTimeout_SimpleTimeoutPolicy : Type :=
  { SimpleTimeoutPolicy_Timeout : option Duration }.

(** The oneof [timeout_policy]. *)
Inductive isHTTPTimeout_TimeoutPolicy : Type :=
| HTTPTimeout_SimpleTimeout (SimpleTimeout : option HTTPTimeout_SimpleTimeoutPolicy)
| HTTPTimeout_Custom.

Record HTTPTimeout : Type := { HTTPTimeout_TimeoutPolicy : option isHTTPTimeout_TimeoutPolicy }.

Definition HTTPTimeout_GetSimpleTimeout (m : HTTPTimeout) : option HTTPTimeout_SimpleTimeoutPolicy :=
  match HTTPTimeout_TimeoutPolicy m with
  | Some (HTTPTimeout_SimpleTimeout x) => x
  | _ => None
  end.

Record HTTPRetry_SimpleRetryPolicy : Type :=
  { SimpleRetryPolicy_Attempts : Z (* int32 *);
    SimpleRetryPolicy_PerTryTimeout : option Duration }.

(** The oneof [retry_policy]. *)
Inductive isHTTPRetry_RetryPolicy : Type :=
| HTTPRetry_SimpleRetry (SimpleRetry : option HTTPRetry_SimpleRetryPolicy)
| HTTPRetry_Custom.

Record HTTPRetry : Type := { HTTPRetry_RetryPolicy : option isHTTPRetry_RetryPolicy }.

Definition HTTPRetry_GetSimpleRetry (m : HTTPRetry) : option HTTPRetry_SimpleRetryPolicy :=
  match HTTPRetry_RetryPolicy m with
  | Some (HTTPRetry_SimpleRetry x) => x
  | _ => None
  end.

(** The oneof [http_delay_type]. *)
Inductive isHTTPFaultInjection_Delay_HttpDelayType : Type :=
| HTTPFaultInjection_Delay_FixedDelay (FixedDelay : option Duration)
| HTTPFaultInjection_Delay_ExponentialDelay (ExponentialDelay : option Duration).

Record HTTPFaultInjection_Delay : Type :=
  { Delay_Percent : float32;
    Delay_HttpDelayType : option isHTTPFaultInjection_Delay_HttpDelayType }.

Definition Delay_GetFixedDelay (m : HTTPFaultInjection_Delay) : option Duration :=
  match Delay_HttpDelayType m with
  | Some (HTTPFaultInjection_Delay_FixedDelay d) => d
  | _ => None
  end.

Definition Delay_GetExponentialDelay (m : HTTPFaultInjection_Delay) : option Duration :=
  match Delay_HttpDelayType m with
  | Some (HTTPFaultInjection_Delay_ExponentialDelay d) => d
  | _ => None
  end.

(** The oneof [error_type]. *)
Inductive isHTTPFaultInjection_Abort_ErrorType : Type :=
| HTTPFaultInjection_Abort_GrpcStatus (GrpcStatus : string)
| HTTPFaultInjection_Abort_Http2Error (Http2Error : string)
| HTTPFaultInjection_Abort_HttpStatus (HttpStatus : Z).

Record HTTPFaultInjection_Abort : Type :=
  { Abort_Percent : float32;
    Abort_ErrorType : option isHTTPFaultInjection_Abort_ErrorType }.

Record HTTPFaultInjection : Type :=
  { HTTPFaultInjection_Delay_ : option HTTPFaultInjection_Delay;
    HTTPFaultInjection_Abort_ : option HTTPFaultInjection_Abort }.

(** The oneof [throttle_after]. *)
Inductive isL4FaultInjection_Throttle_ThrottleAfter : Type :=
| L4FaultInjection_Throttle_ThrottleAfterPeriod (ThrottleAfterPeriod : option Duration)
| L4FaultInjection_Throttle_ThrottleAfterBytes (ThrottleAfterBytes : float64).

Record L4FaultInjection_Throttle : Type :=
  { Throttle_Percent : float32;
    Throttle_DownstreamLimitBps : Z (* int64 *);
    Throttle_UpstreamLimitBps : Z (* int64 *);
    Throttle_ThrottleAfter : option isL4FaultInjection_Throttle_ThrottleAfter }.

Definition Throttle_GetThrottleAfterPeriod (m : L4FaultInjection_Throttle) : option Duration :=
  match Throttle_ThrottleAfter m with
  | Some (L4FaultInjection_Throttle_ThrottleAfterPeriod d) => d
  | _ => None
  end.

Definition Throttle_GetThrottleAfterBytes (m : L4FaultInjection_Throttle) : float64 :=
  match Throttle_ThrottleAfter m with
  | Some (L4FaultInjection_Throttle_ThrottleAfterBytes x) => x
  | _ => S754_zero false
  end.

Record L4FaultInjection_Terminate : Type := { Terminate_Percent : float32 }.

Record L4FaultInjection : Type :=
  { L4FaultInjection_Throttle_ : option L4FaultInjection_Throttle;
    L4FaultInjection_Terminate_ : option L4FaultInjection_Terminate }.

(** [Route] is a slice that may be nil. *)
Record RouteRule : Type :=
  { RouteRule_Destination : option IstioService;
    RouteRule_Match : option MatchCondition;
    RouteRule_Route : option (list DestinationWeight);
    RouteRule_Redirect : option HTTPRedirect;
    RouteRule_Rewrite : option HTTPRewrite;
    RouteRule_WebsocketUpgrade : bool;
    RouteRule_HttpReqTimeout : option HTTPTimeout;
    RouteRule_HttpReqRetries : option HTTPRetry;
    RouteRule_HttpFault : option HTTPFaultInjection;
    RouteRule_L4Fault : option L4FaultInjection;
    RouteRule_Mirror : option IstioService;
    RouteRule_CorsPolicy : option CorsPolicy;
    RouteRule_AppendHeaders : gmap string string }.

(** Of the load balancing policy only its presence is read. *)
Record LoadBalancing : Type := { LoadBalancing_LbPolicy : option unit }.

Record CircuitBreaker_SimpleCircuitBreakerPolicy : Type :=
  { SimpleCb_MaxConnections : Z;
    SimpleCb_HttpMaxPendingRequests : Z;
    SimpleCb_HttpMaxRequests : Z;
    SimpleCb_SleepWindow : option Duration;
    SimpleCb_HttpConsecutiveErrors : Z;
    SimpleCb_HttpDetectionInterval : option Duration;
    SimpleCb_HttpMaxRequestsPerConnection : Z;
    SimpleCb_HttpMaxEjectionPercent : Z }.

(** The oneof [cb_policy]. *)
Inductive isCircuitBreaker_CbPolicy : Type :=
| CircuitBreaker_SimpleCb (SimpleCb : option CircuitBreaker_SimpleCircuitBreakerPolicy)
| CircuitBreaker_Custom.

Record CircuitBreaker : Type := { CircuitBreaker_CbPolicy : option isCircuitBreaker_CbPolicy }.

Definition CircuitBreaker_GetSimpleCb (m : CircuitBreaker)
  : option CircuitBreaker_SimpleCircuitBreakerPolicy :=
  match CircuitBreaker_CbPolicy m with
  | Some (CircuitBreaker_SimpleCb x) => x
  | _ => None
  end.

Record DestinationPolicy : Type :=
  { DestinationPolicy_Destination : option IstioService;
    DestinationPolicy_Source : option IstioService;
    DestinationPolicy_LoadBalancing : option LoadBalancing;
    DestinationPolicy_CircuitBreaker : option CircuitBreaker }.

End routing.

Module authn.

Record Jwt : Type :=
  { Jwt_Issuer : string;
    Jwt_Audiences : list string;
    Jwt_JwksUri : string;
    Jwt_JwtHeaders : list string;
    Jwt_JwtParams : list string }.

(** The oneof [params] of a peer method. *)
Inductive isPeerAuthenticationMethod_Params : Type :=
| PeerAuthenticationMethod_Mtls
| PeerAuthenticationMethod_Jwt (jwt : option Jwt).

Record PeerAuthenticationMethod : Type :=
  { PeerAuthenticationMethod_Params : option isPeerAuthenticationMethod_Params }.

Definition PeerAuthenticationMethod_GetJwt (m : PeerAuthenticationMethod) : option Jwt :=
  match PeerAuthenticationMethod_Params m with
  | Some (PeerAuthenticationMethod_Jwt j) => j
  | _ => None
  end.

Record OriginAuthenticationMethod : Type :=
  { OriginAuthenticationMethod_Jwt : option Jwt }.

Inductive isPortSelector_Port : Type :=
| PortSelector_Number (n : Z)
| PortSelector_Name (s : string).

Record PortSelector : Type := { PortSelector_Port : option isPortSelector_Port }.

Definition PortSelector_GetName (m : PortSelector) : string :=
  match PortSelector_Port m with Some (PortSelector_Name s) => s | _ => "" end.
Definition PortSelector_GetNumber (m : PortSelector) : Z :=
  match PortSelector_Port m with Some (PortSelector_Number n) => n | _ => 0 end.

Record TargetSelector : Type :=
  { TargetSelector_Name : string; TargetSelector_Ports : list PortSelector }.

Record Policy : Type :=
  { Policy_Targets : list TargetSelector;
    Policy_Peers : list PeerAuthenticationMethod;
    Policy_Origins : list OriginAuthenticationMethod }.

End authn.

Module mpb.

Record Timestamp : Type := { Timestamp_Seconds : Z; Timestamp_Nanos : Z }.

(** [Entries] is a map that may be nil. *)
Record Attributes_StringMap : Type := { StringMap_Entries : option (gmap string string) }.

(** The oneof [value] of an attribute value. *)
Inductive isAttributes_AttributeValue_Value : Type :=
| Attributes_AttributeValue_StringValue (StringValue : string)
| Attributes_AttributeValue_Int64Value (Int64Value : Z)
| Attributes_AttributeValue_DoubleValue
| Attributes_AttributeValue_BoolValue (BoolValue : bool)
| Attributes_AttributeValue_BytesValue (BytesValue : list ascii)
| Attributes_AttributeValue_TimestampValue (TimestampValue : option Timestamp)
| Attributes_AttributeValue_DurationValue (DurationValue : option Duration)
| Attributes_AttributeValue_StringMapValue (StringMapValue : option Attributes_StringMap).

Record Attributes_AttributeValue : Type :=
  { AttributeValue_Value : option isAttributes_AttributeValue_Value }.

Record Attributes : Type :=
  { Attributes_Attributes : gmap string Attributes_AttributeValue }.

End mpb.

Module mccpb.

Inductive isHTTPAPISpecPattern_Pattern : Type :=
| HTTPAPISpecPattern_UriTemplate (UriTemplate : string)
| HTTPAPISpecPattern_Regex (Regex : string).

Record HTTPAPISpecPattern : Type :=
  { HTTPAPISpecPattern_Attributes : option mpb.Attributes;
    HTTPAPISpecPattern_HttpMethod : string;
    HTTPAPISpecPattern_Pattern : option isHTTPAPISpecPattern_Pattern }.

Inductive isAPIKey_Key : Type :=
| APIKey_Query (Query : string)
| APIKey_Header (Header : string)
| APIKey_Cookie (Cookie : string).

Record APIKey : Type := { APIKey_Key_ : option isAPIKey_Key }.

Record HTTPAPISpec : Type :=
  { HTTPAPISpec_Attributes : option mpb.Attributes;
    HTTPAPISpec_Patterns : list HTTPAPISpecPattern;
    HTTPAPISpec_ApiKeys : list APIKey }.

Record IstioService : Type :=
  { IstioService_Name : string;
    IstioService_Namespace : string;
    IstioService_Domain : string;
    IstioService_Service : string;
    IstioService_Labels : gmap string string }.

Record HTTPAPISpecReference : Type :=
  { HTTPAPISpecReference_Name : string; HTTPAPISpecReference_Namespace : string }.

Record HTTPAPISpecBinding : Type :=
  { HTTPAPISpecBinding_Services : list IstioService;
    HTTPAPISpecBinding_ApiSpecs : list HTTPAPISpecReference }.

Inductive isStringMatch_MatchType : Type :=
| StringMatch_Exact (Exact : string)
| StringMatch_Prefix (Prefix : string)
| StringMatch_Regex (Regex : string).

Record StringMatch : Type := { StringMatch_MatchType : option isStringMatch_MatchType }.

Record AttributeMatch : Type := { AttributeMatch_Clause : gmap string StringMatch }.

Record Quota : Type := { Quota_Quota : string; Quota_Charge : Z (* int64 *) }.

Record QuotaRule : Type :=
  { QuotaRule_Match : list AttributeMatch; QuotaRule_Quotas : list Quota }.

Record QuotaSpec : Type := { QuotaSpec_Rules : list QuotaRule }.

Record QuotaSpecBinding_QuotaSpecReference : Type :=
  { QuotaSpecReference_Name : string; QuotaSpecReference_Namespace : string }.

Record QuotaSpecBinding : Type :=
  { QuotaSpecBinding_Services : list IstioService;
    QuotaSpecBinding_QuotaSpecs : list QuotaSpecBinding_QuotaSpecReference }.

End mccpb.

Module rbac.

Record AccessRule_Constraint : Type :=
  { Constraint_Key : string; Constraint_Values : list string }.

Record AccessRule : Type :=
  { AccessRule_Services : list string;
    AccessRule_Methods : list string;
    AccessRule_Constraints : list AccessRule_Constraint }.

Record ServiceRole : Type := { ServiceRole_Rules : list AccessRule }.

Record Subject : Type :=
  { Subject_User : string; Subject_Group : string; Subject_Properties : gmap string string }.

Record RoleRef : Type := { RoleRef_Kind : string; RoleRef_Name : string }.

Record ServiceRoleBinding : Type :=
  { ServiceRoleBinding_Subjects : list Subject;
    ServiceRoleBinding_RoleRef : option RoleRef }.

Definition RbacConfig_OFF : Z := 0.
Definition RbacConfig_ON : Z := 1.
Definition RbacConfig_ON_WITH_INCLUSION : Z := 2.
Definition RbacConfig_ON_WITH_EXCLUSION : Z := 3.

Record RbacConfig : Type := { RbacConfig_Mode : Z }.

End rbac.

(** [NetworkEndpoint] of the service model, with the two fields
    [ValidateNetworkEndpointAddress] reads; [AddressFamily] is an [int]. *)
Record NetworkEndpoint : Type :=
  { NetworkEndpoint_Family : Z; NetworkEndpoint_Address : string }.

(** The values of the interface [proto.Message] that reach the validators:
    a pointer to one of the messages above.  The pointer is not nil, except
    that [ValidateHTTPAPISpec] hands its own, possibly nil, [Attributes]
    field to [ValidateMixerAttributes]; [MsgOther] stands for a message of
    any other type. *)
Inductive Message : Type :=
| MsgGateway (m : networking.Gateway)
| MsgServiceEntry (m : networking.ServiceEntry)
| MsgVirtualService (m : networking.VirtualService)
| MsgDestinationRule (m : networking.DestinationRule)
| MsgRouteRule (m : routing.RouteRule)
| MsgDestinationPolicy (m : routing.DestinationPolicy)
| MsgEgressRule (m : routing.EgressRule)
| MsgIngressRule (m : routing.IngressRule)
| MsgPolicy (m : authn.Policy)
| MsgHTTPAPISpec (m : mccpb.HTTPAPISpec)
| MsgHTTPAPISpecBinding (m : mccpb.HTTPAPISpecBinding)
| MsgQuotaSpec (m : mccpb.QuotaSpec)
| MsgQuotaSpecBinding (m : mccpb.QuotaSpecBinding)
| MsgServiceRole (m : rbac.ServiceRole)
| MsgServiceRoleBinding (m : rbac.ServiceRoleBinding)
| MsgRbacConfig (m : rbac.RbacConfig)
| MsgAttributes (m : option mpb.Attributes)
| MsgPort (m : networking.Port)
| MsgStringMatch (m : routing.StringMatch)
| MsgDuration (m : Duration)
| MsgOther (typeName : string).

(** ** Errors

    [fmt.Errorf] and [errors.New] are kept unrendered: an error is the
    format text with its arguments, so that two failures are equal when
    the same check failed on the same values. *)

Inductive fmt_arg : Type :=
| AString (s : string)
| AInt (n : Z)
| AFloat (x : spec_float)
| AMessage (m : Message).

#[warnings="-register-all"]
Inductive error : Type :=
| Errorf (format : string) (args : list fmt_arg)   (* fmt.Errorf(format, args...) *)
| Wrapped (prefix : string) (args : list fmt_arg) (inner : error)
                                       (* errwrap.Wrapf(Sprintf(prefix, args...) + " {{err}}", inner) *)
| MultiError (Errors : list error).                (* *multierror.Error *)

(** [errors.New(text)]. *)
Definition errors_New (text : string) : error := Errorf text [].

(** The failures an error stands for: a [*multierror.Error] lists them in
    its [Errors] field, any other error is one failure. *)
Fixpoint failures (e : error) : list error :=
  match e with
  | MultiError l => flat_map failures l
  | _ => [e]
  end.

Definition failuresOf (e : option error) : list error :=
  match e with
  | Some e => failures e
  | None => []
  end.

Module multierror.

(** What [Append] adds for one argument: nothing for nil, the [Errors] of
    a [*multierror.Error], the error itself otherwise. *)
Definition flatten (e : option error) : list error :=
  match e with
  | None => []
  | Some (MultiError l) => l
  | Some e => [e]
  end.

(** [multierror.Append(err, errs...)] of hashicorp/go-multierror.  On a
    [*multierror.Error] it extends the list of [err]; on anything else it
    starts from an empty list and appends [err] (when not nil) and then
    [errs].  The result is never nil. *)
Definition Append (err : option error) (errs : list (option error)) : error :=
  match err with
  | Some (MultiError l) => MultiError (l ++ flat_map flatten errs)
  | _ => MultiError (flat_map flatten (err :: errs))
  end.

(** [multierror.Prefix(err, prefix)]: nil stays nil, every error of a
    [*multierror.Error] is wrapped, any other error is wrapped itself.
    The prefix is a text, or a format with its arguments where the code
    builds it with [fmt.Sprintf]. *)
Definition Prefixf (err : option error) (prefix : string) (args : list fmt_arg) : option error :=
  match err with
  | None => None
  | Some (MultiError l) => Some (MultiError (map (Wrapped prefix args) l))
  | Some e => Some (Wrapped prefix args e)
  end.

Definition Prefix (err : option error) (prefix : string) : option error :=
  Prefixf err prefix [].

End multierror.

(** wrapper around multierror.Append that enforces the invariant that if all
    input errors are nil, the output error is nil (allowing validation
    without branching). *)
Definition appendError (err err2 : option error) : option error :=
  match err, err2 with
  | None, _ => err2
  | _, None => err
  | _, _ => Some (multierror.Append err [err2])
  end.

Definition appendErrors (err : option error) (errs : list (option error)) : option error :=
  fold_left appendError errs err.

(** ** Panics

    A call either returns or panics: on a nil pointer dereference or on an
    explicit [panic]. *)

Inductive panic : Type :=
| NilDereference
| PanicValue (format : string) (args : list fmt_arg).

Inductive result (A : Type) : Type :=
| Returns (a : A)
| Panics (p : panic).
Arguments Returns {A} a.
Arguments Panics {A} p.

Definition bind {A B : Type} (r : result A) (k : A -> result B) : result B :=
  match r with
  | Returns a => k a
  | Panics p => Panics p
  end.

Notation "x <- r ;; k" := (bind r (fun x => k))
  (at level 100, r at next level, right associativity).

(** A loop whose body may panic. *)
Fixpoint foldM {A S : Type} (body : S -> A -> result S) (l : list A) (s : S) : result S :=
  match l with
  | [] => Returns s
  | x :: t => s' <- body s x ;; foldM body t s'
  end.

(** ** Fixed-width integers and time spans *)

Definition wrap64 (z : Z) : Z := (z + 2 ^ 63) mod 2 ^ 64 - 2 ^ 63.
Definition wrap32 (z : Z) : Z := (z + 2 ^ 31) mod 2 ^ 32 - 2 ^ 31.

Definition int32_range (z : Z) : Prop := - 2 ^ 31 <= z < 2 ^ 31.

Module time.
(** [time.Duration] is an int64 count of nanoseconds. *)
Definition Nanosecond : Z := 1.
Definition Microsecond : Z := 1000 * Nanosecond.
Definition Millisecond : Z := 1000 * Microsecond.
Definition Second : Z := 1000 * Millisecond.
Definition Minute : Z := 60 * Second.
Definition Hour : Z := 60 * Minute.
End time.

Module ptypes.

(** The range of seconds a protobuf duration may hold: 10000 years. *)
Definition maxSeconds : Z := 315576000000.
Definition minSeconds : Z := - maxSeconds.

(** [validateDuration] of golang/protobuf/ptypes. *)
Definition validateDuration (d : option Duration) : option error :=
  match d with
  | None => Some (errors_New "duration: nil Duration")
  | Some d =>
      if (Seconds d <? minSeconds) || (maxSeconds <? Seconds d)
      then Some (Errorf "duration: %v: seconds out of range" [AMessage (MsgDuration d)])
      else if (Nanos d <=? -1000000000) || (1000000000 <=? Nanos d)
      then Some (Errorf "duration: %v: nanos out of range" [AMessage (MsgDuration d)])
      else if ((Seconds d <? 0) && (0 <? Nanos d)) || ((0 <? Seconds d) && (Nanos d <? 0))
      then Some (Errorf "duration: %v: seconds and nanos have different signs"
                   [AMessage (MsgDuration d)])
      else None
  end.

(** [ptypes.Duration(p)] decodes a protobuf duration into a
    [time.Duration]; gogo's [types.DurationFromProto] is the same
    function on the gogo type. *)
Definition Duration (p : option Duration) : Z + error :=
  match validateDuration p, p with
  | Some err, _ => inr err
  | None, None => inr (errors_New "duration: nil Duration")
  | None, Some p =>
      let d := wrap64 (Seconds p * time.Second) in
      if negb (Z.quot d time.Second =? Seconds p)
      then inr (Errorf "duration: %v is out of range for time.Duration" [AMessage (MsgDuration p)])
      else if negb (Nanos p =? 0)
      then let d := wrap64 (d + Nanos p) in
           if negb (Bool.eqb (d <? 0) (Nanos p <? 0))
           then inr (Errorf "duration: %v is out of range for time.Duration"
                       [AMessage (MsgDuration p)])
           else inl d
      else inl d
  end.

End ptypes.

(** ** The validators *)

(** [len(l) == 0]. *)
Definition isEmpty {A : Type} (l : list A) : bool :=
  match l with [] => true | _ => false end.

(** [errs = multierror.Append(errs, err)] with [err] not nil. *)
Definition multierrorAppend1 (errs : option error) (err : error) : option error :=
  Some (multierror.Append errs [Some err]).

(** golang supported methods: https://golang.org/src/net/http/method.go *)
Definition supportedMethods : gset string :=
  list_to_set ["GET"; "HEAD"; "POST"; "PUT"; "PATCH"; "DELETE"; "CONNECT"; "OPTIONS"; "TRACE"].

(** ValidatePort checks that the network port is in range *)
Definition ValidatePort (port : Z) : option error :=
  if (1 <=? port) && (port <=? 65535) then None
  else Some (Errorf "port number %d must be in the range 1..65535" [AInt port]).

(** Validate ensures tag is well-formed *)
Definition Labels_Validate (l : gmap string string) : option error :=
  fold_left
    (fun errs '(k, v) =>
       let errs := if negb (Regexp.MatchString tagRegexp k)
                   then multierrorAppend1 errs (Errorf "invalid tag key: %q" [AString k])
                   else errs in
       if negb (Regexp.MatchString tagRegexp v)
       then multierrorAppend1 errs (Errorf "invalid tag value: %q" [AString v])
       else errs)
    (map_to_list l) None.

(** IsDNS1123Label tests for a string that conforms to the definition of a
    label in DNS (RFC 1123). *)
Definition IsDNS1123Label (value : string) : bool :=
  (GoStrings.len value <=? dns1123LabelMaxLength) && Regexp.MatchString dns1123LabelRegexp value.

(** IsWildcardDNS1123Label tests for a string that conforms to the definition
    of a label in DNS (RFC 1123), but allows the wildcard label (`*`), and
    typical labels with a leading astrisk instead of alphabetic character
    (e.g. "*-foo") *)
Definition IsWildcardDNS1123Label (value : string) : bool :=
  (GoStrings.len value <=? dns1123LabelMaxLength) && Regexp.MatchString wildcardPrefixRegexp value.

(** encapsulates DNS 1123 checks common to both wildcarded hosts and FQDNs *)
Definition checkDNS1123Preconditions (name : string) : option error :=
  if 255 <? GoStrings.len name
  then Some (Errorf "domain name %q too long (max 255)" [AString name])
  else if GoStrings.len name =? 0
  then Some (Errorf "empty domain name not allowed" [])
  else None.

(** The loop returns at the first label that is not valid. *)
Definition validateDNS1123Labels (domain : string) : option error :=
  match find (fun label => negb (IsDNS1123Label label)) (GoStrings.Split domain ".") with
  | Some label => Some (Errorf "domain name %q invalid (label %q invalid)"
                          [AString domain; AString label])
  | None => None
  end.

(** ValidateFQDN checks a fully-qualified domain name *)
Definition ValidateFQDN (fqdn : string) : option error :=
  appendErrors (checkDNS1123Preconditions fqdn) [validateDNS1123Labels fqdn].

(** ValidateWildcardDomain checks that a domain is a valid FQDN, but also
    allows wildcard prefixes. *)
Definition ValidateWildcardDomain (domain : string) : option error :=
  match checkDNS1123Preconditions domain with
  | Some err => Some err
  | None =>
      (* We only allow wildcards in the first label; split off the first
         label (parts[0]) from the rest of the host (parts[1]) *)
      let parts := GoStrings.SplitN2 domain "." in
      if negb (IsWildcardDNS1123Label (fst parts))
      then Some (Errorf "domain name %q invalid (label %q invalid)"
                   [AString domain; AString (fst parts)])
      else match snd parts with
           | Some rest => validateDNS1123Labels rest
           | None => None
           end
  end.

(** ValidateUnixAddress validates that the string is a valid unix domain
    socket path. *)
Definition ValidateUnixAddress (addr : string) : option error :=
  if GoStrings.len addr =? 0
  then Some (errors_New "unix address must not be empty")
  else if negb (GoStrings.path_IsAbs addr)
  then Some (Errorf "%s is not an absolute path" [AString addr])
  else None.

(** ValidatePercent checks that percent is in range *)
Definition ValidatePercent (val : Z) : option error :=
  if (val <? 0) || (100 <? val)
  then Some (Errorf "percentage %v is not in range 0..100" [AInt val])
  else None.

(** ValidateDuration checks that a proto duration is well-formed *)
Definition ValidateDuration (pd : option Duration) : option error :=
  match ptypes.Duration pd with
  | inr err => Some err
  | inl dur =>
      if dur <? time.Millisecond
      then Some (errors_New "duration must be greater than 1ms")
      else if negb (Z.rem dur time.Millisecond =? 0)
      then Some (errors_New "only durations to ms precision are supported")
      else None
  end.

(** ValidateDurationGogo checks that a gogo proto duration is well-formed *)
Definition ValidateDurationGogo (pd : option Duration) : option error :=
  match ptypes.Duration pd with
  | inr err => Some err
  | inl dur =>
      if dur <? time.Millisecond
      then Some (errors_New "duration must be greater than 1ms")
      else if negb (Z.rem dur time.Millisecond =? 0)
      then Some (errors_New "only durations to ms precision are supported")
      else None
  end.

(** ValidateGogoDuration validates the gogoproto variant of duration.  It
    reads the fields of its argument, which must not be nil. *)
Definition ValidateGogoDuration (in_ : option Duration) : result (option error) :=
  match in_ with
  | None => Panics NilDereference
  | Some d => Returns (ValidateDuration (Some {| Seconds := Seconds d; Nanos := Nanos d |}))
  end.

(** ValidateWeights checks that destination weights sum to 100.  The sum is
    an [int], 64 bits wide. *)
Definition ValidateWeights (routes : list routing.DestinationWeight) : option error :=
  (* Sum weights *)
  let sum := fold_left (fun sum destWeight =>
                          wrap64 (sum + routing.DestinationWeight_Weight destWeight))
                       routes 0 in
  (* From cfg.proto "If there is only [one] destination in a rule, the weight
     value is assumed to be 100." *)
  if (Z.of_nat (List.length routes) =? 1) && (sum =? 0) then None
  else if negb (sum =? 100)
  then multierrorAppend1 None (Errorf "route weights total %v (must total 100)" [AInt sum])
  else None.

(** ValidateStringMatch checks that the match types are correct *)
Definition ValidateStringMatch (match_ : routing.StringMatch) : option error :=
  match routing.StringMatch_MatchType match_ with
  | Some (routing.StringMatch_Exact _)
  | Some (routing.StringMatch_Prefix _)
  | Some (routing.StringMatch_Regex _) => None
  | None => Some (Errorf "unrecognized string match %q" [AMessage (MsgStringMatch match_)])
  end.

(** ** Mesh configuration, services and configuration descriptors

    The messages of istio.io/api/mesh/v1alpha1 and the types of the model
    package that the remaining validators read, with the fields they
    read. *)

Definition MeshConfig_NONE : Z := 0.
Definition MeshConfig_MUTUAL_TLS : Z := 1.

Definition AuthenticationPolicy_NONE : Z := 0.
Definition AuthenticationPolicy_MUTUAL_TLS : Z := 1.

Record ProxyConfig : Type :=
  { ProxyConfig_ConfigPath : string;
    ProxyConfig_BinaryPath : string;
    ProxyConfig_ServiceCluster : string;
    ProxyConfig_DrainDuration : option Duration;
    ProxyConfig_ParentShutdownDuration : option Duration;
    ProxyConfig_DiscoveryAddress : string;
    ProxyConfig_DiscoveryRefreshDelay : option Duration;
    ProxyConfig_ZipkinAddress : string;
    ProxyConfig_ConnectTimeout : option Duration;
    ProxyConfig_StatsdUdpAddress : string;
    ProxyConfig_ProxyAdminPort : Z (* int32 *);
    ProxyConfig_ControlPlaneAuthPolicy : Z }.

Record MeshConfig : Type :=
  { MeshConfig_MixerCheckServer : string;
    MeshConfig_MixerReportServer : string;
    MeshConfig_ProxyListenPort : Z (* int32 *);
    MeshConfig_ConnectTimeout : option Duration;
    MeshConfig_AuthPolicy : Z;
    MeshConfig_RdsRefreshDelay : option Duration;
    MeshConfig_DefaultConfig : option ProxyConfig }.

(** A port of a service of the model package, with the fields that
    [Service.Validate] reads: its name and its number. *)
Record ServicePort : Type :=
  { ServicePort_Name : string;
    ServicePort_Port : Z (* int *) }.

(** A service of the model package, with the fields that
    [Service.Validate] reads: its host name, a string type, and its
    ports. *)
Record Service : Type :=
  { Service_Hostname : string;
    Service_Ports : list ServicePort }.

(** An entry of a configuration descriptor, with the fields that
    [ConfigDescriptor.Validate] reads. *)
Record ProtoSchema : Type :=
  { ProtoSchema_ClusterScoped : bool;
    ProtoSchema_Type : string;
    ProtoSchema_Plural : string;
    ProtoSchema_MessageName : string }.

(** ** An instance of the protocol table *)

Module Example.

(** Modelled from the spec: the protocols of the service model
    (pilot/pkg/model/service.go is not among the sources), "a protocol
    string resolved via a protocol-name table to a known enum or an
    unsupported sentinel".  The known protocols are the ones the failure of
    [validateServerPort] names.  The examples use this table; the properties
    hold for every table. *)
Inductive Protocol : Type :=
| ProtocolHTTP | ProtocolHTTP2 | ProtocolGRPC | ProtocolMongo | ProtocolRedis | ProtocolTCP
| ProtocolUnsupported.

#[export] Instance Protocol_eq_dec : EqDecision Protocol.
Proof. solve_decision. Defined.

(** Modelled from the spec: [ParseProtocol], the look-up in the
    protocol-name table. *)
Definition ParseProtocol (s : string) : Protocol :=
  if bool_decide (s = "HTTP") then ProtocolHTTP
  else if bool_decide (s = "HTTP2") then ProtocolHTTP2
  else if bool_decide (s = "GRPC") then ProtocolGRPC
  else if bool_decide (s = "MONGO") then ProtocolMongo
  else if bool_decide (s = "REDIS") then ProtocolRedis
  else if bool_decide (s = "TCP") then ProtocolTCP
  else ProtocolUnsupported.

(** Modelled from the spec: the egress-supported set of protocols and its
    TCP-capable subset, "every port's protocol must belong to the
    egress-supported set; if the destination is CIDR-form, only the
    TCP-capable protocol subset is allowed". *)
Definition IsEgressRulesSupportedProtocol (p : Protocol) : bool :=
  match p with
  | ProtocolUnsupported => false
  | _ => true
  end.

Definition IsEgressRulesSupportedTCPProtocol (p : Protocol) : bool :=
  match p with
  | ProtocolTCP | ProtocolMongo | ProtocolRedis => true
  | _ => false
  end.

Definition egressRulesSupportedProtocols : string := "HTTP,HTTP2,GRPC,MONGO,REDIS,TCP".
Definition egressRulesSupportedTCPProtocols : string := "TCP,MONGO,REDIS".

(** Modelled from the spec: the address families of a network endpoint,
    "a NetworkEndpoint of any address family": TCP and Unix, numbered in
    the order of their declaration. *)
Definition AddressFamilyTCP : Z := 0.
Definition AddressFamilyUnix : Z := 1.

(** Modelled from the spec: the "reserved default name" of an
    authentication policy, the name of the mesh gateway and the name of the
    URI header. *)
Definition DefaultAuthenticationPolicyName : string := "default".
Definition IstioMeshGateway : string := "mesh".
Definition HeaderURI : string := "uri".

(** Addresses, for the examples: an IPv4 address in dotted-decimal form,
    kept as its four bytes.  [net_ParseIP], [net_ParseCIDR] and [IP_To4]
    stand for [net.ParseIP], [net.ParseCIDR] and [IP.To4] of Go's library
    on such addresses. *)
Definition IP : Type := list Z.

Definition digit (c : ascii) : option Z :=
  let n := Z.of_nat (nat_of_ascii c) in
  if (48 <=? n) && (n <=? 57) then Some (n - 48) else None.

Fixpoint decimal (acc : Z) (l : list ascii) : option Z :=
  match l with
  | [] => Some acc
  | c :: t =>
      match digit c with
      | Some d => decimal (10 * acc + d) t
      | None => None
      end
  end.

Definition field (max : Z) (s : string) : option Z :=
  match GoStrings.bytes s with
  | [] => None
  | l =>
      match decimal 0 l with
      | Some n => if n <=? max then Some n else None
      | None => None
      end
  end.

Definition net_ParseIP (s : string) : option IP :=
  match GoStrings.Split s "." with
  | [a; b; c; d] =>
      match field 255 a, field 255 b, field 255 c, field 255 d with
      | Some a, Some b, Some c, Some d => Some [a; b; c; d]
      | _, _, _, _ => None
      end
  | _ => None
  end.

Definition net_ParseCIDR (s : string) : option IP :=
  match GoStrings.SplitN2 s "/" with
  | (address, Some bits) =>
      match net_ParseIP address, field 32 bits with
      | Some ip, Some _ => Some ip
      | _, _ => None
      end
  | (_, None) => None
  end.

Definition IP_To4 (ip : IP) : option IP := Some ip.

(** [strings.ToLower] on ASCII text. *)
Definition lower (c : ascii) : ascii :=
  let n := nat_of_ascii c in
  if (65 <=? n)%nat && (n <=? 90)%nat then ascii_of_nat (n + 32) else c.

Definition strings_ToLower (s : string) : string :=
  GoStrings.of_bytes (map lower (GoStrings.bytes s)).

(** Modelled from the spec: "fetching a JWKS URI is explicitly deferred";
    the URI is parsed and not fetched, and one with the scheme http or https
    parses. *)
Definition ParseJwksURI (uri : string) : option error :=
  if GoStrings.HasPrefix uri "http://" || GoStrings.HasPrefix uri "https://"
  then None
  else Some (Errorf "URI scheme of %q is not supported" [AString uri]).

(** Modelled from the spec: two host names of a virtual service match when
    they are the same name or one of them is the wildcard. *)
Definition Hostname_Matches (a b : string) : bool :=
  String.eqb a b || String.eqb a "*" || String.eqb b "*".

(** [types.TimestampFromProto] of the protobuf library: nil does not
    decode, nor does a timestamp whose nanoseconds are out of range. *)
Definition types_TimestampFromProto (ts : option mpb.Timestamp) : option error :=
  match ts with
  | None => Some (errors_New "timestamp: nil Timestamp")
  | Some t =>
      if (0 <=? mpb.Timestamp_Nanos t) && (mpb.Timestamp_Nanos t <? 1000000000)
      then None
      else Some (errors_New "timestamp: nanos not in range [0, 1e9)")
  end.

(** The service of a Mixer client configuration as a service of the routing
    API: field by field. *)
Definition mixerToProxyIstioService (service : mccpb.IstioService) : routing.IstioService :=
  {| routing.IstioService_Name := mccpb.IstioService_Name service;
     routing.IstioService_Namespace := mccpb.IstioService_Namespace service;
     routing.IstioService_Domain := mccpb.IstioService_Domain service;
     routing.IstioService_Service := mccpb.IstioService_Service service;
     routing.IstioService_Labels := mccpb.IstioService_Labels service |}.

(** An egress rule with one port, whose number is out of range and whose
    protocol is not in the table. *)
Definition badPort : routing.EgressRule_Port :=
  {| routing.EgressRule_Port_Port := 0; routing.EgressRule_Port_Protocol := "bogus" |}.

Definition badPortRule : routing.EgressRule :=
  {| routing.EgressRule_Destination :=
       Some {| routing.IstioService_Name := "";
               routing.IstioService_Namespace := "";
               routing.IstioService_Domain := "";
               routing.IstioService_Service := "foo.com";
               routing.IstioService_Labels := ∅ |};
     routing.EgressRule_Ports := [badPort];
     routing.EgressRule_UseEgressProxy := false |}.

(** The service entry of the end-to-end scenario: resolution mode STATIC,
    one endpoint at a Unix domain socket, two declared service ports. *)
Definition unixServiceEntry : networking.ServiceEntry :=
  {| networking.ServiceEntry_Hosts := ["foo.bar.com"];
     networking.ServiceEntry_Addresses := [];
     networking.ServiceEntry_Ports :=
       [ {| networking.Port_Number := 80; networking.Port_Protocol := "HTTP";
            networking.Port_Name := "http-1" |};
         {| networking.Port_Number := 8080; networking.Port_Protocol := "HTTP";
            networking.Port_Name := "http-2" |} ];
     networking.ServiceEntry_Resolution := networking.ServiceEntry_STATIC;
     networking.ServiceEntry_Endpoints :=
       [ {| networking.Endpoint_Address := "unix:///var/run/sock";
            networking.Endpoint_Ports := ∅;
            networking.Endpoint_Labels := ∅ |} ] |}.

(** A gateway with one server, on port 80. *)
Definition oneServerGateway : networking.Gateway :=
  {| networking.Gateway_Servers :=
       [ {| networking.Server_Port :=
              Some {| networking.Port_Number := 80; networking.Port_Protocol := "HTTP";
                      networking.Port_Name := "http" |};
            networking.Server_Hosts := ["foo.bar.com"];
            networking.Server_Tls := None |} ] |}.

(** An HTTP API spec without top-level attributes and with one pattern. *)
Definition onePatternSpec : mccpb.HTTPAPISpec :=
  {| mccpb.HTTPAPISpec_Attributes := None;
     mccpb.HTTPAPISpec_Patterns :=
       [ {| mccpb.HTTPAPISpecPattern_Attributes := None;
            mccpb.HTTPAPISpecPattern_HttpMethod := "GET";
            mccpb.HTTPAPISpecPattern_Pattern :=
              Some (mccpb.HTTPAPISpecPattern_UriTemplate "/books/{id}") |} ];
     mccpb.HTTPAPISpec_ApiKeys := [] |}.

(** [time.Duration.String] of Go's library on a span in nanoseconds: hours,
    minutes and seconds with the fraction of a second, or a smaller unit
    for a span below one second; trailing zeros of a fraction are not
    printed. *)
Fixpoint fmtInt (fuel : nat) (v : Z) (acc : string) : string :=
  match fuel with
  | O => acc
  | S fuel =>
      let acc := String (ascii_of_nat (Z.to_nat (48 + v mod 10))) acc in
      if v / 10 =? 0 then acc else fmtInt fuel (v / 10) acc
  end.

Fixpoint fmtFrac (prec : nat) (v : Z) (print : bool) (acc : string) : string * Z :=
  match prec with
  | O => (if print then String "." acc else acc, v)
  | S prec =>
      let digit := v mod 10 in
      let print := print || negb (digit =? 0) in
      fmtFrac prec (v / 10) print
        (if print then String (ascii_of_nat (Z.to_nat (48 + digit))) acc else acc)
  end.

Definition time_Duration_String (d : Z) : string :=
  let u := Z.abs d in
  let text :=
    if u <? time.Second
    then
      if u =? 0 then "0s"
      else if u <? time.Microsecond then fmtInt 20 u "ns"
      else if u <? time.Millisecond
      then let '(frac, u) := fmtFrac 3 u false
                               (String (ascii_of_nat 194) (String (ascii_of_nat 181) "s")) in
           fmtInt 20 u frac
      else let '(frac, u) := fmtFrac 6 u false "ms" in fmtInt 20 u frac
    else
      let '(frac, u) := fmtFrac 9 u false "s" in
      let text := fmtInt 20 (u mod 60) frac in
      let u := u / 60 in
      if 0 <? u
      then
        let text := fmtInt 20 (u mod 60) (String "m" text) in
        let u := u / 60 in
        if 0 <? u then fmtInt 20 u (String "h" text) else text
      else text in
  if d <? 0 then String "-" text else text.

End Example.

Section Validators.

(** The parts of the repository and of Go's library that the file uses
    and that are not embedded: the protocol table of the service model,
    Go's IP parser, [strings.ToLower], the JWKS URI parser, the host name
    matcher and the names the model package reserves. *)
Context {Protocol : Type} `{EqDecision Protocol}.
Variable ProtocolUnsupported : Protocol.
Variable ParseProtocol : string -> Protocol.
Variable IsEgressRulesSupportedProtocol : Protocol -> bool.
Variable IsEgressRulesSupportedTCPProtocol : Protocol -> bool.
Variable egressRulesSupportedProtocols : string.
Variable egressRulesSupportedTCPProtocols : string.

Variable IP : Type.
Variable net_ParseIP : string -> option IP.       (* nil when the text is no address *)
Variable net_ParseCIDR : string -> option IP.     (* the address of ip/prefix, or an error *)
Variable IP_To4 : IP -> option IP.                (* nil when the address is not IPv4 *)

Variable strings_ToLower : string -> string.
Variable ParseJwksURI : string -> option error.   (* the error of ParseJwksURI *)
Variable Hostname_Matches : string -> string -> bool.
Variable DefaultAuthenticationPolicyName : string.
Variable IstioMeshGateway : string.
Variable AddressFamilyTCP : Z.
Variable AddressFamilyUnix : Z.

(** validateCIDR checks that a string is in "CIDR notation" *)
Definition validateCIDR (cidr : string) : option error :=
  (* We expect a string in "CIDR notation", i.e. a.b.c.d/xx form *)
  match net_ParseCIDR cidr with
  | None => Some (Errorf "%v is not a valid CIDR block" [AString cidr])
  | Some ip =>
      (* The current implementation only supports IP v4 addresses *)
      match IP_To4 ip with
      | None => Some (Errorf "%v is not a valid IPv4 address" [AString cidr])
      | Some _ => None
      end
  end.

(** ValidateIPv4Address validates that a string in "CIDR notation" or
    "Dot-decimal notation" *)
Definition ValidateIPv4Address (addr : string) : option error :=
  match net_ParseIP addr with
  | None => Some (Errorf "%v is not a valid IP" [AString addr])
  | Some ip =>
      match IP_To4 ip with
      | None => Some (Errorf "%v is not a valid IPv4 address" [AString addr])
      | Some _ => None
      end
  end.

(** ValidateIPv4Subnet checks that a string is in "CIDR notation" or
    "Dot-decimal notation" *)
Definition ValidateIPv4Subnet (subnet : string) : option error :=
  if GoStrings.Count subnet "/" =? 1 then validateCIDR subnet
  else ValidateIPv4Address subnet.

(** ValidateSubnet checks that IPv4 subnet form *)
Definition ValidateSubnet (subnet : string) : option error :=
  ValidateIPv4Subnet subnet.

(** ValidateHTTPHeaderName checks that the name is lower-case *)
Definition ValidateHTTPHeaderName (name : string) : option error :=
  if bool_decide (name = "")
  then Some (Errorf "header name cannot be empty" [])
  else if negb (bool_decide (strings_ToLower name = name))
  then Some (Errorf "must be in lower case" [])
  else None.

Definition validatePortName (name : string) : option error :=
  if negb (IsDNS1123Label name)
  then Some (Errorf "invalid port name: %s" [AString name])
  else None.

Definition validateProtocol (protocol : string) : option error :=
  if bool_decide (ParseProtocol protocol = ProtocolUnsupported)
  then Some (Errorf "unsupported protocol: %s" [AString protocol])
  else None.

(** *** Gateway *)

Definition validateTLSOptions (tls : option networking.Server_TLSOptions) : option error :=
  match tls with
  | None => None (* no tls config at all is valid *)
  | Some tls =>
      let errs := None in
      if networking.TLSOptions_Mode tls =? networking.Server_TLSOptions_SIMPLE
      then
        if bool_decide (networking.TLSOptions_ServerCertificate tls = "")
        then appendErrors errs [Some (Errorf "SIMPLE TLS requires a server certificate" [])]
        else errs
      else if networking.TLSOptions_Mode tls =? networking.Server_TLSOptions_MUTUAL
      then
        let errs :=
          if bool_decide (networking.TLSOptions_ServerCertificate tls = "")
          then appendErrors errs [Some (Errorf "MUTUAL TLS requires a server certificate" [])]
          else errs in
        if bool_decide (networking.TLSOptions_CaCertificates tls = "")
        then appendErrors errs [Some (Errorf "MUTUAL TLS requires a client CA bundle" [])]
        else errs
      else errs
  end.

Definition validateServerPort (port : option networking.Port) : option error :=
  let errs := None in
  match port with
  | None => appendErrors errs [Some (Errorf "port is required" [])]
  | Some port =>
      let errs :=
        if bool_decide (ParseProtocol (networking.Port_Protocol port) = ProtocolUnsupported)
        then appendErrors errs
               [Some (Errorf "invalid protocol %q, supported protocols are HTTP, HTTP2, GRPC, MONGO, REDIS, TCP"
                        [AString (networking.Port_Protocol port)])]
        else errs in
      let errs :=
        if 0 <? networking.Port_Number port
        then appendErrors errs [ValidatePort (networking.Port_Number port)]
        else errs in
      if bool_decide (networking.Port_Name port = "")
      then appendErrors errs [Some (Errorf "port name must be set: %v" [AMessage (MsgPort port)])]
      else errs
  end.

Definition validateServer (server : networking.Server) : option error :=
  let errs := None in
  let errs :=
    if isEmpty (networking.Server_Hosts server)
    then appendErrors errs [Some (Errorf "server config must contain at least one host" [])]
    else
      fold_left
        (fun errs host =>
           (* We check if its a valid wildcard domain first; if not then we
              check if its a valid IPv4 address (including CIDR addresses).
              If it's neither, we report both errors. *)
           match ValidateWildcardDomain host with
           | Some err =>
               match ValidateIPv4Subnet host with
               | Some err2 => appendErrors errs [Some err; Some err2]
               | None => errs
               end
           | None => errs
           end)
        (networking.Server_Hosts server) errs in
  appendErrors errs [validateTLSOptions (networking.Server_Tls server);
                     validateServerPort (networking.Server_Port server)].

(** ValidateGateway checks gateway specifications.  The second loop reads
    [s.Port.Name] without a check of [s.Port]. *)
Definition ValidateGateway (name namespace : string) (msg : Message) : result (option error) :=
  let errs := None in
  match msg with
  | MsgGateway value =>
      let errs :=
        if isEmpty (networking.Gateway_Servers value)
        then appendErrors errs [Some (Errorf "gateway must have at least one server" [])]
        else fold_left (fun errs server => appendErrors errs [validateServer server])
               (networking.Gateway_Servers value) errs in
      (* Ensure unique port names *)
      st <- foldM
              (fun (st : option error * gset string) s =>
                 let '(errs, portNames) := st in
                 match networking.Server_Port s with
                 | None => Panics NilDereference
                 | Some port =>
                     let errs :=
                       if bool_decide (networking.Port_Name port ∈ portNames)
                       then appendErrors errs
                              [Some (Errorf "port names in servers must be unique: duplicate name %s"
                                       [AString (networking.Port_Name port)])]
                       else errs in
                     Returns (errs, {[ networking.Port_Name port ]} ∪ portNames)
                 end)
              (networking.Gateway_Servers value) (errs, ∅) ;;
      Returns (fst st)
  | _ => Returns (appendErrors errs [Some (Errorf "cannot cast to gateway: %#v" [AMessage msg])])
  end.

(** *** Service entry *)

(** ValidateServiceEntry validates a service entry. *)
Definition ValidateServiceEntry (name namespace : string) (config : Message) : option error :=
  match config with
  | MsgServiceEntry serviceEntry =>
      let errs := None in
      let errs :=
        if isEmpty (networking.ServiceEntry_Hosts serviceEntry)
        then appendErrors errs [Some (Errorf "service entry must have at least one host" [])]
        else errs in
      let errs :=
        fold_left
          (fun errs host =>
             (* Full wildcard or short names are not allowed in the service entry. *)
             if bool_decide (host = "*") || negb (GoStrings.Contains host ".")
             then appendErrors errs [Some (Errorf "invalid host %s" [AString host])]
             else appendErrors errs [ValidateWildcardDomain host])
          (networking.ServiceEntry_Hosts serviceEntry) errs in
      let errs :=
        fold_left (fun errs address => appendErrors errs [validateCIDR address])
          (networking.ServiceEntry_Addresses serviceEntry) errs in

      let '(errs, servicePorts, servicePortNumbers) :=
        fold_left
          (fun (st : option error * gset string * gset Z) port =>
             let '(errs, servicePorts, servicePortNumbers) := st in
             let errs :=
               if bool_decide (networking.Port_Name port ∈ servicePorts)
               then appendErrors errs
                      [Some (Errorf "service entry port name %q already defined"
                               [AString (networking.Port_Name port)])]
               else errs in
             let servicePorts := {[ networking.Port_Name port ]} ∪ servicePorts in
             let errs :=
               if bool_decide (networking.Port_Number port ∈ servicePortNumbers)
               then appendErrors errs
                      [Some (Errorf "service entry port %d already defined"
                               [AInt (networking.Port_Number port)])]
               else errs in
             (errs, servicePorts, {[ networking.Port_Number port ]} ∪ servicePortNumbers))
          (networking.ServiceEntry_Ports serviceEntry) (errs, ∅, ∅) in

      let errs :=
        if networking.ServiceEntry_Resolution serviceEntry =? networking.ServiceEntry_NONE
        then
          if negb (isEmpty (networking.ServiceEntry_Endpoints serviceEntry))
          then appendErrors errs
                 [Some (Errorf "no endpoints should be provided for discovery type none" [])]
          else errs
        else if networking.ServiceEntry_Resolution serviceEntry =? networking.ServiceEntry_STATIC
        then
          let errs :=
            if isEmpty (networking.ServiceEntry_Endpoints serviceEntry)
            then appendErrors errs
                   [Some (Errorf "endpoints must be provided if service entry discovery mode is static" [])]
            else errs in
          let '(errs, unixEndpoint) :=
            fold_left
              (fun (st : option error * bool) endpoint =>
                 let '(errs, unixEndpoint) := st in
                 let addr := networking.Endpoint_Address endpoint in
                 let '(errs, unixEndpoint) :=
                   if GoStrings.HasPrefix addr UnixAddressPrefix
                   then
                     let errs := appendErrors errs
                                   [ValidateUnixAddress (GoStrings.TrimPrefix addr UnixAddressPrefix)] in
                     let errs :=
                       if negb (bool_decide (networking.Endpoint_Ports endpoint = ∅))
                       then appendErrors errs
                              [Some (Errorf "unix endpoint %s must not include ports" [AString addr])]
                       else errs in
                     (errs, true)
                   else
                     let errs := appendErrors errs [ValidateIPv4Address addr] in
                     let errs :=
                       fold_left
                         (fun errs '(name, port) =>
                            if negb (bool_decide (name ∈ servicePorts))
                            then appendErrors errs
                                   [Some (Errorf "endpoint port %v is not defined by the service entry"
                                            [AInt port])]
                            else errs)
                         (map_to_list (networking.Endpoint_Ports endpoint)) errs in
                     (errs, unixEndpoint) in
                 (appendErrors errs [Labels_Validate (networking.Endpoint_Labels endpoint)],
                  unixEndpoint))
              (networking.ServiceEntry_Endpoints serviceEntry) (errs, false) in
          if unixEndpoint
             && negb (Z.of_nat (List.length (networking.ServiceEntry_Ports serviceEntry)) =? 1)
          then appendErrors errs
                 [Some (errors_New "exactly 1 service port required for unix endpoints")]
          else errs
        else if networking.ServiceEntry_Resolution serviceEntry =? networking.ServiceEntry_DNS
        then
          let errs :=
            if isEmpty (networking.ServiceEntry_Endpoints serviceEntry)
            then
              fold_left
                (fun errs host =>
                   match ValidateFQDN host with
                   | Some _ =>
                       appendErrors errs
                         [Some (Errorf "hosts must be FQDN if no endpoints are provided for discovery mode DNS" [])]
                   | None => errs
                   end)
                (networking.ServiceEntry_Hosts serviceEntry) errs
            else errs in
          fold_left
            (fun errs endpoint =>
               let errs := appendErrors errs
                             [ValidateFQDN (networking.Endpoint_Address endpoint);
                              Labels_Validate (networking.Endpoint_Labels endpoint)] in
               fold_left
                 (fun errs '(name, port) =>
                    let errs :=
                      if negb (bool_decide (name ∈ servicePorts))
                      then appendErrors errs
                             [Some (Errorf "endpoint port %v is not defined by the service entry"
                                      [AInt port])]
                      else errs in
                    appendErrors errs [validatePortName name; ValidatePort port])
                 (map_to_list (networking.Endpoint_Ports endpoint)) errs)
            (networking.ServiceEntry_Endpoints serviceEntry) errs
        else
          appendErrors errs
            [Some (Errorf "unsupported resolution type %s"
                     [AString (networking.ServiceEntry_Resolution_name
                                 (networking.ServiceEntry_Resolution serviceEntry))])] in

      fold_left
        (fun errs port =>
           appendErrors errs
             [validatePortName (networking.Port_Name port);
              validateProtocol (networking.Port_Protocol port);
              ValidatePort (networking.Port_Number port)])
        (networking.ServiceEntry_Ports serviceEntry) errs
  | _ => Some (Errorf "cannot cast to service entry" [])
  end.

(** *** Virtual service *)

Definition validateHost (host : string) : option error :=
  (* We check if its a valid wildcard domain first; if not then we check if
     its a valid IPv4 address (including CIDR addresses). If it's neither,
     we report both errors. *)
  match ValidateWildcardDomain host with
  | Some err =>
      match ValidateIPv4Subnet host with
      | Some err2 => appendErrors (Some err) [Some err2]
      | None => None
      end
  | None => None
  end.

Definition validateSubsetName (name : string) : option error :=
  if GoStrings.len name =? 0
  then Some (Errorf "subset name cannot be empty" [])
  else if negb (IsDNS1123Label name)
  then Some (Errorf "subnet name is invalid: %s" [AString name])
  else None.

Definition validatePortSelector (selector : option networking.PortSelector) : option error :=
  match selector with
  | None => None
  | Some selector =>
      (* port selector is either a name or a number *)
      let name := networking.PortSelector_GetName selector in
      let number := networking.PortSelector_GetNumber selector in
      if bool_decide (name = "") && (number =? 0)
      then (* an unset value is indistinguishable from a zero value, so return both errors *)
        appendErrors (validateSubsetName name) [ValidatePort number]
      else if negb (number =? 0) then ValidatePort number
      else validateSubsetName name
  end.

Definition validateDestination (destination : option networking.Destination) : option error :=
  match destination with
  | None => None
  | Some destination =>
      let errs := None in
      let errs := appendErrors errs [validateHost (networking.Destination_Host destination)] in
      let errs :=
        if negb (bool_decide (networking.Destination_Subset destination = ""))
        then appendErrors errs [validateSubsetName (networking.Destination_Subset destination)]
        else errs in
      match networking.Destination_Port destination with
      | Some port => appendErrors errs [validatePortSelector (Some port)]
      | None => errs
      end
  end.

Definition validateHTTPMethod (method : string) : option error :=
  if negb (bool_decide (method ∈ supportedMethods))
  then Some (Errorf "%q is not a supported HTTP method" [AString method])
  else None.

Definition validateCORSPolicy (policy : option networking.CorsPolicy) : option error :=
  match policy with
  | None => None
  | Some policy =>
      let errs := None in
      let errs := fold_left (fun errs method => appendErrors errs [validateHTTPMethod method])
                    (networking.CorsPolicy_AllowMethods policy) errs in
      let errs := fold_left (fun errs name => appendErrors errs [ValidateHTTPHeaderName name])
                    (networking.CorsPolicy_AllowHeaders policy) errs in
      let errs := fold_left (fun errs name => appendErrors errs [ValidateHTTPHeaderName name])
                    (networking.CorsPolicy_ExposeHeaders policy) errs in
      match networking.CorsPolicy_MaxAge policy with
      | Some maxAge =>
          let errs := appendErrors errs [ValidateDurationGogo (Some maxAge)] in
          if 0 <? Nanos maxAge
          then multierrorAppend1 errs
                 (errors_New "max_age duration is accurate only to seconds precision")
          else errs
      | None => errs
      end
  end.

Definition validateHTTPStatus (status : Z) : option error :=
  if (status <? 0) || (600 <? status)
  then Some (Errorf "HTTP status %d is not in range 0-600" [AInt status])
  else None.

(** The switch on the error type has no default branch. *)
Definition validateHTTPFaultInjectionAbort (abort : option networking.HTTPFaultInjection_Abort)
  : option error :=
  match abort with
  | None => None
  | Some abort =>
      let errs := None in
      let errs := appendErrors errs [ValidatePercent (networking.Abort_Percent abort)] in
      match networking.Abort_ErrorType abort with
      | Some (networking.HTTPFaultInjection_Abort_GrpcStatus _) =>
          (* TODO: gRPC status validation *)
          multierrorAppend1 errs (errors_New "gRPC abort fault injection not supported yet")
      | Some (networking.HTTPFaultInjection_Abort_Http2Error _) =>
          (* TODO: HTTP2 error validation *)
          multierrorAppend1 errs (errors_New "HTTP/2 abort fault injection not supported yet")
      | Some (networking.HTTPFaultInjection_Abort_HttpStatus _) =>
          appendErrors errs [validateHTTPStatus (networking.Abort_GetHttpStatus abort)]
      | None => errs
      end
  end.

(** The switch on the delay type has no default branch. *)
Definition validateHTTPFaultInjectionDelay (delay : option networking.HTTPFaultInjection_Delay)
  : option error :=
  match delay with
  | None => None
  | Some delay =>
      let errs := None in
      let errs := appendErrors errs [ValidatePercent (networking.Delay_Percent delay)] in
      match networking.Delay_HttpDelayType delay with
      | Some (networking.HTTPFaultInjection_Delay_FixedDelay d) =>
          appendErrors errs [ValidateDurationGogo d]
      | Some (networking.HTTPFaultInjection_Delay_ExponentialDelay d) =>
          let errs := appendErrors errs [ValidateDurationGogo d] in
          multierrorAppend1 errs (Errorf "exponentialDelay not supported yet" [])
      | None => errs
      end
  end.

Definition validateHTTPFaultInjection (fault : option networking.HTTPFaultInjection) : option error :=
  match fault with
  | None => None
  | Some fault =>
      let errs := None in
      let errs :=
        match networking.HTTPFaultInjection_Abort_ fault, networking.HTTPFaultInjection_Delay_ fault with
        | None, None =>
            multierrorAppend1 errs (errors_New "HTTP fault injection must have an abort and/or a delay")
        | _, _ => errs
        end in
      let errs := appendErrors errs
                    [validateHTTPFaultInjectionAbort (networking.HTTPFaultInjection_Abort_ fault)] in
      appendErrors errs [validateHTTPFaultInjectionDelay (networking.HTTPFaultInjection_Delay_ fault)]
  end.

Definition validateHTTPRetry (retries : option networking.HTTPRetry) : option error :=
  match retries with
  | None => None
  | Some retries =>
      let errs := None in
      let errs :=
        if networking.HTTPRetry_Attempts retries <=? 0
        then multierrorAppend1 errs (errors_New "attempts must be positive")
        else errs in
      match networking.HTTPRetry_PerTryTimeout retries with
      | Some t => appendErrors errs [ValidateDurationGogo (Some t)]
      | None => errs
      end
  end.

Definition validateHTTPRedirect (redirect : option networking.HTTPRedirect) : option error :=
  match redirect with
  | Some redirect =>
      if bool_decide (networking.HTTPRedirect_Uri redirect = "")
         && bool_decide (networking.HTTPRedirect_Authority redirect = "")
      then Some (errors_New "redirect must specify URI, authority, or both")
      else None
  | None => None
  end.

Definition validateHTTPRewrite (rewrite : option networking.HTTPRewrite) : option error :=
  match rewrite with
  | Some rewrite =>
      if bool_decide (networking.HTTPRewrite_Uri rewrite = "")
         && bool_decide (networking.HTTPRewrite_Authority rewrite = "")
      then Some (errors_New "rewrite must specify URI, authority, or both")
      else None
  | None => None
  end.

Definition validateHTTPRoute (http : networking.HTTPRoute) : option error :=
  let errs := None in
  (* check for conflicts *)
  let errs :=
    match networking.HTTPRoute_Redirect http with
    | Some _ =>
        let errs :=
          if negb (isEmpty (networking.HTTPRoute_Route http))
          then appendErrors errs [Some (errors_New "HTTP route cannot contain both route and redirect")]
          else errs in
        let errs :=
          match networking.HTTPRoute_Fault http with
          | Some _ => appendErrors errs
                        [Some (errors_New "HTTP route cannot contain both fault and redirect")]
          | None => errs
          end in
        let errs :=
          match networking.HTTPRoute_Rewrite http with
          | Some _ => appendErrors errs
                        [Some (errors_New "HTTP route rule cannot contain both rewrite and redirect")]
          | None => errs
          end in
        if networking.HTTPRoute_WebsocketUpgrade http
        then appendErrors errs [Some (errors_New "WebSocket upgrade is not allowed on redirect rules")]
        else errs
    | None =>
        if isEmpty (networking.HTTPRoute_Route http)
        then appendErrors errs [Some (errors_New "HTTP route or redirect is required")]
        else errs
    end in
  let errs :=
    fold_left (fun errs '(name, _) => appendErrors errs [ValidateHTTPHeaderName name])
      (map_to_list (networking.HTTPRoute_AppendHeaders http)) errs in
  let errs := appendErrors errs [validateCORSPolicy (networking.HTTPRoute_CorsPolicy http)] in
  let errs := appendErrors errs [validateHTTPFaultInjection (networking.HTTPRoute_Fault http)] in
  let errs :=
    fold_left
      (fun errs match_ =>
         let errs :=
           fold_left (fun errs name => appendErrors errs [ValidateHTTPHeaderName name])
             (elements (networking.HTTPMatchRequest_Headers match_)) errs in
         (* TODO: validate match.Port *)
         appendErrors errs [Labels_Validate (networking.HTTPMatchRequest_SourceLabels match_)])
      (networking.HTTPRoute_Match http) errs in
  let errs := appendErrors errs [validateDestination (networking.HTTPRoute_Mirror http)] in
  let errs := appendErrors errs [validateHTTPRedirect (networking.HTTPRoute_Redirect http)] in
  let errs := appendErrors errs [validateHTTPRetry (networking.HTTPRoute_Retries http)] in
  let errs := appendErrors errs [validateHTTPRewrite (networking.HTTPRoute_Rewrite http)] in
  (* var totalWeight int32 *)
  let '(errs, totalWeight) :=
    fold_left
      (fun (st : option error * Z) route =>
         let '(errs, totalWeight) := st in
         let errs :=
           match networking.DestinationWeight_Destination route with
           | None => multierrorAppend1 errs (errors_New "destination is required")
           | Some _ => errs
           end in
         let errs := appendErrors errs
                       [validateDestination (networking.DestinationWeight_Destination route)] in
         let errs := appendErrors errs [ValidatePercent (networking.DestinationWeight_Weight route)] in
         (errs, wrap32 (totalWeight + networking.DestinationWeight_Weight route)))
      (networking.HTTPRoute_Route http) (errs, 0) in
  let errs :=
    if (1 <? Z.of_nat (List.length (networking.HTTPRoute_Route http))) && (100 <? totalWeight)
    then appendErrors errs [Some (Errorf "total destination weight %v > 100" [AInt totalWeight])]
    else errs in
  match networking.HTTPRoute_Timeout http with
  | Some t => appendErrors errs [ValidateDurationGogo (Some t)]
  | None => errs
  end.

(** The pairs [(hosts[i], hosts[j])] with [i < j], in the order of the
    two nested loops. *)
Fixpoint hostPairs (hosts : list string) : list (string * string) :=
  match hosts with
  | [] => []
  | hostI :: rest => map (fun hostJ => (hostI, hostJ)) rest ++ hostPairs rest
  end.

(** ValidateVirtualService checks that a v1alpha3 route rule is well-formed. *)
Definition ValidateVirtualService (name namespace : string) (msg : Message) : option error :=
  match msg with
  | MsgVirtualService virtualService =>
      let errs := None in
      let appliesToMesh := isEmpty (networking.VirtualService_Gateways virtualService) in
      let '(errs, appliesToMesh) :=
        fold_left
          (fun (st : option error * bool) gateway =>
             let '(errs, appliesToMesh) := st in
             let errs :=
               if negb (IsDNS1123Label gateway)
               then appendErrors errs
                      [Some (Errorf "gateway is not a valid DNS1123 label: %v" [AString gateway])]
               else errs in
             (errs, if bool_decide (gateway = IstioMeshGateway) then true else appliesToMesh))
          (networking.VirtualService_Gateways virtualService) (errs, appliesToMesh) in
      let errs :=
        if isEmpty (networking.VirtualService_Hosts virtualService)
        then appendErrors errs [Some (Errorf "virtual service must have at least one host" [])]
        else errs in
      let '(errs, allHostsValid) :=
        fold_left
          (fun (st : option error * bool) host =>
             let '(errs, allHostsValid) := st in
             match validateHost host with
             | Some _ => (appendErrors errs [validateHost host], false)
             | None =>
                 if appliesToMesh && bool_decide (host = "*")
                 then (appendErrors errs
                         [Some (Errorf "wildcard host * is not allowed for virtual services bound to the mesh gateway" [])],
                       false)
                 else (errs, allHostsValid)
             end)
          (networking.VirtualService_Hosts virtualService) (errs, true) in
      (* Check for duplicate hosts *)
      let errs :=
        if allHostsValid
        then
          fold_left
            (fun errs '(hostI, hostJ) =>
               if Hostname_Matches hostI hostJ
               then appendErrors errs
                      [Some (Errorf "duplicate hosts in virtual service: %s & %s"
                               [AString hostI; AString hostJ])]
               else errs)
            (hostPairs (networking.VirtualService_Hosts virtualService)) errs
        else errs in
      let errs :=
        if isEmpty (networking.VirtualService_Http virtualService)
           && Nat.eqb (networking.VirtualService_Tcp virtualService) 0
        then appendErrors errs [Some (Errorf "http or tcp must be provided in virtual service" [])]
        else errs in
      fold_left (fun errs httpRoute => appendErrors errs [validateHTTPRoute httpRoute])
        (networking.VirtualService_Http virtualService) errs
      (* TODO: validate TCP *)
  | _ => Some (errors_New "cannot cast to virtual service")
  end.

(** *** Destination rule *)

Definition validateOutlierDetection (outlier : option networking.OutlierDetection) : option error :=
  match outlier with
  | None => None
  | Some outlier =>
      let errs := None in
      let errs :=
        match networking.OutlierDetection_BaseEjectionTime outlier with
        | Some d => appendErrors errs [ValidateDurationGogo (Some d)]
        | None => errs
        end in
      let errs :=
        if networking.OutlierDetection_ConsecutiveErrors outlier <? 0
        then appendErrors errs
               [Some (Errorf "outlier detection consecutive errors cannot be negative" [])]
        else errs in
      let errs :=
        match networking.OutlierDetection_Interval outlier with
        | Some d => appendErrors errs [ValidateDurationGogo (Some d)]
        | None => errs
        end in
      appendErrors errs [ValidatePercent (networking.OutlierDetection_MaxEjectionPercent outlier)]
  end.

Definition validateConnectionPool (settings : option networking.ConnectionPoolSettings)
  : option error :=
  match settings with
  | None => None
  | Some settings =>
      match networking.ConnectionPoolSettings_Http settings,
            networking.ConnectionPoolSettings_Tcp settings with
      | None, None => Some (Errorf "connection pool must have at least one field" [])
      | http, tcp =>
          let errs := None in
          let errs :=
            match http with
            | Some http =>
                let errs :=
                  if networking.HTTPSettings_Http1MaxPendingRequests http <? 0
                  then appendErrors errs
                         [Some (Errorf "http1 max pending requests must be non-negative" [])]
                  else errs in
                let errs :=
                  if networking.HTTPSettings_Http2MaxRequests http <? 0
                  then appendErrors errs [Some (Errorf "http2 max requests must be non-negative" [])]
                  else errs in
                let errs :=
                  if networking.HTTPSettings_MaxRequestsPerConnection http <? 0
                  then appendErrors errs
                         [Some (Errorf "max requests per connection must be non-negative" [])]
                  else errs in
                if networking.HTTPSettings_MaxRetries http <? 0
                then appendErrors errs [Some (Errorf "max retries must be non-negative" [])]
                else errs
            | None => errs
            end in
          match tcp with
          | Some tcp =>
              let errs :=
                if networking.TCPSettings_MaxConnections tcp <? 0
                then appendErrors errs [Some (Errorf "max connections must be non-negative" [])]
                else errs in
              match networking.TCPSettings_ConnectTimeout tcp with
              | Some d => appendErrors errs [ValidateDurationGogo (Some d)]
              | None => errs
              end
          | None => errs
          end
      end
  end.

Definition validateLoadBalancer (settings : option unit) : option error :=
  (* simple load balancing is always valid *)
  None.

Definition validateTLS (settings : option networking.TLSSettings) : option error :=
  match settings with
  | None => None
  | Some settings =>
      let errs := None in
      if networking.TLSSettings_Mode settings =? networking.TLSSettings_MUTUAL
      then
        let errs :=
          if bool_decide (networking.TLSSettings_ClientCertificate settings = "")
          then appendErrors errs [Some (Errorf "client certificate required for mutual tls" [])]
          else errs in
        if bool_decide (networking.TLSSettings_PrivateKey settings = "")
        then appendErrors errs [Some (Errorf "private key required for mutual tls" [])]
        else errs
      else errs
  end.

Definition validateTrafficPolicy (policy : option networking.TrafficPolicy) : option error :=
  match policy with
  | None => None
  | Some policy =>
      match networking.TrafficPolicy_OutlierDetection policy,
            networking.TrafficPolicy_ConnectionPool policy,
            networking.TrafficPolicy_LoadBalancer policy,
            networking.TrafficPolicy_Tls policy with
      | None, None, None, None => Some (Errorf "traffic policy must have at least one field" [])
      | _, _, _, _ =>
          appendErrors (validateOutlierDetection (networking.TrafficPolicy_OutlierDetection policy))
            [validateConnectionPool (networking.TrafficPolicy_ConnectionPool policy);
             validateLoadBalancer (networking.TrafficPolicy_LoadBalancer policy);
             validateTLS (networking.TrafficPolicy_Tls policy)]
      end
  end.

Definition validateSubset (subset : networking.Subset) : option error :=
  appendErrors (validateSubsetName (networking.Subset_Name subset))
    [Labels_Validate (networking.Subset_Labels subset);
     validateTrafficPolicy (networking.Subset_TrafficPolicy subset)].

(** ValidateDestinationRule checks proxy policies *)
Definition ValidateDestinationRule (name namespace : string) (msg : Message) : option error :=
  match msg with
  | MsgDestinationRule rule =>
      let errs := None in
      let errs := appendErrors errs
                    [validateHost (networking.DestinationRule_Host rule);
                     validateTrafficPolicy (networking.DestinationRule_TrafficPolicy rule)] in
      fold_left (fun errs subset => appendErrors errs [validateSubset subset])
        (networking.DestinationRule_Subsets rule) errs
  | _ => Some (Errorf "cannot cast to destination rule" [])
  end.

(** *** Egress rule and service references *)

(** ValidateEgressRuleDomain validates domains in the egress rules *)
Definition ValidateEgressRuleDomain (domain : string) : option error :=
  match domain with
  | EmptyString => Some (Errorf "domain must not be empty string" [])
  | String c rest =>
      if Ascii.eqb c "*"
      then (* wildcard * is allowed only at the first position *)
        match rest with
        | EmptyString => None (* the domain was just * and it is OK *)
        | String c' rest' =>
            if Ascii.eqb c' "." || Ascii.eqb c' "-"
            then (* the domain started with '*.' or '*-' - the rest of the domain
                    should be validate FDQN *)
              ValidateFQDN rest'
            else ValidateFQDN rest
        end
      else ValidateFQDN domain
  end.

(** ValidateEgressRuleService validates service field of egress rules. *)
Definition ValidateEgressRuleService (service : string) : option error :=
  if GoStrings.Count service "/" =? 1 then validateCIDR service
  else ValidateEgressRuleDomain service.

(** ValidateIstioService checks for validity of a service reference *)
Definition ValidateIstioService (svc : routing.IstioService) : option error :=
  let errs := None in
  let Name := routing.IstioService_Name svc in
  let Service := routing.IstioService_Service svc in
  let Namespace := routing.IstioService_Namespace svc in
  let Domain := routing.IstioService_Domain svc in
  let errs :=
    if bool_decide (Name = "") && bool_decide (Service = "")
    then multierrorAppend1 errs (errors_New "name or service is mandatory for a service reference")
    else if negb (bool_decide (Service = "")) && negb (bool_decide (Name = ""))
    then multierrorAppend1 errs (errors_New "specify either name or service, not both")
    else if negb (bool_decide (Service = ""))
    then
      let errs :=
        match ValidateEgressRuleService Service with
        | Some err => multierrorAppend1 errs err
        | None => errs
        end in
      let errs :=
        if negb (bool_decide (Namespace = ""))
        then multierrorAppend1 errs (errors_New "namespace is not valid when service is provided")
        else errs in
      if negb (bool_decide (Domain = ""))
      then multierrorAppend1 errs (errors_New "domain is not valid when service is provided")
      else errs
    else if negb (bool_decide (Name = ""))
    then
      if negb (IsDNS1123Label Name)
      then multierrorAppend1 errs (Errorf "name %q must be a valid label" [AString Name])
      else errs
    else errs in
  let errs :=
    if negb (bool_decide (Namespace = "")) && negb (IsDNS1123Label Namespace)
    then multierrorAppend1 errs (Errorf "namespace %q must be a valid label" [AString Namespace])
    else errs in
  let errs :=
    if negb (bool_decide (Domain = ""))
    then match ValidateFQDN Domain with
         | Some err => multierrorAppend1 errs err
         | None => errs
         end
    else errs in
  match Labels_Validate (routing.IstioService_Labels svc) with
  | Some err => multierrorAppend1 errs err
  | None => errs
  end.

(** ValidateEgressRuleDestination checks that valid destination is used for
    an egress-rule: only service field is allowed, all other fields are
    forbidden *)
Definition ValidateEgressRuleDestination (destination : option routing.IstioService)
  : option error :=
  match destination with
  | None => Some (Errorf "destination of egress rule must have destination field" [])
  | Some destination =>
      let errs := None in
      let errs :=
        if negb (bool_decide (routing.IstioService_Name destination = ""))
        then multierrorAppend1 errs (Errorf "destination of egress rule must not have name field" [])
        else errs in
      let errs :=
        if negb (bool_decide (routing.IstioService_Namespace destination = ""))
        then multierrorAppend1 errs
               (Errorf "destination of egress rule must not have namespace field" [])
        else errs in
      let errs :=
        if negb (bool_decide (routing.IstioService_Domain destination = ""))
        then multierrorAppend1 errs (Errorf "destination of egress rule must not have domain field" [])
        else errs in
      let errs :=
        if negb (bool_decide (routing.IstioService_Labels destination = ∅))
        then multierrorAppend1 errs (Errorf "destination of egress rule must not have labels field" [])
        else errs in
      match ValidateEgressRuleService (routing.IstioService_Service destination) with
      | Some err => multierrorAppend1 errs err
      | None => errs
      end
  end.

(** ValidateEgressRulePort checks the port of the egress rule
    (communication port and protocol).  It returns at the first of the two
    checks that fails. *)
Definition ValidateEgressRulePort (port : routing.EgressRule_Port) : option error :=
  match ValidatePort (routing.EgressRule_Port_Port port) with
  | Some err => Some err
  | None =>
      if negb (IsEgressRulesSupportedProtocol (ParseProtocol (routing.EgressRule_Port_Protocol port)))
      then Some (Errorf "egress rule support is available only for the following protocols: %s"
                   [AString egressRulesSupportedProtocols])
      else None
  end.

(** ValidateEgressRule checks egress rules *)
Definition ValidateEgressRule (name namespace : string) (msg : Message) : option error :=
  match msg with
  | MsgEgressRule rule =>
      let errs := None in
      let destination := routing.EgressRule_Destination rule in
      let errs :=
        match ValidateEgressRuleDestination destination with
        | Some err => multierrorAppend1 errs err
        | None => errs
        end in
      let errs :=
        if isEmpty (routing.EgressRule_Ports rule)
        then multierrorAppend1 errs (Errorf "egress rule must have a ports list" [])
        else errs in
      let cidrDestinationService :=
        match destination with
        | Some destination => GoStrings.Count (routing.IstioService_Service destination) "/" =? 1
        | None => false
        end in
      let '(errs, _) :=
        fold_left
          (fun (st : option error * gset Z) port =>
             let '(errs, ports) := st in
             let errs :=
               if bool_decide (routing.EgressRule_Port_Port port ∈ ports)
               then multierrorAppend1 errs
                      (Errorf "duplicate port: %d" [AInt (routing.EgressRule_Port_Port port)])
               else errs in
             let ports := {[ routing.EgressRule_Port_Port port ]} ∪ ports in
             let errs :=
               match ValidateEgressRulePort port with
               | Some err => multierrorAppend1 errs err
               | None => errs
               end in
             let errs :=
               if cidrDestinationService
                  && negb (IsEgressRulesSupportedTCPProtocol
                             (ParseProtocol (routing.EgressRule_Port_Protocol port)))
               then multierrorAppend1 errs
                      (Errorf ("Only the following protocols can be defined for "
                               +:+ "CIDR destination service notation: %s. "
                               +:+ "This rule - port: %d protocol: %s destination.service: %s")
                         [AString egressRulesSupportedTCPProtocols;
                          AInt (routing.EgressRule_Port_Port port);
                          AString (routing.EgressRule_Port_Protocol port);
                          AString (from_option routing.IstioService_Service "" destination)])
               else errs in
             (errs, ports))
          (routing.EgressRule_Ports rule) (errs, ∅) in
      if routing.EgressRule_UseEgressProxy rule
      then multierrorAppend1 errs
             (Errorf "directing traffic through egress proxy is not implemented yet" [])
      else errs
  | _ => Some (Errorf "cannot cast to egress rule" [])
  end.

(** ValidateIngressRule checks ingress rules *)
Definition ValidateIngressRule (name namespace : string) (msg : Message) : option error :=
  match msg with
  | MsgIngressRule value =>
      let errs := None in
      match routing.IngressRule_Destination value with
      | None => multierrorAppend1 errs (Errorf "ingress rule must have a destination service" [])
      | Some destination =>
          let errs :=
            match ValidateIstioService destination with
            | Some err => multierrorAppend1 errs err
            | None => errs
            end in
          if negb (bool_decide (routing.IstioService_Labels destination = ∅))
          then multierrorAppend1 errs (errors_New "ingress rule destination labels must be empty")
          else errs
      end
      (* TODO: complete validation for ingress *)
  | _ => Some (Errorf "cannot cast to ingress rule" [])
  end.

(** *** Mixer client configuration *)

Variable types_TimestampFromProto : option mpb.Timestamp -> option error.
Variable mixerToProxyIstioService : mccpb.IstioService -> routing.IstioService.

(** ValidateMixerAttributes checks that Mixer attributes is well-formed.
    A duration attribute that is nil is reported and then handed to
    [ValidateGogoDuration], which reads its fields. *)
Definition ValidateMixerAttributes (msg : Message) : result (option error) :=
  match msg with
  | MsgAttributes in_ =>
      match in_ with
      | None => Returns (Some (errors_New "list of attributes is nil/empty"))
      | Some in_ =>
          if bool_decide (mpb.Attributes_Attributes in_ = ∅)
          then Returns (Some (errors_New "list of attributes is nil/empty"))
          else
            foldM
              (fun errs '(k, v) =>
                 match mpb.AttributeValue_Value v with
                 | Some (mpb.Attributes_AttributeValue_StringValue StringValue) =>
                     Returns
                       (if bool_decide (StringValue = "")
                        then multierrorAppend1 errs
                               (Errorf "string attribute for %q should not be empty" [AString k])
                        else errs)
                 | Some (mpb.Attributes_AttributeValue_DurationValue DurationValue) =>
                     let errs :=
                       match DurationValue with
                       | None => multierrorAppend1 errs
                                   (Errorf "duration attribute for %q should not be nil" [AString k])
                       | Some _ => errs
                       end in
                     err <- ValidateGogoDuration DurationValue ;;
                     Returns match err with
                             | Some err => multierrorAppend1 errs err
                             | None => errs
                             end
                 | Some (mpb.Attributes_AttributeValue_BytesValue BytesValue) =>
                     Returns
                       (if isEmpty BytesValue
                        then multierrorAppend1 errs
                               (Errorf "bytes attribute for %q should not be " [AString k])
                        else errs)
                 | Some (mpb.Attributes_AttributeValue_TimestampValue TimestampValue) =>
                     let errs :=
                       match TimestampValue with
                       | None => multierrorAppend1 errs
                                   (Errorf "timestamp attribute for %q should not be nil" [AString k])
                       | Some _ => errs
                       end in
                     Returns match types_TimestampFromProto TimestampValue with
                             | Some err => multierrorAppend1 errs err
                             | None => errs
                             end
                 | Some (mpb.Attributes_AttributeValue_StringMapValue StringMapValue) =>
                     Returns match StringMapValue ≫= mpb.StringMap_Entries with
                             | None => multierrorAppend1 errs
                                         (Errorf "stringmap attribute for %q should not be nil"
                                            [AString k])
                             | Some _ => errs
                             end
                 | _ => Returns errs
                 end)
              (map_to_list (mpb.Attributes_Attributes in_)) None
      end
  | _ => Returns (Some (errors_New "cannot case to attributes"))
  end.

(** ValidateHTTPAPISpec checks that HTTPAPISpec is well-formed. *)
Definition ValidateHTTPAPISpec (name namespace : string) (msg : Message) : result (option error) :=
  match msg with
  | MsgHTTPAPISpec in_ =>
      let errs := None in
      (* top-level list of attributes is optional *)
      errs <- match mccpb.HTTPAPISpec_Attributes in_ with
              | Some attributes =>
                  err <- ValidateMixerAttributes (MsgAttributes (Some attributes)) ;;
                  Returns match err with
                          | Some err => multierrorAppend1 errs err
                          | None => errs
                          end
              | None => Returns errs
              end ;;
      let errs :=
        if isEmpty (mccpb.HTTPAPISpec_Patterns in_)
        then multierrorAppend1 errs (errors_New "at least one pattern must be specified")
        else errs in
      errs <- foldM
                (fun errs pattern =>
                   err <- ValidateMixerAttributes (MsgAttributes (mccpb.HTTPAPISpec_Attributes in_)) ;;
                   let errs :=
                     match err with
                     | Some err => multierrorAppend1 errs err
                     | None => errs
                     end in
                   let errs :=
                     if bool_decide (mccpb.HTTPAPISpecPattern_HttpMethod pattern = "")
                     then multierrorAppend1 errs (errors_New "http_method cannot be empty")
                     else errs in
                   Returns match mccpb.HTTPAPISpecPattern_Pattern pattern with
                           | Some (mccpb.HTTPAPISpecPattern_UriTemplate UriTemplate) =>
                               if bool_decide (UriTemplate = "")
                               then multierrorAppend1 errs (errors_New "uri_template cannot be empty")
                               else errs
                           | Some (mccpb.HTTPAPISpecPattern_Regex Regex) =>
                               if bool_decide (Regex = "")
                               then multierrorAppend1 errs (errors_New "regex cannot be empty")
                               else errs
                           | None => errs
                           end)
                (mccpb.HTTPAPISpec_Patterns in_) errs ;;
      Returns
        (fold_left
           (fun errs key =>
              match mccpb.APIKey_Key_ key with
              | Some (mccpb.APIKey_Query Query) =>
                  if bool_decide (Query = "")
                  then multierrorAppend1 errs (errors_New "query cannot be empty")
                  else errs
              | Some (mccpb.APIKey_Header Header) =>
                  if bool_decide (Header = "")
                  then multierrorAppend1 errs (errors_New "header cannot be empty")
                  else errs
              | Some (mccpb.APIKey_Cookie Cookie) =>
                  if bool_decide (Cookie = "")
                  then multierrorAppend1 errs (errors_New "cookie cannot be empty")
                  else errs
              | None => errs
              end)
           (mccpb.HTTPAPISpec_ApiKeys in_) errs)
  | _ => Returns (Some (errors_New "cannot case to HTTPAPISpec"))
  end.

(** ValidateHTTPAPISpecBinding checks that HTTPAPISpecBinding is well-formed. *)
Definition ValidateHTTPAPISpecBinding (name namespace : string) (msg : Message) : option error :=
  match msg with
  | MsgHTTPAPISpecBinding in_ =>
      let errs := None in
      let errs :=
        if isEmpty (mccpb.HTTPAPISpecBinding_Services in_)
        then multierrorAppend1 errs (errors_New "at least one service must be specified")
        else errs in
      let errs :=
        fold_left
          (fun errs service =>
             match ValidateIstioService (mixerToProxyIstioService service) with
             | Some err => multierrorAppend1 errs err
             | None => errs
             end)
          (mccpb.HTTPAPISpecBinding_Services in_) errs in
      let errs :=
        if isEmpty (mccpb.HTTPAPISpecBinding_ApiSpecs in_)
        then multierrorAppend1 errs (errors_New "at least one spec must be specified")
        else errs in
      fold_left
        (fun errs spec =>
           let errs :=
             if bool_decide (mccpb.HTTPAPISpecReference_Name spec = "")
             then multierrorAppend1 errs (errors_New "name is mandatory for HTTPAPISpecReference")
             else errs in
           if negb (bool_decide (mccpb.HTTPAPISpecReference_Namespace spec = ""))
              && negb (IsDNS1123Label (mccpb.HTTPAPISpecReference_Namespace spec))
           then multierrorAppend1 errs
                  (Errorf "namespace %q must be a valid label"
                     [AString (mccpb.HTTPAPISpecReference_Namespace spec)])
           else errs)
        (mccpb.HTTPAPISpecBinding_ApiSpecs in_) errs
  | _ => Some (errors_New "cannot case to HTTPAPISpecBinding")
  end.

(** ValidateQuotaSpec checks that Quota is well-formed. *)
Definition ValidateQuotaSpec (name namespace : string) (msg : Message) : option error :=
  match msg with
  | MsgQuotaSpec in_ =>
      let errs := None in
      let errs :=
        if isEmpty (mccpb.QuotaSpec_Rules in_)
        then multierrorAppend1 errs (errors_New "a least one rule must be specified")
        else errs in
      fold_left
        (fun errs rule =>
           let errs :=
             fold_left
               (fun errs match_ =>
                  fold_left
                    (fun errs '(name, clause) =>
                       match mccpb.StringMatch_MatchType clause with
                       | Some (mccpb.StringMatch_Exact Exact) =>
                           if bool_decide (Exact = "")
                           then multierrorAppend1 errs
                                  (Errorf "StringMatch_Exact for attribute %q cannot be empty"
                                     [AString name])
                           else errs
                       | Some (mccpb.StringMatch_Prefix Prefix) =>
                           if bool_decide (Prefix = "")
                           then multierrorAppend1 errs
                                  (Errorf "StringMatch_Prefix for attribute %q cannot be empty"
                                     [AString name])
                           else errs
                       | Some (mccpb.StringMatch_Regex Regex) =>
                           if bool_decide (Regex = "")
                           then multierrorAppend1 errs
                                  (Errorf "StringMatch_Regex for attribute %q cannot be empty"
                                     [AString name])
                           else errs
                       | None => errs
                       end)
                    (map_to_list (mccpb.AttributeMatch_Clause match_)) errs)
               (mccpb.QuotaRule_Match rule) errs in
           let errs :=
             if isEmpty (mccpb.QuotaRule_Quotas rule)
             then multierrorAppend1 errs (errors_New "a least one quota must be specified")
             else errs in
           fold_left
             (fun errs quota =>
                let errs :=
                  if bool_decide (mccpb.Quota_Quota quota = "")
                  then multierrorAppend1 errs (errors_New "quota name cannot be empty")
                  else errs in
                if mccpb.Quota_Charge quota <=? 0
                then multierrorAppend1 errs (errors_New "quota charge amount must be positive")
                else errs)
             (mccpb.QuotaRule_Quotas rule) errs)
        (mccpb.QuotaSpec_Rules in_) errs
  | _ => Some (errors_New "cannot case to HTTPAPISpecBinding")
  end.

(** ValidateQuotaSpecBinding checks that QuotaSpecBinding is well-formed. *)
Definition ValidateQuotaSpecBinding (name namespace : string) (msg : Message) : option error :=
  match msg with
  | MsgQuotaSpecBinding in_ =>
      let errs := None in
      let errs :=
        if isEmpty (mccpb.QuotaSpecBinding_Services in_)
        then multierrorAppend1 errs (errors_New "at least one service must be specified")
        else errs in
      let errs :=
        fold_left
          (fun errs service =>
             match ValidateIstioService (mixerToProxyIstioService service) with
             | Some err => multierrorAppend1 errs err
             | None => errs
             end)
          (mccpb.QuotaSpecBinding_Services in_) errs in
      let errs :=
        if isEmpty (mccpb.QuotaSpecBinding_QuotaSpecs in_)
        then multierrorAppend1 errs (errors_New "at least one spec must be specified")
        else errs in
      fold_left
        (fun errs spec =>
           let errs :=
             if bool_decide (mccpb.QuotaSpecReference_Name spec = "")
             then multierrorAppend1 errs (errors_New "name is mandatory for QuotaSpecReference")
             else errs in
           if negb (bool_decide (mccpb.QuotaSpecReference_Namespace spec = ""))
              && negb (IsDNS1123Label (mccpb.QuotaSpecReference_Namespace spec))
           then multierrorAppend1 errs
                  (Errorf "namespace %q must be a valid label"
                     [AString (mccpb.QuotaSpecReference_Namespace spec)])
           else errs)
        (mccpb.QuotaSpecBinding_QuotaSpecs in_) errs
  | _ => Some (errors_New "cannot case to HTTPAPISpecBinding")
  end.

(** *** Authentication policy *)

Definition validateJwt (jwt : option authn.Jwt) : option error :=
  match jwt with
  | None => None
  | Some jwt =>
      let errs := None in
      let errs :=
        if bool_decide (authn.Jwt_Issuer jwt = "")
        then multierrorAppend1 errs (errors_New "issuer must be set")
        else errs in
      let errs :=
        fold_left
          (fun errs audience =>
             if bool_decide (audience = "")
             then multierrorAppend1 errs (errors_New "audience must be non-empty string")
             else errs)
          (authn.Jwt_Audiences jwt) errs in
      let errs :=
        if negb (bool_decide (authn.Jwt_JwksUri jwt = ""))
        then (* TODO: do more extensive check (e.g try to fetch JwksUri) *)
          match ParseJwksURI (authn.Jwt_JwksUri jwt) with
          | Some err => multierrorAppend1 errs err
          | None => errs
          end
        else errs in
      let errs :=
        fold_left
          (fun errs location =>
             if bool_decide (location = "")
             then multierrorAppend1 errs (errors_New "location header must be non-empty string")
             else errs)
          (authn.Jwt_JwtHeaders jwt) errs in
      fold_left
        (fun errs location =>
           if bool_decide (location = "")
           then multierrorAppend1 errs (errors_New "location query must be non-empty string")
           else errs)
        (authn.Jwt_JwtParams jwt) errs
  end.

Definition validateAuthNPortSelector (selector : option authn.PortSelector) : option error :=
  match selector with
  | None => None
  | Some selector =>
      (* port selector is either a name or a number *)
      let name := authn.PortSelector_GetName selector in
      let number := authn.PortSelector_GetNumber selector in
      if bool_decide (name = "") && (number =? 0)
      then (* an unset value is indistinguishable from a zero value, so return both errors *)
        appendErrors (validateSubsetName name) [ValidatePort number]
      else if negb (number =? 0) then ValidatePort number
      else validateSubsetName name
  end.

Definition validateAuthNPolicyTarget (target : option authn.TargetSelector) : option error :=
  match target with
  | None => None
  | Some target =>
      let errs := None in
      (* AuthN policy target (host)name must be a shortname *)
      let errs :=
        if negb (IsDNS1123Label (authn.TargetSelector_Name target))
        then multierrorAppend1 errs
               (Errorf "target name %q must be a valid label"
                  [AString (authn.TargetSelector_Name target)])
        else errs in
      fold_left (fun errs port => appendErrors errs [validateAuthNPortSelector (Some port)])
        (authn.TargetSelector_Ports target) errs
  end.

(** ValidateAuthenticationPolicy checks that AuthenticationPolicy is
    well-formed.  The loop over the peers reads the JWT through [GetJwt]
    and skips a method without one; the loop over the origins reads
    [method.Jwt.Issuer] without a check of [method.Jwt]. *)
Definition ValidateAuthenticationPolicy (name namespace : string) (msg : Message)
  : result (option error) :=
  (* Empty namespace indicate policy is from cluster-scoped CRD. *)
  let clusterScoped := bool_decide (namespace = "") in
  match msg with
  | MsgPolicy in_ =>
      let errs := None in
      let errs :=
        if negb clusterScoped
        then
          let errs :=
            if isEmpty (authn.Policy_Targets in_)
               && negb (bool_decide (name = DefaultAuthenticationPolicyName))
            then appendErrors errs
                   [Some (Errorf "authentication policy with no target rules  must be named %q, found %q"
                            [AString DefaultAuthenticationPolicyName; AString name])]
            else errs in
          let errs :=
            if negb (isEmpty (authn.Policy_Targets in_))
               && bool_decide (name = DefaultAuthenticationPolicyName)
            then appendErrors errs
                   [Some (Errorf "authentication policy with name %q must not have any target rules"
                            [AString name])]
            else errs in
          fold_left (fun errs target => appendErrors errs [validateAuthNPolicyTarget (Some target)])
            (authn.Policy_Targets in_) errs
        else
          let errs :=
            if negb (bool_decide (name = DefaultAuthenticationPolicyName))
            then appendErrors errs
                   [Some (Errorf "cluster-scoped authentication policy name must be %q, found %q"
                            [AString DefaultAuthenticationPolicyName; AString name])]
            else errs in
          if negb (isEmpty (authn.Policy_Targets in_))
          then appendErrors errs
                 [Some (Errorf "cluster-scoped authentication policy must not have targets" [])]
          else errs in
      let '(errs, jwtIssuers) :=
        fold_left
          (fun (st : option error * gset string) method =>
             let '(errs, jwtIssuers) := st in
             match authn.PeerAuthenticationMethod_GetJwt method with
             | Some jwt =>
                 let '(errs, jwtIssuers) :=
                   if bool_decide (authn.Jwt_Issuer jwt ∈ jwtIssuers)
                   then (appendErrors errs
                           [Some (Errorf "jwt with issuer %q already defined"
                                    [AString (authn.Jwt_Issuer jwt)])],
                         jwtIssuers)
                   else (errs, {[ authn.Jwt_Issuer jwt ]} ∪ jwtIssuers) in
                 (appendErrors errs [validateJwt (Some jwt)], jwtIssuers)
             | None => (errs, jwtIssuers)
             end)
          (authn.Policy_Peers in_) (errs, ∅) in
      st <- foldM
              (fun (st : option error * gset string) method =>
                 let '(errs, jwtIssuers) := st in
                 match authn.OriginAuthenticationMethod_Jwt method with
                 | None => Panics NilDereference
                 | Some jwt =>
                     let '(errs, jwtIssuers) :=
                       if bool_decide (authn.Jwt_Issuer jwt ∈ jwtIssuers)
                       then (appendErrors errs
                               [Some (Errorf "jwt with issuer %q already defined"
                                        [AString (authn.Jwt_Issuer jwt)])],
                             jwtIssuers)
                       else (errs, {[ authn.Jwt_Issuer jwt ]} ∪ jwtIssuers) in
                     Returns (appendErrors errs [validateJwt (Some jwt)], jwtIssuers)
                 end)
              (authn.Policy_Origins in_) (errs, jwtIssuers) ;;
      Returns (fst st)
  | _ => Returns (Some (errors_New "cannot cast to AuthenticationPolicy"))
  end.

(** *** RBAC *)

(** The elements of a list with their indices. *)
Definition indexed {A : Type} (l : list A) : list (Z * A) :=
  imap (fun i x => (Z.of_nat i, x)) l.

(** ValidateServiceRole checks that ServiceRole is well-formed. *)
Definition ValidateServiceRole (name namespace : string) (msg : Message) : option error :=
  match msg with
  | MsgServiceRole in_ =>
      let errs := None in
      let errs :=
        if isEmpty (rbac.ServiceRole_Rules in_)
        then appendErrors errs [Some (Errorf "at least 1 rule must be specified" [])]
        else errs in
      fold_left
        (fun errs '(i, rule) =>
           let errs :=
             if isEmpty (rbac.AccessRule_Services rule)
             then appendErrors errs
                    [Some (Errorf "at least 1 service must be specified for rule %d" [AInt i])]
             else errs in
           let errs :=
             if isEmpty (rbac.AccessRule_Methods rule)
             then appendErrors errs
                    [Some (Errorf "at least 1 method must be specified for rule %d" [AInt i])]
             else errs in
           fold_left
             (fun errs '(j, constraint) =>
                let errs :=
                  if GoStrings.len (rbac.Constraint_Key constraint) =? 0
                  then appendErrors errs
                         [Some (Errorf "key cannot be empty for constraint %d in rule %d"
                                  [AInt j; AInt i])]
                  else errs in
                if isEmpty (rbac.Constraint_Values constraint)
                then appendErrors errs
                       [Some (Errorf "at least 1 value must be specified for constraint %d in rule %d"
                                [AInt j; AInt i])]
                else errs)
             (indexed (rbac.AccessRule_Constraints rule)) errs)
        (indexed (rbac.ServiceRole_Rules in_)) errs
  | _ => Some (errors_New "cannot cast to ServiceRole")
  end.

(** ValidateServiceRoleBinding checks that ServiceRoleBinding is well-formed. *)
Definition ValidateServiceRoleBinding (name namespace : string) (msg : Message) : option error :=
  match msg with
  | MsgServiceRoleBinding in_ =>
      let errs := None in
      let errs :=
        if isEmpty (rbac.ServiceRoleBinding_Subjects in_)
        then appendErrors errs [Some (Errorf "at least 1 subject must be specified" [])]
        else errs in
      let errs :=
        fold_left
          (fun errs '(i, subject) =>
             if (GoStrings.len (rbac.Subject_User subject) =? 0)
                && (GoStrings.len (rbac.Subject_Group subject) =? 0)
                && bool_decide (rbac.Subject_Properties subject = ∅)
             then appendErrors errs
                    [Some (Errorf "at least 1 of user, group or properties must be specified for subject %d"
                             [AInt i])]
             else errs)
          (indexed (rbac.ServiceRoleBinding_Subjects in_)) errs in
      match rbac.ServiceRoleBinding_RoleRef in_ with
      | None => appendErrors errs [Some (Errorf "roleRef must be specified" [])]
      | Some roleRef =>
          let expectKind := "ServiceRole" in
          let errs :=
            if negb (bool_decide (rbac.RoleRef_Kind roleRef = expectKind))
            then appendErrors errs
                   [Some (Errorf "kind set to %q, currently the only supported value is %q"
                            [AString (rbac.RoleRef_Kind roleRef); AString expectKind])]
            else errs in
          if GoStrings.len (rbac.RoleRef_Name roleRef) =? 0
          then appendErrors errs [Some (Errorf "name cannot be empty" [])]
          else errs
      end
  | _ => Some (errors_New "cannot cast to ServiceRoleBinding")
  end.

(** ValidateRbacConfig checks that RbacConfig is well-formed. *)
Definition ValidateRbacConfig (name namespace : string) (msg : Message) : option error :=
  match msg with
  | MsgRbacConfig in_ =>
      if (rbac.RbacConfig_Mode in_ =? rbac.RbacConfig_ON_WITH_EXCLUSION)
         || (rbac.RbacConfig_Mode in_ =? rbac.RbacConfig_ON_WITH_INCLUSION)
      then Some (errors_New "rbac mode not implemented, currently only supports ON/OFF")
      else None
  | _ => Some (errors_New "cannot cast to RbacConfig")
  end.

(** *** Network endpoints *)

(** ValidateNetworkEndpointAddress checks the Address field of a
    NetworkEndpoint. If the family is TCP, it checks the address is a valid
    IP address. If the family is Unix, it checks the address is a valid
    socket file path.  Any other family panics. *)
Definition ValidateNetworkEndpointAddress (n : NetworkEndpoint) : result (option error) :=
  if NetworkEndpoint_Family n =? AddressFamilyTCP
  then
    match net_ParseIP (NetworkEndpoint_Address n) with
    | None => Returns (Some (errors_New ("invalid IP address " +:+ NetworkEndpoint_Address n)))
    | Some _ => Returns None
    end
  else if NetworkEndpoint_Family n =? AddressFamilyUnix
  then Returns (ValidateUnixAddress (NetworkEndpoint_Address n))
  else Panics (PanicValue "unhandled Family %v" [AInt (NetworkEndpoint_Family n)]).

(** *** Route rule and destination policy *)

Variable HeaderURI : string.

(** [errs = multierror.Append(errs, err)] for an [err] that may be nil
    only where the code has checked that it is not. *)
Definition appendIfError (errs : option error) (err : option error) : option error :=
  match err with
  | Some err => multierrorAppend1 errs err
  | None => errs
  end.

(** [errs = multierror.Append(errs, multierror.Prefix(err, prefix))]
    under [if err != nil]. *)
Definition appendPrefixed (errs : option error) (err : option error) (prefix : string)
  (args : list fmt_arg) : option error :=
  match err with
  | Some _ => Some (multierror.Append errs [multierror.Prefixf err prefix args])
  | None => errs
  end.

(** ValidateL4MatchAttributes validates L4 Match Attributes *)
Definition ValidateL4MatchAttributes (ma : routing.L4MatchAttributes) : option error :=
  let errs := None in
  let errs := fold_left (fun errs subnet => appendIfError errs (ValidateSubnet subnet))
                (routing.L4MatchAttributes_SourceSubnet ma) errs in
  fold_left (fun errs subnet => appendIfError errs (ValidateSubnet subnet))
    (routing.L4MatchAttributes_DestinationSubnet ma) errs.

(** ValidateMatchCondition validates a match condition *)
Definition ValidateMatchCondition (mc : routing.MatchCondition) : option error :=
  let errs := None in
  let errs :=
    match routing.MatchCondition_Source mc with
    | Some source => appendIfError errs (ValidateIstioService source)
    | None => errs
    end in
  let errs :=
    match routing.MatchCondition_Tcp mc with
    | Some tcp => appendIfError errs (ValidateL4MatchAttributes tcp)
    | None => errs
    end in
  let errs :=
    match routing.MatchCondition_Udp mc with
    | Some udp =>
        let errs := appendIfError errs (ValidateL4MatchAttributes udp) in
        multierrorAppend1 errs (Errorf "UDP protocol not supported yet" [])
    | None => errs
    end in
  match routing.MatchCondition_Request mc with
  | Some request =>
      fold_left
        (fun errs '(name, value) =>
           let errs := appendPrefixed errs (ValidateHTTPHeaderName name)
                         "header name %q invalid: " [AString name] in
           let errs := appendPrefixed errs (ValidateStringMatch value)
                         "header %q value invalid: " [AString name] in
           (* validate special `uri` header: absolute path must be non-empty *)
           if bool_decide (name = HeaderURI)
           then
             match routing.StringMatch_MatchType value with
             | Some (routing.StringMatch_Exact Exact) =>
                 if bool_decide (Exact = "")
                 then multierrorAppend1 errs
                        (Errorf "exact header value for %q must be non-empty" [AString HeaderURI])
                 else errs
             | Some (routing.StringMatch_Prefix Prefix) =>
                 if bool_decide (Prefix = "")
                 then multierrorAppend1 errs
                        (Errorf "prefix header value for %q must be non-empty" [AString HeaderURI])
                 else errs
             | Some (routing.StringMatch_Regex Regex) =>
                 if bool_decide (Regex = "")
                 then multierrorAppend1 errs
                        (Errorf "regex header value for %q must be non-empty" [AString HeaderURI])
                 else errs
             | None => errs
             end
           else errs)
        (map_to_list (routing.MatchRequest_Headers request)) errs
  | None => errs
  end.

(** ValidateFloatPercent checks that percent is in range *)
Definition ValidateFloatPercent (val : float32) : option error :=
  if SFltb val (S754_zero false) || SFltb (S754_finite false 13107200 (-17)) val (* 100.0 *)
  then Some (Errorf "percentage %v is not in range 0..100" [AFloat val])
  else None.

(** ValidateDestinationWeight validates DestinationWeight *)
Definition ValidateDestinationWeight (dw : routing.DestinationWeight) : option error :=
  let errs := None in
  let errs := appendIfError errs (Labels_Validate (routing.DestinationWeight_Labels dw)) in
  appendPrefixed errs (ValidatePercent (routing.DestinationWeight_Weight dw)) "weight invalid: " [].

(** ValidateHTTPTimeout validates HTTP Timeout *)
Definition ValidateHTTPTimeout (timeout : routing.HTTPTimeout) : option error :=
  let errs := None in
  match routing.HTTPTimeout_GetSimpleTimeout timeout with
  | Some simple =>
      appendPrefixed errs (ValidateDuration (routing.SimpleTimeoutPolicy_Timeout simple))
        "httpTimeout invalid: " []
  | None => errs
  end.

(** ValidateHTTPRetries validates HTTP Retries *)
Definition ValidateHTTPRetries (retry : routing.HTTPRetry) : option error :=
  let errs := None in
  match routing.HTTPRetry_GetSimpleRetry retry with
  | Some simple =>
      let errs :=
        if routing.SimpleRetryPolicy_Attempts simple <? 0
        then multierrorAppend1 errs (Errorf "attempts must be in range [0..]" [])
        else errs in
      appendPrefixed errs (ValidateDuration (routing.SimpleRetryPolicy_PerTryTimeout simple))
        "perTryTimeout invalid: " []
  | None => errs
  end.

(** ValidateDelay checks that fault injection delay is well-formed *)
Definition ValidateDelay (delay : routing.HTTPFaultInjection_Delay) : option error :=
  let errs := None in
  let errs := appendPrefixed errs (ValidateFloatPercent (routing.Delay_Percent delay))
                "percent invalid: " [] in
  let errs := appendPrefixed errs (ValidateDuration (routing.Delay_GetFixedDelay delay))
                "fixedDelay invalid:" [] in
  match routing.Delay_GetExponentialDelay delay with
  | Some d =>
      let errs := appendPrefixed errs (ValidateDuration (Some d)) "exponentialDelay invalid: " [] in
      multierrorAppend1 errs (Errorf "exponentialDelay not supported yet" [])
  | None => errs
  end.

(** ValidateAbortHTTPStatus checks that fault injection abort HTTP status is valid *)
Definition ValidateAbortHTTPStatus (HttpStatus : Z) : option error :=
  if (HttpStatus <? 0) || (600 <? HttpStatus)
  then multierrorAppend1 None (Errorf "invalid abort http status %v" [AInt HttpStatus])
  else None.

(** ValidateAbort checks that fault injection abort is well-formed.  The
    switch on the error type has no default branch. *)
Definition ValidateAbort (abort : routing.HTTPFaultInjection_Abort) : option error :=
  let errs := None in
  let errs := appendPrefixed errs (ValidateFloatPercent (routing.Abort_Percent abort))
                "percent invalid: " [] in
  match routing.Abort_ErrorType abort with
  | Some (routing.HTTPFaultInjection_Abort_GrpcStatus _) =>
      (* TODO No validation yet for grpc_status / http2_error / http_status *)
      multierrorAppend1 errs (Errorf "gRPC fault injection not supported yet" [])
  | Some (routing.HTTPFaultInjection_Abort_Http2Error _) => errs
  | Some (routing.HTTPFaultInjection_Abort_HttpStatus HttpStatus) =>
      appendIfError errs (ValidateAbortHTTPStatus HttpStatus)
  | None => errs
  end.

(** ValidateHTTPFault validates HTTP Fault *)
Definition ValidateHTTPFault (fault : routing.HTTPFaultInjection) : option error :=
  let errs := None in
  let errs :=
    match routing.HTTPFaultInjection_Delay_ fault with
    | Some delay => appendIfError errs (ValidateDelay delay)
    | None => errs
    end in
  match routing.HTTPFaultInjection_Abort_ fault with
  | Some abort => appendIfError errs (ValidateAbort abort)
  | None => errs
  end.

(** ValidateTerminate checks that fault injection terminate is well-formed *)
Definition ValidateTerminate (terminate : routing.L4FaultInjection_Terminate) : option error :=
  appendPrefixed None (ValidateFloatPercent (routing.Terminate_Percent terminate))
    "terminate percent invalid: " [].

(** ValidateThrottle checks that fault injections throttle is well-formed *)
Definition ValidateThrottle (throttle : routing.L4FaultInjection_Throttle) : option error :=
  let errs := None in
  let errs := appendPrefixed errs (ValidateFloatPercent (routing.Throttle_Percent throttle))
                "throttle percent invalid: " [] in
  let errs :=
    if routing.Throttle_DownstreamLimitBps throttle <? 0
    then multierrorAppend1 errs (Errorf "downstreamLimitBps invalid" [])
    else errs in
  let errs :=
    if routing.Throttle_UpstreamLimitBps throttle <? 0
    then multierrorAppend1 errs (Errorf "upstreamLimitBps invalid" [])
    else errs in
  let errs :=
    match ValidateDuration (routing.Throttle_GetThrottleAfterPeriod throttle) with
    | Some _ => multierrorAppend1 errs (Errorf "throttleAfterPeriod invalid" [])
    | None => errs
    end in
  if SFltb (routing.Throttle_GetThrottleAfterBytes throttle) (S754_zero false)
  then multierrorAppend1 errs (Errorf "throttleAfterBytes invalid" [])
  else errs.

(** ValidateL4Fault validates L4 Fault *)
Definition ValidateL4Fault (fault : routing.L4FaultInjection) : option error :=
  let errs := None in
  let errs :=
    match routing.L4FaultInjection_Terminate_ fault with
    | Some terminate =>
        let errs := appendIfError errs (ValidateTerminate terminate) in
        multierrorAppend1 errs (Errorf "the terminate fault not supported yet" [])
    | None => errs
    end in
  match routing.L4FaultInjection_Throttle_ fault with
  | Some throttle => appendIfError errs (ValidateThrottle throttle)
  | None => errs
  end.

(** ValidateLoadBalancing validates Load Balancing *)
Definition ValidateLoadBalancing (lb : routing.LoadBalancing) : option error :=
  match routing.LoadBalancing_LbPolicy lb with
  | None => multierrorAppend1 None (errors_New "must set load balancing if specified")
  | Some _ => None
  end.

(** ValidateCircuitBreaker validates Circuit Breaker *)
Definition ValidateCircuitBreaker (cb : routing.CircuitBreaker) : option error :=
  let errs := None in
  match routing.CircuitBreaker_GetSimpleCb cb with
  | Some simple =>
      let errs :=
        if routing.SimpleCb_MaxConnections simple <? 0
        then multierrorAppend1 errs (Errorf "circuitBreak maxConnections must be in range [0..]" [])
        else errs in
      let errs :=
        if routing.SimpleCb_HttpMaxPendingRequests simple <? 0
        then multierrorAppend1 errs
               (Errorf "circuitBreaker maxPendingRequests must be in range [0..]" [])
        else errs in
      let errs :=
        if routing.SimpleCb_HttpMaxRequests simple <? 0
        then multierrorAppend1 errs (Errorf "circuitBreaker maxRequests must be in range [0..]" [])
        else errs in
      let errs :=
        match ValidateDuration (routing.SimpleCb_SleepWindow simple) with
        | Some _ => multierrorAppend1 errs
                      (Errorf "circuitBreaker sleepWindow must be in range [0..]" [])
        | None => errs
        end in
      let errs :=
        if routing.SimpleCb_HttpConsecutiveErrors simple <? 0
        then multierrorAppend1 errs
               (Errorf "circuitBreaker httpConsecutiveErrors must be in range [0..]" [])
        else errs in
      let errs :=
        match ValidateDuration (routing.SimpleCb_HttpDetectionInterval simple) with
        | Some _ => multierrorAppend1 errs
                      (Errorf "circuitBreaker httpDetectionInterval must be in range [0..]" [])
        | None => errs
        end in
      let errs :=
        if routing.SimpleCb_HttpMaxRequestsPerConnection simple <? 0
        then multierrorAppend1 errs
               (Errorf "circuitBreaker httpMaxRequestsPerConnection must be in range [0..]" [])
        else errs in
      appendPrefixed errs (ValidatePercent (routing.SimpleCb_HttpMaxEjectionPercent simple))
        "circuitBreaker httpMaxEjectionPercent invalid: " []
  | None => errs
  end.

(** ValidateRouteRule checks routing rules *)
Definition ValidateRouteRule (name namespace : string) (msg : Message) : option error :=
  match msg with
  | MsgRouteRule value =>
      let errs := None in
      let errs :=
        match routing.RouteRule_Destination value with
        | None => multierrorAppend1 errs (Errorf "route rule must have a destination service" [])
        | Some destination =>
            let errs := appendIfError errs (ValidateIstioService destination) in
            if negb (bool_decide (routing.IstioService_Labels destination = ∅))
            then multierrorAppend1 errs (errors_New "route rule destination labels must be empty")
            else errs
        end in
      (* We don't validate precedence because any int32 is legal *)
      let errs :=
        match routing.RouteRule_Match value with
        | Some mc => appendIfError errs (ValidateMatchCondition mc)
        | None => errs
        end in
      let errs :=
        match routing.RouteRule_Rewrite value with
        | Some rewrite =>
            if bool_decide (routing.HTTPRewrite_Uri rewrite = "")
               && bool_decide (routing.HTTPRewrite_Authority rewrite = "")
            then multierrorAppend1 errs (errors_New "rewrite must specify path, host, or both")
            else errs
        | None => errs
        end in
      let route := default [] (routing.RouteRule_Route value) in
      let errs :=
        match routing.RouteRule_Redirect value with
        | Some redirect =>
            let errs :=
              if negb (isEmpty route)
              then multierrorAppend1 errs (errors_New "rule cannot contain both route and redirect")
              else errs in
            let errs :=
              match routing.RouteRule_HttpFault value with
              | Some _ => multierrorAppend1 errs
                            (errors_New "rule cannot contain both fault and redirect")
              | None => errs
              end in
            let errs :=
              if bool_decide (routing.HTTPRedirect_Authority redirect = "")
                 && bool_decide (routing.HTTPRedirect_Uri redirect = "")
              then multierrorAppend1 errs (errors_New "redirect must specify path, host, or both")
              else errs in
            if routing.RouteRule_WebsocketUpgrade value
            then multierrorAppend1 errs
                   (errors_New "WebSocket upgrade is not allowed on redirect rules")
            else errs
        | None => errs
        end in
      let errs :=
        match routing.RouteRule_Redirect value, routing.RouteRule_Rewrite value with
        | Some _, Some _ =>
            multierrorAppend1 errs (errors_New "rule cannot contain both rewrite and redirect")
        | _, _ => errs
        end in
      let errs :=
        match routing.RouteRule_Route value with
        | Some route =>
            let errs :=
              fold_left (fun errs destWeight => appendIfError errs (ValidateDestinationWeight destWeight))
                route errs in
            appendIfError errs (ValidateWeights route)
        | None => errs
        end in
      let errs :=
        match routing.RouteRule_Mirror value with
        | Some mirror => appendIfError errs (ValidateIstioService mirror)
        | None => errs
        end in
      let errs :=
        fold_left
          (fun errs '(name, val) =>
             let errs := appendIfError errs (ValidateHTTPHeaderName name) in
             if bool_decide (val = "")
             then multierrorAppend1 errs
                    (Errorf "appended header %q must have a non-empty value" [AString name])
             else errs)
          (map_to_list (routing.RouteRule_AppendHeaders value)) errs in
      let errs :=
        match routing.RouteRule_CorsPolicy value with
        | Some corsPolicy =>
            let errs :=
              match routing.CorsPolicy_MaxAge corsPolicy with
              | Some maxAge =>
                  let errs := appendIfError errs (ValidateDuration (Some maxAge)) in
                  if 0 <? Nanos maxAge
                  then multierrorAppend1 errs
                         (errors_New "max_age duration is accurate only to seconds precision")
                  else errs
              | None => errs
              end in
            let errs :=
              fold_left (fun errs name => appendIfError errs (ValidateHTTPHeaderName name))
                (routing.CorsPolicy_AllowHeaders corsPolicy) errs in
            let errs :=
              fold_left (fun errs name => appendIfError errs (ValidateHTTPHeaderName name))
                (routing.CorsPolicy_ExposeHeaders corsPolicy) errs in
            fold_left
              (fun errs method =>
                 if negb (bool_decide (method ∈ supportedMethods))
                 then multierrorAppend1 errs
                        (Errorf "%q is not a supported HTTP method" [AString method])
                 else errs)
              (routing.CorsPolicy_AllowMethods corsPolicy) errs
        | None => errs
        end in
      let errs :=
        match routing.RouteRule_HttpReqTimeout value with
        | Some timeout => appendIfError errs (ValidateHTTPTimeout timeout)
        | None => errs
        end in
      let errs :=
        match routing.RouteRule_HttpReqRetries value with
        | Some retries => appendIfError errs (ValidateHTTPRetries retries)
        | None => errs
        end in
      let errs :=
        match routing.RouteRule_HttpFault value with
        | Some fault => appendIfError errs (ValidateHTTPFault fault)
        | None => errs
        end in
      match routing.RouteRule_L4Fault value with
      | Some fault =>
          let errs := appendIfError errs (ValidateL4Fault fault) in
          multierrorAppend1 errs (Errorf "L4 faults are not implemented" [])
      | None => errs
      end
  | _ => Some (Errorf "cannot cast to routing rule" [])
  end.

(** ValidateDestinationPolicy checks proxy policies *)
Definition ValidateDestinationPolicy (name namespace : string) (msg : Message) : option error :=
  match msg with
  | MsgDestinationPolicy policy =>
      let errs := None in
      let errs :=
        match routing.DestinationPolicy_Destination policy with
        | None => multierrorAppend1 errs
                    (errors_New "destination is required in the destination policy")
        | Some destination => appendIfError errs (ValidateIstioService destination)
        end in
      let errs :=
        match routing.DestinationPolicy_Source policy with
        | Some source => appendIfError errs (ValidateIstioService source)
        | None => errs
        end in
      let errs :=
        match routing.DestinationPolicy_LoadBalancing policy with
        | Some lb => appendIfError errs (ValidateLoadBalancing lb)
        | None => errs
        end in
      match routing.DestinationPolicy_CircuitBreaker policy with
      | Some cb => appendIfError errs (ValidateCircuitBreaker cb)
      | None => errs
      end
  | _ => Some (Errorf "cannot cast to destination policy" [])
  end.

(** *** Durations of the mesh and proxy configuration *)

(** Constants for duration fields *)
Definition discoveryRefreshDelayMax : Z := time.Minute * 10.
Definition discoveryRefreshDelayMin : Z := time.Second.

Definition connectTimeoutMax : Z := time.Second * 30.
Definition connectTimeoutMin : Z := time.Millisecond.

Definition drainTimeMax : Z := time.Hour.
Definition parentShutdownTimeMax : Z := time.Hour.

(** The parts of Go's library that the rest of the file uses and that are
    not embedded: the text of a [time.Duration] and of an [error],
    [net.SplitHostPort] and [strconv.Atoi] (each with the text of its error),
    and the two registries of protobuf message types. *)
Variable time_Duration_String : Z -> string.
Variable error_Error : error -> string.
Variable net_SplitHostPort : string -> (string * string) + string.
Variable strconv_Atoi : string -> Z + string.
Variable proto_MessageType : string -> bool.       (* whether the name is registered *)
Variable gogoproto_MessageType : string -> bool.

(** The first result of [ptypes.Duration], which is 0 beside an error. *)
Definition durationOf (pd : option Duration) : Z :=
  match ptypes.Duration pd with
  | inl dur => dur
  | inr _ => 0
  end.

(** ValidateDurationRange verifies range is in specified duration *)
Definition ValidateDurationRange (dur min max : Z) : option error :=
  if (max <? dur) || (dur <? min)
  then Some (Errorf "time %v must be >%v and <%v"
               [AString (time_Duration_String dur); AString (time_Duration_String min);
                AString (time_Duration_String max)])
  else None.

(** ValidateParentAndDrain checks that parent and drain durations are valid *)
Definition ValidateParentAndDrain (drainTime parentShutdown : option Duration) : option error :=
  let errs := None in
  let errs := appendPrefixed errs (ValidateDuration drainTime) "invalid drain duration:" [] in
  let errs := appendPrefixed errs (ValidateDuration parentShutdown)
                "invalid parent shutdown duration:" [] in
  match errs with
  | Some _ => errs
  | None =>
      let drainDuration := durationOf drainTime in
      let parentShutdownDuration := durationOf parentShutdown in
      let errs :=
        if negb (Z.rem drainDuration time.Second =? 0)
        then multierrorAppend1 errs
               (errors_New "drain time only supports durations to seconds precision")
        else errs in
      let errs :=
        if negb (Z.rem parentShutdownDuration time.Second =? 0)
        then multierrorAppend1 errs
               (errors_New "parent shutdown time only supports durations to seconds precision")
        else errs in
      let errs :=
        if parentShutdownDuration <=? drainDuration
        then multierrorAppend1 errs
               (Errorf "parent shutdown time %v must be greater than drain time %v"
                  [AString (time_Duration_String parentShutdownDuration);
                   AString (time_Duration_String drainDuration)])
        else errs in
      let errs :=
        if drainTimeMax <? drainDuration
        then multierrorAppend1 errs
               (Errorf "drain time %v must be <%v"
                  [AString (time_Duration_String drainDuration);
                   AString (time_Duration_String drainTimeMax)])
        else errs in
      if parentShutdownTimeMax <? parentShutdownDuration
      then multierrorAppend1 errs
             (Errorf "parent shutdown time %v must be <%v"
                [AString (time_Duration_String parentShutdownDuration);
                 AString (time_Duration_String parentShutdownTimeMax)])
      else errs
  end.

(** ValidateRefreshDelay validates the discovery refresh delay time *)
Definition ValidateRefreshDelay (refresh : option Duration) : option error :=
  match ValidateDuration refresh with
  | Some err => Some err
  | None =>
      let refreshDuration := durationOf refresh in
      ValidateDurationRange refreshDuration discoveryRefreshDelayMin discoveryRefreshDelayMax
  end.

(** ValidateConnectTimeout validates the envoy conncection timeout *)
Definition ValidateConnectTimeout (timeout : option Duration) : option error :=
  match ValidateDuration timeout with
  | Some err => Some err
  | None =>
      let timeoutDuration := durationOf timeout in
      ValidateDurationRange timeoutDuration connectTimeoutMin connectTimeoutMax
  end.

(** *** Mesh and proxy configuration *)

(** ValidateProxyAddress checks that a network address is well-formed *)
Definition ValidateProxyAddress (hostAddr : string) : option error :=
  match net_SplitHostPort hostAddr with
  | inr err => Some (Errorf "unable to split %q: %v" [AString hostAddr; AString err])
  | inl (host, p) =>
      match strconv_Atoi p with
      | inr err => Some (Errorf "port (%s) is not a number: %v" [AString p; AString err])
      | inl port =>
          match ValidatePort port with
          | Some err => Some err
          | None =>
              match ValidateFQDN host with
              | Some _ =>
                  match net_ParseIP host with
                  | None => Some (Errorf "%q is not a valid hostname or an IP address"
                                    [AString host])
                  | Some _ => None
                  end
              | None => None
              end
          end
      end
  end.

(** ValidateProxyConfig checks that the mesh config is well-formed *)
Definition ValidateProxyConfig (config : ProxyConfig) : option error :=
  let errs := None in
  let errs :=
    if bool_decide (ProxyConfig_ConfigPath config = "")
    then multierrorAppend1 errs (errors_New "config path must be set")
    else errs in
  let errs :=
    if bool_decide (ProxyConfig_BinaryPath config = "")
    then multierrorAppend1 errs (errors_New "binary path must be set")
    else errs in
  let errs :=
    if bool_decide (ProxyConfig_ServiceCluster config = "")
    then multierrorAppend1 errs (errors_New "service cluster must be set")
    else errs in
  let errs := appendPrefixed errs
                (ValidateParentAndDrain (ProxyConfig_DrainDuration config)
                   (ProxyConfig_ParentShutdownDuration config))
                "invalid parent and drain time combination" [] in
  let errs := appendPrefixed errs (ValidateRefreshDelay (ProxyConfig_DiscoveryRefreshDelay config))
                "invalid refresh delay:" [] in
  (* discovery address is mandatory since mutual TLS relies on CDS.
     strictly speaking, proxies can operate without RDS/CDS and with hot
     restarts but that requires additional test validation *)
  let errs :=
    if bool_decide (ProxyConfig_DiscoveryAddress config = "")
    then multierrorAppend1 errs
           (errors_New "discovery address must be set to the proxy discovery service")
    else appendPrefixed errs (ValidateProxyAddress (ProxyConfig_DiscoveryAddress config))
           "invalid discovery address:" [] in
  let errs :=
    if negb (bool_decide (ProxyConfig_ZipkinAddress config = ""))
    then appendPrefixed errs (ValidateProxyAddress (ProxyConfig_ZipkinAddress config))
           "invalid zipkin address:" []
    else errs in
  let errs := appendPrefixed errs (ValidateConnectTimeout (ProxyConfig_ConnectTimeout config))
                "invalid connect timeout:" [] in
  let errs :=
    if negb (bool_decide (ProxyConfig_StatsdUdpAddress config = ""))
    then appendPrefixed errs (ValidateProxyAddress (ProxyConfig_StatsdUdpAddress config))
           "invalid statsd udp address %q:" [AString (ProxyConfig_StatsdUdpAddress config)]
    else errs in
  let errs := appendPrefixed errs (ValidatePort (ProxyConfig_ProxyAdminPort config))
                "invalid proxy admin port:" [] in
  if (ProxyConfig_ControlPlaneAuthPolicy config =? AuthenticationPolicy_NONE)
     || (ProxyConfig_ControlPlaneAuthPolicy config =? AuthenticationPolicy_MUTUAL_TLS)
  then errs
  else multierrorAppend1 errs
         (Errorf "unrecognized control plane auth policy %q"
            [AInt (ProxyConfig_ControlPlaneAuthPolicy config)]).

(** ValidateMeshConfig checks that the mesh config is well-formed *)
Definition ValidateMeshConfig (mesh : MeshConfig) : option error :=
  let errs := None in
  let errs :=
    if negb (bool_decide (MeshConfig_MixerCheckServer mesh = ""))
    then appendPrefixed errs (ValidateProxyAddress (MeshConfig_MixerCheckServer mesh))
           "invalid Policy Check Server address:" []
    else errs in
  let errs :=
    if negb (bool_decide (MeshConfig_MixerReportServer mesh = ""))
    then appendPrefixed errs (ValidateProxyAddress (MeshConfig_MixerReportServer mesh))
           "invalid Telemetry Server address:" []
    else errs in
  let errs := appendPrefixed errs (ValidatePort (MeshConfig_ProxyListenPort mesh))
                "invalid proxy listen port:" [] in
  let errs := appendPrefixed errs (ValidateConnectTimeout (MeshConfig_ConnectTimeout mesh))
                "invalid connect timeout:" [] in
  let errs :=
    if (MeshConfig_AuthPolicy mesh =? MeshConfig_NONE)
       || (MeshConfig_AuthPolicy mesh =? MeshConfig_MUTUAL_TLS)
    then errs
    else multierrorAppend1 errs
           (Errorf "unrecognized auth policy %q" [AInt (MeshConfig_AuthPolicy mesh)]) in
  let errs := appendPrefixed errs (ValidateRefreshDelay (MeshConfig_RdsRefreshDelay mesh))
                "invalid refresh delay:" [] in
  match MeshConfig_DefaultConfig mesh with
  | None => multierrorAppend1 errs (errors_New "missing default config")
  | Some config => appendIfError errs (ValidateProxyConfig config)
  end.

(** *** Services and configuration descriptors *)

(** Validate ensures that the service object is well-defined *)
Definition Service_Validate (s : Service) : option error :=
  let errs := None in
  let errs :=
    if GoStrings.len (Service_Hostname s) =? 0
    then multierrorAppend1 errs (Errorf "invalid empty hostname" [])
    else errs in
  let parts := GoStrings.Split (Service_Hostname s) "." in
  let errs :=
    fold_left
      (fun errs part =>
         if negb (IsDNS1123Label part)
         then multierrorAppend1 errs (Errorf "invalid hostname part: %q" [AString part])
         else errs)
      parts errs in
  (* Require at least one port *)
  let errs :=
    if isEmpty (Service_Ports s)
    then multierrorAppend1 errs (Errorf "service must have at least one declared port" [])
    else errs in
  (* Port names can be empty if there exists only one port *)
  fold_left
    (fun errs port =>
       let errs :=
         if bool_decide (ServicePort_Name port = "")
         then
           if 1 <? Z.of_nat (List.length (Service_Ports s))
           then multierrorAppend1 errs
                  (Errorf "empty port names are not allowed for services with multiple ports" [])
           else errs
         else if negb (IsDNS1123Label (ServicePort_Name port))
         then multierrorAppend1 errs (Errorf "invalid name: %q" [AString (ServicePort_Name port)])
         else errs in
       match ValidatePort (ServicePort_Port port) with
       | Some err =>
           multierrorAppend1 errs
             (Errorf "invalid service port value %d for %q: %v"
                [AInt (ServicePort_Port port); AString (ServicePort_Name port);
                 AString (error_Error err)])
       | None => errs
       end)
    (Service_Ports s) errs.

(** Validate checks that each name conforms to the spec and has a
    ProtoMessage.  The failure for the plural prints the type. *)
Definition ConfigDescriptor_Validate (descriptor : list ProtoSchema) : option error :=
  let '(errs, _, _, _) :=
    fold_left
      (fun (st : option error * gset string * gset string * gset string) v =>
         let '(errs, descriptorTypes, messages, clusterMessages) := st in
         let errs :=
           if negb (IsDNS1123Label (ProtoSchema_Type v))
           then multierrorAppend1 errs (Errorf "invalid type: %q" [AString (ProtoSchema_Type v)])
           else errs in
         let errs :=
           if negb (IsDNS1123Label (ProtoSchema_Plural v))
           then multierrorAppend1 errs (Errorf "invalid plural: %q" [AString (ProtoSchema_Type v)])
           else errs in
         let errs :=
           if negb (proto_MessageType (ProtoSchema_MessageName v))
              && negb (gogoproto_MessageType (ProtoSchema_MessageName v))
           then multierrorAppend1 errs
                  (Errorf "cannot discover proto message type: %q"
                     [AString (ProtoSchema_MessageName v)])
           else errs in
         let errs :=
           if bool_decide (ProtoSchema_Type v ∈ descriptorTypes)
           then multierrorAppend1 errs (Errorf "duplicate type: %q" [AString (ProtoSchema_Type v)])
           else errs in
         let descriptorTypes := {[ ProtoSchema_Type v ]} ∪ descriptorTypes in
         if ProtoSchema_ClusterScoped v
         then
           let errs :=
             if bool_decide (ProtoSchema_MessageName v ∈ clusterMessages)
             then multierrorAppend1 errs
                    (Errorf "duplicate message type: %q" [AString (ProtoSchema_MessageName v)])
             else errs in
           (errs, descriptorTypes, messages, {[ ProtoSchema_MessageName v ]} ∪ clusterMessages)
         else
           let errs :=
             if bool_decide (ProtoSchema_MessageName v ∈ messages)
             then multierrorAppend1 errs
                    (Errorf "duplicate message type: %q" [AString (ProtoSchema_MessageName v)])
             else errs in
           (errs, descriptorTypes, {[ ProtoSchema_MessageName v ]} ∪ messages, clusterMessages))
      descriptor (None, ∅, ∅, ∅) in
  errs.

(** ** Quantities the properties speak of *)

(** The sum of the weights of a legacy destination-weight set, as a
    mathematical integer. *)
Definition weightSum (routes : list routing.DestinationWeight) : Z :=
  fold_right Z.add 0 (map routing.DestinationWeight_Weight routes).

(** The failure [ValidateWeights] reports for a total. *)
Definition weightSumError (sum : Z) : error :=
  Errorf "route weights total %v (must total 100)" [AInt sum].

(** Every byte. *)
Definition all_ascii : list ascii := map ascii_of_nat (seq 0 256).

(** Whether an expression reads only bytes that [allowed] accepts. *)
Fixpoint regexChars (allowed : ascii -> bool) (r : Regexp.regex) : bool :=
  match r with
  | Regexp.Eps | Regexp.Bol | Regexp.Eol => true
  | Regexp.Chr c => allowed c
  | Regexp.Class items =>
      forallb (fun c => implb (Regexp.inClass items c) (allowed c)) all_ascii
  | Regexp.Cat a b | Regexp.Alt a b => regexChars allowed a && regexChars allowed b
  | Regexp.Opt a | Regexp.Star a => regexChars allowed a
  end.

(** Whether an expression is a sequence that ends in [$]. *)
Fixpoint endsWithEol (r : Regexp.regex) : bool :=
  match r with
  | Regexp.Eol => true
  | Regexp.Cat _ b => endsWithEol b
  | _ => false
  end.

(** The bytes of a DNS-1123 label: letters, digits and the hyphen. *)
Definition labelByte (c : ascii) : bool :=
  Regexp.inClass [("-", "-"); ("a", "z"); ("A", "Z"); ("0", "9")]%char c.

(** The failure [ValidateMixerAttributes] reports for attributes that are
    nil or empty, and how many times it occurs among failures. *)
Definition isNilAttributesError (e : error) : bool :=
  match e with
  | Errorf format [] => String.eqb format "list of attributes is nil/empty"
  | _ => false
  end.

Definition countNilAttributesErrors (l : list error) : nat :=
  List.length (List.filter isNilAttributesError l).

(** The format text of a failure, and that the failures of an outcome
    all have one of the given format texts. *)
Definition formatOf (e : error) : string :=
  match e with
  | Errorf format _ => format
  | Wrapped prefix _ _ => prefix
  | MultiError _ => ""
  end.

Definition formatsWithin (allowed : list string) (errs : option error) : Prop :=
  Forall (fun e => In (formatOf e) allowed) (failuresOf errs).

(** The failures of the service entry that depend on the resolution mode. *)
Definition noEndpointsError : error :=
  Errorf "no endpoints should be provided for discovery type none" [].
Definition endpointsRequiredError : error :=
  Errorf "endpoints must be provided if service entry discovery mode is static" [].
Definition unixPortsError (addr : string) : error :=
  Errorf "unix endpoint %s must not include ports" [AString addr].
Definition onePortForUnixError : error :=
  errors_New "exactly 1 service port required for unix endpoints".

(** The endpoint of the end-to-end scenario: a Unix domain socket, with
    no ports and no labels of its own. *)
Definition unixSocketEndpoint : networking.ServiceEntry_Endpoint :=
  {| networking.Endpoint_Address := "unix:///var/run/sock";
     networking.Endpoint_Ports := ∅;
     networking.Endpoint_Labels := ∅ |}.

(** The format texts of the other failures of a service entry whose
    resolution mode is NONE or STATIC. *)
Definition serviceEntryFormats : list string :=
  [ "service entry must have at least one host";
    "invalid host %s";
    "domain name %q too long (max 255)";
    "empty domain name not allowed";
    "domain name %q invalid (label %q invalid)";
    "%v is not a valid CIDR block";
    "%v is not a valid IPv4 address";
    "%v is not a valid IP";
    "service entry port name %q already defined";
    "service entry port %d already defined";
    "endpoints must be provided if service entry discovery mode is static";
    "unix address must not be empty";
    "%s is not an absolute path";
    "unix endpoint %s must not include ports";
    "endpoint port %v is not defined by the service entry";
    "invalid tag key: %q";
    "invalid tag value: %q";
    "invalid port name: %s";
    "unsupported protocol: %s";
    "port number %d must be in the range 1..65535" ].

(** The sum of the weights of the destinations of an HTTP route, as a
    mathematical integer, and the failure [validateHTTPRoute] reports for a
    total. *)
Definition destinationWeightSum (routes : list networking.DestinationWeight) : Z :=
  fold_right Z.add 0 (map networking.DestinationWeight_Weight routes).

Definition totalWeightError (total : Z) : error :=
  Errorf "total destination weight %v > 100" [AInt total].

(** No failure of an outcome has the given format text. *)
Definition formatsAvoid (format : string) (errs : option error) : Prop :=
  Forall (fun e => formatOf e <> format) (failuresOf errs).

Definition totalWeightFormat : string := "total destination weight %v > 100".

(** An HTTP route with nothing set but its destinations. *)
Definition routeTo (routes : list networking.DestinationWeight) : networking.HTTPRoute :=
  {| networking.HTTPRoute_Match := [];
     networking.HTTPRoute_Route := routes;
     networking.HTTPRoute_Redirect := None;
     networking.HTTPRoute_Rewrite := None;
     networking.HTTPRoute_WebsocketUpgrade := false;
     networking.HTTPRoute_Timeout := None;
     networking.HTTPRoute_Retries := None;
     networking.HTTPRoute_Fault := None;
     networking.HTTPRoute_Mirror := None;
     networking.HTTPRoute_CorsPolicy := None;
     networking.HTTPRoute_AppendHeaders := ∅ |}.

Definition weighted (host : string) (weight : Z) : networking.DestinationWeight :=
  {| networking.DestinationWeight_Destination :=
       Some {| networking.Destination_Host := host;
               networking.Destination_Subset := "";
               networking.Destination_Port := None |};
     networking.DestinationWeight_Weight := weight |}.

(** The checks of a gateway, each with its outcome: the count of the
    servers or else [validateServer] for each server, then for each server
    whether the name of its port was seen on an earlier server. *)
Fixpoint duplicatePortNameChecks (portNames : gset string) (servers : list networking.Server)
  : list (option error) :=
  match servers with
  | [] => []
  | s :: rest =>
      match networking.Server_Port s with
      | None => []
      | Some port =>
          (if bool_decide (networking.Port_Name port ∈ portNames)
           then Some (Errorf "port names in servers must be unique: duplicate name %s"
                        [AString (networking.Port_Name port)])
           else None)
          :: duplicatePortNameChecks ({[ networking.Port_Name port ]} ∪ portNames) rest
      end
  end.

(** The checks of a route rule, each with its outcome, in the order in
    which [ValidateRouteRule] makes them. *)
Definition routeRuleDestinationChecks (value : routing.RouteRule) : list (option error) :=
  match routing.RouteRule_Destination value with
  | None => [Some (Errorf "route rule must have a destination service" [])]
  | Some destination =>
      [ValidateIstioService destination;
       if negb (bool_decide (routing.IstioService_Labels destination = ∅))
       then Some (errors_New "route rule destination labels must be empty")
       else None]
  end.

Definition routeRuleMatchChecks (value : routing.RouteRule) : list (option error) :=
  [routing.RouteRule_Match value ≫= ValidateMatchCondition].

Definition routeRuleRewriteChecks (value : routing.RouteRule) : list (option error) :=
  match routing.RouteRule_Rewrite value with
  | Some rewrite =>
      [if bool_decide (routing.HTTPRewrite_Uri rewrite = "")
          && bool_decide (routing.HTTPRewrite_Authority rewrite = "")
       then Some (errors_New "rewrite must specify path, host, or both")
       else None]
  | None => []
  end.

Definition routeRuleRedirectChecks (value : routing.RouteRule) : list (option error) :=
  match routing.RouteRule_Redirect value with
  | Some redirect =>
      [if negb (isEmpty (default [] (routing.RouteRule_Route value)))
       then Some (errors_New "rule cannot contain both route and redirect")
       else None;
       match routing.RouteRule_HttpFault value with
       | Some _ => Some (errors_New "rule cannot contain both fault and redirect")
       | None => None
       end;
       if bool_decide (routing.HTTPRedirect_Authority redirect = "")
          && bool_decide (routing.HTTPRedirect_Uri redirect = "")
       then Some (errors_New "redirect must specify path, host, or both")
       else None;
       if routing.RouteRule_WebsocketUpgrade value
       then Some (errors_New "WebSocket upgrade is not allowed on redirect rules")
       else None]
  | None => []
  end
  ++ [match routing.RouteRule_Redirect value, routing.RouteRule_Rewrite value with
      | Some _, Some _ => Some (errors_New "rule cannot contain both rewrite and redirect")
      | _, _ => None
      end].

Definition routeRuleRouteChecks (value : routing.RouteRule) : list (option error) :=
  match routing.RouteRule_Route value with
  | Some route => map ValidateDestinationWeight route ++ [ValidateWeights route]
  | None => []
  end.

Definition routeRuleMirrorChecks (value : routing.RouteRule) : list (option error) :=
  [routing.RouteRule_Mirror value ≫= ValidateIstioService].

Definition routeRuleHeaderChecks (value : routing.RouteRule) : list (option error) :=
  flat_map
    (fun '(name, val) =>
       [ValidateHTTPHeaderName name;
        if bool_decide (val = "")
        then Some (Errorf "appended header %q must have a non-empty value" [AString name])
        else None])
    (map_to_list (routing.RouteRule_AppendHeaders value)).

Definition routeRuleCorsChecks (value : routing.RouteRule) : list (option error) :=
  match routing.RouteRule_CorsPolicy value with
  | Some corsPolicy =>
      match routing.CorsPolicy_MaxAge corsPolicy with
      | Some maxAge =>
          [ValidateDuration (Some maxAge);
           if 0 <? Nanos maxAge
           then Some (errors_New "max_age duration is accurate only to seconds precision")
           else None]
      | None => []
      end
      ++ map ValidateHTTPHeaderName (routing.CorsPolicy_AllowHeaders corsPolicy)
      ++ map ValidateHTTPHeaderName (routing.CorsPolicy_ExposeHeaders corsPolicy)
      ++ map (fun method =>
                if negb (bool_decide (method ∈ supportedMethods))
                then Some (Errorf "%q is not a supported HTTP method" [AString method])
                else None)
           (routing.CorsPolicy_AllowMethods corsPolicy)
  | None => []
  end.

Definition routeRuleHTTPChecks (value : routing.RouteRule) : list (option error) :=
  [routing.RouteRule_HttpReqTimeout value ≫= ValidateHTTPTimeout;
   routing.RouteRule_HttpReqRetries value ≫= ValidateHTTPRetries;
   routing.RouteRule_HttpFault value ≫= ValidateHTTPFault].

Definition routeRuleL4FaultChecks (value : routing.RouteRule) : list (option error) :=
  match routing.RouteRule_L4Fault value with
  | Some fault => [ValidateL4Fault fault; Some (Errorf "L4 faults are not implemented" [])]
  | None => []
  end.

Definition routeRuleChecks (value : routing.RouteRule) : list (option error) :=
  routeRuleDestinationChecks value
  ++ routeRuleMatchChecks value
  ++ routeRuleRewriteChecks value
  ++ routeRuleRedirectChecks value
  ++ routeRuleRouteChecks value
  ++ routeRuleMirrorChecks value
  ++ routeRuleHeaderChecks value
  ++ routeRuleCorsChecks value
  ++ routeRuleHTTPChecks value
  ++ routeRuleL4FaultChecks value.

(** A failure with a prefix put before it, when there is a failure. *)
Definition prefixed (prefix : string) (err : option error) : list error :=
  match err with
  | Some e => [Wrapped prefix [] e]
  | None => []
  end.

(** The bytes a DNS-1123 label begins and ends with: letters and digits;
    and the bytes of a tag: letters, digits and [-], [_], [.], [/]. *)
Definition alnumByte (c : ascii) : bool :=
  Regexp.inClass [("a", "z"); ("A", "Z"); ("0", "9")]%char c.

Definition tagByte (c : ascii) : bool :=
  Regexp.inClass [("-", "-"); ("A", "Z"); ("a", "z"); ("0", "9"); ("_", "_"); (".", ".");
                  ("/", "/")]%char c.

(** The text of a DNS-1123 label: letters, digits and hyphens, the first
    and the last byte a letter or digit. *)
Definition labelText (l : list ascii) : bool :=
  match l with
  | [] => false
  | c :: _ => alnumByte c && forallb labelByte l && alnumByte (List.last l c)
  end.

(** The texts the expression of the wildcard prefix matches: those that
    begin with an asterisk and those that end with a letter or digit. *)
Definition wildcardText (l : list ascii) : bool :=
  match l with
  | [] => false
  | c :: _ => Ascii.eqb c "*" || alnumByte (List.last l c)
  end.

(** The part of the label expression after [^]: a letter or digit, then
    possibly letters, digits and hyphens and a letter or digit.  It reads a
    label text, and nothing else, up to the position it ends at. *)
Definition labelBody : Regexp.regex :=
  Regexp.Cat (Regexp.Class [("a", "z"); ("A", "Z"); ("0", "9")]%char)
    (Regexp.Opt
       (Regexp.Cat
          (Regexp.Star
             (Regexp.Class [("-", "-"); ("a", "z"); ("-", "-"); ("A", "Z"); ("0", "9")]%char))
          (Regexp.Class [("a", "z"); ("A", "Z"); ("0", "9")]%char))).

(** Whether every element of a list passes a test that depends on a state
    the loop carries from one element to the next. *)
Fixpoint passesAll {A S : Type} (next : S -> A -> S) (ok : S -> A -> bool) (st : S)
  (l : list A) : bool :=
  match l with
  | [] => true
  | x :: rest => ok st x && passesAll next ok (next st x) rest
  end.

(** The name of the port of a server; the empty text when the port is not
    set. *)
Definition serverPortName (s : networking.Server) : string :=
  match networking.Server_Port s with
  | Some port => networking.Port_Name port
  | None => ""
  end.

(** The total of the weights as the loop of [validateHTTPRoute] computes
    it, in an [int32]. *)
Definition totalWeight (routes : list networking.DestinationWeight) : Z :=
  fold_left (fun total route => wrap32 (total + networking.DestinationWeight_Weight route))
    routes 0.

(** Whether an attribute is a duration attribute whose value is nil. *)
Definition holdsNilDuration (v : mpb.Attributes_AttributeValue) : bool :=
  match mpb.AttributeValue_Value v with
  | Some (mpb.Attributes_AttributeValue_DurationValue None) => true
  | _ => false
  end.

(** The issuers of the JWTs of the peer methods and of the origin methods
    of an authentication policy, in the order of the methods. *)
Definition peerIssuers (peers : list authn.PeerAuthenticationMethod) : list string :=
  omap (fun method => authn.Jwt_Issuer <$> authn.PeerAuthenticationMethod_GetJwt method) peers.

Definition originIssuers (origins : list authn.OriginAuthenticationMethod) : list string :=
  omap (fun method => authn.Jwt_Issuer <$> authn.OriginAuthenticationMethod_Jwt method) origins.

(** * Properties *)

Local Open Scope list_scope.
Set Default Proof Using "Type".

(** ** The error accumulator *)

Lemma failures_flatten (e : option error) :
  flat_map failures (multierror.flatten e) = failuresOf e.
Proof.
  destruct e as [[f a | p a i | l] |]; simpl; try reflexivity.
Qed.

Lemma flat_map_flatten (errs : list (option error)) :
  flat_map failures (flat_map multierror.flatten errs) = flat_map failuresOf errs.
Proof.
  induction errs as [| e errs IH]; simpl; [reflexivity |].
  rewrite flat_map_app, failures_flatten, IH. reflexivity.
Qed.

Lemma failures_Append (err : option error) (errs : list (option error)) :
  failures (multierror.Append err errs) = failuresOf err ++ flat_map failuresOf errs.
Proof.
  unfold multierror.Append.
  destruct err as [[f a | p a i | l] |]; simpl;
    rewrite ?flat_map_app, ?flat_map_flatten; reflexivity.
Qed.

Lemma failuresOf_multierrorAppend1 (errs : option error) (err : error) :
  failuresOf (multierrorAppend1 errs err) = failuresOf errs ++ failures err.
Proof.
  unfold multierrorAppend1. cbn [failuresOf]. rewrite failures_Append.
  simpl. rewrite app_nil_r. reflexivity.
Qed.

Lemma failuresOf_appendError (err err2 : option error) :
  failuresOf (appendError err err2) = failuresOf err ++ failuresOf err2.
Proof.
  destruct err as [e |], err2 as [e2 |]; cbn [appendError failuresOf].
  - rewrite failures_Append. simpl. rewrite app_nil_r. reflexivity.
  - rewrite app_nil_r. reflexivity.
  - reflexivity.
  - reflexivity.
Qed.

Lemma failuresOf_appendErrors (err : option error) (errs : list (option error)) :
  failuresOf (appendErrors err errs) = failuresOf err ++ flat_map failuresOf errs.
Proof.
  unfold appendErrors. revert err.
  induction errs as [| e errs IH]; intros err; simpl.
  - rewrite app_nil_r. reflexivity.
  - rewrite IH, failuresOf_appendError, <- app_assoc. reflexivity.
Qed.

Lemma appendError_None (err err2 : option error) :
  appendError err err2 = None <-> err = None /\ err2 = None.
Proof.
  destruct err, err2; simpl; split; intros H; try discriminate;
    try (split; reflexivity); destruct H; discriminate.
Qed.

Lemma appendErrors_None (err : option error) (errs : list (option error)) :
  appendErrors err errs = None <-> Forall (fun e => e = None) (err :: errs).
Proof.
  unfold appendErrors. revert err.
  induction errs as [| e errs IH]; intros err; simpl.
  - split; intros H.
    + constructor; [exact H | constructor].
    + inversion H; assumption.
  - rewrite IH. split; intros H.
    + inversion H as [| x l Hx Hl]; subst. apply appendError_None in Hx as [-> ->].
      repeat constructor. exact Hl.
    + inversion H as [| x l Hx Hl]; subst. inversion Hl as [| y l' Hy Hl']; subst.
      constructor; [reflexivity | exact Hl'].
Qed.

Lemma appendErrors_app (err : option error) (errs errs2 : list (option error)) :
  appendErrors (appendErrors err errs) errs2 = appendErrors err (errs ++ errs2).
Proof.
  unfold appendErrors. rewrite fold_left_app. reflexivity.
Qed.

Lemma appendError_assoc (a b c : option error) :
  appendError (appendError a b) c = appendError a (appendError b c).
Proof.
  destruct a as [a |], b as [b |], c as [c |]; try reflexivity.
  cbn [appendError]. f_equal.
  destruct a as [? ? | ? ? ? | la], b as [? ? | ? ? ? | lb], c as [? ? | ? ? ? | lc];
    simpl; rewrite ?app_nil_r, <- ?app_assoc; reflexivity.
Qed.

(** C1.  [appendErrors] returns nil iff every input is nil; otherwise the
    result is present and its failures are those of the inputs, in order,
    each one of them in the list that [failures] enumerates; merging is
    associative, and whether the result is nil does not depend on the order
    of the inputs. *)
Theorem appendErrors_aggregates_every_failure :
  forall (err : option error) (errs : list (option error)),
    (appendErrors err errs = None <-> Forall (fun e => e = None) (err :: errs))
    /\ failuresOf (appendErrors err errs) = flat_map failuresOf (err :: errs)
    /\ (forall e, In (Some e) (err :: errs) ->
          exists r, appendErrors err errs = Some r /\ incl (failures e) (failures r))
    /\ (forall errs2, appendErrors (appendErrors err errs) errs2 = appendErrors err (errs ++ errs2))
    /\ (forall a b c, appendErrors (appendErrors a [b]) [c] = appendErrors a [appendErrors b [c]])
    /\ (forall err' errs', Permutation (err :: errs) (err' :: errs') ->
          (appendErrors err errs = None <-> appendErrors err' errs' = None)).
Proof.
  intros err errs.
  assert (Hf : failuresOf (appendErrors err errs) = flat_map failuresOf (err :: errs))
    by (rewrite failuresOf_appendErrors; reflexivity).
  split; [apply appendErrors_None |].
  split; [exact Hf |].
  split; [| split; [| split]].
  - intros e He.
    destruct (appendErrors err errs) as [r |] eqn:Hr.
    + exists r. split; [reflexivity |].
      change (failures r) with (failuresOf (Some r)). rewrite Hf.
      intros x Hx. apply in_flat_map. exists (Some e). split; [exact He | exact Hx].
    + exfalso. apply appendErrors_None in Hr.
      rewrite List.Forall_forall in Hr. specialize (Hr _ He). discriminate.
  - intros errs2. apply appendErrors_app.
  - intros a b c. cbn [appendErrors fold_left]. apply appendError_assoc.
  - intros err' errs' HP. rewrite !appendErrors_None.
    split; intros H; eapply Permutation_Forall; try eassumption.
    symmetry; assumption.
Qed.

(** ** Durations *)

(** C8.  [ValidateDuration] fails exactly when the duration does not decode,
    or decodes to less than a millisecond, or to a span that is not a whole
    number of milliseconds, and succeeds otherwise; 500µs and 1500µs fail,
    1500ms succeeds. *)
Theorem ValidateDuration_fails_exactly :
  (forall pd : option Duration,
      (ValidateDuration pd <> None <->
         (exists err, ptypes.Duration pd = inr err)
         \/ (exists dur, ptypes.Duration pd = inl dur
                         /\ (dur < time.Millisecond \/ Z.rem dur time.Millisecond <> 0)))
      /\ (ValidateDuration pd = None <->
            exists dur, ptypes.Duration pd = inl dur
                        /\ time.Millisecond <= dur /\ Z.rem dur time.Millisecond = 0))
  /\ ValidateDuration (Some {| Seconds := 0; Nanos := 500000 |})
     = Some (errors_New "duration must be greater than 1ms")
  /\ ValidateDuration (Some {| Seconds := 0; Nanos := 1500000 |})
     = Some (errors_New "only durations to ms precision are supported")
  /\ ValidateDuration (Some {| Seconds := 1; Nanos := 500000000 |}) = None.
Proof.
  split; [| repeat split; reflexivity].
  intros pd. unfold ValidateDuration.
  destruct (ptypes.Duration pd) as [dur | err].
  - destruct (Z.ltb_spec dur time.Millisecond) as [Hlt | Hge].
    + split; split.
      * intros _. right. exists dur. split; [reflexivity | left; exact Hlt].
      * intros _. discriminate.
      * discriminate.
      * intros (d & Hd & Hms & _). injection Hd as <-. lia.
    + destruct (Z.eqb_spec (Z.rem dur time.Millisecond) 0) as [Hz | Hnz]; cbn [negb].
      * split; split.
        -- intros H. contradiction H. reflexivity.
        -- intros [(e & He) | (d & Hd & [Hd1 | Hd2])]; try discriminate;
             injection Hd as <-; [lia | contradiction].
        -- intros _. exists dur. repeat split; assumption.
        -- reflexivity.
      * split; split.
        -- intros _. right. exists dur. split; [reflexivity | right; exact Hnz].
        -- intros _. discriminate.
        -- discriminate.
        -- intros (d & Hd & _ & Hr). injection Hd as <-. contradiction.
  - split; split.
    + intros _. left. exists err. reflexivity.
    + intros _. discriminate.
    + discriminate.
    + intros (d & Hd & _). discriminate.
Qed.

(** ** The legacy destination weights *)

Lemma wrap64_small (z : Z) : - 2 ^ 63 <= z < 2 ^ 63 -> wrap64 z = z.
Proof.
  intros H. unfold wrap64.
  change (2 ^ 63) with 9223372036854775808 in *.
  change (2 ^ 64) with 18446744073709551616.
  rewrite Z.mod_small; lia.
Qed.

Lemma wrap32_small (z : Z) : - 2 ^ 31 <= z < 2 ^ 31 -> wrap32 z = z.
Proof.
  intros H. unfold wrap32.
  change (2 ^ 31) with 2147483648 in *.
  change (2 ^ 32) with 4294967296.
  rewrite Z.mod_small; lia.
Qed.

(** The loop of [ValidateWeights] computes the sum as long as fewer than
    2^32 weights, each an [int32], are added. *)
Lemma sum_loop_exact (routes : list routing.DestinationWeight) :
  Forall (fun r => int32_range (routing.DestinationWeight_Weight r)) routes ->
  forall (acc n : Z),
    0 <= n -> - (2 ^ 31 * n) <= acc <= 2 ^ 31 * n ->
    n + Z.of_nat (List.length routes) <= 2 ^ 32 ->
    fold_left (fun sum destWeight => wrap64 (sum + routing.DestinationWeight_Weight destWeight))
      routes acc
    = acc + weightSum routes.
Proof.
  induction 1 as [| r routes Hr Hrs IH]; intros acc n Hn Hacc Hlen.
  - unfold weightSum. simpl. lia.
  - cbn [fold_left]. unfold int32_range in Hr.
    change (2 ^ 31) with 2147483648 in *. change (2 ^ 32) with 4294967296 in *.
    cbn [List.length] in Hlen.
    rewrite wrap64_small by (change (2 ^ 63) with 9223372036854775808; lia).
    rewrite (IH _ (n + 1)) by lia.
    unfold weightSum. simpl. lia.
Qed.

(** C4.  A single entry of weight 0 is accepted; any other list is accepted
    iff its weights sum to 100 and is otherwise reported with the
    weight-sum failure; [{100}] succeeds and [{60}, {30}] fails.  The
    weights are [int32] values and the list has at most 2^32 entries, so
    that the 64-bit sum of the code is the sum. *)
Theorem ValidateWeights_sum_rule :
  forall routes : list routing.DestinationWeight,
    Forall (fun r => int32_range (routing.DestinationWeight_Weight r)) routes ->
    Z.of_nat (List.length routes) <= 2 ^ 32 ->
    ((exists r, routes = [r] /\ routing.DestinationWeight_Weight r = 0) ->
       ValidateWeights routes = None)
    /\ (~ (exists r, routes = [r] /\ routing.DestinationWeight_Weight r = 0) ->
          (ValidateWeights routes = Some (MultiError [weightSumError (weightSum routes)])
             <-> weightSum routes <> 100)
          /\ (ValidateWeights routes = None <-> weightSum routes = 100))
    /\ (forall labels,
          ValidateWeights [ {| routing.DestinationWeight_Labels := labels;
                               routing.DestinationWeight_Weight := 100 |} ] = None
          /\ ValidateWeights [ {| routing.DestinationWeight_Labels := labels;
                                  routing.DestinationWeight_Weight := 60 |};
                               {| routing.DestinationWeight_Labels := labels;
                                  routing.DestinationWeight_Weight := 30 |} ]
             = Some (MultiError [weightSumError 90])).
Proof.
  intros routes Hrange Hlen.
  assert (Hsum : fold_left (fun sum destWeight =>
                              wrap64 (sum + routing.DestinationWeight_Weight destWeight)) routes 0
                 = weightSum routes).
  { rewrite (sum_loop_exact routes Hrange 0 0) by lia. lia. }
  unfold ValidateWeights. rewrite Hsum.
  split; [| split].
  - intros (r & -> & Hr). unfold weightSum. simpl. rewrite Hr. reflexivity.
  - intros Hnot.
    assert (Hguard : (Z.of_nat (List.length routes) =? 1) && (weightSum routes =? 0) = false).
    { apply andb_false_iff.
      destruct (Z.eqb_spec (Z.of_nat (List.length routes)) 1) as [H1 | H1]; [| left; reflexivity].
      right. apply Z.eqb_neq. intros H0. apply Hnot.
      destruct routes as [| r [| r' routes]]; simpl in H1; try lia.
      exists r. split; [reflexivity |]. unfold weightSum in H0. simpl in H0. lia. }
    rewrite Hguard.
    destruct (Z.eqb_spec (weightSum routes) 100) as [H100 | H100]; cbn [negb].
    + split; split; intros H; try reflexivity; try assumption; try discriminate.
      contradiction.
    + split; split; intros H; try reflexivity; try assumption; try discriminate.
      contradiction.
  - intros labels. split; reflexivity.
Qed.

(** ** Regular expressions and domain names *)

Lemma regexps_compile :
  Regexp.Compile ("^" +:+ dns1123LabelFmt +:+ "$") = Some dns1123LabelRegexp
  /\ Regexp.Compile ("^" +:+ qualifiedNameFmt +:+ "$") = Some tagRegexp
  /\ Regexp.Compile ("^" +:+ wildcardPrefix +:+ "$") = Some wildcardPrefixRegexp.
Proof. repeat split; vm_compute; reflexivity. Qed.

Lemma all_ascii_complete (c : ascii) : In c all_ascii.
Proof.
  unfold all_ascii. apply in_map_iff. exists (nat_of_ascii c). split.
  - apply ascii_nat_embedding.
  - apply in_seq. pose proof (nat_ascii_bounded c). lia.
Qed.

Section Run.

Variable allowed : ascii -> bool.

(** [q] is reached from [p] by reading allowed bytes. *)
Definition reads (p q : Regexp.pos) : Prop :=
  exists w, snd p = w ++ snd q /\ forallb allowed w = true.

Lemma reads_refl (p : Regexp.pos) : reads p p.
Proof. exists []. split; reflexivity. Qed.

Lemma reads_trans (p q r : Regexp.pos) : reads p q -> reads q r -> reads p r.
Proof.
  intros (w1 & H1 & A1) (w2 & H2 & A2). exists (w1 ++ w2). split.
  - rewrite H1, H2, app_assoc. reflexivity.
  - rewrite forallb_app, A1, A2. reflexivity.
Qed.

Lemma iterate_reads (step : Regexp.pos -> list Regexp.pos) :
  (forall p q, In q (step p) -> reads p q) ->
  forall fuel p q, In q (Regexp.iterate fuel step p) -> reads p q.
Proof.
  intros Hstep. induction fuel as [| fuel IH]; intros p q Hq; simpl in Hq.
  - destruct Hq as [<- | []]. apply reads_refl.
  - destruct Hq as [<- | Hq]; [apply reads_refl |].
    apply in_flat_map in Hq as (m & Hm & Hq).
    apply List.filter_In in Hm as [Hm _].
    eapply reads_trans; [apply Hstep; exact Hm | apply IH; exact Hq].
Qed.

Lemma run_reads (r : Regexp.regex) :
  regexChars allowed r = true ->
  forall p q, In q (Regexp.run r p) -> reads p q.
Proof.
  induction r as [| c | items | | | r1 IH1 r2 IH2 | r1 IH1 r2 IH2 | r IH | r IH];
    intros Hr p q Hq; cbn [regexChars] in Hr; cbn [Regexp.run] in Hq.
  - destruct Hq as [<- | []]. apply reads_refl.
  - destruct p as [b [| c' t]]; cbn [snd] in Hq; [destruct Hq |].
    destruct (Ascii.eqb_spec c c') as [<- | Hne]; [| destruct Hq].
    destruct Hq as [<- | []]. exists [c]. split; [reflexivity |].
    simpl. rewrite Hr. reflexivity.
  - destruct p as [b [| c' t]]; cbn [snd] in Hq; [destruct Hq |].
    destruct (Regexp.inClass items c') eqn:Hc; [| destruct Hq].
    destruct Hq as [<- | []]. exists [c']. split; [reflexivity |].
    rewrite forallb_forall in Hr. specialize (Hr c' (all_ascii_complete c')).
    rewrite Hc in Hr. simpl in Hr. simpl. rewrite Hr. reflexivity.
  - destruct (fst p); [| destruct Hq]. destruct Hq as [<- | []]. apply reads_refl.
  - destruct (snd p); [| destruct Hq]. destruct Hq as [<- | []]. apply reads_refl.
  - apply andb_true_iff in Hr as [Hr1 Hr2].
    apply in_flat_map in Hq as (m & Hm & Hq).
    eapply reads_trans; [apply IH1 | apply IH2]; eassumption.
  - apply andb_true_iff in Hr as [Hr1 Hr2].
    apply in_app_iff in Hq as [Hq | Hq]; [apply IH1 | apply IH2]; assumption.
  - apply in_app_iff in Hq as [Hq | [<- | []]]; [apply IH; assumption | apply reads_refl].
  - eapply iterate_reads; [| exact Hq]. intros p' q'. apply IH. exact Hr.
Qed.

Lemma run_ends (r : Regexp.regex) :
  endsWithEol r = true -> forall p q, In q (Regexp.run r p) -> snd q = [].
Proof.
  induction r as [| c | items | | | r1 IH1 r2 IH2 | r1 IH1 r2 IH2 | r IH | r IH];
    intros Hr p q Hq; cbn [endsWithEol] in Hr; try discriminate; cbn [Regexp.run] in Hq.
  - destruct (snd p) eqn:Hp; [| destruct Hq]. destruct Hq as [<- | []]. exact Hp.
  - apply in_flat_map in Hq as (m & _ & Hq). eapply IH2; eassumption.
Qed.

Lemma starts_false (l : list ascii) (p : Regexp.pos) :
  In p (Regexp.starts false l) -> fst p = false.
Proof.
  induction l as [| c l IH]; simpl; intros [<- | H]; try reflexivity; try contradiction.
  apply IH. exact H.
Qed.

Lemma starts_true (l : list ascii) (p : Regexp.pos) :
  In p (Regexp.starts true l) -> fst p = true -> p = (true, l).
Proof.
  destruct l as [| c l]; simpl; intros [<- | H] Hp; try reflexivity; try contradiction.
  apply starts_false in H. congruence.
Qed.

(** A match of [^r] where [r] ends in [$] reads the whole text. *)
Lemma anchored_match (r : Regexp.regex) (s : string) :
  regexChars allowed r = true -> endsWithEol r = true ->
  Regexp.MatchString (Regexp.Cat Regexp.Bol r) s = true ->
  forallb allowed (GoStrings.bytes s) = true.
Proof.
  intros Hc He Hm. unfold Regexp.MatchString in Hm.
  apply existsb_exists in Hm as (p & Hp & Hrun).
  destruct (Regexp.run (Regexp.Cat Regexp.Bol r) p) as [| q qs] eqn:Hq; [discriminate |].
  assert (Hin : In q (Regexp.run (Regexp.Cat Regexp.Bol r) p)) by (rewrite Hq; left; reflexivity).
  cbn [Regexp.run] in Hin. apply in_flat_map in Hin as (m & Hm & Hin).
  destruct (fst p) eqn:Hfst; [| destruct Hm]. destruct Hm as [<- | []].
  apply starts_true in Hp; [| exact Hfst]. subst p.
  destruct (run_reads r Hc _ _ Hin) as (w & Hw & Hall).
  rewrite (run_ends r He _ _ Hin), app_nil_r in Hw. cbn [snd] in Hw.
  rewrite Hw. exact Hall.
Qed.

End Run.

(** A DNS-1123 label is made of letters, digits and hyphens. *)
Lemma IsDNS1123Label_bytes (value : string) :
  IsDNS1123Label value = true -> forallb labelByte (GoStrings.bytes value) = true.
Proof.
  unfold IsDNS1123Label. intros H. apply andb_true_iff in H as [_ H].
  revert H. apply anchored_match; vm_compute; reflexivity.
Qed.

Lemma bytes_of_bytes (l : list ascii) : GoStrings.bytes (GoStrings.of_bytes l) = l.
Proof. apply list_ascii_of_string_of_list_ascii. Qed.

(** Every byte of a text other than the separator is in one of the pieces
    [Split] returns. *)
Lemma split_bytes_covers (sep c : ascii) (l cur : list ascii) :
  c <> sep -> In c cur \/ In c l ->
  exists piece, In piece (GoStrings.split_bytes sep cur l) /\ In c piece.
Proof.
  intros Hc. revert cur. induction l as [| x l IH]; intros cur [H | H]; simpl.
  - exists (rev cur). split; [left; reflexivity | apply in_rev in H; exact H].
  - destruct H.
  - destruct (Ascii.eqb_spec x sep) as [-> | Hx].
    + exists (rev cur). split; [left; reflexivity | apply in_rev in H; exact H].
    + apply IH. left. right. exact H.
  - destruct (Ascii.eqb_spec x sep) as [-> | Hx].
    + destruct H as [-> | H]; [contradiction |].
      destruct (IH [] (or_intror H)) as (piece & Hp & Hin).
      exists piece. split; [right; exact Hp | exact Hin].
    + apply IH. destruct H as [-> | H]; [left; left; reflexivity | right; exact H].
Qed.

(** A domain whose labels are all valid holds no byte but letters, digits,
    hyphens and dots. *)
Lemma validateDNS1123Labels_bytes (domain : string) (c : ascii) :
  validateDNS1123Labels domain = None -> In c (GoStrings.bytes domain) ->
  c = "."%char \/ labelByte c = true.
Proof.
  unfold validateDNS1123Labels. intros Hv Hc.
  destruct (find _ _) eqn:Hfind; [discriminate |].
  destruct (Ascii.eqb_spec c ".") as [-> | Hne]; [left; reflexivity | right].
  destruct (split_bytes_covers "." c (GoStrings.bytes domain) [] Hne (or_intror Hc))
    as (piece & Hp & Hin).
  assert (Hlabel : IsDNS1123Label (GoStrings.of_bytes piece) = true).
  { apply negb_false_iff.
    apply (List.find_none _ _ Hfind (GoStrings.of_bytes piece)).
    unfold GoStrings.Split. apply in_map. exact Hp. }
  apply IsDNS1123Label_bytes in Hlabel. rewrite bytes_of_bytes in Hlabel.
  rewrite forallb_forall in Hlabel. apply Hlabel. exact Hin.
Qed.

(** What matches [^c(o$)] from a position also matches the expression of
    the wildcard prefix, whose second alternative is [(w)?((co)$)]. *)
Lemma run_label_as_wildcard (a w c o : Regexp.regex) (p : Regexp.pos) :
  Regexp.run (Regexp.Cat Regexp.Bol (Regexp.Cat c (Regexp.Cat o Regexp.Eol))) p <> [] ->
  Regexp.run (Regexp.Alt a (Regexp.Cat (Regexp.Opt w)
                              (Regexp.Cat (Regexp.Cat c o) Regexp.Eol))) p <> [].
Proof.
  intros H.
  destruct (Regexp.run (Regexp.Cat Regexp.Bol _) p) as [| q qs] eqn:Hq; [congruence |].
  assert (Hin : In q (Regexp.run (Regexp.Cat Regexp.Bol
                                    (Regexp.Cat c (Regexp.Cat o Regexp.Eol))) p))
    by (rewrite Hq; left; reflexivity).
  clear Hq H. cbn [Regexp.run] in Hin.
  apply in_flat_map in Hin as (p' & Hp' & Hin).
  destruct (fst p); [| destruct Hp']. destruct Hp' as [<- | []].
  apply in_flat_map in Hin as (m1 & Hm1 & Hin).
  apply in_flat_map in Hin as (m2 & Hm2 & Hin).
  assert (Hgoal : In q (Regexp.run (Regexp.Alt a (Regexp.Cat (Regexp.Opt w)
                          (Regexp.Cat (Regexp.Cat c o) Regexp.Eol))) p)).
  { cbn [Regexp.run]. apply in_app_iff. right.
    apply in_flat_map. exists p. split; [apply in_app_iff; right; left; reflexivity |].
    apply in_flat_map. exists m2. split; [| exact Hin].
    apply in_flat_map. exists m1. split; assumption. }
  intros Hnil. rewrite Hnil in Hgoal. destruct Hgoal.
Qed.

Lemma IsDNS1123Label_IsWildcardDNS1123Label (value : string) :
  IsDNS1123Label value = true -> IsWildcardDNS1123Label value = true.
Proof.
  unfold IsDNS1123Label, IsWildcardDNS1123Label.
  intros H. apply andb_true_iff in H as [Hlen Hm]. rewrite Hlen. cbn [andb].
  unfold Regexp.MatchString in *. apply existsb_exists in Hm as (p & Hp & Hrun).
  apply existsb_exists. exists p. split; [exact Hp |].
  unfold dns1123LabelRegexp in Hrun. unfold wildcardPrefixRegexp.
  match goal with
  | |- match Regexp.run ?re p with _ => _ end = true =>
      assert (Hne : Regexp.run re p <> []);
      [ apply run_label_as_wildcard; intros Hnil; rewrite Hnil in Hrun; discriminate
      | destruct (Regexp.run re p); [congruence | reflexivity] ]
  end.
Qed.

(** An expression whose first alternative is [^\*] matches every text that
    begins with an asterisk. *)
Lemma MatchString_leading_asterisk (r : Regexp.regex) (rest : string) :
  Regexp.MatchString (Regexp.Alt (Regexp.Cat Regexp.Bol (Regexp.Chr "*")) r)
    (String "*" rest) = true.
Proof. unfold Regexp.MatchString. reflexivity. Qed.

Lemma IsWildcardDNS1123Label_leading_asterisk (rest : string) :
  (String.length rest <= 62)%nat -> IsWildcardDNS1123Label (String "*" rest) = true.
Proof.
  intros Hlen. unfold IsWildcardDNS1123Label, wildcardPrefixRegexp.
  rewrite MatchString_leading_asterisk, andb_true_r.
  unfold GoStrings.len, dns1123LabelMaxLength. cbn [String.length]. apply Z.leb_le. lia.
Qed.

(** C2, as the claim states it, fails: the domain whose first label is an
    asterisk directly followed by a label is accepted. *)
Lemma ValidateWildcardDomain_accepts_asterisk_before_label :
  ValidateWildcardDomain "*foo.com" = None.
Proof. vm_compute. reflexivity. Qed.

(** C2, amended.  [ValidateWildcardDomain] accepts "*.foo.com", "*" and
    also "*foo.com"; a first label may be a DNS-1123 label, or one with an
    asterisk or an asterisk and a hyphen put before it; no label after the
    first may hold an asterisk. *)
Theorem ValidateWildcardDomain_wildcard_first_label :
  ValidateWildcardDomain "*.foo.com" = None
  /\ ValidateWildcardDomain "*" = None
  /\ ValidateWildcardDomain "*foo.com" = None
  /\ (forall label : string,
        IsDNS1123Label label = true ->
        IsWildcardDNS1123Label label = true
        /\ ((String.length label <= 62)%nat -> IsWildcardDNS1123Label ("*" +:+ label) = true)
        /\ ((String.length label <= 61)%nat -> IsWildcardDNS1123Label ("*-" +:+ label) = true))
  /\ (forall domain first rest : string,
        GoStrings.SplitN2 domain "." = (first, Some rest) ->
        ValidateWildcardDomain domain = None ->
        ~ In "*"%char (GoStrings.bytes rest)).
Proof.
  split; [vm_compute; reflexivity |].
  split; [vm_compute; reflexivity |].
  split; [vm_compute; reflexivity |].
  split.
  - intros label Hlabel. split; [| split].
    + apply IsDNS1123Label_IsWildcardDNS1123Label. exact Hlabel.
    + intros Hlen. apply IsWildcardDNS1123Label_leading_asterisk. exact Hlen.
    + intros Hlen. apply IsWildcardDNS1123Label_leading_asterisk. cbn [String.length]. lia.
  - intros domain first rest Hsplit Hvalid Hin.
    unfold ValidateWildcardDomain in Hvalid.
    destruct (checkDNS1123Preconditions domain); [discriminate |].
    rewrite Hsplit in Hvalid. cbn [fst snd] in Hvalid.
    destruct (negb (IsWildcardDNS1123Label first)); [discriminate |].
    destruct (validateDNS1123Labels_bytes rest "*"%char Hvalid Hin) as [H | H];
      discriminate.
Qed.

(** ** Loops *)

Lemma fold_left_invariant {A S : Type} (P : S -> Prop) (f : S -> A -> S) (l : list A) (s : S) :
  (forall s x, In x l -> P s -> P (f s x)) -> P s -> P (fold_left f l s).
Proof.
  revert s. induction l as [| x l IH]; intros s Hf Hs; simpl; [exact Hs |].
  apply IH.
  - intros s' y Hy. apply Hf. right. exact Hy.
  - apply Hf; [left; reflexivity | exact Hs].
Qed.

Lemma foldM_invariant {A S : Type} (P : S -> Prop) (body : S -> A -> result S)
  (l : list A) (s : S) :
  (forall s x, In x l -> P s -> exists s', body s x = Returns s' /\ P s') ->
  P s -> exists s', foldM body l s = Returns s' /\ P s'.
Proof.
  revert s. induction l as [| x l IH]; intros s Hf Hs; simpl.
  - exists s. split; [reflexivity | exact Hs].
  - destruct (Hf s x (or_introl eq_refl) Hs) as (s1 & -> & Hs1). cbn [bind].
    apply IH; [| exact Hs1]. intros s' y Hy. apply Hf. right. exact Hy.
Qed.

(** A loop whose every round appends the failures of its checks appends
    them all. *)
Lemma fold_left_failures {A : Type} (f : option error -> A -> option error)
  (g : A -> list error) (l : list A) (errs : option error) :
  (forall errs x, failuresOf (f errs x) = failuresOf errs ++ g x) ->
  failuresOf (fold_left f l errs) = failuresOf errs ++ flat_map g l.
Proof.
  intros Hf. revert errs. induction l as [| x l IH]; intros errs; cbn [fold_left flat_map].
  - rewrite app_nil_r. reflexivity.
  - rewrite IH, Hf, <- app_assoc. reflexivity.
Qed.

(** ** Oneof fields without a variant *)

(** C9, as the claim states it, fails: an abort whose error type is not set
    is accepted. *)
Lemma validateHTTPFaultInjectionAbort_accepts_unset_error_type :
  validateHTTPFaultInjectionAbort
    (Some {| networking.Abort_Percent := 50; networking.Abort_ErrorType := None |}) = None.
Proof. reflexivity. Qed.

(** C9, amended.  [ValidateStringMatch] rejects a match whose type is not
    set, and only such a match; for an abort whose error type is not set,
    and for a delay whose delay type is not set, the validators report what
    the percent check reports and nothing else. *)
Theorem oneof_without_variant :
  (forall m : routing.StringMatch,
      (routing.StringMatch_MatchType m = None ->
       ValidateStringMatch m
       = Some (Errorf "unrecognized string match %q" [AMessage (MsgStringMatch m)]))
      /\ (ValidateStringMatch m = None <-> routing.StringMatch_MatchType m <> None))
  /\ (forall abort : networking.HTTPFaultInjection_Abort,
        networking.Abort_ErrorType abort = None ->
        validateHTTPFaultInjectionAbort (Some abort)
        = ValidatePercent (networking.Abort_Percent abort))
  /\ (forall delay : networking.HTTPFaultInjection_Delay,
        networking.Delay_HttpDelayType delay = None ->
        validateHTTPFaultInjectionDelay (Some delay)
        = ValidatePercent (networking.Delay_Percent delay)).
Proof.
  split; [| split].
  - intros [[[e | p | r] |]]; unfold ValidateStringMatch; cbn; split;
      try discriminate; try reflexivity; split; intros H;
      try reflexivity; try discriminate; try congruence.
  - intros abort H. unfold validateHTTPFaultInjectionAbort. rewrite H. reflexivity.
  - intros delay H. unfold validateHTTPFaultInjectionDelay. rewrite H. reflexivity.
Qed.

(** ** The attributes of an HTTP API spec *)

Lemma countNilAttributesErrors_app (l1 l2 : list error) :
  countNilAttributesErrors (l1 ++ l2)
  = (countNilAttributesErrors l1 + countNilAttributesErrors l2)%nat.
Proof. unfold countNilAttributesErrors. rewrite List.filter_app, length_app. reflexivity. Qed.

Lemma foldM_count {A : Type} (body : option error -> A -> result (option error)) (l : list A) :
  (forall errs x, exists errs',
      body errs x = Returns errs'
      /\ countNilAttributesErrors (failuresOf errs')
         = S (countNilAttributesErrors (failuresOf errs))) ->
  forall errs, exists errs',
    foldM body l errs = Returns errs'
    /\ countNilAttributesErrors (failuresOf errs')
       = (countNilAttributesErrors (failuresOf errs) + List.length l)%nat.
Proof.
  intros Hstep. induction l as [| x l IH]; intros errs; cbn [foldM].
  - exists errs. split; [reflexivity | cbn [List.length]; lia].
  - destruct (Hstep errs x) as (errs1 & -> & H1). cbn [bind].
    destruct (IH errs1) as (errs' & -> & Hc).
    exists errs'. split; [reflexivity |]. rewrite Hc, H1. cbn [List.length]. lia.
Qed.

(** C10.  For a spec whose top-level attributes are nil, the nil pointer
    passes the cast of [ValidateMixerAttributes] and is rejected as
    nil/empty; [ValidateHTTPAPISpec] returns, and reports that failure once
    for each pattern: not at all when there is no pattern. *)
Theorem ValidateHTTPAPISpec_nil_attributes_per_pattern :
  forall (name namespace : string) (spec : mccpb.HTTPAPISpec),
    mccpb.HTTPAPISpec_Attributes spec = None ->
    ValidateMixerAttributes (MsgAttributes (mccpb.HTTPAPISpec_Attributes spec))
    = Returns (Some (errors_New "list of attributes is nil/empty"))
    /\ exists errs,
        ValidateHTTPAPISpec name namespace (MsgHTTPAPISpec spec) = Returns errs
        /\ countNilAttributesErrors (failuresOf errs)
           = List.length (mccpb.HTTPAPISpec_Patterns spec)
        /\ (mccpb.HTTPAPISpec_Patterns spec = [] ->
            forall e, In e (failuresOf errs) -> isNilAttributesError e = false).
Proof.
  intros name namespace spec Hattr. rewrite Hattr.
  split; [reflexivity |].
  unfold ValidateHTTPAPISpec. rewrite Hattr. cbn [bind].
  set (errs0 := if isEmpty (mccpb.HTTPAPISpec_Patterns spec)
                then multierrorAppend1 None (errors_New "at least one pattern must be specified")
                else None).
  assert (H0 : countNilAttributesErrors (failuresOf errs0) = 0%nat)
    by (subst errs0; destruct (isEmpty _); reflexivity).
  match goal with
  | |- context [foldM ?body ?l errs0] =>
      assert (Hstep : forall errs pattern,
                 exists errs', body errs pattern = Returns errs'
                   /\ countNilAttributesErrors (failuresOf errs')
                      = S (countNilAttributesErrors (failuresOf errs)));
      [| destruct (foldM_count body l Hstep errs0) as (errs1 & -> & H1) ]
  end.
  { intros errs pattern. cbn [ValidateMixerAttributes bind].
    eexists. split; [reflexivity |].
    destruct (bool_decide _); destruct (mccpb.HTTPAPISpecPattern_Pattern pattern) as [[u | r] |];
      try destruct (bool_decide _);
      rewrite ?failuresOf_multierrorAppend1, ?countNilAttributesErrors_app;
      cbn; lia. }
  cbn [bind]. eexists. split; [reflexivity |].
  match goal with
  | |- context [fold_left ?f ?l errs1] =>
      assert (Hkeys : countNilAttributesErrors (failuresOf (fold_left f l errs1))
                      = countNilAttributesErrors (failuresOf errs1))
  end.
  { apply (fold_left_invariant
             (fun errs => countNilAttributesErrors (failuresOf errs)
                          = countNilAttributesErrors (failuresOf errs1))); [| reflexivity].
    intros errs key _ Hc.
    destruct (mccpb.APIKey_Key_ key) as [[q | h | c] |]; try destruct (bool_decide _);
      rewrite ?failuresOf_multierrorAppend1, ?countNilAttributesErrors_app, ?Hc;
      cbn; lia. }
  split.
  - rewrite Hkeys, H1, H0. reflexivity.
  - intros Hnil e He. rewrite Hnil in H1. rewrite H1, H0 in Hkeys.
    unfold countNilAttributesErrors in Hkeys.
    destruct (isNilAttributesError e) eqn:Hne; [| reflexivity].
    assert (Hin : In e (List.filter isNilAttributesError
                          (failuresOf (fold_left
                             (fun errs key => _) (mccpb.HTTPAPISpec_ApiKeys spec) errs1))))
      by (apply List.filter_In; split; [exact He | exact Hne]).
    destruct (List.filter _ _); [destruct Hin | discriminate].
Qed.

(** ** Panics *)

Lemma ValidateNetworkEndpointAddress_other_family (n : NetworkEndpoint) :
  NetworkEndpoint_Family n <> AddressFamilyTCP ->
  NetworkEndpoint_Family n <> AddressFamilyUnix ->
  ValidateNetworkEndpointAddress n
  = Panics (PanicValue "unhandled Family %v" [AInt (NetworkEndpoint_Family n)]).
Proof.
  intros Htcp Hunix. unfold ValidateNetworkEndpointAddress.
  destruct (Z.eqb_spec (NetworkEndpoint_Family n) AddressFamilyTCP); [contradiction |].
  destruct (Z.eqb_spec (NetworkEndpoint_Family n) AddressFamilyUnix); [contradiction |].
  reflexivity.
Qed.

(** C7, amended.  [ValidateNetworkEndpointAddress] returns for the TCP and
    the Unix family and for no other; [ValidateGateway] returns for a
    gateway whose servers all have their port set, and
    [ValidateAuthenticationPolicy] for a policy whose origin methods all
    have their JWT set. *)
Theorem validators_return_where_they_do_not_panic :
  (forall n : NetworkEndpoint,
      (exists errs, ValidateNetworkEndpointAddress n = Returns errs)
      <-> (NetworkEndpoint_Family n = AddressFamilyTCP
           \/ NetworkEndpoint_Family n = AddressFamilyUnix))
  /\ (forall (name namespace : string) (gateway : networking.Gateway),
        Forall (fun s => networking.Server_Port s <> None) (networking.Gateway_Servers gateway) ->
        exists errs, ValidateGateway name namespace (MsgGateway gateway) = Returns errs)
  /\ (forall (name namespace : string) (policy : authn.Policy),
        Forall (fun m => authn.OriginAuthenticationMethod_Jwt m <> None)
          (authn.Policy_Origins policy) ->
        exists errs, ValidateAuthenticationPolicy name namespace (MsgPolicy policy) = Returns errs).
Proof.
  split; [| split].
  - intros n. split.
    + intros (errs & H).
      destruct (Z.eq_dec (NetworkEndpoint_Family n) AddressFamilyTCP) as [Ht | Ht];
        [left; exact Ht |].
      destruct (Z.eq_dec (NetworkEndpoint_Family n) AddressFamilyUnix) as [Hu | Hu];
        [right; exact Hu |].
      rewrite (ValidateNetworkEndpointAddress_other_family n Ht Hu) in H. discriminate.
    + unfold ValidateNetworkEndpointAddress. intros [H | H]; rewrite H, ?Z.eqb_refl.
      * destruct (net_ParseIP _); eexists; reflexivity.
      * destruct (_ =? _); [destruct (net_ParseIP _) |]; eexists; reflexivity.
  - intros name namespace gateway Hports. unfold ValidateGateway.
    match goal with
    | |- context [foldM ?body ?l ?s] =>
        destruct (foldM_invariant (fun _ => True) body l s) as (st & -> & _);
          [| exact I | cbn [bind]; eexists; reflexivity]
    end.
    intros [errs portNames] server Hin _.
    rewrite List.Forall_forall in Hports. specialize (Hports server Hin).
    destruct (networking.Server_Port server); [| contradiction].
    eexists. split; [reflexivity | exact I].
  - intros name namespace policy Hjwt. unfold ValidateAuthenticationPolicy.
    match goal with
    | |- context [fold_left ?f (authn.Policy_Peers policy) ?s] =>
        destruct (fold_left f (authn.Policy_Peers policy) s) as [errs jwtIssuers]
    end.
    match goal with
    | |- context [foldM ?body ?l ?s] =>
        destruct (foldM_invariant (fun _ => True) body l s) as (st & -> & _);
          [| exact I | cbn [bind]; eexists; reflexivity]
    end.
    intros [errs' jwtIssuers'] method Hin _.
    rewrite List.Forall_forall in Hjwt. specialize (Hjwt method Hin).
    destruct (authn.OriginAuthenticationMethod_Jwt method); [| contradiction].
    destruct (bool_decide _); eexists; (split; [reflexivity | exact I]).
Qed.

(** ** Which failures an outcome can hold *)

Lemma formatsWithin_None (allowed : list string) : formatsWithin allowed None.
Proof. constructor. Qed.

Lemma formatsWithin_Errorf (allowed : list string) (format : string) (args : list fmt_arg) :
  In format allowed -> formatsWithin allowed (Some (Errorf format args)).
Proof. intros H. constructor; [exact H | constructor]. Qed.

Lemma formatsWithin_appendErrors (allowed : list string) (err : option error)
  (errs : list (option error)) :
  formatsWithin allowed err -> Forall (formatsWithin allowed) errs ->
  formatsWithin allowed (appendErrors err errs).
Proof.
  unfold formatsWithin. rewrite failuresOf_appendErrors. intros He Hes.
  apply Forall_app. split; [exact He |].
  induction Hes as [| e errs H _ IH]; simpl; [constructor |].
  apply Forall_app. split; assumption.
Qed.

Lemma formatsWithin_multierrorAppend1 (allowed : list string) (errs : option error)
  (format : string) (args : list fmt_arg) :
  formatsWithin allowed errs -> In format allowed ->
  formatsWithin allowed (multierrorAppend1 errs (Errorf format args)).
Proof.
  unfold formatsWithin. rewrite failuresOf_multierrorAppend1. intros He Hf.
  apply Forall_app. split; [exact He |]. constructor; [exact Hf | constructor].
Qed.

Lemma formatsWithin_excludes (allowed : list string) (errs : option error) (e : error) :
  formatsWithin allowed errs -> ~ In (formatOf e) allowed -> ~ In e (failuresOf errs).
Proof.
  unfold formatsWithin. rewrite List.Forall_forall. intros H Hn Hin.
  apply Hn, H. exact Hin.
Qed.

(** A text is, or is not, one of a list of literal texts. *)
Ltac in_list := simpl; repeat (first [left; reflexivity | right]).

Ltac not_in_list :=
  let H := fresh "H" in
  vm_compute; intros H;
  repeat (destruct H as [H | H]; [discriminate H |]); exact H.

(** Goals [formatsWithin allowed errs] for an outcome built from checks
    with literal format texts. *)
Ltac formats_step :=
  match goal with
  | |- formatsWithin _ None => apply formatsWithin_None
  | |- formatsWithin _ (Some (Errorf _ _)) =>
      apply formatsWithin_Errorf; in_list
  | |- formatsWithin _ (Some (errors_New _)) =>
      apply formatsWithin_Errorf; in_list
  | |- formatsWithin _ (appendErrors _ _) => apply formatsWithin_appendErrors
  | |- Forall (formatsWithin _) (_ :: _) => apply List.Forall_cons
  | |- Forall (formatsWithin _) [] => apply List.Forall_nil
  | |- formatsWithin _ (multierrorAppend1 _ _) =>
      apply formatsWithin_multierrorAppend1; [| in_list]
  | |- formatsWithin _ (if ?c then _ else _) => destruct c
  | |- formatsWithin _ (match ?x with (_, _) => _ end) => destruct x
  | |- formatsWithin _ (fold_left _ _ _) => apply fold_left_invariant; [intros ? ? _ ? |]
  | |- formatsWithin _ (match ?o with Some _ => _ | None => _ end) => destruct o eqn:?
  | H : formatsWithin ?a ?e |- formatsWithin ?a ?e => exact H
  end.

Ltac formats := repeat formats_step.

Lemma ValidatePort_formats (port : Z) : formatsWithin serviceEntryFormats (ValidatePort port).
Proof. unfold ValidatePort. formats. Qed.

Lemma validateDNS1123Labels_formats (domain : string) :
  formatsWithin serviceEntryFormats (validateDNS1123Labels domain).
Proof. unfold validateDNS1123Labels. formats. Qed.

Lemma checkDNS1123Preconditions_formats (name : string) :
  formatsWithin serviceEntryFormats (checkDNS1123Preconditions name).
Proof. unfold checkDNS1123Preconditions. formats. Qed.

Lemma ValidateWildcardDomain_formats (domain : string) :
  formatsWithin serviceEntryFormats (ValidateWildcardDomain domain).
Proof.
  unfold ValidateWildcardDomain.
  destruct (checkDNS1123Preconditions domain) eqn:Hpre.
  - rewrite <- Hpre. apply checkDNS1123Preconditions_formats.
  - destruct (negb _); [formats |].
    destruct (snd _); [apply validateDNS1123Labels_formats | formats].
Qed.

Lemma validateCIDR_formats (cidr : string) :
  formatsWithin serviceEntryFormats (validateCIDR cidr).
Proof. unfold validateCIDR. formats. Qed.

Lemma ValidateIPv4Address_formats (addr : string) :
  formatsWithin serviceEntryFormats (ValidateIPv4Address addr).
Proof. unfold ValidateIPv4Address. formats. Qed.

Lemma ValidateUnixAddress_formats (addr : string) :
  formatsWithin serviceEntryFormats (ValidateUnixAddress addr).
Proof. unfold ValidateUnixAddress. formats. Qed.

Lemma validatePortName_formats (name : string) :
  formatsWithin serviceEntryFormats (validatePortName name).
Proof. unfold validatePortName. formats. Qed.

Lemma validateProtocol_formats (protocol : string) :
  formatsWithin serviceEntryFormats (validateProtocol protocol).
Proof. unfold validateProtocol. formats. Qed.

Lemma Labels_Validate_formats (l : gmap string string) :
  formatsWithin serviceEntryFormats (Labels_Validate l).
Proof.
  unfold Labels_Validate.
  apply (fold_left_invariant (formatsWithin serviceEntryFormats)); [| formats].
  intros errs [k v] _ Herrs. formats.
Qed.

(** ** Service entries *)

Lemma fold_left_establish {A S : Type} (Q : S -> Prop) (f : S -> A -> S) (x : A)
  (l : list A) (s : S) :
  In x l -> (forall s, Q (f s x)) -> (forall s y, Q s -> Q (f s y)) -> Q (fold_left f l s).
Proof.
  revert s. induction l as [| y l IH]; intros s Hin Hx Hkeep; [destruct Hin |].
  simpl. destruct Hin as [-> | Hin].
  - apply fold_left_invariant; [intros; apply Hkeep; assumption | apply Hx].
  - apply IH; assumption.
Qed.

Ltac formats_leaf :=
  first [ apply ValidatePort_formats | apply ValidateWildcardDomain_formats
        | apply validateCIDR_formats | apply ValidateIPv4Address_formats
        | apply ValidateUnixAddress_formats | apply validatePortName_formats
        | apply validateProtocol_formats | apply Labels_Validate_formats ].

Ltac formats_all := repeat (formats_step || formats_leaf).

(** Goals [In t (failuresOf errs')] where [errs'] extends an outcome that
    holds [t]. *)
Ltac grows_step :=
  match goal with
  | H : In ?t (failuresOf ?e) |- In ?t (failuresOf ?e) => exact H
  | |- In _ (failuresOf (appendErrors _ _)) =>
      rewrite failuresOf_appendErrors; apply in_app_iff; left
  | |- In _ (failuresOf (multierrorAppend1 _ _)) =>
      rewrite failuresOf_multierrorAppend1; apply in_app_iff; left
  | |- In _ (failuresOf (if ?c then _ else _)) => destruct c
  | |- In _ (failuresOf (match ?x with (_, _) => _ end)) => destruct x
  | |- In _ (failuresOf (match ?o with Some _ => _ | None => _ end)) => destruct o
  | |- In _ (failuresOf (fold_left _ _ _)) =>
      apply fold_left_invariant; [intros ? ? _ ? |]
  end.

Ltac grows := repeat grows_step.

(** The checks of a service entry that come before the switch on the
    resolution mode: [e4] is their outcome and [sp] the set of the names of
    the service ports. *)
Ltac service_entry_prefix se e4 sp H4 :=
  unfold ValidateServiceEntry;
  let e3 := fresh "e3" in
  let spn := fresh "spn" in
  let Hports := fresh "Hports" in
  match goal with
  | |- context [fold_left ?f (networking.ServiceEntry_Addresses se) ?e] =>
      set (e3 := fold_left f (networking.ServiceEntry_Addresses se) e)
  end;
  match goal with
  | |- context [fold_left ?f (networking.ServiceEntry_Ports se) (e3, ∅, ∅)] =>
      destruct (fold_left f (networking.ServiceEntry_Ports se) (e3, ∅, ∅))
        as [[e4 sp] spn] eqn:Hports
  end;
  assert (H4 : formatsWithin serviceEntryFormats e4);
  [ change e4 with (fst (fst (e4, sp, spn))); rewrite <- Hports;
    apply (fold_left_invariant (fun st => formatsWithin serviceEntryFormats (fst (fst st))));
    [ intros [[? ?] ?] ? _ ?; cbn [fst] in *; formats_all
    | cbn [fst]; subst e3; formats_all ]
  | clear Hports; clearbody e3 ].

Lemma ValidateServiceEntry_none (name namespace : string) (se : networking.ServiceEntry) :
  networking.ServiceEntry_Resolution se = networking.ServiceEntry_NONE ->
  (In noEndpointsError (failuresOf (ValidateServiceEntry name namespace (MsgServiceEntry se)))
   <-> networking.ServiceEntry_Endpoints se <> []).
Proof.
  intros Hres. service_entry_prefix se e4 sp H4. rewrite Hres.
  cbn [Z.eqb networking.ServiceEntry_NONE].
  destruct (networking.ServiceEntry_Endpoints se) as [| endpoint endpoints]; cbn [isEmpty negb].
  - split; [| congruence]. intros Hin. exfalso. revert Hin.
    apply (formatsWithin_excludes serviceEntryFormats).
    + formats_all.
    + not_in_list.
  - split; [discriminate |]. intros _.
    apply fold_left_invariant; [intros ? ? _ ?; grows |].
    rewrite failuresOf_appendErrors. apply in_app_iff. right. left. reflexivity.
Qed.

Lemma ValidateServiceEntry_static (name namespace : string) (se : networking.ServiceEntry) :
  networking.ServiceEntry_Resolution se = networking.ServiceEntry_STATIC ->
  (networking.ServiceEntry_Endpoints se = [] ->
   In endpointsRequiredError
     (failuresOf (ValidateServiceEntry name namespace (MsgServiceEntry se))))
  /\ (forall endpoint : networking.ServiceEntry_Endpoint,
        In endpoint (networking.ServiceEntry_Endpoints se) ->
        GoStrings.HasPrefix (networking.Endpoint_Address endpoint) UnixAddressPrefix = true ->
        (In onePortForUnixError
           (failuresOf (ValidateServiceEntry name namespace (MsgServiceEntry se)))
         <-> List.length (networking.ServiceEntry_Ports se) <> 1%nat)
        /\ (networking.Endpoint_Ports endpoint <> ∅ ->
            In (unixPortsError (networking.Endpoint_Address endpoint))
              (failuresOf (ValidateServiceEntry name namespace (MsgServiceEntry se))))).
Proof.
  intros Hres. service_entry_prefix se e4 sp H4. rewrite Hres.
  cbn [Z.eqb networking.ServiceEntry_NONE networking.ServiceEntry_STATIC Pos.eqb].
  split.
  - intros Hnil. rewrite Hnil. cbn [fold_left isEmpty andb].
    apply fold_left_invariant; [intros ? ? _ ?; grows |].
    rewrite failuresOf_appendErrors. apply in_app_iff. right. left. reflexivity.
  - intros endpoint Hin Hprefix.
    match goal with
    | |- context [fold_left ?f (networking.ServiceEntry_Endpoints se) ?s] =>
        set (body := f); set (s0 := s)
    end.
    assert (Hfmt : forall st y, formatsWithin serviceEntryFormats (fst st) ->
                                formatsWithin serviceEntryFormats (fst (body st y))).
    { intros [errs u] y H. subst body. cbn [fst] in *.
      destruct (GoStrings.HasPrefix (networking.Endpoint_Address y) UnixAddressPrefix);
        cbn [fst]; formats_all. }
    assert (Hgrow : forall t st y, In t (failuresOf (fst st)) ->
                                   In t (failuresOf (fst (body st y)))).
    { intros t [errs u] y H. subst body. cbn [fst] in *.
      destruct (GoStrings.HasPrefix (networking.Endpoint_Address y) UnixAddressPrefix);
        cbn [fst]; grows. }
    destruct (fold_left body (networking.ServiceEntry_Endpoints se) s0)
      as [errs5 unixEndpoint] eqn:Hloop.
    assert (H5 : formatsWithin serviceEntryFormats errs5).
    { change errs5 with (fst (errs5, unixEndpoint)). rewrite <- Hloop.
      apply (fold_left_invariant (fun st => formatsWithin serviceEntryFormats (fst st))).
      - intros st y _. apply Hfmt.
      - subst s0. cbn [fst]. formats_all. }
    assert (Hunix : unixEndpoint = true).
    { change unixEndpoint with (snd (errs5, unixEndpoint)). rewrite <- Hloop.
      apply (fold_left_establish (fun st => snd st = true) body endpoint); [exact Hin | |].
      - intros [errs u]. subst body. cbn beta iota. rewrite Hprefix. reflexivity.
      - intros [errs u] y Hu. subst body. cbn [snd] in *. cbn beta iota.
        destruct (GoStrings.HasPrefix (networking.Endpoint_Address y) UnixAddressPrefix);
          [reflexivity | exact Hu]. }
    rewrite Hunix. cbn [andb]. split.
    + destruct (Z.eqb_spec (Z.of_nat (List.length (networking.ServiceEntry_Ports se))) 1)
        as [Hone | Hone]; cbn [negb].
      * split; [| intros Hne; exfalso; apply Hne; lia].
        intros Hcontra. exfalso. revert Hcontra.
        apply (formatsWithin_excludes serviceEntryFormats).
        -- formats_all.
        -- not_in_list.
      * split; [intros _ Hlen; apply Hone; rewrite Hlen; reflexivity |]. intros _.
        apply fold_left_invariant; [intros ? ? _ ?; grows |].
        rewrite failuresOf_appendErrors. apply in_app_iff. right. left. reflexivity.
    + intros Hports.
      assert (Hin5 : In (unixPortsError (networking.Endpoint_Address endpoint))
                       (failuresOf errs5)).
      { change errs5 with (fst (errs5, unixEndpoint)). rewrite <- Hloop.
        apply (fold_left_establish
                 (fun st => In (unixPortsError (networking.Endpoint_Address endpoint))
                              (failuresOf (fst st))) body endpoint); [exact Hin | |].
        - intros [errs u]. subst body. cbn beta iota. rewrite Hprefix.
          rewrite bool_decide_eq_false_2 by exact Hports. cbn [negb fst].
          rewrite !failuresOf_appendErrors. cbn [flat_map failuresOf failures].
          rewrite !in_app_iff. left. right. left. left. reflexivity.
        - intros st y. apply Hgrow. }
      grows.
Qed.

Lemma not_elem_of_first {K : Type} `{Countable K} (x y : K) :
  x <> y -> x ∉ ({[ y ]} ∪ ∅ : gset K).
Proof.
  intros Hne Hin. apply elem_of_union in Hin as [Hin | Hin].
  - apply elem_of_singleton in Hin. contradiction.
  - exact (not_elem_of_empty x Hin).
Qed.

Lemma ValidateServiceEntry_unix_two_ports (name namespace : string)
  (se : networking.ServiceEntry) (p1 p2 : networking.Port) :
  networking.ServiceEntry_Resolution se = networking.ServiceEntry_STATIC ->
  networking.ServiceEntry_Endpoints se = [unixSocketEndpoint] ->
  networking.ServiceEntry_Ports se = [p1; p2] ->
  networking.ServiceEntry_Hosts se <> [] ->
  Forall (fun host => host <> "*" /\ GoStrings.Contains host "." = true
                      /\ ValidateWildcardDomain host = None)
    (networking.ServiceEntry_Hosts se) ->
  Forall (fun address => validateCIDR address = None) (networking.ServiceEntry_Addresses se) ->
  networking.Port_Name p1 <> networking.Port_Name p2 ->
  networking.Port_Number p1 <> networking.Port_Number p2 ->
  Forall (fun port => validatePortName (networking.Port_Name port) = None
                      /\ validateProtocol (networking.Port_Protocol port) = None
                      /\ ValidatePort (networking.Port_Number port) = None) [p1; p2] ->
  ValidateServiceEntry name namespace (MsgServiceEntry se) = Some onePortForUnixError.
Proof.
  intros Hres Hendpoints Hports Hhosts Hvalid Haddresses Hnames Hnumbers Hportsvalid.
  unfold ValidateServiceEntry. rewrite Hres, Hendpoints, Hports.
  assert (H1 : isEmpty (networking.ServiceEntry_Hosts se) = false)
    by (destruct (networking.ServiceEntry_Hosts se); [congruence | reflexivity]).
  rewrite H1.
  match goal with
  | |- context [fold_left ?f (networking.ServiceEntry_Hosts se) None] =>
      assert (H2 : fold_left f (networking.ServiceEntry_Hosts se) None = None)
  end.
  { apply (fold_left_invariant (fun errs => errs = None)); [| reflexivity].
    intros errs host Hin ->. rewrite List.Forall_forall in Hvalid.
    destruct (Hvalid host Hin) as (Hstar & Hdot & Hdomain).
    rewrite bool_decide_eq_false_2 by exact Hstar. rewrite Hdot, Hdomain. reflexivity. }
  rewrite H2.
  match goal with
  | |- context [fold_left ?f (networking.ServiceEntry_Addresses se) None] =>
      assert (H3 : fold_left f (networking.ServiceEntry_Addresses se) None = None)
  end.
  { apply (fold_left_invariant (fun errs => errs = None)); [| reflexivity].
    intros errs address Hin ->. rewrite List.Forall_forall in Haddresses.
    rewrite (Haddresses address Hin). reflexivity. }
  rewrite H3. cbn [fold_left].
  rewrite (bool_decide_eq_false_2 (networking.Port_Name p1 ∈ ∅)) by apply not_elem_of_empty.
  rewrite (bool_decide_eq_false_2 (networking.Port_Number p1 ∈ ∅)) by apply not_elem_of_empty.
  rewrite (bool_decide_eq_false_2 (networking.Port_Name p2 ∈ _))
    by (apply not_elem_of_first; congruence).
  rewrite (bool_decide_eq_false_2 (networking.Port_Number p2 ∈ _))
    by (apply not_elem_of_first; congruence).
  cbn [Z.eqb networking.ServiceEntry_NONE networking.ServiceEntry_STATIC Pos.eqb isEmpty].
  change (GoStrings.HasPrefix (networking.Endpoint_Address unixSocketEndpoint) UnixAddressPrefix)
    with true.
  change (ValidateUnixAddress
            (GoStrings.TrimPrefix (networking.Endpoint_Address unixSocketEndpoint)
               UnixAddressPrefix)) with (@None error).
  change (networking.Endpoint_Ports unixSocketEndpoint) with (∅ : gmap string Z).
  rewrite (bool_decide_eq_true_2 ((∅ : gmap string Z) = ∅)) by reflexivity.
  change (Labels_Validate (networking.Endpoint_Labels unixSocketEndpoint)) with (@None error).
  destruct (List.Forall_inv Hportsvalid) as (Hn1 & Hp1 & Hr1).
  destruct (List.Forall_inv (List.Forall_inv_tail Hportsvalid)) as (Hn2 & Hp2 & Hr2).
  rewrite Hn1, Hp1, Hr1, Hn2, Hp2, Hr2. reflexivity.
Qed.

(** C3.  With resolution mode NONE the failure for endpoints is reported
    iff there are endpoints; with STATIC the failure for missing endpoints
    is reported when there are none, and once an endpoint has the unix://
    prefix the one-service-port failure is reported iff the service does not
    declare exactly one port, and an endpoint with ports of its own is
    reported; a STATIC entry with the one endpoint unix:///var/run/sock and
    two declared ports, valid otherwise, fails with that single failure. *)
Theorem ValidateServiceEntry_resolution_gates_endpoints :
  forall (name namespace : string) (se : networking.ServiceEntry),
    (networking.ServiceEntry_Resolution se = networking.ServiceEntry_NONE ->
     (In noEndpointsError
        (failuresOf (ValidateServiceEntry name namespace (MsgServiceEntry se)))
      <-> networking.ServiceEntry_Endpoints se <> []))
    /\ (networking.ServiceEntry_Resolution se = networking.ServiceEntry_STATIC ->
        (networking.ServiceEntry_Endpoints se = [] ->
         In endpointsRequiredError
           (failuresOf (ValidateServiceEntry name namespace (MsgServiceEntry se))))
        /\ (forall endpoint : networking.ServiceEntry_Endpoint,
              In endpoint (networking.ServiceEntry_Endpoints se) ->
              GoStrings.HasPrefix (networking.Endpoint_Address endpoint) UnixAddressPrefix = true ->
              (In onePortForUnixError
                 (failuresOf (ValidateServiceEntry name namespace (MsgServiceEntry se)))
               <-> List.length (networking.ServiceEntry_Ports se) <> 1%nat)
              /\ (networking.Endpoint_Ports endpoint <> ∅ ->
                  In (unixPortsError (networking.Endpoint_Address endpoint))
                    (failuresOf (ValidateServiceEntry name namespace (MsgServiceEntry se))))))
    /\ (forall p1 p2 : networking.Port,
          networking.ServiceEntry_Resolution se = networking.ServiceEntry_STATIC ->
          networking.ServiceEntry_Endpoints se = [unixSocketEndpoint] ->
          networking.ServiceEntry_Ports se = [p1; p2] ->
          networking.ServiceEntry_Hosts se <> [] ->
          Forall (fun host => host <> "*" /\ GoStrings.Contains host "." = true
                              /\ ValidateWildcardDomain host = None)
            (networking.ServiceEntry_Hosts se) ->
          Forall (fun address => validateCIDR address = None)
            (networking.ServiceEntry_Addresses se) ->
          networking.Port_Name p1 <> networking.Port_Name p2 ->
          networking.Port_Number p1 <> networking.Port_Number p2 ->
          Forall (fun port => validatePortName (networking.Port_Name port) = None
                              /\ validateProtocol (networking.Port_Protocol port) = None
                              /\ ValidatePort (networking.Port_Number port) = None) [p1; p2] ->
          ValidateServiceEntry name namespace (MsgServiceEntry se) = Some onePortForUnixError).
Proof.
  intros name namespace se. split; [| split].
  - apply ValidateServiceEntry_none.
  - apply ValidateServiceEntry_static.
  - intros p1 p2. apply ValidateServiceEntry_unix_two_ports.
Qed.

(** ** The destination weights of a virtual service *)

(** The loop of [validateHTTPRoute] computes the sum of the weights when
    they are percentages and fewer than 2^24. *)
Lemma total_loop_exact (routes : list networking.DestinationWeight) :
  Forall (fun r => 0 <= networking.DestinationWeight_Weight r <= 100) routes ->
  forall (acc n : Z),
    0 <= n -> 0 <= acc <= 100 * n ->
    n + Z.of_nat (List.length routes) <= 2 ^ 24 ->
    fold_left (fun total route => wrap32 (total + networking.DestinationWeight_Weight route))
      routes acc
    = acc + destinationWeightSum routes.
Proof.
  induction 1 as [| r routes Hr Hrs IH]; intros acc n Hn Hacc Hlen.
  - unfold destinationWeightSum. simpl. lia.
  - cbn [fold_left]. change (2 ^ 24) with 16777216 in *. cbn [List.length] in Hlen.
    rewrite wrap32_small by (change (2 ^ 31) with 2147483648; lia).
    rewrite (IH _ (n + 1)) by lia.
    unfold destinationWeightSum. simpl. lia.
Qed.

(** C5, at a failing input.  Two destinations whose weights, 2147483647 and
    1, sum to more than 100: the [int32] total of the loop wraps around to a
    negative number, and the only failure reported is the one of the percent
    check of the first weight; no total-weight failure is reported. *)
Theorem validateHTTPRoute_total_weight_wraps_around :
  let routes := [weighted "foo.com" 2147483647; weighted "foo.com" 1] in
  (1 < Z.of_nat (List.length routes))
  /\ 100 < destinationWeightSum routes
  /\ failuresOf (validateHTTPRoute (routeTo routes))
     = [Errorf "percentage %v is not in range 0..100" [AInt 2147483647]]
  /\ forall total, ~ In (totalWeightError total) (failuresOf (validateHTTPRoute (routeTo routes))).
Proof.
  assert (H : failuresOf (validateHTTPRoute
                            (routeTo [weighted "foo.com" 2147483647; weighted "foo.com" 1]))
              = [Errorf "percentage %v is not in range 0..100" [AInt 2147483647]])
    by (vm_compute; reflexivity).
  cbv zeta. split; [reflexivity |]. split; [reflexivity |]. split; [exact H |].
  intros total Hin. rewrite H in Hin. destruct Hin as [Heq | []]. discriminate.
Qed.

(** *** Where no wrap-around occurs

    For weights that are percentages, and fewer than 2^24 of them, the
    total of the loop is the sum of the weights, and the total-weight
    failure is reported iff there is more than one destination and the sum
    exceeds 100.  No other check of [validateHTTPRoute] reports a failure
    with that format text. *)

Lemma formatsAvoid_None (format : string) : formatsAvoid format None.
Proof. constructor. Qed.

Lemma formatsAvoid_Errorf (format text : string) (args : list fmt_arg) :
  text <> format -> formatsAvoid format (Some (Errorf text args)).
Proof. intros H. constructor; [exact H | constructor]. Qed.

Lemma formatsAvoid_appendErrors (format : string) (err : option error)
  (errs : list (option error)) :
  formatsAvoid format err -> Forall (formatsAvoid format) errs ->
  formatsAvoid format (appendErrors err errs).
Proof.
  unfold formatsAvoid. rewrite failuresOf_appendErrors. intros He Hes.
  apply Forall_app. split; [exact He |].
  induction Hes as [| e errs H _ IH]; simpl; [constructor |].
  apply Forall_app. split; assumption.
Qed.

Lemma formatsAvoid_multierrorAppend1 (format : string) (errs : option error)
  (text : string) (args : list fmt_arg) :
  formatsAvoid format errs -> text <> format ->
  formatsAvoid format (multierrorAppend1 errs (Errorf text args)).
Proof.
  unfold formatsAvoid. rewrite failuresOf_multierrorAppend1. intros He Hf.
  apply Forall_app. split; [exact He |]. constructor; [exact Hf | constructor].
Qed.

Lemma formatsAvoid_In (format : string) (errs : option error) (e : error) :
  formatsAvoid format errs -> In e (failuresOf errs) -> formatOf e <> format.
Proof. unfold formatsAvoid. rewrite List.Forall_forall. intros H Hin. apply H, Hin. Qed.

(** Goals [formatsAvoid format errs] for an outcome built from checks with
    literal format texts. *)
Ltac avoids_step :=
  match goal with
  | |- formatsAvoid _ None => apply formatsAvoid_None
  | |- formatsAvoid _ (Some (Errorf _ _)) => apply formatsAvoid_Errorf; discriminate
  | |- formatsAvoid _ (Some (errors_New _)) => apply formatsAvoid_Errorf; discriminate
  | |- formatsAvoid _ (appendErrors _ _) => apply formatsAvoid_appendErrors
  | |- Forall (formatsAvoid _) (_ :: _) => apply List.Forall_cons
  | |- Forall (formatsAvoid _) [] => apply List.Forall_nil
  | |- formatsAvoid _ (multierrorAppend1 _ _) =>
      apply formatsAvoid_multierrorAppend1; [| discriminate]
  | H : formatsAvoid ?a ?e |- formatsAvoid ?a ?e => exact H
  | H : forall x, formatsAvoid ?a (?f x) |- formatsAvoid ?a (?f _) => apply H
  | |- formatsAvoid _ (if ?c then _ else _) => destruct c
  | |- formatsAvoid _ (match ?x with (_, _) => _ end) => destruct x
  | |- formatsAvoid _ (fold_left _ _ _) => apply fold_left_invariant; [intros ? ? _ ? |]
  | |- formatsAvoid _ (match ?o with Some _ => _ | None => _ end) => destruct o eqn:?
  end.

Ltac avoids := repeat avoids_step.

Lemma ptypes_Duration_avoids (pd : option Duration) (err : error) :
  ptypes.Duration pd = inr err -> formatsAvoid totalWeightFormat (Some err).
Proof.
  unfold ptypes.Duration.
  destruct (ptypes.validateDuration pd) as [e |] eqn:Hv.
  - intros Heq. inversion Heq; subst e. unfold ptypes.validateDuration in Hv.
    destruct pd as [d |];
      repeat match type of Hv with
             | (if ?c then _ else _) = _ => destruct c
             end;
      inversion Hv; avoids.
  - destruct pd as [d |]; cbv zeta;
      repeat match goal with
             | |- (if ?c then _ else _) = _ -> _ => destruct c
             end;
      intros Heq; inversion Heq; avoids.
Qed.

Lemma ValidateDurationGogo_avoids (pd : option Duration) :
  formatsAvoid totalWeightFormat (ValidateDurationGogo pd).
Proof.
  unfold ValidateDurationGogo.
  destruct (ptypes.Duration pd) as [dur | err] eqn:Hd; [avoids |].
  exact (ptypes_Duration_avoids pd err Hd).
Qed.

Lemma ValidatePercent_avoids (val : Z) : formatsAvoid totalWeightFormat (ValidatePercent val).
Proof. unfold ValidatePercent. avoids. Qed.

Lemma ValidatePort_avoids (port : Z) : formatsAvoid totalWeightFormat (ValidatePort port).
Proof. unfold ValidatePort. avoids. Qed.

Lemma Labels_Validate_avoids (l : gmap string string) :
  formatsAvoid totalWeightFormat (Labels_Validate l).
Proof.
  unfold Labels_Validate.
  apply (fold_left_invariant (formatsAvoid totalWeightFormat)); [| avoids].
  intros errs [k v] _ Herrs. avoids.
Qed.

Lemma ValidateHTTPHeaderName_avoids (name : string) :
  formatsAvoid totalWeightFormat (ValidateHTTPHeaderName name).
Proof. unfold ValidateHTTPHeaderName. avoids. Qed.

Lemma ValidateWildcardDomain_avoids (domain : string) :
  formatsAvoid totalWeightFormat (ValidateWildcardDomain domain).
Proof.
  assert (Hpre : formatsAvoid totalWeightFormat (checkDNS1123Preconditions domain))
    by (unfold checkDNS1123Preconditions; avoids).
  assert (Hlabels : forall rest, formatsAvoid totalWeightFormat (validateDNS1123Labels rest))
    by (intros rest; unfold validateDNS1123Labels; avoids).
  unfold ValidateWildcardDomain.
  destruct (checkDNS1123Preconditions domain); [exact Hpre |].
  cbv zeta. destruct (negb _); [avoids |].
  destruct (snd _); [apply Hlabels | avoids].
Qed.

Lemma ValidateIPv4Subnet_avoids (subnet : string) :
  formatsAvoid totalWeightFormat (ValidateIPv4Subnet subnet).
Proof. unfold ValidateIPv4Subnet, validateCIDR, ValidateIPv4Address. avoids. Qed.

Lemma validateHost_avoids (host : string) :
  formatsAvoid totalWeightFormat (validateHost host).
Proof.
  unfold validateHost.
  pose proof (ValidateWildcardDomain_avoids host) as Hd.
  pose proof (ValidateIPv4Subnet_avoids host) as Hs.
  destruct (ValidateWildcardDomain host); [| avoids].
  destruct (ValidateIPv4Subnet host); avoids.
Qed.

Lemma validateSubsetName_avoids (name : string) :
  formatsAvoid totalWeightFormat (validateSubsetName name).
Proof. unfold validateSubsetName. avoids. Qed.

Lemma validatePortSelector_avoids (selector : option networking.PortSelector) :
  formatsAvoid totalWeightFormat (validatePortSelector selector).
Proof.
  pose proof validateSubsetName_avoids. pose proof ValidatePort_avoids.
  unfold validatePortSelector. destruct selector; avoids.
Qed.

Lemma validateDestination_avoids (destination : option networking.Destination) :
  formatsAvoid totalWeightFormat (validateDestination destination).
Proof.
  pose proof validateHost_avoids. pose proof validateSubsetName_avoids.
  pose proof validatePortSelector_avoids.
  unfold validateDestination. destruct destination; avoids.
Qed.

Lemma validateCORSPolicy_avoids (policy : option networking.CorsPolicy) :
  formatsAvoid totalWeightFormat (validateCORSPolicy policy).
Proof.
  pose proof ValidateHTTPHeaderName_avoids. pose proof ValidateDurationGogo_avoids.
  unfold validateCORSPolicy, validateHTTPMethod. destruct policy; avoids.
Qed.

Lemma validateHTTPFaultInjection_avoids (fault : option networking.HTTPFaultInjection) :
  formatsAvoid totalWeightFormat (validateHTTPFaultInjection fault).
Proof.
  pose proof ValidatePercent_avoids. pose proof ValidateDurationGogo_avoids.
  unfold validateHTTPFaultInjection, validateHTTPFaultInjectionAbort,
    validateHTTPFaultInjectionDelay, validateHTTPStatus.
  destruct fault as [[[abort |] [delay |]] |]; avoids;
    repeat match goal with
           | |- formatsAvoid _ (match ?x with _ => _ end) => destruct x
           end; avoids.
Qed.

Lemma validateHTTPRetry_avoids (retries : option networking.HTTPRetry) :
  formatsAvoid totalWeightFormat (validateHTTPRetry retries).
Proof.
  pose proof ValidateDurationGogo_avoids.
  unfold validateHTTPRetry. destruct retries; avoids.
Qed.

Lemma validateHTTPRedirect_avoids (redirect : option networking.HTTPRedirect) :
  formatsAvoid totalWeightFormat (validateHTTPRedirect redirect).
Proof. unfold validateHTTPRedirect. destruct redirect; avoids. Qed.

Lemma validateHTTPRewrite_avoids (rewrite : option networking.HTTPRewrite) :
  formatsAvoid totalWeightFormat (validateHTTPRewrite rewrite).
Proof. unfold validateHTTPRewrite. destruct rewrite; avoids. Qed.

(** The loop over the destinations keeps two variables that do not depend
    on one another: the failures and the total. *)
Lemma route_loop_split (routes : list networking.DestinationWeight)
  (errs : option error) (total : Z) :
  fold_left
    (fun (st : option error * Z) route =>
       let '(errs, totalWeight) := st in
       let errs :=
         match networking.DestinationWeight_Destination route with
         | None => multierrorAppend1 errs (errors_New "destination is required")
         | Some _ => errs
         end in
       let errs := appendErrors errs
                     [validateDestination (networking.DestinationWeight_Destination route)] in
       let errs := appendErrors errs [ValidatePercent (networking.DestinationWeight_Weight route)] in
       (errs, wrap32 (totalWeight + networking.DestinationWeight_Weight route)))
    routes (errs, total)
  = (fold_left
       (fun errs route =>
          appendErrors
            (appendErrors
               match networking.DestinationWeight_Destination route with
               | None => multierrorAppend1 errs (errors_New "destination is required")
               | Some _ => errs
               end
               [validateDestination (networking.DestinationWeight_Destination route)])
            [ValidatePercent (networking.DestinationWeight_Weight route)])
       routes errs,
     fold_left (fun total route => wrap32 (total + networking.DestinationWeight_Weight route))
       routes total).
Proof.
  revert errs total. induction routes as [| r routes IH]; intros errs total; [reflexivity |].
  cbn [fold_left]. rewrite IH. reflexivity.
Qed.

(** C5, where no wrap-around occurs: the total-weight failure is reported,
    with the sum of the weights, iff there is more than one destination and
    the sum exceeds 100. *)
Lemma validateHTTPRoute_total_weight_in_range (http : networking.HTTPRoute) :
  Forall (fun r => 0 <= networking.DestinationWeight_Weight r <= 100)
    (networking.HTTPRoute_Route http) ->
  Z.of_nat (List.length (networking.HTTPRoute_Route http)) <= 2 ^ 24 ->
  ((exists total, In (totalWeightError total) (failuresOf (validateHTTPRoute http)))
   <-> 1 < Z.of_nat (List.length (networking.HTTPRoute_Route http))
       /\ 100 < destinationWeightSum (networking.HTTPRoute_Route http))
  /\ (1 < Z.of_nat (List.length (networking.HTTPRoute_Route http))
      /\ 100 < destinationWeightSum (networking.HTTPRoute_Route http) ->
      In (totalWeightError (destinationWeightSum (networking.HTTPRoute_Route http)))
        (failuresOf (validateHTTPRoute http))).
Proof.
  intros Hrange Hlen.
  pose proof ValidateHTTPHeaderName_avoids as A1.
  pose proof validateCORSPolicy_avoids as A2.
  pose proof validateHTTPFaultInjection_avoids as A3.
  pose proof Labels_Validate_avoids as A4.
  pose proof validateDestination_avoids as A5.
  pose proof validateHTTPRedirect_avoids as A6.
  pose proof validateHTTPRetry_avoids as A7.
  pose proof validateHTTPRewrite_avoids as A8.
  pose proof ValidatePercent_avoids as A9.
  pose proof ValidateDurationGogo_avoids as A10.
  unfold validateHTTPRoute.
  match goal with
  | |- context [fold_left _ (networking.HTTPRoute_Route http) (?e, 0)] =>
      assert (Hpre : formatsAvoid totalWeightFormat e) by avoids;
      revert Hpre; generalize e
  end.
  intros pre Hpre.
  rewrite route_loop_split.
  rewrite (total_loop_exact _ Hrange 0 0) by lia.
  rewrite Z.add_0_l.
  match goal with
  | |- context [fold_left ?f (networking.HTTPRoute_Route http) pre] =>
      assert (Hloop : formatsAvoid totalWeightFormat
                        (fold_left f (networking.HTTPRoute_Route http) pre)) by avoids;
      revert Hloop; generalize (fold_left f (networking.HTTPRoute_Route http) pre)
  end.
  intros errs Hloop.
  set (sum := destinationWeightSum (networking.HTTPRoute_Route http)).
  set (n := Z.of_nat (List.length (networking.HTTPRoute_Route http))).
  assert (Hcase : forall errs' : option error,
             formatsAvoid totalWeightFormat errs' ->
             forall total, ~ In (totalWeightError total) (failuresOf errs')).
  { intros errs' H' total Hin. exact (formatsAvoid_In _ _ _ H' Hin eq_refl). }
  assert (Htimeout : forall errs' : option error,
             failuresOf match networking.HTTPRoute_Timeout http with
                        | Some t => appendErrors errs' [ValidateDurationGogo (Some t)]
                        | None => errs'
                        end
             = failuresOf errs'
               ++ failuresOf match networking.HTTPRoute_Timeout http with
                             | Some t => ValidateDurationGogo (Some t)
                             | None => None
                             end).
  { intros errs'. destruct (networking.HTTPRoute_Timeout http).
    - rewrite failuresOf_appendErrors. simpl. rewrite app_nil_r. reflexivity.
    - simpl. rewrite app_nil_r. reflexivity. }
  assert (Hlast : forall total,
             ~ In (totalWeightError total)
                 (failuresOf match networking.HTTPRoute_Timeout http with
                             | Some t => ValidateDurationGogo (Some t)
                             | None => None
                             end)).
  { apply Hcase. destruct (networking.HTTPRoute_Timeout http); avoids. }
  rewrite Htimeout.
  destruct ((1 <? n) && (100 <? sum)) eqn:Hcond.
  - apply andb_true_iff in Hcond. destruct Hcond as [H1 H2].
    apply Z.ltb_lt in H1. apply Z.ltb_lt in H2.
    assert (Hin : In (totalWeightError sum)
                    (failuresOf (appendErrors errs [Some (totalWeightError sum)])
                     ++ failuresOf match networking.HTTPRoute_Timeout http with
                                   | Some t => ValidateDurationGogo (Some t)
                                   | None => None
                                   end)).
    { apply in_or_app. left. rewrite failuresOf_appendErrors.
      apply in_or_app. right. left. reflexivity. }
    split; [split |].
    + intros _. split; assumption.
    + intros _. exists sum. exact Hin.
    + intros _. exact Hin.
  - assert (Hnot : ~ (1 < n /\ 100 < sum)).
    { intros [H1 H2]. apply Z.ltb_lt in H1. apply Z.ltb_lt in H2.
      rewrite H1, H2 in Hcond. discriminate. }
    split; [split |].
    + intros (total & Hin). exfalso. apply in_app_or in Hin. destruct Hin as [Hin | Hin].
      * exact (Hcase _ Hloop total Hin).
      * exact (Hlast total Hin).
    + intros H. contradiction.
    + intros H. contradiction.
Qed.

(** ** Casts and accumulation *)

Lemma ValidateEgressRulePort_first_failure_only (port : routing.EgressRule_Port) :
  ValidatePort (routing.EgressRule_Port_Port port) <> None ->
  ValidateEgressRulePort port = ValidatePort (routing.EgressRule_Port_Port port).
Proof.
  unfold ValidateEgressRulePort. destruct (ValidatePort _); [reflexivity | congruence].
Qed.

(** The failures of a server are those of its hosts, of its TLS options and
    of its port: none of the three checks stops another. *)
Lemma validateServer_failures (server : networking.Server) :
  failuresOf (validateServer server)
  = (if isEmpty (networking.Server_Hosts server)
     then [Errorf "server config must contain at least one host" []]
     else flat_map (fun host =>
                      match ValidateWildcardDomain host, ValidateIPv4Subnet host with
                      | Some err, Some err2 => failures err ++ failures err2
                      | _, _ => []
                      end) (networking.Server_Hosts server))
    ++ failuresOf (validateTLSOptions (networking.Server_Tls server))
    ++ failuresOf (validateServerPort (networking.Server_Port server)).
Proof.
  unfold validateServer. rewrite failuresOf_appendErrors. cbn [flat_map].
  rewrite app_nil_r. f_equal.
  destruct (isEmpty (networking.Server_Hosts server)); [reflexivity |].
  apply (fold_left_failures _ _ _ None).
  intros errs host. destruct (ValidateWildcardDomain host), (ValidateIPv4Subnet host);
    rewrite ?failuresOf_appendErrors; cbn [flat_map failuresOf];
    rewrite ?app_nil_r; reflexivity.
Qed.

(** The failures of a gateway whose servers have their ports set are those
    of all its checks. *)
Lemma ValidateGateway_failures (name namespace : string) (gateway : networking.Gateway) :
  Forall (fun s => networking.Server_Port s <> None) (networking.Gateway_Servers gateway) ->
  exists errs,
    ValidateGateway name namespace (MsgGateway gateway) = Returns errs
    /\ failuresOf errs
       = (if isEmpty (networking.Gateway_Servers gateway)
          then [Errorf "gateway must have at least one server" []]
          else flat_map (fun server => failuresOf (validateServer server))
                 (networking.Gateway_Servers gateway))
         ++ flat_map failuresOf (duplicatePortNameChecks ∅ (networking.Gateway_Servers gateway)).
Proof.
  intros Hports. unfold ValidateGateway.
  match goal with
  | |- context [foldM ?f _ (?e, ∅)] => set (body := f); set (errs0 := e)
  end.
  assert (Hloop : forall servers errs portNames,
             Forall (fun s => networking.Server_Port s <> None) servers ->
             exists errs' portNames',
               foldM body servers (errs, portNames) = Returns (errs', portNames')
               /\ failuresOf errs'
                  = failuresOf errs
                    ++ flat_map failuresOf (duplicatePortNameChecks portNames servers)).
  { induction servers as [| s servers IH]; intros errs portNames HF; cbn [foldM].
    - exists errs, portNames. split; [reflexivity |]. cbn. rewrite app_nil_r. reflexivity.
    - pose proof (List.Forall_inv HF) as Hs. pose proof (List.Forall_inv_tail HF) as HF'.
      cbn beta in Hs.
      unfold body at 1. cbn beta iota. cbn [duplicatePortNameChecks].
      destruct (networking.Server_Port s) as [port |]; [| congruence]. cbn [bind].
      match goal with
      | |- context [foldM body servers (?e, ?pn)] =>
          destruct (IH e pn HF') as (errs' & portNames' & -> & Hf)
      end.
      exists errs', portNames'. split; [reflexivity |]. rewrite Hf.
      destruct (bool_decide _); rewrite ?failuresOf_appendErrors; cbn [flat_map failuresOf];
        rewrite ?app_nil_r, <- ?app_assoc; reflexivity. }
  destruct (Hloop (networking.Gateway_Servers gateway) errs0 ∅ Hports)
    as (errs' & portNames' & -> & Hf).
  cbn [bind fst]. exists errs'. split; [reflexivity |]. rewrite Hf. f_equal.
  subst errs0. destruct (isEmpty (networking.Gateway_Servers gateway)); [reflexivity |].
  apply (fold_left_failures _ _ _ None).
  intros errs server. rewrite failuresOf_appendErrors. cbn [flat_map].
  rewrite app_nil_r. reflexivity.
Qed.

Lemma failuresOf_appendIfError (errs err : option error) :
  failuresOf (appendIfError errs err) = failuresOf errs ++ failuresOf err.
Proof.
  destruct err as [err |]; cbn [appendIfError failuresOf].
  - apply failuresOf_multierrorAppend1.
  - rewrite app_nil_r. reflexivity.
Qed.

Lemma let_elim {A B : Type} (e : A) (b : A -> B) (P : B -> Prop) :
  (forall x, x = e -> P (b x)) -> P (let x := e in b x).
Proof. intros H. exact (H e eq_refl). Qed.

(** Names the outermost [let] of the outcome whose failures the goal
    states. *)
Ltac peel x Hx :=
  match goal with
  | |- failuresOf ?t = ?R =>
      lazymatch t with
      | (let y := ?e in @?b y) =>
          refine (let_elim e b (fun z => failuresOf z = R) _); intros x Hx; cbv beta
      end
  end.

Ltac failures_norm :=
  rewrite ?failuresOf_multierrorAppend1, ?failuresOf_appendIfError, ?failuresOf_appendErrors;
  cbn [flat_map failuresOf failures mbind option_bind];
  rewrite ?app_nil_r, <- ?app_assoc.

Lemma fold_left_checks {A : Type} (f : option error -> A -> option error)
  (checks : A -> list (option error)) (l : list A) (errs : option error) :
  (forall errs x, failuresOf (f errs x) = failuresOf errs ++ flat_map failuresOf (checks x)) ->
  failuresOf (fold_left f l errs) = failuresOf errs ++ flat_map failuresOf (flat_map checks l).
Proof.
  intros Hf. rewrite (fold_left_failures f (fun x => flat_map failuresOf (checks x))) by exact Hf.
  f_equal. induction l as [| x l IH]; cbn [flat_map]; [reflexivity |].
  rewrite flat_map_app, IH. reflexivity.
Qed.

Lemma flat_map_one {A B : Type} (c : A -> B) (l : list A) :
  flat_map (fun x => [c x]) l = map c l.
Proof. induction l as [| x l IH]; cbn; [reflexivity | rewrite IH; reflexivity]. Qed.

(** One stage of a validator: the outcome [errs'] extends [errs] by the
    failures of the stage's checks. *)
Ltac stage :=
  repeat match goal with
         | |- context [match ?o with Some _ => _ | None => _ end] => destruct o
         | |- context [if ?c then _ else _] => destruct c
         end;
  cbv zeta; failures_norm; reflexivity.

(** The failures of a route rule are those of all its checks. *)
Lemma ValidateRouteRule_failures (name namespace : string) (value : routing.RouteRule) :
  failuresOf (ValidateRouteRule name namespace (MsgRouteRule value))
  = flat_map failuresOf (routeRuleChecks value).
Proof.
  cbv beta iota delta [ValidateRouteRule].
  peel errs0 H0. peel errs1 H1.
  assert (F1 : failuresOf errs1 = flat_map failuresOf (routeRuleDestinationChecks value)).
  { rewrite H1, H0. unfold routeRuleDestinationChecks. stage. }
  clear H1 H0. peel errs2 H2.
  assert (F2 : failuresOf errs2
               = failuresOf errs1 ++ flat_map failuresOf (routeRuleMatchChecks value)).
  { rewrite H2. unfold routeRuleMatchChecks. stage. }
  clear H2. peel errs3 H3.
  assert (F3 : failuresOf errs3
               = failuresOf errs2 ++ flat_map failuresOf (routeRuleRewriteChecks value)).
  { rewrite H3. unfold routeRuleRewriteChecks. stage. }
  clear H3. peel route Hroute. peel errs4 H4. peel errs5 H5.
  assert (F5 : failuresOf errs5
               = failuresOf errs3 ++ flat_map failuresOf (routeRuleRedirectChecks value)).
  { rewrite H5, H4, Hroute. unfold routeRuleRedirectChecks. stage. }
  clear H5 H4 Hroute. peel errs6 H6.
  assert (F6 : failuresOf errs6
               = failuresOf errs5 ++ flat_map failuresOf (routeRuleRouteChecks value)).
  { rewrite H6. unfold routeRuleRouteChecks.
    destruct (routing.RouteRule_Route value) as [routes |]; [| stage].
    rewrite failuresOf_appendIfError.
    rewrite (fold_left_checks _ (fun destWeight => [ValidateDestinationWeight destWeight]))
      by (intros; failures_norm; reflexivity).
    rewrite flat_map_one, flat_map_app. failures_norm. reflexivity. }
  clear H6. peel errs7 H7.
  assert (F7 : failuresOf errs7
               = failuresOf errs6 ++ flat_map failuresOf (routeRuleMirrorChecks value)).
  { rewrite H7. unfold routeRuleMirrorChecks. stage. }
  clear H7. peel errs8 H8.
  assert (F8 : failuresOf errs8
               = failuresOf errs7 ++ flat_map failuresOf (routeRuleHeaderChecks value)).
  { rewrite H8. unfold routeRuleHeaderChecks.
    apply fold_left_checks. intros errs [header val]. stage. }
  clear H8. peel errs9 H9.
  assert (F9 : failuresOf errs9
               = failuresOf errs8 ++ flat_map failuresOf (routeRuleCorsChecks value)).
  { rewrite H9. unfold routeRuleCorsChecks.
    destruct (routing.RouteRule_CorsPolicy value) as [corsPolicy |]; [| stage].
    cbv zeta.
    rewrite (fold_left_checks _ (fun method =>
               [if negb (bool_decide (method ∈ supportedMethods))
                then Some (Errorf "%q is not a supported HTTP method" [AString method])
                else None]))
      by (intros; stage).
    rewrite (fold_left_checks _ (fun header => [ValidateHTTPHeaderName header]))
      by (intros; stage).
    rewrite (fold_left_checks _ (fun header => [ValidateHTTPHeaderName header]))
      by (intros; stage).
    rewrite !flat_map_one, !flat_map_app.
    destruct (routing.CorsPolicy_MaxAge corsPolicy) as [maxAge |];
      [destruct (0 <? Nanos maxAge) |]; failures_norm; reflexivity. }
  clear H9. peel errs10 H10. peel errs11 H11. peel errs12 H12.
  assert (F12 : failuresOf errs12
                = failuresOf errs9 ++ flat_map failuresOf (routeRuleHTTPChecks value)).
  { rewrite H12, H11, H10. unfold routeRuleHTTPChecks. stage. }
  clear H12 H11 H10.
  unfold routeRuleChecks. rewrite !flat_map_app.
  rewrite <- F1, !app_assoc, <- F2, <- F3, <- F5, <- F6, <- F7, <- F8, <- F9, <- F12.
  unfold routeRuleL4FaultChecks. stage.
Qed.

(** A message of another kind fails the cast of a validator. *)
Ltac wrong_kind H :=
  match goal with
  | msg : Message |- _ =>
      destruct msg; try reflexivity; exfalso; exact (H _ eq_refl)
  end.

(** C6, amended.  A message that is not of the kind a validator expects
    makes it return the cast failure and nothing else.  For a message of the
    right kind the checks that a validator makes itself do not stop one
    another: the failures of a route rule are those of all its checks, in
    order, and so are those of a gateway whose servers have their port
    set. *)
Theorem wrong_kind_is_fatal_and_own_checks_accumulate :
  forall (name namespace : string) (msg : Message),
    ((forall v, msg <> MsgRouteRule v) ->
     ValidateRouteRule name namespace msg = Some (Errorf "cannot cast to routing rule" []))
    /\ ((forall v, msg <> MsgIngressRule v) ->
        ValidateIngressRule name namespace msg = Some (Errorf "cannot cast to ingress rule" []))
    /\ ((forall v, msg <> MsgGateway v) ->
        ValidateGateway name namespace msg
        = Returns (Some (Errorf "cannot cast to gateway: %#v" [AMessage msg])))
    /\ ((forall v, msg <> MsgEgressRule v) ->
        ValidateEgressRule name namespace msg = Some (Errorf "cannot cast to egress rule" []))
    /\ ((forall v, msg <> MsgDestinationRule v) ->
        ValidateDestinationRule name namespace msg
        = Some (Errorf "cannot cast to destination rule" []))
    /\ ((forall v, msg <> MsgDestinationPolicy v) ->
        ValidateDestinationPolicy name namespace msg
        = Some (Errorf "cannot cast to destination policy" []))
    /\ ((forall v, msg <> MsgHTTPAPISpec v) ->
        ValidateHTTPAPISpec name namespace msg
        = Returns (Some (errors_New "cannot case to HTTPAPISpec")))
    /\ ((forall v, msg <> MsgHTTPAPISpecBinding v) ->
        ValidateHTTPAPISpecBinding name namespace msg
        = Some (errors_New "cannot case to HTTPAPISpecBinding"))
    /\ ((forall v, msg <> MsgQuotaSpec v) ->
        ValidateQuotaSpec name namespace msg
        = Some (errors_New "cannot case to HTTPAPISpecBinding"))
    /\ ((forall v, msg <> MsgQuotaSpecBinding v) ->
        ValidateQuotaSpecBinding name namespace msg
        = Some (errors_New "cannot case to HTTPAPISpecBinding"))
    /\ ((forall v, msg <> MsgPolicy v) ->
        ValidateAuthenticationPolicy name namespace msg
        = Returns (Some (errors_New "cannot cast to AuthenticationPolicy")))
    /\ ((forall v, msg <> MsgServiceRole v) ->
        ValidateServiceRole name namespace msg = Some (errors_New "cannot cast to ServiceRole"))
    /\ ((forall v, msg <> MsgServiceRoleBinding v) ->
        ValidateServiceRoleBinding name namespace msg
        = Some (errors_New "cannot cast to ServiceRoleBinding"))
    /\ ((forall v, msg <> MsgRbacConfig v) ->
        ValidateRbacConfig name namespace msg = Some (errors_New "cannot cast to RbacConfig"))
    /\ ((forall v, msg <> MsgVirtualService v) ->
        ValidateVirtualService name namespace msg
        = Some (errors_New "cannot cast to virtual service"))
    /\ ((forall v, msg <> MsgServiceEntry v) ->
        ValidateServiceEntry name namespace msg = Some (Errorf "cannot cast to service entry" []))
    /\ (forall value : routing.RouteRule,
          failuresOf (ValidateRouteRule name namespace (MsgRouteRule value))
          = flat_map failuresOf (routeRuleChecks value))
    /\ (forall gateway : networking.Gateway,
          Forall (fun s => networking.Server_Port s <> None)
            (networking.Gateway_Servers gateway) ->
          exists errs,
            ValidateGateway name namespace (MsgGateway gateway) = Returns errs
            /\ failuresOf errs
               = (if isEmpty (networking.Gateway_Servers gateway)
                  then [Errorf "gateway must have at least one server" []]
                  else flat_map (fun server => failuresOf (validateServer server))
                         (networking.Gateway_Servers gateway))
                 ++ flat_map failuresOf
                      (duplicatePortNameChecks ∅ (networking.Gateway_Servers gateway))).
Proof.
  intros name namespace msg.
  repeat match goal with
         | |- (_ -> _ = _) /\ _ => split; [intros H; wrong_kind H |]
         end.
  split.
  - intros value. apply ValidateRouteRule_failures.
  - intros gateway. apply ValidateGateway_failures.
Qed.

(** ** Durations of the mesh and proxy configuration *)

Lemma wrap64_decompose (z : Z) :
  exists k, wrap64 z = z - 2 ^ 64 * k /\ - 2 ^ 63 <= wrap64 z < 2 ^ 63.
Proof.
  exists ((z + 2 ^ 63) / 2 ^ 64). unfold wrap64.
  change (2 ^ 63) with 9223372036854775808.
  change (2 ^ 64) with 18446744073709551616.
  pose proof (Z.div_mod (z + 9223372036854775808) 18446744073709551616).
  pose proof (Z.mod_pos_bound (z + 9223372036854775808) 18446744073709551616).
  lia.
Qed.

(** Comparisons of a hypothesis on booleans, as propositions. *)
Ltac bool_arith H :=
  rewrite ?orb_true_iff, ?orb_false_iff, ?andb_true_iff, ?andb_false_iff,
    ?negb_true_iff, ?negb_false_iff, ?Z.ltb_lt, ?Z.ltb_ge, ?Z.leb_le, ?Z.leb_gt,
    ?Z.eqb_eq, ?Z.eqb_neq in H.

(** [ptypes.Duration] decodes a duration to its seconds and nanoseconds
    added up, when the fields are in the range of a protobuf duration, do
    not disagree in sign, and the sum is an [int64]; it fails otherwise. *)
Lemma ptypes_Duration_decodes (d : Duration) (dur : Z) :
  ptypes.Duration (Some d) = inl dur <->
  dur = Seconds d * time.Second + Nanos d
  /\ - 2 ^ 63 <= dur < 2 ^ 63
  /\ - ptypes.maxSeconds <= Seconds d <= ptypes.maxSeconds
  /\ - 1000000000 < Nanos d < 1000000000
  /\ ~ (Seconds d < 0 /\ 0 < Nanos d)
  /\ ~ (0 < Seconds d /\ Nanos d < 0).
Proof.
  unfold ptypes.Duration, ptypes.validateDuration, ptypes.minSeconds, ptypes.maxSeconds.
  change time.Second with 1000000000.
  change (2 ^ 63) with 9223372036854775808.
  destruct d as [s n]. cbn [Seconds Nanos].
  match goal with
  | |- match (if ?c then _ else _) with _ => _ end = _ <-> _ => destruct c eqn:H1
  end; bool_arith H1; cbv beta iota;
    [split; [discriminate | lia] |].
  match goal with
  | |- match (if ?c then _ else _) with _ => _ end = _ <-> _ => destruct c eqn:H2
  end; bool_arith H2; cbv beta iota;
    [split; [discriminate | lia] |].
  match goal with
  | |- match (if ?c then _ else _) with _ => _ end = _ <-> _ => destruct c eqn:H3
  end; bool_arith H3; cbv beta iota;
    [split; [discriminate | lia] |].
  cbv zeta.
  assert (Hd0 : wrap64 (s * 1000000000) = s * 1000000000
                \/ Z.quot (wrap64 (s * 1000000000)) 1000000000 <> s).
  { destruct (wrap64_decompose (s * 1000000000)) as (k & Hk & Hkr).
    change (2 ^ 63) with 9223372036854775808 in Hkr.
    change (2 ^ 64) with 18446744073709551616 in Hk.
    pose proof (Z.quot_rem' (wrap64 (s * 1000000000)) 1000000000) as Hqr.
    pose proof (Z.rem_bound_abs (wrap64 (s * 1000000000)) 1000000000 ltac:(lia)) as Hrb.
    destruct (Z.eq_dec (Z.quot (wrap64 (s * 1000000000)) 1000000000) s) as [Hq | Hq];
      [left; lia | right; exact Hq]. }
  assert (Hrange0 : - 9223372036854775808 <= wrap64 (s * 1000000000) < 9223372036854775808).
  { destruct (wrap64_decompose (s * 1000000000)) as (k & _ & Hkr). exact Hkr. }
  destruct (Z.eqb_spec (Z.quot (wrap64 (s * 1000000000)) 1000000000) s) as [Hq | Hq];
    cbn [negb].
  - destruct Hd0 as [Hd0 | Hd0]; [| contradiction]. rewrite Hd0 in *.
    destruct (Z.eqb_spec n 0) as [Hn | Hn]; cbn [negb].
    + subst n. split; [intros H'; injection H' as <-; lia | intros H'; f_equal; lia].
    + destruct (wrap64_decompose (s * 1000000000 + n)) as (k2 & Hk2 & Hk2r).
      change (2 ^ 63) with 9223372036854775808 in Hk2r.
      change (2 ^ 64) with 18446744073709551616 in Hk2.
      destruct (Z.ltb_spec (wrap64 (s * 1000000000 + n)) 0), (Z.ltb_spec n 0); cbn;
        (split; [try discriminate; intros H'; injection H' as <-; lia
                | intros H'; (exfalso; lia) || (f_equal; lia)]).
  - split; [discriminate |]. intros (-> & H' & _). exfalso.
    destruct Hd0 as [Hd0 | Hd0]; [| clear Hd0].
    + rewrite Hd0 in Hq. rewrite Z.quot_mul in Hq by lia. contradiction.
    + apply Hq. rewrite wrap64_small; [apply Z.quot_mul; lia |].
      change (2 ^ 63) with 9223372036854775808. lia.
Qed.

Lemma ptypes_Duration_nil : forall dur, ptypes.Duration None <> inl dur.
Proof. intros dur. discriminate. Qed.

Lemma ValidateDuration_None (pd : option Duration) :
  ValidateDuration pd = None <->
  exists dur, ptypes.Duration pd = inl dur
              /\ time.Millisecond <= dur /\ Z.rem dur time.Millisecond = 0.
Proof.
  unfold ValidateDuration.
  destruct (ptypes.Duration pd) as [dur | err].
  - destruct (Z.ltb_spec dur time.Millisecond) as [Hlt | Hge].
    + split; [discriminate | intros (d & Hd & Hms & _); injection Hd as <-; lia].
    + destruct (Z.eqb_spec (Z.rem dur time.Millisecond) 0) as [Hz | Hnz]; cbn [negb].
      * split; [intros _; exists dur; repeat split; assumption | reflexivity].
      * split; [discriminate | intros (d & Hd & _ & Hr); injection Hd as <-; contradiction].
  - split; [discriminate | intros (d & Hd & _); discriminate].
Qed.

(** The failures of [ValidateDuration] are single failures. *)
Lemma ValidateDuration_single (pd : option Duration) (err : error) :
  ValidateDuration pd = Some err -> exists format args, err = Errorf format args.
Proof.
  unfold ValidateDuration, ptypes.Duration, ptypes.validateDuration.
  destruct pd as [d |]; cbv zeta;
    repeat match goal with
           | |- context [if ?c then _ else _] => destruct c
           end;
    intros Heq; inversion Heq; eexists; eexists; reflexivity.
Qed.

(** A span of whole milliseconds within bounds, in terms of the two fields
    of the duration. *)
Lemma ValidateDuration_in_range (pd : option Duration) (min max : Z) :
  0 < min -> max < 2 ^ 63 ->
  (ValidateDuration pd = None /\ min <= durationOf pd <= max) <->
  exists s n,
    pd = Some {| Seconds := s; Nanos := n |}
    /\ 0 <= n < 1000000000 /\ n mod 1000000 = 0
    /\ time.Millisecond <= s * time.Second + n
    /\ min <= s * time.Second + n <= max.
Proof.
  intros Hmin Hmax. rewrite ValidateDuration_None. unfold durationOf.
  change time.Millisecond with 1000000. change time.Second with 1000000000.
  change (2 ^ 63) with 9223372036854775808 in Hmax.
  split.
  - intros ((dur & Hd & Hms & Hrem) & Hrange). rewrite Hd in Hrange.
    destruct pd as [[s n] |]; [| discriminate].
    apply ptypes_Duration_decodes in Hd. cbn [Seconds Nanos] in Hd.
    change time.Second with 1000000000 in Hd.
    destruct Hd as (-> & Hi & Hs & Hn & Hsn1 & Hsn2).
    exists s, n. split; [reflexivity |].
    pose proof (Z.quot_rem' (s * 1000000000 + n) 1000000) as Hqr.
    pose proof (Z.div_mod n 1000000 ltac:(lia)) as Hdm.
    pose proof (Z.mod_pos_bound n 1000000 ltac:(lia)) as Hmb.
    lia.
  - intros (s & n & -> & Hn & Hmod & Hms & Hrange).
    assert (Hd : ptypes.Duration (Some {| Seconds := s; Nanos := n |})
                 = inl (s * 1000000000 + n)).
    { apply ptypes_Duration_decodes. cbn [Seconds Nanos].
      change time.Second with 1000000000. unfold ptypes.maxSeconds.
      change (2 ^ 63) with 9223372036854775808. lia. }
    rewrite Hd. split; [| exact Hrange].
    exists (s * 1000000000 + n). split; [reflexivity |]. split; [exact Hms |].
    pose proof (Z.div_mod n 1000000 ltac:(lia)) as Hdm.
    rewrite Hmod in Hdm.
    replace (s * 1000000000 + n) with ((s * 1000 + n / 1000000) * 1000000) by lia.
    apply Z.rem_mul. lia.
Qed.

Lemma ValidateDurationRange_None (dur min max : Z) :
  ValidateDurationRange dur min max = None <-> min <= dur <= max.
Proof.
  unfold ValidateDurationRange.
  destruct (Z.ltb_spec max dur), (Z.ltb_spec dur min); cbn;
    split; try discriminate; try reflexivity; lia.
Qed.

(** [ValidateRefreshDelay] accepts exactly the durations that stand for a
    whole number of milliseconds from one second to ten minutes, and
    [ValidateConnectTimeout] those from one millisecond to thirty
    seconds. *)
Theorem ValidateRefreshDelay_ValidateConnectTimeout_accept (pd : option Duration) :
  (ValidateRefreshDelay pd = None <->
     exists s n,
       pd = Some {| Seconds := s; Nanos := n |}
       /\ 0 <= n < 1000000000 /\ n mod 1000000 = 0
       /\ time.Second <= s * time.Second + n <= 10 * time.Minute)
  /\ (ValidateConnectTimeout pd = None <->
        exists s n,
          pd = Some {| Seconds := s; Nanos := n |}
          /\ 0 <= n < 1000000000 /\ n mod 1000000 = 0
          /\ time.Millisecond <= s * time.Second + n <= 30 * time.Second).
Proof.
  assert (Hgen : forall min max : Z,
             0 < min -> max < 2 ^ 63 -> time.Millisecond <= min ->
             (match ValidateDuration pd with
              | Some err => Some err
              | None => ValidateDurationRange (durationOf pd) min max
              end = None <->
              exists s n,
                pd = Some {| Seconds := s; Nanos := n |}
                /\ 0 <= n < 1000000000 /\ n mod 1000000 = 0
                /\ min <= s * time.Second + n <= max)).
  { intros min max Hmin Hmax Hms.
    transitivity (ValidateDuration pd = None /\ min <= durationOf pd <= max).
    - destruct (ValidateDuration pd) as [err |].
      + split; [discriminate | intros [H _]; discriminate].
      + rewrite ValidateDurationRange_None. split; [intros H; split; [reflexivity | exact H] |].
        intros [_ H]. exact H.
    - rewrite (ValidateDuration_in_range pd min max Hmin Hmax).
      split.
      + intros (s & n & Hpd & Hn & Hmod & _ & Hr). exists s, n.
        split; [exact Hpd |]. split; [exact Hn |]. split; [exact Hmod | exact Hr].
      + intros (s & n & Hpd & Hn & Hmod & Hr). exists s, n.
        split; [exact Hpd |]. split; [exact Hn |]. split; [exact Hmod |].
        split; [lia | exact Hr]. }
  split.
  - unfold ValidateRefreshDelay. cbv zeta.
    rewrite (Hgen discoveryRefreshDelayMin discoveryRefreshDelayMax);
      [reflexivity | reflexivity | reflexivity | discriminate].
  - unfold ValidateConnectTimeout. cbv zeta.
    rewrite (Hgen connectTimeoutMin connectTimeoutMax);
      [reflexivity | reflexivity | reflexivity | discriminate].
Qed.

Lemma appendPrefixed_None (errs err : option error) (prefix : string) (args : list fmt_arg) :
  appendPrefixed errs err prefix args = None <-> errs = None /\ err = None.
Proof.
  unfold appendPrefixed. destruct err.
  - split; [discriminate | intros [_ H]; discriminate].
  - split; [intros H; split; [exact H | reflexivity] | intros [H _]; exact H].
Qed.

Lemma failuresOf_appendPrefixed (errs err : option error) (prefix : string) :
  (forall e, err = Some e -> exists format args, e = Errorf format args) ->
  failuresOf (appendPrefixed errs err prefix []) = failuresOf errs ++ prefixed prefix err.
Proof.
  intros Hsingle. unfold appendPrefixed, prefixed.
  destruct err as [e |]; [| rewrite app_nil_r; reflexivity].
  destruct (Hsingle e eq_refl) as (format & args & ->).
  cbn [failuresOf]. rewrite failures_Append. simpl. reflexivity.
Qed.

(** [ValidateParentAndDrain] accepts exactly a drain time and a parent
    shutdown time of whole seconds with 1s <= drain < parent <= 1h. *)
Theorem ValidateParentAndDrain_accepts (drainTime parentShutdown : option Duration) :
  ValidateParentAndDrain drainTime parentShutdown = None <->
  exists drain parent : Z,
    drainTime = Some {| Seconds := drain; Nanos := 0 |}
    /\ parentShutdown = Some {| Seconds := parent; Nanos := 0 |}
    /\ 1 <= drain < parent /\ parent <= 3600.
Proof.
  transitivity
    ((ValidateDuration drainTime = None
      /\ time.Millisecond <= durationOf drainTime <= time.Hour)
     /\ (ValidateDuration parentShutdown = None
         /\ time.Millisecond <= durationOf parentShutdown <= time.Hour)
     /\ Z.rem (durationOf drainTime) time.Second = 0
     /\ Z.rem (durationOf parentShutdown) time.Second = 0
     /\ durationOf drainTime < durationOf parentShutdown).
  - unfold ValidateParentAndDrain. cbv zeta.
    destruct (appendPrefixed (appendPrefixed None (ValidateDuration drainTime) _ _)
                (ValidateDuration parentShutdown) _ _) as [e |] eqn:Hfirst.
    + split; [discriminate |]. intros ((Hd & _) & (Hp & _) & _).
      rewrite Hd, Hp in Hfirst. discriminate.
    + apply appendPrefixed_None in Hfirst as [Hfirst Hp].
      apply appendPrefixed_None in Hfirst as [_ Hd].
      pose proof (proj1 (ValidateDuration_None _) Hd) as (dd & Hdd & Hdms & _).
      pose proof (proj1 (ValidateDuration_None _) Hp) as (dp & Hdp & Hpms & _).
      assert (Ed : durationOf drainTime = dd) by (unfold durationOf; rewrite Hdd; reflexivity).
      assert (Ep : durationOf parentShutdown = dp)
        by (unfold durationOf; rewrite Hdp; reflexivity).
      rewrite Ed, Ep. unfold drainTimeMax, parentShutdownTimeMax.
      destruct (Z.eqb_spec (Z.rem dd time.Second) 0);
        destruct (Z.eqb_spec (Z.rem dp time.Second) 0);
        destruct (Z.leb_spec dp dd);
        destruct (Z.ltb_spec time.Hour dd);
        destruct (Z.ltb_spec time.Hour dp);
        cbn [negb];
        (split; [try discriminate; intros _ | try reflexivity; intros Hall; exfalso]);
        try solve [repeat split; (assumption || lia)];
        try solve [destruct Hall as ((_ & Hr1) & (_ & Hr2) & Hr3 & Hr4 & Hr5);
                   (contradiction || lia)].
  - rewrite !ValidateDuration_in_range by (reflexivity || discriminate).
    change time.Millisecond with 1000000. change time.Second with 1000000000.
    change time.Hour with 3600000000000.
    unfold durationOf. split.
    + intros ((sd & nd & -> & Hnd & Hmd & _ & Hrd) & (sp & np & -> & Hnp & Hmp & _ & Hrp)
              & Hremd & Hremp & Hlt).
      assert (Hdd : ptypes.Duration (Some {| Seconds := sd; Nanos := nd |})
                    = inl (sd * 1000000000 + nd)).
      { apply ptypes_Duration_decodes. cbn [Seconds Nanos].
        change time.Second with 1000000000. unfold ptypes.maxSeconds.
        change (2 ^ 63) with 9223372036854775808. lia. }
      assert (Hdp : ptypes.Duration (Some {| Seconds := sp; Nanos := np |})
                    = inl (sp * 1000000000 + np)).
      { apply ptypes_Duration_decodes. cbn [Seconds Nanos].
        change time.Second with 1000000000. unfold ptypes.maxSeconds.
        change (2 ^ 63) with 9223372036854775808. lia. }
      rewrite Hdd in Hremd, Hlt. rewrite Hdp in Hremp, Hlt.
      pose proof (Z.quot_rem' (sd * 1000000000 + nd) 1000000000) as Hq1.
      pose proof (Z.quot_rem' (sp * 1000000000 + np) 1000000000) as Hq2.
      assert (nd = 0) by lia. assert (np = 0) by lia. subst nd np.
      exists sd, sp. repeat split; lia.
    + intros (sd & sp & -> & -> & Hsd & Hsp).
      assert (Hdd : ptypes.Duration (Some {| Seconds := sd; Nanos := 0 |})
                    = inl (sd * 1000000000 + 0)).
      { apply ptypes_Duration_decodes. cbn [Seconds Nanos].
        change time.Second with 1000000000. unfold ptypes.maxSeconds.
        change (2 ^ 63) with 9223372036854775808. lia. }
      assert (Hdp : ptypes.Duration (Some {| Seconds := sp; Nanos := 0 |})
                    = inl (sp * 1000000000 + 0)).
      { apply ptypes_Duration_decodes. cbn [Seconds Nanos].
        change time.Second with 1000000000. unfold ptypes.maxSeconds.
        change (2 ^ 63) with 9223372036854775808. lia. }
      rewrite Hdd, Hdp. rewrite !Z.add_0_r.
      split; [exists sd, 0; repeat split; (reflexivity || lia) |].
      split; [exists sp, 0; repeat split; (reflexivity || lia) |].
      split; [apply Z.rem_mul; lia |].
      split; [apply Z.rem_mul; lia | lia].
Qed.

(** When one of the two durations is not well-formed, [ValidateParentAndDrain]
    reports the failures of the durations, each with its prefix, and does
    not compare the two. *)
Theorem ValidateParentAndDrain_malformed (drainTime parentShutdown : option Duration) :
  ValidateDuration drainTime <> None \/ ValidateDuration parentShutdown <> None ->
  failuresOf (ValidateParentAndDrain drainTime parentShutdown)
  = prefixed "invalid drain duration:" (ValidateDuration drainTime)
    ++ prefixed "invalid parent shutdown duration:" (ValidateDuration parentShutdown).
Proof.
  intros Hbad. unfold ValidateParentAndDrain. cbv zeta.
  destruct (appendPrefixed (appendPrefixed None (ValidateDuration drainTime) _ _)
              (ValidateDuration parentShutdown) _ _) as [e |] eqn:Hfirst.
  - rewrite <- Hfirst.
    rewrite !failuresOf_appendPrefixed by (intros e'; apply ValidateDuration_single).
    reflexivity.
  - apply appendPrefixed_None in Hfirst as [Hfirst Hp].
    apply appendPrefixed_None in Hfirst as [_ Hd].
    destruct Hbad; contradiction.
Qed.
(** ** What the three regular expressions accept *)

(** Alongside [^], a search finds a match only from the beginning of the
    text. *)
Lemma MatchString_anchored (r : Regexp.regex) (s : string) :
  Regexp.MatchString (Regexp.Cat Regexp.Bol r) s
  = match Regexp.run r (true, GoStrings.bytes s) with [] => false | _ => true end.
Proof.
  unfold Regexp.MatchString.
  assert (Hrest : forall l, existsb
                    (fun p => match Regexp.run (Regexp.Cat Regexp.Bol r) p with
                              | [] => false
                              | _ => true
                              end) (Regexp.starts false l) = false).
  { intros l. apply not_true_is_false. intros H.
    apply existsb_exists in H as (p & Hp & Hrun).
    apply starts_false in Hp. cbn [Regexp.run] in Hrun. rewrite Hp in Hrun.
    discriminate. }
  destruct (GoStrings.bytes s) as [| c l]; cbn [Regexp.starts existsb Regexp.run fst flat_map];
    rewrite ?app_nil_r, ?Hrest, ?orb_false_r; reflexivity.
Qed.

(** Zero or more bytes of a class: the star reads any run of them. *)
Lemma iterate_class (items : list (ascii * ascii)) (w t : list ascii) :
  forallb (Regexp.inClass items) w = true ->
  forall (fuel : nat) (b : bool),
    (List.length w <= fuel)%nat ->
    exists b', In (b', t) (Regexp.iterate fuel (Regexp.run (Regexp.Class items)) (b, w ++ t)).
Proof.
  induction w as [| c w IH]; intros Hw fuel b Hfuel.
  - exists b. destruct fuel; left; reflexivity.
  - cbn [forallb] in Hw. apply andb_true_iff in Hw as [Hc Hw].
    destruct fuel as [| fuel]; [cbn [List.length] in Hfuel; lia |].
    destruct (IH Hw fuel false) as (b' & Hb'); [cbn [List.length] in Hfuel; lia |].
    exists b'. cbn [Regexp.iterate]. right.
    cbn [Regexp.run snd app]. rewrite Hc. cbn [List.filter].
    unfold Regexp.shorter at 1. cbn [snd List.length].
    rewrite (proj2 (Nat.ltb_lt _ _)) by lia.
    cbn [flat_map]. apply in_or_app. left. exact Hb'.
Qed.

Lemma run_star_class (items : list (ascii * ascii)) (w t : list ascii) (b : bool) :
  forallb (Regexp.inClass items) w = true ->
  exists b', In (b', t) (Regexp.run (Regexp.Star (Regexp.Class items)) (b, w ++ t)).
Proof.
  intros Hw. cbn [Regexp.run snd]. apply iterate_class; [exact Hw |].
  rewrite length_app. lia.
Qed.

(** What a class reads is one byte of the class. *)
Lemma run_class (items : list (ascii * ascii)) (p q : Regexp.pos) :
  In q (Regexp.run (Regexp.Class items) p) ->
  exists c, snd p = c :: snd q /\ Regexp.inClass items c = true /\ fst q = false.
Proof.
  destruct p as [b [| c t]]; cbn [Regexp.run snd]; [intros [] |].
  destruct (Regexp.inClass items c) eqn:Hc; [| intros []].
  intros [<- | []]. exists c. repeat split. exact Hc.
Qed.

Lemma run_eol (p q : Regexp.pos) : In q (Regexp.run Regexp.Eol p) -> q = p /\ snd p = [].
Proof.
  destruct p as [b [| c t]]; cbn [Regexp.run snd]; [| intros []].
  intros [<- | []]. split; reflexivity.
Qed.

Lemma run_nonempty {r : Regexp.regex} {p : Regexp.pos} :
  match Regexp.run r p with [] => false | _ => true end = true <->
  exists q, In q (Regexp.run r p).
Proof.
  destruct (Regexp.run r p) as [| q qs].
  - split; [discriminate | intros (q & [])].
  - split; [intros _; exists q; left; reflexivity | reflexivity].
Qed.

(** How a match of a compound expression is made of matches of its
    parts. *)
Lemma run_Cat (r1 r2 : Regexp.regex) (p q : Regexp.pos) :
  In q (Regexp.run (Regexp.Cat r1 r2) p) <->
  exists m, In m (Regexp.run r1 p) /\ In q (Regexp.run r2 m).
Proof. cbn [Regexp.run]. apply in_flat_map. Qed.

Lemma run_Alt (r1 r2 : Regexp.regex) (p q : Regexp.pos) :
  In q (Regexp.run (Regexp.Alt r1 r2) p) <->
  In q (Regexp.run r1 p) \/ In q (Regexp.run r2 p).
Proof. cbn [Regexp.run]. apply in_app_iff. Qed.

Lemma run_Opt (r : Regexp.regex) (p q : Regexp.pos) :
  In q (Regexp.run (Regexp.Opt r) p) <-> In q (Regexp.run r p) \/ q = p.
Proof.
  cbn [Regexp.run]. rewrite in_app_iff. cbn [In].
  split; intros [H | H]; try (left; exact H); right.
  - destruct H as [H | []]. symmetry. exact H.
  - left. symmetry. exact H.
Qed.

Lemma run_Class (items : list (ascii * ascii)) (p q : Regexp.pos) :
  In q (Regexp.run (Regexp.Class items) p) <->
  exists c, snd p = c :: snd q /\ Regexp.inClass items c = true /\ fst q = false.
Proof.
  split; [apply run_class |].
  intros (c & Hp & Hc & Hq). destruct p as [b l], q as [b' l']. cbn [fst snd] in *.
  subst l b'. cbn [Regexp.run snd]. rewrite Hc. left. reflexivity.
Qed.

Lemma run_Chr (c : ascii) (p q : Regexp.pos) :
  In q (Regexp.run (Regexp.Chr c) p) <-> snd p = c :: snd q /\ fst q = false.
Proof.
  destruct p as [b [| c' t]], q as [b' l']; cbn [Regexp.run fst snd].
  - split; [intros [] | intros [H _]; discriminate].
  - destruct (Ascii.eqb_spec c c') as [<- | Hne].
    + split.
      * intros [H | []]. injection H as <- <-. split; reflexivity.
      * intros [H ->]. injection H as <-. left. reflexivity.
    + split; [intros [] | intros [H _]; injection H as H _; congruence].
Qed.

Lemma run_Eol (p q : Regexp.pos) :
  In q (Regexp.run Regexp.Eol p) <-> q = p /\ snd p = [].
Proof.
  split; [apply run_eol |]. intros [-> Hp].
  destruct p as [b l]. cbn [snd] in Hp. subst l. left. reflexivity.
Qed.

Lemma run_Bol (p q : Regexp.pos) :
  In q (Regexp.run Regexp.Bol p) <-> q = p /\ fst p = true.
Proof.
  destruct p as [[|] l]; cbn [Regexp.run fst].
  - split; [intros [<- | []]; split; reflexivity | intros [-> _]; left; reflexivity].
  - split; [intros [] | intros [_ H]; discriminate].
Qed.

(** The classes of the label expression, as the byte tests. *)
Lemma labelClass_labelByte (c : ascii) :
  Regexp.inClass [("-", "-"); ("a", "z"); ("-", "-"); ("A", "Z"); ("0", "9")]%char c
  = labelByte c.
Proof.
  unfold labelByte, Regexp.inClass. cbn [existsb].
  destruct ((_ <=? _)%nat && (_ <=? _)%nat); reflexivity.
Qed.

Lemma forallb_labelClass (w : list ascii) :
  forallb (Regexp.inClass [("-", "-"); ("a", "z"); ("-", "-"); ("A", "Z"); ("0", "9")]%char) w
  = forallb labelByte w.
Proof.
  induction w as [| c w IH]; [reflexivity |].
  cbn [forallb]. rewrite IH, labelClass_labelByte. reflexivity.
Qed.

Lemma alnumByte_labelByte (c : ascii) : alnumByte c = true -> labelByte c = true.
Proof.
  unfold alnumByte, labelByte, Regexp.inClass. cbn [existsb].
  intros ->. apply orb_true_r.
Qed.

(** A text is a label when it is one letter or digit, or a letter or
    digit, then letters, digits and hyphens, then a letter or digit. *)
Lemma labelText_shape (l : list ascii) :
  labelText l = true <->
  (exists c, l = [c] /\ alnumByte c = true)
  \/ (exists c w d, l = c :: w ++ [d] /\ alnumByte c = true
                    /\ forallb labelByte w = true /\ alnumByte d = true).
Proof.
  destruct l as [| c [| c2 t2]].
  - split; [discriminate |].
    intros [(c & H & _) | (c & w & d & H & _)]; discriminate.
  - cbn [labelText forallb List.last]. split.
    + intros H. left. exists c. split; [reflexivity |].
      apply andb_true_iff in H as [_ H]. exact H.
    + intros [(c' & H & Hc) | (c' & w & d & H & _)].
      * injection H as ->. rewrite Hc, (alnumByte_labelByte _ Hc). reflexivity.
      * injection H as _ H. destruct w; discriminate.
  - destruct (exists_last (l := c2 :: t2)) as (w & d & Ht); [discriminate |].
    rewrite Ht. unfold labelText.
    rewrite app_comm_cons, last_last. cbn [app forallb].
    rewrite forallb_app. cbn [forallb]. rewrite andb_true_r. split.
    + intros H. right. exists c, w, d.
      apply andb_true_iff in H as [H Hd]. apply andb_true_iff in H as [Hc H].
      apply andb_true_iff in H as [_ H]. apply andb_true_iff in H as [Hw _].
      repeat split; assumption.
    + intros [(c' & H & _) | (c' & w' & d' & H & Hc & Hw & Hd)].
      * injection H as _ H. destruct w; discriminate.
      * injection H as -> H. apply app_inj_tail in H as [-> ->].
        rewrite Hc, Hw, Hd, (alnumByte_labelByte _ Hc), (alnumByte_labelByte _ Hd).
        reflexivity.
Qed.

Lemma run_labelBody (p q : Regexp.pos) :
  In q (Regexp.run labelBody p) <->
  exists w, snd p = w ++ snd q /\ labelText w = true /\ fst q = false.
Proof.
  unfold labelBody. rewrite run_Cat. split.
  - intros (m & Hm & Hq). apply run_Class in Hm as (c & Hp & Hc & Hm).
    apply run_Opt in Hq as [Hq | ->].
    + apply run_Cat in Hq as (m' & Hm' & Hq).
      apply run_Class in Hq as (d & Hd & Hdc & Hq).
      apply (run_reads labelByte) in Hm' as (w & Hw & Hall); [| vm_compute; reflexivity].
      exists (c :: w ++ [d]). split; [| split; [| exact Hq]].
      * rewrite Hp, Hw, Hd. cbn [app]. rewrite <- app_assoc. reflexivity.
      * apply labelText_shape. right. exists c, w, d. repeat split; assumption.
    + exists [c]. split; [exact Hp |]. split; [| exact Hm].
      apply labelText_shape. left. exists c. split; [reflexivity | exact Hc].
  - intros (w & Hp & Hw & Hq). destruct p as [b l], q as [b' l']. cbn [fst snd] in *. subst b'.
    apply labelText_shape in Hw as [(c & -> & Hc) | (c & w' & d & -> & Hc & Hw & Hd)].
    + exists (false, l'). split; [apply run_Class; exists c; repeat split; assumption |].
      apply run_Opt. right. reflexivity.
    + exists (false, w' ++ [d] ++ l'). split.
      * apply run_Class. exists c. cbn [fst snd]. split; [| split; [exact Hc | reflexivity]].
        rewrite Hp. cbn [app]. rewrite <- app_assoc. reflexivity.
      * apply run_Opt. left. apply run_Cat.
        destruct (run_star_class
                    [("-", "-"); ("a", "z"); ("-", "-"); ("A", "Z"); ("0", "9")]%char
                    w' ([d] ++ l') false) as (b' & Hb').
        { rewrite forallb_labelClass. exact Hw. }
        exists (b', [d] ++ l'). split; [exact Hb' |].
        apply run_Class. exists d. repeat split. exact Hd.
Qed.

Lemma IsDNS1123Label_labelText (value : string) :
  IsDNS1123Label value
  = (GoStrings.len value <=? 63) && labelText (GoStrings.bytes value).
Proof.
  unfold IsDNS1123Label, dns1123LabelMaxLength. f_equal.
  unfold dns1123LabelRegexp. rewrite MatchString_anchored.
  apply eq_true_iff_eq. rewrite run_nonempty. split.
  - intros (q & Hq). apply run_Cat in Hq as (m1 & Hm1 & Hq).
    apply run_Cat in Hq as (m2 & Hm2 & Hq). apply run_Eol in Hq as [-> Hend].
    assert (Hbody : In m2 (Regexp.run labelBody (true, GoStrings.bytes value))).
    { unfold labelBody. apply run_Cat. exists m1. split; assumption. }
    apply run_labelBody in Hbody as (w & Hw & Htext & _).
    cbn [snd] in Hw. rewrite Hend, app_nil_r in Hw. rewrite Hw. exact Htext.
  - intros Htext.
    assert (Hbody : In (false, []) (Regexp.run labelBody (true, GoStrings.bytes value))).
    { apply run_labelBody. exists (GoStrings.bytes value). cbn [fst snd].
      rewrite app_nil_r. repeat split. exact Htext. }
    unfold labelBody in Hbody. apply run_Cat in Hbody as (m1 & Hm1 & Hm2).
    exists (false, []). apply run_Cat. exists m1. split; [exact Hm1 |].
    apply run_Cat. exists (false, []). split; [exact Hm2 |].
    apply run_Eol. split; reflexivity.
Qed.

(** [IsDNS1123Label] accepts exactly the texts of at most 63 bytes that are
    made of letters, digits and hyphens and begin and end with a letter or
    digit. *)
Theorem IsDNS1123Label_accepts (value : string) :
  IsDNS1123Label value = true <->
  GoStrings.len value <= 63
  /\ exists c rest,
       GoStrings.bytes value = c :: rest
       /\ alnumByte c = true
       /\ forallb labelByte rest = true
       /\ alnumByte (List.last rest c) = true.
Proof.
  rewrite IsDNS1123Label_labelText, andb_true_iff, Z.leb_le. apply and_iff_compat_l.
  unfold labelText. destruct (GoStrings.bytes value) as [| c rest].
  - split; [discriminate | intros (c & rest & H & _); discriminate H].
  - assert (Hlast : List.last (c :: rest) c = List.last rest c)
      by (destruct rest; reflexivity).
    rewrite Hlast. cbn [forallb]. rewrite !andb_true_iff. split.
    + intros [[Hc [_ Hrest]] Hend]. exists c, rest. repeat split; assumption.
    + intros (c' & rest' & Heq & Hc & Hrest & Hend). injection Heq as <- <-.
      split; [split; [exact Hc | split; [apply alnumByte_labelByte; exact Hc | exact Hrest]] |].
      exact Hend.
Qed.

(** Every suffix of a text is a position a search starts from. *)
Lemma starts_suffix (b : bool) (l : list ascii) (p : Regexp.pos) :
  In p (Regexp.starts b l) -> exists pre, l = pre ++ snd p.
Proof.
  revert b. induction l as [| c l IH]; intros b; cbn [Regexp.starts In].
  - intros [<- | []]. exists []. reflexivity.
  - intros [<- | H]; [exists []; reflexivity |].
    destruct (IH _ H) as (pre & Hpre). exists (c :: pre). rewrite Hpre at 1. reflexivity.
Qed.

Lemma starts_complete (pre u : list ascii) (b : bool) :
  exists b', In (b', u) (Regexp.starts b (pre ++ u)).
Proof.
  revert b. induction pre as [| c pre IH]; intros b.
  - exists b. destruct u; left; reflexivity.
  - destruct (IH false) as (b' & Hb'). exists b'. cbn [app Regexp.starts]. right. exact Hb'.
Qed.

Lemma wildcardText_shape (l : list ascii) :
  wildcardText l = true <->
  (exists t, l = "*"%char :: t) \/ (exists pre d, l = pre ++ [d] /\ alnumByte d = true).
Proof.
  destruct l as [| c t].
  - split; [discriminate |].
    intros [(t & H) | (pre & d & H & _)]; [discriminate | destruct pre; discriminate].
  - destruct (exists_last (l := c :: t)) as (pre & d & Ht); [discriminate |].
    assert (Hlast : List.last (c :: t) c = d) by (rewrite Ht; apply last_last).
    unfold wildcardText. rewrite Hlast.
    rewrite orb_true_iff. split.
    + intros [H | H].
      * left. exists t. apply Ascii.eqb_eq in H. rewrite H. reflexivity.
      * right. exists pre, d. split; assumption.
    + intros [(t' & H) | (pre' & d' & H & Hd)].
      * left. injection H as -> _. reflexivity.
      * right. rewrite Ht in H. apply app_inj_tail in H as [_ ->]. exact Hd.
Qed.

(** The expression of the wildcard prefix is [^\*] or an expression that
    is tied to the end of the text only: it matches every text that begins
    with an asterisk, and every text that ends with a letter or digit. *)
Lemma MatchString_wildcardPrefixRegexp (value : string) :
  Regexp.MatchString wildcardPrefixRegexp value = wildcardText (GoStrings.bytes value).
Proof.
  apply eq_true_iff_eq. rewrite wildcardText_shape. unfold Regexp.MatchString.
  rewrite existsb_exists. split.
  - intros (p & Hp & Hrun). apply run_nonempty in Hrun as (q & Hq).
    unfold wildcardPrefixRegexp in Hq. apply run_Alt in Hq as [Hq | Hq].
    + left. apply run_Cat in Hq as (m & Hm & Hq). apply run_Bol in Hm as [-> Hfst].
      apply run_Chr in Hq as [Hq _].
      apply starts_true in Hp; [| exact Hfst]. subst p. cbn [snd] in Hq.
      exists (snd q). exact Hq.
    + right. apply starts_suffix in Hp as (pre & Hpre).
      apply run_Cat in Hq as (m & Hm & Hq).
      apply (run_reads (fun _ => true)) in Hm as (w0 & Hw0 & _); [| vm_compute; reflexivity].
      apply run_Cat in Hq as (m2 & Hm2 & Hq). apply run_Eol in Hq as [_ Hend].
      change (In m2 (Regexp.run labelBody m)) in Hm2.
      apply run_labelBody in Hm2 as (w & Hw & Htext & _).
      rewrite Hend, app_nil_r in Hw.
      apply labelText_shape in Htext as [(c & -> & Hc) | (c & w' & d & -> & Hc & _ & Hd)].
      * exists (pre ++ w0), c. split; [| exact Hc].
        rewrite Hpre, Hw0, Hw, app_assoc. reflexivity.
      * exists (pre ++ w0 ++ c :: w'), d. split; [| exact Hd].
        rewrite Hpre, Hw0, Hw. rewrite <- !app_assoc. reflexivity.
  - intros [(t & Ht) | (pre & d & Hl & Hd)].
    + exists (true, GoStrings.bytes value). split.
      * destruct (GoStrings.bytes value); left; reflexivity.
      * apply run_nonempty. exists (false, t). unfold wildcardPrefixRegexp.
        apply run_Alt. left. apply run_Cat. exists (true, GoStrings.bytes value).
        split; [apply run_Bol; split; reflexivity |].
        apply run_Chr. cbn [fst snd]. split; [exact Ht | reflexivity].
    + destruct (starts_complete pre [d] true) as (b' & Hb'). rewrite <- Hl in Hb'.
      exists (b', [d]). split; [exact Hb' |].
      apply run_nonempty. exists (false, []). unfold wildcardPrefixRegexp.
      apply run_Alt. right. apply run_Cat. exists (b', [d]).
      split; [apply run_Opt; right; reflexivity |].
      apply run_Cat. exists (false, []). split; [| apply run_Eol; split; reflexivity].
      change (In (false, []) (Regexp.run labelBody (b', [d]))).
      apply run_labelBody. exists [d]. cbn [fst snd]. repeat split.
      apply labelText_shape. left. exists d. split; [reflexivity | exact Hd].
Qed.

Lemma IsWildcardDNS1123Label_wildcardText (value : string) :
  IsWildcardDNS1123Label value
  = (GoStrings.len value <=? 63) && wildcardText (GoStrings.bytes value).
Proof.
  unfold IsWildcardDNS1123Label, dns1123LabelMaxLength.
  rewrite MatchString_wildcardPrefixRegexp. reflexivity.
Qed.

(** [IsWildcardDNS1123Label] accepts exactly the texts of at most 63 bytes
    that begin with an asterisk or end with a letter or digit: nothing ties
    the second alternative of the expression to the beginning of the
    text. *)
Theorem IsWildcardDNS1123Label_accepts (value : string) :
  IsWildcardDNS1123Label value = true <->
  GoStrings.len value <= 63
  /\ exists c rest,
       GoStrings.bytes value = c :: rest
       /\ (c = "*"%char \/ alnumByte (List.last rest c) = true).
Proof.
  rewrite IsWildcardDNS1123Label_wildcardText, andb_true_iff, Z.leb_le.
  apply and_iff_compat_l.
  unfold wildcardText. destruct (GoStrings.bytes value) as [| c rest].
  - split; [discriminate | intros (c & rest & H & _); discriminate H].
  - assert (Hlast : List.last (c :: rest) c = List.last rest c)
      by (destruct rest; reflexivity).
    rewrite Hlast, orb_true_iff, Ascii.eqb_eq. split.
    + intros H. exists c, rest. split; [reflexivity | exact H].
    + intros (c' & rest' & Heq & H). injection Heq as <- <-. exact H.
Qed.

Lemma run_star_class_all (items : list (ascii * ascii)) (l : list ascii) (b : bool) :
  forallb (Regexp.inClass items) l = true ->
  exists b', In (b', []) (Regexp.run (Regexp.Star (Regexp.Class items)) (b, l)).
Proof.
  intros Hl. rewrite <- (app_nil_r l). apply run_star_class. exact Hl.
Qed.

(** The expression of a tag accepts exactly the texts made of letters,
    digits and the bytes [-], [_], [.], [/]; the empty text is one. *)
Lemma MatchString_tagRegexp (value : string) :
  Regexp.MatchString tagRegexp value = forallb tagByte (GoStrings.bytes value).
Proof.
  apply eq_true_iff_eq. split.
  - unfold tagRegexp. apply anchored_match; vm_compute; reflexivity.
  - intros Hall. unfold tagRegexp. rewrite MatchString_anchored.
    apply run_nonempty.
    destruct (run_star_class_all
                [("-", "-"); ("A", "Z"); ("a", "z"); ("0", "9"); ("_", "_"); (".", ".");
                 ("/", "/")]%char (GoStrings.bytes value) true Hall) as (b' & Hb').
    exists (b', []). apply run_Cat. exists (b', []). split; [exact Hb' |].
    apply run_Eol. split; reflexivity.
Qed.
(** ** Domain names *)

(** [strings.SplitN(s, sep, 2)] cuts off the first of the pieces of
    [strings.Split(s, sep)]. *)
Lemma split_bytes_cut_bytes (sep : ascii) (l cur : list ascii) :
  GoStrings.split_bytes sep cur l
  = match GoStrings.cut_bytes sep cur l with
    | (h, None) => [h]
    | (h, Some t) => h :: GoStrings.split_bytes sep [] t
    end.
Proof.
  revert cur. induction l as [| c l IH]; intros cur; cbn; [reflexivity |].
  destruct (Ascii.eqb c sep); [reflexivity | apply IH].
Qed.

Lemma Split_SplitN2 (s : string) (sep : ascii) :
  GoStrings.Split s sep
  = match GoStrings.SplitN2 s sep with
    | (first, None) => [first]
    | (first, Some rest) => first :: GoStrings.Split rest sep
    end.
Proof.
  unfold GoStrings.Split, GoStrings.SplitN2. rewrite split_bytes_cut_bytes.
  destruct (GoStrings.cut_bytes sep [] (GoStrings.bytes s)) as [h [t |]]; cbn; [| reflexivity].
  rewrite bytes_of_bytes. reflexivity.
Qed.

Lemma checkDNS1123Preconditions_None (name : string) :
  checkDNS1123Preconditions name = None <-> 1 <= GoStrings.len name <= 255.
Proof.
  unfold checkDNS1123Preconditions.
  assert (0 <= GoStrings.len name) by (unfold GoStrings.len; lia).
  destruct (Z.ltb_spec 255 (GoStrings.len name)); [split; [discriminate | lia] |].
  destruct (Z.eqb_spec (GoStrings.len name) 0); [split; [discriminate | lia] |].
  split; [lia | reflexivity].
Qed.

Lemma validateDNS1123Labels_None (domain : string) :
  validateDNS1123Labels domain = None <->
  forallb IsDNS1123Label (GoStrings.Split domain ".") = true.
Proof.
  unfold validateDNS1123Labels.
  destruct (find _ _) as [label |] eqn:Hfind.
  - split; [discriminate |]. intros Hall.
    apply find_some in Hfind as [Hin Hbad].
    rewrite forallb_forall in Hall. rewrite (Hall _ Hin) in Hbad. discriminate.
  - split; [| reflexivity]. intros _. apply forallb_forall. intros label Hin.
    apply negb_false_iff. exact (List.find_none _ _ Hfind label Hin).
Qed.

Lemma ValidateFQDN_None (fqdn : string) :
  ValidateFQDN fqdn = None <->
  1 <= GoStrings.len fqdn <= 255
  /\ forallb (fun label => (GoStrings.len label <=? 63) && labelText (GoStrings.bytes label))
       (GoStrings.Split fqdn ".") = true.
Proof.
  unfold ValidateFQDN. rewrite appendErrors_None.
  rewrite <- checkDNS1123Preconditions_None.
  assert (Hlabels : validateDNS1123Labels fqdn = None <->
                    forallb (fun label => (GoStrings.len label <=? 63)
                                          && labelText (GoStrings.bytes label))
                      (GoStrings.Split fqdn ".") = true).
  { rewrite validateDNS1123Labels_None.
    assert (Hext : forall l, forallb IsDNS1123Label l
                             = forallb (fun label => (GoStrings.len label <=? 63)
                                                     && labelText (GoStrings.bytes label)) l).
    { induction l as [| x l IH]; [reflexivity |].
      cbn [forallb]. rewrite IH, IsDNS1123Label_labelText. reflexivity. }
    rewrite Hext. reflexivity. }
  rewrite <- Hlabels. split.
  - intros H. inversion H as [| x l H1 H2]; subst. inversion H2 as [| y l' H3 _]; subst.
    split; assumption.
  - intros [H1 H2]. repeat constructor; assumption.
Qed.

(** [ValidateFQDN] accepts a name iff it has 1 to 255 bytes and each of the
    labels between its dots has at most 63 bytes, is made of letters,
    digits and hyphens, and begins and ends with a letter or digit. *)
Theorem ValidateFQDN_accepts (fqdn : string) :
  ValidateFQDN fqdn = None <->
  1 <= GoStrings.len fqdn <= 255
  /\ Forall (fun label => GoStrings.len label <= 63
                         /\ labelText (GoStrings.bytes label) = true)
       (GoStrings.Split fqdn ".").
Proof.
  rewrite ValidateFQDN_None. apply and_iff_compat_l.
  rewrite forallb_forall, List.Forall_forall. split; intros H label Hin.
  - specialize (H label Hin). apply andb_true_iff in H as [Hlen Htext].
    apply Z.leb_le in Hlen. split; [exact Hlen | exact Htext].
  - destruct (H label Hin) as [Hlen Htext]. apply andb_true_iff.
    split; [apply Z.leb_le; exact Hlen | exact Htext].
Qed.

Lemma ValidateWildcardDomain_None (domain : string) :
  ValidateWildcardDomain domain = None <->
  1 <= GoStrings.len domain <= 255
  /\ match GoStrings.Split domain "." with
     | first :: rest =>
         (GoStrings.len first <=? 63) && wildcardText (GoStrings.bytes first)
         && forallb IsDNS1123Label rest
     | [] => false
     end = true.
Proof.
  unfold ValidateWildcardDomain. rewrite Split_SplitN2.
  pose proof (checkDNS1123Preconditions_None domain) as Hpre.
  destruct (checkDNS1123Preconditions domain) as [err |].
  - split; [discriminate |]. intros [H _]. apply Hpre in H. discriminate.
  - assert (Hlen : 1 <= GoStrings.len domain <= 255) by (apply Hpre; reflexivity).
    cbv zeta. destruct (GoStrings.SplitN2 domain ".") as [first [rest |]]; cbn [fst snd].
    + rewrite IsWildcardDNS1123Label_wildcardText.
      destruct ((GoStrings.len first <=? 63) && wildcardText (GoStrings.bytes first));
        cbn [negb andb].
      * rewrite validateDNS1123Labels_None. split; [intros H; split; assumption |].
        intros [_ H]. exact H.
      * split; [discriminate | intros [_ H]; discriminate].
    + rewrite IsWildcardDNS1123Label_wildcardText.
      destruct ((GoStrings.len first <=? 63) && wildcardText (GoStrings.bytes first));
        cbn [negb andb forallb].
      * split; [intros _; split; [exact Hlen | reflexivity] | reflexivity].
      * split; [discriminate | intros [_ H]; discriminate].
Qed.

(** [ValidateWildcardDomain] accepts a name iff it has 1 to 255 bytes, its
    first label has at most 63 bytes and begins with an asterisk or ends
    with a letter or digit, and every later label is a DNS-1123 label. *)
Theorem ValidateWildcardDomain_accepts (domain : string) :
  ValidateWildcardDomain domain = None <->
  1 <= GoStrings.len domain <= 255
  /\ exists first rest,
       GoStrings.Split domain "." = first :: rest
       /\ GoStrings.len first <= 63
       /\ wildcardText (GoStrings.bytes first) = true
       /\ Forall (fun label => IsDNS1123Label label = true) rest.
Proof.
  rewrite ValidateWildcardDomain_None. apply and_iff_compat_l.
  destruct (GoStrings.Split domain ".") as [| first rest].
  - split; [discriminate | intros (f & r & H & _); discriminate H].
  - rewrite !andb_true_iff, Z.leb_le, forallb_forall. split.
    + intros [[Hlen Htext] Hrest]. exists first, rest.
      split; [reflexivity |]. split; [exact Hlen |]. split; [exact Htext |].
      apply List.Forall_forall. exact Hrest.
    + intros (f & r & Heq & Hlen & Htext & Hrest). injection Heq as <- <-.
      rewrite List.Forall_forall in Hrest.
      split; [split; [exact Hlen | exact Htext] | exact Hrest].
Qed.

(** A fully-qualified domain name is a wildcard domain. *)
Theorem ValidateFQDN_ValidateWildcardDomain (domain : string) :
  ValidateFQDN domain = None -> ValidateWildcardDomain domain = None.
Proof.
  intros H. unfold ValidateFQDN in H. apply appendErrors_None in H.
  inversion H as [| x l Hpre H2]; subst. inversion H2 as [| y l' Hlabels _]; subst.
  apply checkDNS1123Preconditions_None in Hpre.
  apply validateDNS1123Labels_None in Hlabels.
  apply ValidateWildcardDomain_None. split; [exact Hpre |].
  rewrite Split_SplitN2 in Hlabels |- *.
  assert (Hgen : forall first rest,
             forallb IsDNS1123Label (first :: rest) = true ->
             (GoStrings.len first <=? 63) && wildcardText (GoStrings.bytes first)
             && forallb IsDNS1123Label rest = true).
  { intros first rest Hall. cbn [forallb] in Hall.
    apply andb_true_iff in Hall as [Hfirst Hrest]. rewrite Hrest, andb_true_r.
    apply IsDNS1123Label_IsWildcardDNS1123Label in Hfirst.
    rewrite IsWildcardDNS1123Label_wildcardText in Hfirst. exact Hfirst. }
  destruct (GoStrings.SplitN2 domain ".") as [first [rest |]]; apply Hgen; exact Hlabels.
Qed.

Lemma cut_bytes_cur (sep : ascii) (l cur : list ascii) :
  exists w, fst (GoStrings.cut_bytes sep cur l) = rev cur ++ w.
Proof.
  revert cur. induction l as [| c l IH]; intros cur; cbn.
  - exists []. rewrite app_nil_r. reflexivity.
  - destruct (Ascii.eqb c sep); [exists []; rewrite app_nil_r; reflexivity |].
    destruct (IH (c :: cur)) as (w & Hw). exists (c :: w). rewrite Hw. cbn [rev].
    rewrite <- app_assoc. reflexivity.
Qed.

(** A fully-qualified domain name begins with a letter or digit. *)
Lemma ValidateFQDN_first_byte (fqdn : string) :
  ValidateFQDN fqdn = None ->
  exists c rest, fqdn = String c rest /\ alnumByte c = true.
Proof.
  intros H. apply ValidateFQDN_None in H as [Hlen Hlabels].
  destruct fqdn as [| c rest]; [unfold GoStrings.len in Hlen; cbn in Hlen; lia |].
  exists c, rest. split; [reflexivity |].
  rewrite Split_SplitN2 in Hlabels. unfold GoStrings.SplitN2 in Hlabels.
  assert (Hfirst : labelText (fst (GoStrings.cut_bytes "." [] (GoStrings.bytes (String c rest))))
                   = true).
  { destruct (GoStrings.cut_bytes "." [] (GoStrings.bytes (String c rest))) as [h [t |]];
      cbn [forallb fst fmap option_fmap option_map] in Hlabels |- *;
      apply andb_true_iff in Hlabels as [Hl _];
      apply andb_true_iff in Hl as [_ Hl];
      rewrite bytes_of_bytes in Hl; exact Hl. }
  change (GoStrings.bytes (String c rest)) with (c :: GoStrings.bytes rest) in Hfirst.
  cbn [GoStrings.cut_bytes] in Hfirst.
  destruct (Ascii.eqb c "."); [discriminate |].
  destruct (cut_bytes_cur "." (GoStrings.bytes rest) [c]) as (w & Hw).
  rewrite Hw in Hfirst. cbn [rev app labelText] in Hfirst.
  apply andb_true_iff in Hfirst as [Hfirst _].
  apply andb_true_iff in Hfirst as [Hfirst _]. exact Hfirst.
Qed.

(** [ValidateEgressRuleDomain] accepts the lone asterisk and a
    fully-qualified domain name, alone or after one of the prefixes [*],
    [*.] and [*-], and nothing else. *)
Theorem ValidateEgressRuleDomain_accepts (domain : string) :
  ValidateEgressRuleDomain domain = None <->
  domain = "*"
  \/ exists fqdn,
      ValidateFQDN fqdn = None
      /\ (domain = fqdn \/ domain = "*" +:+ fqdn \/ domain = "*." +:+ fqdn
          \/ domain = "*-" +:+ fqdn).
Proof.
  split.
  - unfold ValidateEgressRuleDomain.
    destruct domain as [| c rest]; [discriminate |].
    destruct (Ascii.eqb_spec c "*") as [-> | Hc].
    + destruct rest as [| c' rest']; [intros _; left; reflexivity |].
      destruct (Ascii.eqb_spec c' ".") as [-> | Hdot]; cbn [orb].
      * intros H. right. exists rest'. split; [exact H |]. right. right. left. reflexivity.
      * destruct (Ascii.eqb_spec c' "-") as [-> | Hdash].
        -- intros H. right. exists rest'. split; [exact H |]. right. right. right. reflexivity.
        -- intros H. right. exists (String c' rest'). split; [exact H |]. right. left.
           reflexivity.
    + intros H. right. exists (String c rest). split; [exact H |]. left. reflexivity.
  - intros [-> | (fqdn & Hfqdn & Hform)]; [reflexivity |].
    destruct (ValidateFQDN_first_byte fqdn Hfqdn) as (c & rest & -> & Hc).
    assert (Hstar : Ascii.eqb c "*" = false)
      by (destruct (Ascii.eqb_spec c "*") as [-> | _]; [discriminate Hc | reflexivity]).
    assert (Hdot : Ascii.eqb c "." = false)
      by (destruct (Ascii.eqb_spec c ".") as [-> | _]; [discriminate Hc | reflexivity]).
    assert (Hdash : Ascii.eqb c "-" = false)
      by (destruct (Ascii.eqb_spec c "-") as [-> | _]; [discriminate Hc | reflexivity]).
    destruct Hform as [-> | [-> | [-> | ->]]].
    + cbn [ValidateEgressRuleDomain]. rewrite Hstar. exact Hfqdn.
    + change ("*" +:+ String c rest) with (String "*" (String c rest)).
      cbn [ValidateEgressRuleDomain]. rewrite Ascii.eqb_refl, Hdot, Hdash. exact Hfqdn.
    + change ("*." +:+ String c rest) with (String "*" (String "." (String c rest))).
      exact Hfqdn.
    + change ("*-" +:+ String c rest) with (String "*" (String "-" (String c rest))).
      exact Hfqdn.
Qed.

(** ** Labels *)

Lemma fold_left_None {A : Type} (f : option error -> A -> option error) (ok : A -> bool)
  (l : list A) (errs : option error) :
  (forall errs x, f errs x = None <-> errs = None /\ ok x = true) ->
  fold_left f l errs = None <-> errs = None /\ forallb ok l = true.
Proof.
  intros Hf. revert errs. induction l as [| x l IH]; intros errs; cbn [fold_left forallb].
  - split; [intros H; split; [exact H | reflexivity] | intros [H _]; exact H].
  - rewrite IH, Hf, andb_true_iff. split.
    + intros [[H1 H2] H3]. repeat split; assumption.
    + intros [H1 [H2 H3]]. repeat split; assumption.
Qed.

Lemma multierrorAppend1_Some (errs : option error) (err : error) :
  multierrorAppend1 errs err <> None.
Proof. discriminate. Qed.

(** [Labels.Validate] accepts a set of labels iff every key and every value
    is made of letters, digits and the bytes [-], [_], [.], [/]; an empty
    key or value is accepted. *)
Theorem Labels_Validate_accepts (l : gmap string string) :
  Labels_Validate l = None <->
  forall k v, l !! k = Some v ->
              forallb tagByte (GoStrings.bytes k) = true
              /\ forallb tagByte (GoStrings.bytes v) = true.
Proof.
  unfold Labels_Validate.
  rewrite (fold_left_None _ (fun kv => forallb tagByte (GoStrings.bytes (fst kv))
                                       && forallb tagByte (GoStrings.bytes (snd kv)))).
  - rewrite forallb_forall. split.
    + intros [_ H] k v Hkv. apply elem_of_map_to_list in Hkv.
      apply list_elem_of_In in Hkv. apply H in Hkv. cbn [fst snd] in Hkv.
      apply andb_true_iff in Hkv. exact Hkv.
    + intros H. split; [reflexivity |]. intros [k v] Hin. cbn [fst snd].
      apply list_elem_of_In, elem_of_map_to_list in Hin.
      apply andb_true_iff. apply H. exact Hin.
  - intros errs [k v]. cbn [fst snd]. rewrite !MatchString_tagRegexp.
    destruct (forallb tagByte (GoStrings.bytes k)), (forallb tagByte (GoStrings.bytes v));
      cbn [negb andb];
      (split; [intros H; solve [discriminate H | split; [exact H | reflexivity]]
              | intros [H H']; solve [discriminate H' | exact H]]).
Qed.
(** ** Acceptance *)

Lemma if_multierrorAppend1_None (c : bool) (errs : option error) (err : error) :
  (if c then multierrorAppend1 errs err else errs) = None <-> errs = None /\ c = false.
Proof.
  destruct c.
  - split; [discriminate | intros [_ H]; discriminate].
  - split; [intros H; split; [exact H | reflexivity] | intros [H _]; exact H].
Qed.

Lemma appendIfError_None (errs err : option error) :
  appendIfError errs err = None <-> errs = None /\ err = None.
Proof.
  destruct err.
  - split; [discriminate | intros [_ H]; discriminate].
  - split; [intros H; split; [exact H | reflexivity] | intros [H _]; exact H].
Qed.

Lemma ValidatePort_None (port : Z) : ValidatePort port = None <-> 1 <= port <= 65535.
Proof.
  unfold ValidatePort.
  destruct (Z.leb_spec 1 port), (Z.leb_spec port 65535); cbn;
    split; try discriminate; try reflexivity; lia.
Qed.

(** [Service.Validate] accepts a service iff the labels of its host name
    are DNS-1123 labels, it has a port, the number of each port is in
    1..65535, and the name of each port is a DNS-1123 label, or is empty and
    the port is the only one.  The length of the host name is not
    limited. *)
Theorem Service_Validate_accepts (s : Service) :
  Service_Validate s = None <->
  forallb IsDNS1123Label (GoStrings.Split (Service_Hostname s) ".") = true
  /\ Service_Ports s <> []
  /\ Forall (fun port =>
               (if bool_decide (ServicePort_Name port = "")
                then List.length (Service_Ports s) = 1%nat
                else IsDNS1123Label (ServicePort_Name port) = true)
               /\ 1 <= ServicePort_Port port <= 65535)
       (Service_Ports s).
Proof.
  unfold Service_Validate.
  rewrite (fold_left_None _
             (fun port =>
                (if bool_decide (ServicePort_Name port = "")
                 then negb (1 <? Z.of_nat (List.length (Service_Ports s)))
                 else IsDNS1123Label (ServicePort_Name port))
                && (1 <=? ServicePort_Port port) && (ServicePort_Port port <=? 65535))).
  - rewrite if_multierrorAppend1_None.
    rewrite (fold_left_None _ IsDNS1123Label).
    + rewrite if_multierrorAppend1_None.
      assert (Hhost : forallb IsDNS1123Label (GoStrings.Split (Service_Hostname s) ".") = true ->
                      (GoStrings.len (Service_Hostname s) =? 0) = false).
      { intros Hall. destruct (Service_Hostname s) as [| c rest]; [discriminate Hall |].
        reflexivity. }
      assert (Hports : forallb
                         (fun port =>
                            (if bool_decide (ServicePort_Name port = "")
                             then negb (1 <? Z.of_nat (List.length (Service_Ports s)))
                             else IsDNS1123Label (ServicePort_Name port))
                            && (1 <=? ServicePort_Port port) && (ServicePort_Port port <=? 65535))
                         (Service_Ports s) = true
                       <-> Forall (fun port =>
                                     (if bool_decide (ServicePort_Name port = "")
                                      then List.length (Service_Ports s) = 1%nat
                                           \/ Service_Ports s = []
                                      else IsDNS1123Label (ServicePort_Name port) = true)
                                     /\ 1 <= ServicePort_Port port <= 65535)
                            (Service_Ports s)).
      { rewrite forallb_forall, List.Forall_forall.
        split; intros H port Hin; specialize (H port Hin).
        - apply andb_true_iff in H as [H H3]. apply andb_true_iff in H as [H1 H2].
          apply Z.leb_le in H2. apply Z.leb_le in H3. split; [| lia].
          destruct (bool_decide (ServicePort_Name port = "")); [| exact H1].
          apply negb_true_iff, Z.ltb_ge in H1.
          destruct (Service_Ports s) as [| p [| p' ps]]; cbn [List.length] in *;
            [right; reflexivity | left; reflexivity | lia].
        - destruct H as [H1 H2]. apply andb_true_iff. split; [apply andb_true_iff; split |].
          + destruct (bool_decide (ServicePort_Name port = "")); [| exact H1].
            apply negb_true_iff, Z.ltb_ge. destruct H1 as [-> | ->]; cbn; lia.
          + apply Z.leb_le. lia.
          + apply Z.leb_le. lia. }
      rewrite Hports. split.
      * intros [[[[_ _] Hlabels] Hne] Hall].
        assert (Hnonempty : Service_Ports s <> [])
          by (destruct (Service_Ports s); [discriminate Hne | discriminate]).
        split; [exact Hlabels |]. split; [exact Hnonempty |].
        eapply List.Forall_impl; [| exact Hall]. intros port [H1 H2]. split; [| exact H2].
        destruct (bool_decide (ServicePort_Name port = "")); [| exact H1].
        destruct H1 as [H1 | H1]; [exact H1 | contradiction].
      * intros (Hlabels & Hne & Hall).
        split; [split; [split; [split; [reflexivity | exact (Hhost Hlabels)] | exact Hlabels] |] |].
        -- destruct (Service_Ports s); [contradiction | reflexivity].
        -- eapply List.Forall_impl; [| exact Hall]. intros port [H1 H2]. split; [| exact H2].
           destruct (bool_decide (ServicePort_Name port = "")); [left |]; exact H1.
    + intros errs part. rewrite if_multierrorAppend1_None, negb_false_iff. reflexivity.
  - intros errs port.
    change (match ValidatePort (ServicePort_Port port) with
            | Some err => multierrorAppend1 ?e (?x err)
            | None => ?e
            end)
      with (match ValidatePort (ServicePort_Port port) with
            | Some err => multierrorAppend1 e (x err)
            | None => e
            end).
    pose proof (ValidatePort_None (ServicePort_Port port)) as Hport.
    destruct (ValidatePort (ServicePort_Port port)) as [err |].
    + split; [discriminate |]. intros [_ H].
      apply andb_true_iff in H as [H H3]. apply andb_true_iff in H as [_ H2].
      apply Z.leb_le in H2. apply Z.leb_le in H3.
      assert (Hnone : Some err = None) by (apply Hport; lia). discriminate Hnone.
    + assert (H12 : 1 <= ServicePort_Port port <= 65535) by (apply Hport; reflexivity).
      rewrite (proj2 (Z.leb_le _ _) (proj1 H12)), (proj2 (Z.leb_le _ _) (proj2 H12)).
      rewrite !andb_true_r.
      destruct (bool_decide (ServicePort_Name port = "")).
      * rewrite if_multierrorAppend1_None, negb_true_iff. reflexivity.
      * rewrite if_multierrorAppend1_None, negb_false_iff. reflexivity.
Qed.
(** ** Loops that remember what they have seen *)

Lemma fold_left_passesAll {A X S : Type} (errsOf : X -> option error) (stateOf : X -> S)
  (f : X -> A -> X) (next : S -> A -> S) (ok : S -> A -> bool) (l : list A) (x0 : X) :
  (forall x a, stateOf (f x a) = next (stateOf x) a) ->
  (forall x a, errsOf (f x a) = None <-> errsOf x = None /\ ok (stateOf x) a = true) ->
  errsOf (fold_left f l x0) = None
  <-> errsOf x0 = None /\ passesAll next ok (stateOf x0) l = true.
Proof.
  intros Hnext Hok. revert x0.
  induction l as [| a l IH]; intros x0; cbn [fold_left passesAll].
  - split; [intros H; split; [exact H | reflexivity] | intros [H _]; exact H].
  - rewrite IH, Hnext, Hok, andb_true_iff. split.
    + intros [[H1 H2] H3]. repeat split; assumption.
    + intros [H1 [H2 H3]]. repeat split; assumption.
Qed.

Lemma passesAll_and {A S : Type} (next : S -> A -> S) (ok1 ok2 : S -> A -> bool) (st : S)
  (l : list A) :
  passesAll next (fun st x => ok1 st x && ok2 st x) st l
  = passesAll next ok1 st l && passesAll next ok2 st l.
Proof.
  revert st. induction l as [| x l IH]; intros st; cbn [passesAll]; [reflexivity |].
  rewrite IH. destruct (ok1 st x), (ok2 st x), (passesAll next ok1 (next st x) l);
    reflexivity.
Qed.

Lemma passesAll_stateless {A S : Type} (next : S -> A -> S) (p : A -> bool) (st : S)
  (l : list A) :
  passesAll next (fun _ x => p x) st l = forallb p l.
Proof.
  revert st. induction l as [| x l IH]; intros st; cbn [passesAll forallb]; [reflexivity |].
  rewrite IH. reflexivity.
Qed.

(** A test that looks at a part of the state only. *)
Lemma passesAll_part {A S T : Type} (part : S -> T) (next : S -> A -> S) (next' : T -> A -> T)
  (ok : T -> A -> bool) (st : S) (l : list A) :
  (forall st x, part (next st x) = next' (part st) x) ->
  passesAll next (fun st x => ok (part st) x) st l = passesAll next' ok (part st) l.
Proof.
  intros Hpart. revert st. induction l as [| x l IH]; intros st; cbn [passesAll]; [reflexivity |].
  rewrite IH, Hpart. reflexivity.
Qed.

(** The keys of the selected elements are put into a set, and a selected
    element passes when its key is not yet in the set: all pass iff the
    keys of the selected elements are distinct and none was in the set
    beforehand. *)
Lemma passesAll_fresh {A K : Type} `{Countable K} (key : A -> K) (sel : A -> bool)
  (seen : gset K) (l : list A) :
  passesAll (fun seen x => if sel x then {[ key x ]} ∪ seen else seen)
    (fun seen x => if sel x then negb (bool_decide (key x ∈ seen)) else true) seen l = true
  <-> NoDup (map key (List.filter sel l))
      /\ forall x, In x l -> sel x = true -> key x ∉ seen.
Proof.
  revert seen. induction l as [| x l IH]; intros seen; cbn [passesAll List.filter map].
  - split; [intros _; split; [constructor | intros x []] | reflexivity].
  - rewrite andb_true_iff, IH. destruct (sel x) eqn:Hsel; cbn [map].
    + rewrite negb_true_iff, bool_decide_eq_false, NoDup_cons. split.
      * intros (Hx & Hnd & Hfresh). split; [split; [| exact Hnd] |].
        -- intros Hin. apply list_elem_of_In, in_map_iff in Hin as (y & Hy & Hin).
           apply List.filter_In in Hin as [Hin Hysel].
           apply (Hfresh y Hin Hysel). apply elem_of_union_l, elem_of_singleton. exact Hy.
        -- intros y [<- | Hin] Hysel; [exact Hx |].
           intros Hy. apply (Hfresh y Hin Hysel). apply elem_of_union_r. exact Hy.
      * intros ((Hx & Hnd) & Hfresh). split; [apply Hfresh; [left; reflexivity | exact Hsel] |].
        split; [exact Hnd |]. intros y Hin Hysel Hy.
        apply elem_of_union in Hy as [Hy | Hy].
        -- apply elem_of_singleton in Hy. apply Hx. rewrite <- Hy.
           apply list_elem_of_In, in_map. apply List.filter_In. split; assumption.
        -- exact (Hfresh y (or_intror Hin) Hysel Hy).
    + split.
      * intros (_ & Hnd & Hfresh). split; [exact Hnd |].
        intros y [<- | Hin] Hysel; [congruence | exact (Hfresh y Hin Hysel)].
      * intros (Hnd & Hfresh). split; [reflexivity |]. split; [exact Hnd |].
        intros y Hin. apply Hfresh. right. exact Hin.
Qed.

Lemma filter_true {A : Type} (l : list A) : List.filter (fun _ => true) l = l.
Proof. induction l as [| x l IH]; cbn; [reflexivity | rewrite IH; reflexivity]. Qed.

Lemma passesAll_fresh_all {A K : Type} `{Countable K} (key : A -> K) (l : list A) :
  passesAll (fun seen x => {[ key x ]} ∪ seen)
    (fun seen x => negb (bool_decide (key x ∈ seen))) (∅ : gset K) l = true
  <-> NoDup (map key l).
Proof.
  rewrite (passesAll_fresh key (fun _ => true) ∅ l), filter_true.
  split; [intros [Hnd _]; exact Hnd |].
  intros Hnd. split; [exact Hnd |]. intros x _ _. apply not_elem_of_empty.
Qed.

(** [ConfigDescriptor.Validate] accepts a descriptor iff the type and the
    plural of every entry are DNS-1123 labels, its message name is
    registered with one of the two protobuf libraries, no two entries have
    the same type, and no two entries of the same scope (cluster or
    namespace) have the same message name. *)
Theorem ConfigDescriptor_Validate_accepts (descriptor : list ProtoSchema) :
  ConfigDescriptor_Validate descriptor = None <->
  Forall (fun v => IsDNS1123Label (ProtoSchema_Type v) = true
                   /\ IsDNS1123Label (ProtoSchema_Plural v) = true
                   /\ (proto_MessageType (ProtoSchema_MessageName v) = true
                       \/ gogoproto_MessageType (ProtoSchema_MessageName v) = true))
    descriptor
  /\ NoDup (map ProtoSchema_Type descriptor)
  /\ NoDup (map ProtoSchema_MessageName (List.filter ProtoSchema_ClusterScoped descriptor))
  /\ NoDup (map ProtoSchema_MessageName
              (List.filter (fun v => negb (ProtoSchema_ClusterScoped v)) descriptor)).
Proof.
  unfold ConfigDescriptor_Validate.
  set (p := fun v => IsDNS1123Label (ProtoSchema_Type v)
                     && IsDNS1123Label (ProtoSchema_Plural v)
                     && (proto_MessageType (ProtoSchema_MessageName v)
                         || gogoproto_MessageType (ProtoSchema_MessageName v))).
  set (okT := fun (T : gset string) v => negb (bool_decide (ProtoSchema_Type v ∈ T))).
  set (okM := fun (M : gset string) v =>
                if negb (ProtoSchema_ClusterScoped v)
                then negb (bool_decide (ProtoSchema_MessageName v ∈ M)) else true).
  set (okC := fun (C : gset string) v =>
                if ProtoSchema_ClusterScoped v
                then negb (bool_decide (ProtoSchema_MessageName v ∈ C)) else true).
  set (next := fun (st : gset string * gset string * gset string) v =>
                 ({[ ProtoSchema_Type v ]} ∪ st.1.1,
                  (if negb (ProtoSchema_ClusterScoped v)
                   then {[ ProtoSchema_MessageName v ]} ∪ st.1.2 else st.1.2),
                  (if ProtoSchema_ClusterScoped v
                   then {[ ProtoSchema_MessageName v ]} ∪ st.2 else st.2))).
  match goal with
  | |- context [fold_left ?f descriptor ?x0] =>
      transitivity ((fun x : option error * gset string * gset string * gset string =>
                       x.1.1.1) (fold_left f descriptor x0) = None);
      [ destruct (fold_left f descriptor x0) as [[[e T] M] C]; reflexivity
      | rewrite (fold_left_passesAll
                   (fun x : option error * gset string * gset string * gset string => x.1.1.1)
                   (fun x => (x.1.1.2, x.1.2, x.2))
                   f next
                   (fun st v => p v && (okT st.1.1 v && (okM st.1.2 v && okC st.2 v)))) ]
  end.
  - cbn [fst snd]. rewrite !passesAll_and, passesAll_stateless.
    rewrite (passesAll_part (fun st : gset string * gset string * gset string => st.1.1) next
               (fun T v => {[ ProtoSchema_Type v ]} ∪ T) okT) by reflexivity.
    rewrite (passesAll_part (fun st : gset string * gset string * gset string => st.1.2) next
               (fun M v => if negb (ProtoSchema_ClusterScoped v)
                           then {[ ProtoSchema_MessageName v ]} ∪ M else M) okM) by reflexivity.
    rewrite (passesAll_part (fun st : gset string * gset string * gset string => st.2) next
               (fun C v => if ProtoSchema_ClusterScoped v
                           then {[ ProtoSchema_MessageName v ]} ∪ C else C) okC) by reflexivity.
    cbn [fst snd]. rewrite !andb_true_iff.
    unfold okT. rewrite passesAll_fresh_all.
    unfold okM. rewrite (passesAll_fresh ProtoSchema_MessageName
                           (fun v => negb (ProtoSchema_ClusterScoped v))).
    unfold okC. rewrite (passesAll_fresh ProtoSchema_MessageName ProtoSchema_ClusterScoped).
    rewrite forallb_forall, List.Forall_forall.
    assert (Hp : (forall v, In v descriptor -> p v = true)
                 <-> (forall v, In v descriptor ->
                        IsDNS1123Label (ProtoSchema_Type v) = true
                        /\ IsDNS1123Label (ProtoSchema_Plural v) = true
                        /\ (proto_MessageType (ProtoSchema_MessageName v) = true
                            \/ gogoproto_MessageType (ProtoSchema_MessageName v) = true))).
    { unfold p. split; intros H v Hin; specialize (H v Hin).
      - apply andb_true_iff in H as [H H3]. apply andb_true_iff in H as [H1 H2].
        apply orb_true_iff in H3. repeat split; assumption.
      - destruct H as (H1 & H2 & H3). rewrite H1, H2. apply orb_true_iff in H3.
        rewrite H3. reflexivity. }
    rewrite Hp. split.
    + intros (_ & Hall & Ht & (Hm & _) & (Hc & _)).
      split; [exact Hall |]. split; [exact Ht |]. split; [exact Hc | exact Hm].
    + intros (Hall & Ht & Hc & Hm).
      split; [reflexivity |]. split; [exact Hall |]. split; [exact Ht |].
      split; (split; [assumption | intros x _ _; apply not_elem_of_empty]).
  - intros [[[e T] M] C] v. cbn [fst snd]. unfold next. cbn [fst snd].
    destruct (ProtoSchema_ClusterScoped v); reflexivity.
  - intros [[[e T] M] C] v. cbn [fst snd]. unfold p, okT, okM, okC.
    destruct (IsDNS1123Label (ProtoSchema_Type v)),
      (IsDNS1123Label (ProtoSchema_Plural v)),
      (proto_MessageType (ProtoSchema_MessageName v)),
      (gogoproto_MessageType (ProtoSchema_MessageName v)),
      (bool_decide (ProtoSchema_Type v ∈ T)),
      (ProtoSchema_ClusterScoped v),
      (bool_decide (ProtoSchema_MessageName v ∈ C)),
      (bool_decide (ProtoSchema_MessageName v ∈ M));
      cbn [negb andb orb fst];
      (split; [intros Hn; solve [discriminate Hn | split; [exact Hn | reflexivity]]
              | intros [Hn Hb]; solve [discriminate Hb | exact Hn]]).
Qed.

(** ** Egress rules *)

Lemma ValidateEgressRulePort_None (port : routing.EgressRule_Port) :
  ValidateEgressRulePort port = None <->
  1 <= routing.EgressRule_Port_Port port <= 65535
  /\ IsEgressRulesSupportedProtocol (ParseProtocol (routing.EgressRule_Port_Protocol port)) = true.
Proof.
  unfold ValidateEgressRulePort.
  pose proof (ValidatePort_None (routing.EgressRule_Port_Port port)) as Hport.
  destruct (ValidatePort (routing.EgressRule_Port_Port port)) as [err |].
  - split; [discriminate |]. intros [H _]. apply Hport in H. discriminate H.
  - destruct (IsEgressRulesSupportedProtocol _); cbn [negb].
    + split; [intros _; split; [apply Hport; reflexivity | reflexivity] | reflexivity].
    + split; [discriminate | intros [_ H]; discriminate H].
Qed.

Lemma ValidateEgressRuleDestination_None (destination : option routing.IstioService) :
  ValidateEgressRuleDestination destination = None <->
  exists d,
    destination = Some d
    /\ routing.IstioService_Name d = ""
    /\ routing.IstioService_Namespace d = ""
    /\ routing.IstioService_Domain d = ""
    /\ routing.IstioService_Labels d = ∅
    /\ ValidateEgressRuleService (routing.IstioService_Service d) = None.
Proof.
  unfold ValidateEgressRuleDestination. destruct destination as [d |].
  - change (match ValidateEgressRuleService (routing.IstioService_Service d) with
            | Some err => multierrorAppend1 ?e err
            | None => ?e
            end)
      with (appendIfError e (ValidateEgressRuleService (routing.IstioService_Service d))).
    rewrite appendIfError_None, !if_multierrorAppend1_None, !negb_false_iff,
      !bool_decide_eq_true.
    split.
    + intros ((((( _ & H1) & H2) & H3) & H4) & H5). exists d. repeat split; assumption.
    + intros (d' & Hd & H1 & H2 & H3 & H4 & H5). injection Hd as <-.
      repeat split; assumption.
  - split; [discriminate | intros (d & Hd & _); discriminate Hd].
Qed.

(** [ValidateEgressRule] accepts a rule iff its destination is set and has
    a valid service and none of the other fields, it has ports, no two of
    them with the same number, each with a number in 1..65535 and a
    supported protocol, which is a TCP protocol when the service is in CIDR
    notation, and the rule does not ask for the egress proxy. *)
Theorem ValidateEgressRule_accepts (name namespace : string) (rule : routing.EgressRule) :
  ValidateEgressRule name namespace (MsgEgressRule rule) = None <->
  exists d,
    routing.EgressRule_Destination rule = Some d
    /\ routing.IstioService_Name d = ""
    /\ routing.IstioService_Namespace d = ""
    /\ routing.IstioService_Domain d = ""
    /\ routing.IstioService_Labels d = ∅
    /\ ValidateEgressRuleService (routing.IstioService_Service d) = None
    /\ routing.EgressRule_Ports rule <> []
    /\ NoDup (map routing.EgressRule_Port_Port (routing.EgressRule_Ports rule))
    /\ Forall (fun port =>
                 1 <= routing.EgressRule_Port_Port port <= 65535
                 /\ IsEgressRulesSupportedProtocol
                      (ParseProtocol (routing.EgressRule_Port_Protocol port)) = true
                 /\ (GoStrings.Count (routing.IstioService_Service d) "/" = 1 ->
                     IsEgressRulesSupportedTCPProtocol
                       (ParseProtocol (routing.EgressRule_Port_Protocol port)) = true))
         (routing.EgressRule_Ports rule)
    /\ routing.EgressRule_UseEgressProxy rule = false.
Proof.
  unfold ValidateEgressRule.
  set (cidr := match routing.EgressRule_Destination rule with
               | Some destination =>
                   GoStrings.Count (routing.IstioService_Service destination) "/" =? 1
               | None => false
               end).
  set (p := fun port =>
              (1 <=? routing.EgressRule_Port_Port port)
              && (routing.EgressRule_Port_Port port <=? 65535)
              && IsEgressRulesSupportedProtocol
                   (ParseProtocol (routing.EgressRule_Port_Protocol port))
              && implb cidr (IsEgressRulesSupportedTCPProtocol
                               (ParseProtocol (routing.EgressRule_Port_Protocol port)))).
  match goal with
  | |- context [fold_left ?f (routing.EgressRule_Ports rule) ?x0] =>
      transitivity
        (fst (fold_left f (routing.EgressRule_Ports rule) x0) = None
         /\ routing.EgressRule_UseEgressProxy rule = false);
      [ destruct (fold_left f (routing.EgressRule_Ports rule) x0) as [e ports];
        cbn [fst]; apply if_multierrorAppend1_None
      | rewrite (fold_left_passesAll fst snd f
                   (fun (seen : gset Z) port => {[ routing.EgressRule_Port_Port port ]} ∪ seen)
                   (fun seen port =>
                      p port
                      && negb (bool_decide (routing.EgressRule_Port_Port port ∈ seen)))) ]
  end.
  - cbn [fst snd]. rewrite passesAll_and, passesAll_stateless, andb_true_iff.
    rewrite passesAll_fresh_all.
    rewrite if_multierrorAppend1_None.
    change (match ValidateEgressRuleDestination (routing.EgressRule_Destination rule) with
            | Some err => multierrorAppend1 None err
            | None => None
            end)
      with (appendIfError None
              (ValidateEgressRuleDestination (routing.EgressRule_Destination rule))).
    rewrite appendIfError_None, ValidateEgressRuleDestination_None.
    rewrite forallb_forall.
    split.
    + intros ((((_ & (d & Hd & H1 & H2 & H3 & H4 & H5)) & Hne) & Hall & Hnd) & Hproxy).
      exists d. rewrite List.Forall_forall. split; [exact Hd |]. split; [exact H1 |]. split; [exact H2 |].
      split; [exact H3 |]. split; [exact H4 |]. split; [exact H5 |].
      split; [destruct (routing.EgressRule_Ports rule); [discriminate Hne | discriminate] |].
      split; [exact Hnd |]. split; [| exact Hproxy].
      intros port Hin. specialize (Hall port Hin). unfold p in Hall.
      apply andb_true_iff in Hall as [Hall Hc]. apply andb_true_iff in Hall as [Hall Hs].
      apply andb_true_iff in Hall as [Hlo Hhi].
      apply Z.leb_le in Hlo. apply Z.leb_le in Hhi.
      split; [lia |]. split; [exact Hs |].
      intros Hcount. unfold cidr in Hc. rewrite Hd in Hc.
      rewrite (proj2 (Z.eqb_eq _ _) Hcount) in Hc. exact Hc.
    + intros (d & Hd & H1 & H2 & H3 & H4 & H5 & Hne & Hnd & Hall & Hproxy).
      rewrite List.Forall_forall in Hall.
      split; [| exact Hproxy]. split; [split; [split; [reflexivity |] |] |].
      * exists d. repeat split; assumption.
      * destruct (routing.EgressRule_Ports rule); [contradiction | reflexivity].
      * split; [| exact Hnd]. intros port Hin. destruct (Hall port Hin) as (Hr & Hs & Hc).
        unfold p. rewrite Hs, (proj2 (Z.leb_le _ _) (proj1 Hr)),
          (proj2 (Z.leb_le _ _) (proj2 Hr)). cbn [andb].
        unfold cidr. rewrite Hd.
        destruct (Z.eqb_spec (GoStrings.Count (routing.IstioService_Service d) "/") 1)
          as [Hcount | _]; [| reflexivity].
        rewrite (Hc Hcount). reflexivity.
  - intros [e seen] port. reflexivity.
  - intros [e seen] port. cbn [fst snd].
    change (match ValidateEgressRulePort port with
            | Some err => multierrorAppend1 ?e' err
            | None => ?e'
            end) with (appendIfError e' (ValidateEgressRulePort port)).
    rewrite if_multierrorAppend1_None, appendIfError_None, if_multierrorAppend1_None.
    rewrite ValidateEgressRulePort_None. unfold p.
    destruct (bool_decide (routing.EgressRule_Port_Port port ∈ seen)),
      (IsEgressRulesSupportedProtocol (ParseProtocol (routing.EgressRule_Port_Protocol port))),
      cidr,
      (IsEgressRulesSupportedTCPProtocol
         (ParseProtocol (routing.EgressRule_Port_Protocol port)));
      cbn [negb andb implb]; rewrite ?andb_true_r, ?andb_false_r;
      (split;
       [ intros (((Hn & Hb1) & Hr & Hb2) & Hb3);
         first [discriminate Hb1 | discriminate Hb2 | discriminate Hb3
               | split; [exact Hn |]; apply andb_true_iff; split; apply Z.leb_le; lia]
       | intros [Hn Hb]; try discriminate Hb;
         apply andb_true_iff in Hb as [Hlo Hhi];
         apply Z.leb_le in Hlo; apply Z.leb_le in Hhi;
         repeat split; (assumption || lia || reflexivity) ]).
Qed.

(** ** Mesh and proxy configuration *)

Lemma if_appendPrefixed_None (c : bool) (errs err : option error) (prefix : string)
    (args : list fmt_arg) :
  (if c then appendPrefixed errs err prefix args else errs) = None <->
  errs = None /\ (c = true -> err = None).
Proof.
  destruct c.
  - rewrite appendPrefixed_None. split.
    + intros [H1 H2]. split; [exact H1 | intros _; exact H2].
    + intros [H1 H2]. split; [exact H1 | apply H2; reflexivity].
  - split; [intros H; split; [exact H | discriminate] | intros [H _]; exact H].
Qed.

(** [ValidateProxyAddress] accepts an address iff it splits into a host and
    a port, the port is a number in 1..65535, and the host is a fully
    qualified domain name or parses as an IP address. *)
Theorem ValidateProxyAddress_accepts (hostAddr : string) :
  ValidateProxyAddress hostAddr = None <->
  exists host p port,
    net_SplitHostPort hostAddr = inl (host, p)
    /\ strconv_Atoi p = inl port
    /\ 1 <= port <= 65535
    /\ (ValidateFQDN host = None \/ net_ParseIP host <> None).
Proof.
  unfold ValidateProxyAddress.
  destruct (net_SplitHostPort hostAddr) as [[host p] | err].
  - destruct (strconv_Atoi p) as [port | err] eqn:Hatoi.
    + pose proof (ValidatePort_None port) as Hport.
      destruct (ValidatePort port) as [err |].
      * split; [discriminate |]. intros (host' & p' & port' & Hs & Ha & Hr & _).
        injection Hs as <- <-. rewrite Hatoi in Ha. injection Ha as <-.
        apply Hport in Hr. discriminate Hr.
      * destruct (ValidateFQDN host) as [err |] eqn:Hfqdn.
        -- destruct (net_ParseIP host) as [ip |] eqn:Hip.
           ++ split; [| reflexivity]. intros _. exists host, p, port.
              split; [reflexivity |]. split; [exact Hatoi |].
              split; [apply Hport; reflexivity | right; rewrite Hip; intros E; discriminate E].
           ++ split; [discriminate |]. intros (host' & p' & port' & Hs & _ & _ & [Hf | Hi]).
              ** injection Hs as <- <-. rewrite Hfqdn in Hf. discriminate Hf.
              ** injection Hs as <- <-. contradiction.
        -- split; [| reflexivity]. intros _. exists host, p, port.
           split; [reflexivity |]. split; [exact Hatoi |].
           split; [apply Hport; reflexivity | left; exact Hfqdn].
    + split; [discriminate |]. intros (host' & p' & port' & Hs & Ha & _).
      injection Hs as <- <-. rewrite Hatoi in Ha. discriminate Ha.
  - split; [discriminate |]. intros (host' & p' & port' & Hs & _). discriminate Hs.
Qed.

(** [ValidateProxyConfig] accepts a proxy configuration iff the three paths
    are set, the drain and parent shutdown durations, the refresh delay and
    the connect timeout are accepted, the discovery address is set and
    valid, the Zipkin and statsd addresses are each empty or valid, the
    admin port is in 1..65535 and the control plane policy is NONE or
    MUTUAL_TLS. *)
Theorem ValidateProxyConfig_accepts (config : ProxyConfig) :
  ValidateProxyConfig config = None <->
  ProxyConfig_ConfigPath config <> ""
  /\ ProxyConfig_BinaryPath config <> ""
  /\ ProxyConfig_ServiceCluster config <> ""
  /\ ValidateParentAndDrain (ProxyConfig_DrainDuration config)
       (ProxyConfig_ParentShutdownDuration config) = None
  /\ ValidateRefreshDelay (ProxyConfig_DiscoveryRefreshDelay config) = None
  /\ ProxyConfig_DiscoveryAddress config <> ""
  /\ ValidateProxyAddress (ProxyConfig_DiscoveryAddress config) = None
  /\ (ProxyConfig_ZipkinAddress config = ""
      \/ ValidateProxyAddress (ProxyConfig_ZipkinAddress config) = None)
  /\ ValidateConnectTimeout (ProxyConfig_ConnectTimeout config) = None
  /\ (ProxyConfig_StatsdUdpAddress config = ""
      \/ ValidateProxyAddress (ProxyConfig_StatsdUdpAddress config) = None)
  /\ 1 <= ProxyConfig_ProxyAdminPort config <= 65535
  /\ (ProxyConfig_ControlPlaneAuthPolicy config = AuthenticationPolicy_NONE
      \/ ProxyConfig_ControlPlaneAuthPolicy config = AuthenticationPolicy_MUTUAL_TLS).
Proof.
  unfold ValidateProxyConfig.
  set (policy := (ProxyConfig_ControlPlaneAuthPolicy config =? AuthenticationPolicy_NONE)
                 || (ProxyConfig_ControlPlaneAuthPolicy config =? AuthenticationPolicy_MUTUAL_TLS)).
  assert (Hpolicy : policy = true <->
            ProxyConfig_ControlPlaneAuthPolicy config = AuthenticationPolicy_NONE
            \/ ProxyConfig_ControlPlaneAuthPolicy config = AuthenticationPolicy_MUTUAL_TLS).
  { unfold policy. rewrite orb_true_iff, !Z.eqb_eq. reflexivity. }
  destruct policy.
  - rewrite appendPrefixed_None, ValidatePort_None.
    rewrite (if_appendPrefixed_None (negb (bool_decide (ProxyConfig_StatsdUdpAddress config = "")))).
    rewrite appendPrefixed_None.
    rewrite (if_appendPrefixed_None (negb (bool_decide (ProxyConfig_ZipkinAddress config = "")))).
    rewrite !negb_true_iff, !bool_decide_eq_false.
    destruct (bool_decide (ProxyConfig_DiscoveryAddress config = "")) eqn:Hdisc.
    + apply bool_decide_eq_true in Hdisc. split.
      * intros ((((H & _) & _) & _) & _). discriminate H.
      * intros (_ & _ & _ & _ & _ & H & _). contradiction.
    + apply bool_decide_eq_false in Hdisc.
      rewrite !appendPrefixed_None, !if_multierrorAppend1_None, !bool_decide_eq_false.
      split.
      * intros ((((((((((_ & H1) & H2) & H3) & H4) & H5) & H6) & H7) & H8) & H9) & H10).
        split; [exact H1 |]. split; [exact H2 |]. split; [exact H3 |].
        split; [exact H4 |]. split; [exact H5 |]. split; [exact Hdisc |].
        split; [exact H6 |].
        split; [destruct (decide (ProxyConfig_ZipkinAddress config = "")) as [E | E];
                [left; exact E | right; exact (H7 E)] |].
        split; [exact H8 |].
        split; [destruct (decide (ProxyConfig_StatsdUdpAddress config = "")) as [E | E];
                [left; exact E | right; exact (H9 E)] |].
        split; [exact H10 |]. apply Hpolicy. reflexivity.
      * intros (H1 & H2 & H3 & H4 & H5 & _ & H6 & H7 & H8 & H9 & H10 & _).
        split; [| exact H10].
        split; [| intros E; destruct H9 as [H9 | H9]; [contradiction | exact H9]].
        split; [| exact H8].
        split; [| intros E; destruct H7 as [H7 | H7]; [contradiction | exact H7]].
        split; [| exact H6]. split; [| exact H5]. split; [| exact H4].
        split; [| exact H3]. split; [| exact H2]. split; [reflexivity | exact H1].
  - split.
    + intros H. destruct (appendPrefixed _ _ _ _); discriminate H.
    + intros (_ & _ & _ & _ & _ & _ & _ & _ & _ & _ & _ & H). apply Hpolicy in H. discriminate H.
Qed.

(** [ValidateMeshConfig] accepts a mesh configuration iff the two Mixer
    addresses are each empty or valid, the proxy listen port is in
    1..65535, the connect timeout and the refresh delay are accepted, the
    policy is NONE or MUTUAL_TLS, and the default proxy configuration is
    present and accepted by [ValidateProxyConfig]. *)
Theorem ValidateMeshConfig_accepts (mesh : MeshConfig) :
  ValidateMeshConfig mesh = None <->
  (MeshConfig_MixerCheckServer mesh = ""
   \/ ValidateProxyAddress (MeshConfig_MixerCheckServer mesh) = None)
  /\ (MeshConfig_MixerReportServer mesh = ""
      \/ ValidateProxyAddress (MeshConfig_MixerReportServer mesh) = None)
  /\ 1 <= MeshConfig_ProxyListenPort mesh <= 65535
  /\ ValidateConnectTimeout (MeshConfig_ConnectTimeout mesh) = None
  /\ (MeshConfig_AuthPolicy mesh = MeshConfig_NONE
      \/ MeshConfig_AuthPolicy mesh = MeshConfig_MUTUAL_TLS)
  /\ ValidateRefreshDelay (MeshConfig_RdsRefreshDelay mesh) = None
  /\ exists config,
       MeshConfig_DefaultConfig mesh = Some config /\ ValidateProxyConfig config = None.
Proof.
  unfold ValidateMeshConfig.
  set (policy := (MeshConfig_AuthPolicy mesh =? MeshConfig_NONE)
                 || (MeshConfig_AuthPolicy mesh =? MeshConfig_MUTUAL_TLS)).
  assert (Hpolicy : policy = true <->
            MeshConfig_AuthPolicy mesh = MeshConfig_NONE
            \/ MeshConfig_AuthPolicy mesh = MeshConfig_MUTUAL_TLS).
  { unfold policy. rewrite orb_true_iff, !Z.eqb_eq. reflexivity. }
  destruct (MeshConfig_DefaultConfig mesh) as [config |].
  - rewrite appendIfError_None, appendPrefixed_None.
    destruct policy.
    + rewrite !appendPrefixed_None, ValidatePort_None.
      rewrite (if_appendPrefixed_None (negb (bool_decide (MeshConfig_MixerReportServer mesh = "")))).
      rewrite (if_appendPrefixed_None (negb (bool_decide (MeshConfig_MixerCheckServer mesh = "")))).
      rewrite !negb_true_iff, !bool_decide_eq_false.
      split.
      * intros ((((((_ & H1) & H2) & H3) & H4) & H5) & H6).
        split; [destruct (decide (MeshConfig_MixerCheckServer mesh = "")) as [E | E];
                [left; exact E | right; exact (H1 E)] |].
        split; [destruct (decide (MeshConfig_MixerReportServer mesh = "")) as [E | E];
                [left; exact E | right; exact (H2 E)] |].
        split; [exact H3 |]. split; [exact H4 |].
        split; [apply Hpolicy; reflexivity |]. split; [exact H5 |].
        exists config. split; [reflexivity | exact H6].
      * intros (H1 & H2 & H3 & H4 & _ & H5 & config' & Hc & H6). injection Hc as <-.
        split; [| exact H6]. split; [| exact H5]. split; [| exact H4].
        split; [| exact H3].
        split; [| intros E; destruct H2 as [H2 | H2]; [contradiction | exact H2]].
        split; [reflexivity |].
        intros E; destruct H1 as [H1 | H1]; [contradiction | exact H1].
    + split.
      * intros [[H _] _]. destruct (appendPrefixed _ _ _ _); discriminate H.
      * intros (_ & _ & _ & _ & H & _). apply Hpolicy in H. discriminate H.
  - split.
    + intros H. destruct (appendPrefixed _ _ _ _); discriminate H.
    + intros (_ & _ & _ & _ & _ & _ & config & Hc & _). discriminate Hc.
Qed.

(** ** Gateways *)

Lemma appendErrors1_None (errs x : option error) :
  appendErrors errs [x] = None <-> errs = None /\ x = None.
Proof.
  rewrite appendErrors_None. split.
  - intros H. split; [exact (List.Forall_inv H) |].
    exact (List.Forall_inv (List.Forall_inv_tail H)).
  - intros [-> ->]. repeat constructor.
Qed.

Lemma appendErrors2_None (errs x y : option error) :
  appendErrors errs [x; y] = None <-> errs = None /\ x = None /\ y = None.
Proof.
  rewrite appendErrors_None. split.
  - intros H. split; [exact (List.Forall_inv H) |].
    split; [exact (List.Forall_inv (List.Forall_inv_tail H)) |].
    exact (List.Forall_inv (List.Forall_inv_tail (List.Forall_inv_tail H))).
  - intros (-> & -> & ->). repeat constructor.
Qed.

Lemma and_iff_front (A A1 A2 B : Prop) : (A <-> A1 /\ A2) -> (A /\ B <-> A1 /\ A2 /\ B).
Proof.
  intros H. split.
  - intros [a b]. destruct (proj1 H a) as [a1 a2]. split; [exact a1 | split; [exact a2 | exact b]].
  - intros (a1 & a2 & b). split; [apply H; split; [exact a1 | exact a2] | exact b].
Qed.

Lemma if_appendErrors_None (c : bool) (errs : option error) (e : error) :
  (if c then appendErrors errs [Some e] else errs) = None <-> errs = None /\ c = false.
Proof.
  destruct c.
  - rewrite appendErrors1_None. split; [intros [_ H]; discriminate H | intros [_ H]; discriminate H].
  - split; [intros H; split; [exact H | reflexivity] | intros [H _]; exact H].
Qed.

Lemma foldM_passesAll {A X S : Type} (errsOf : X -> option error) (stateOf : X -> S)
  (body : X -> A -> result X) (next : S -> A -> S) (ok : S -> A -> bool)
  (defined : A -> bool) (l : list A) (x0 : X) :
  (forall x a, defined a = false -> exists p, body x a = Panics p) ->
  (forall x a, defined a = true ->
     exists x', body x a = Returns x'
                /\ stateOf x' = next (stateOf x) a
                /\ (errsOf x' = None <-> errsOf x = None /\ ok (stateOf x) a = true)) ->
  (exists x', foldM body l x0 = Returns x' /\ errsOf x' = None)
  <-> forallb defined l = true /\ errsOf x0 = None
      /\ passesAll next ok (stateOf x0) l = true.
Proof.
  intros Hpanics Hreturns. revert x0.
  induction l as [| a l IH]; intros x0; cbn [foldM forallb passesAll].
  - split.
    + intros (x' & Hx & He). injection Hx as <-. repeat split. exact He.
    + intros (_ & He & _). exists x0. split; [reflexivity | exact He].
  - destruct (defined a) eqn:Hdef.
    + destruct (Hreturns x0 a Hdef) as (x1 & -> & Hst & Herr). cbn [bind andb].
      rewrite IH, Hst, andb_true_iff, Herr. split.
      * intros (H1 & (H2 & H3) & H4). repeat split; assumption.
      * intros (H1 & H2 & H3 & H4). repeat split; assumption.
    + destruct (Hpanics x0 a Hdef) as (p & ->). cbn [bind andb]. split.
      * intros (x' & Hx & _). discriminate Hx.
      * intros (H & _). discriminate H.
Qed.

Lemma validateTLSOptions_None (tls : option networking.Server_TLSOptions) :
  validateTLSOptions tls = None <->
  forall t, tls = Some t ->
    (networking.TLSOptions_Mode t = networking.Server_TLSOptions_SIMPLE ->
     networking.TLSOptions_ServerCertificate t <> "")
    /\ (networking.TLSOptions_Mode t = networking.Server_TLSOptions_MUTUAL ->
        networking.TLSOptions_ServerCertificate t <> ""
        /\ networking.TLSOptions_CaCertificates t <> "").
Proof.
  unfold validateTLSOptions. destruct tls as [t |].
  - unfold networking.Server_TLSOptions_SIMPLE, networking.Server_TLSOptions_MUTUAL.
    destruct (Z.eqb_spec (networking.TLSOptions_Mode t) 1) as [Hs | Hs].
    + rewrite (if_appendErrors_None _ None), bool_decide_eq_false. split.
      * intros [_ Hc] t' Ht. injection Ht as <-. split; [intros _; exact Hc | lia].
      * intros H. split; [reflexivity |]. exact (proj1 (H t eq_refl) Hs).
    + destruct (Z.eqb_spec (networking.TLSOptions_Mode t) 2) as [Hm | Hm].
      * rewrite !if_appendErrors_None, !bool_decide_eq_false. split.
        -- intros [[_ Hc] Hca] t' Ht. injection Ht as <-.
           split; [lia | intros _; split; assumption].
        -- intros H. destruct (proj2 (H t eq_refl) Hm) as [Hc Hca].
           split; [split; [reflexivity | exact Hc] | exact Hca].
      * split; [| reflexivity]. intros _ t' Ht. injection Ht as <-. split; lia.
  - split; [| reflexivity]. intros _ t Ht. discriminate Ht.
Qed.

Lemma validateServerPort_None (port : option networking.Port) :
  validateServerPort port = None <->
  exists p,
    port = Some p
    /\ ParseProtocol (networking.Port_Protocol p) <> ProtocolUnsupported
    /\ networking.Port_Number p <= 65535
    /\ networking.Port_Name p <> "".
Proof.
  unfold validateServerPort. destruct port as [p |].
  - rewrite if_appendErrors_None, bool_decide_eq_false.
    transitivity
      ((ParseProtocol (networking.Port_Protocol p) <> ProtocolUnsupported
        /\ networking.Port_Number p <= 65535)
       /\ networking.Port_Name p <> "").
    + apply and_iff_compat_r.
      destruct (Z.ltb_spec 0 (networking.Port_Number p)) as [Hpos | Hpos].
      * rewrite appendErrors1_None, if_appendErrors_None, bool_decide_eq_false,
          ValidatePort_None.
        split; [intros [[_ H1] H2]; split; [exact H1 | lia]
               | intros [H1 H2]; split; [split; [reflexivity | exact H1] | lia]].
      * rewrite if_appendErrors_None, bool_decide_eq_false.
        split; [intros [_ H1]; split; [exact H1 | lia]
               | intros [H1 _]; split; [reflexivity | exact H1]].
    + split.
      * intros [[H1 H2] H3]. exists p. repeat split; assumption.
      * intros (p' & Hp & H1 & H2 & H3). injection Hp as <-. repeat split; assumption.
  - rewrite appendErrors1_None. split.
    + intros [_ H]. discriminate H.
    + intros (p & Hp & _). discriminate Hp.
Qed.

(** [validateServer] accepts a server iff it has a host, each host is a
    valid wildcard domain or a valid IPv4 address or subnet, the TLS
    options, when given, have a server certificate in the modes SIMPLE and
    MUTUAL and a CA bundle in the mode MUTUAL, and the port is set, with a
    supported protocol, a name, and a number that is at most 65535: the
    number 0 is accepted. *)
Theorem validateServer_accepts (server : networking.Server) :
  validateServer server = None <->
  networking.Server_Hosts server <> []
  /\ Forall (fun host => ValidateWildcardDomain host = None \/ ValidateIPv4Subnet host = None)
       (networking.Server_Hosts server)
  /\ (forall t, networking.Server_Tls server = Some t ->
        (networking.TLSOptions_Mode t = networking.Server_TLSOptions_SIMPLE ->
         networking.TLSOptions_ServerCertificate t <> "")
        /\ (networking.TLSOptions_Mode t = networking.Server_TLSOptions_MUTUAL ->
            networking.TLSOptions_ServerCertificate t <> ""
            /\ networking.TLSOptions_CaCertificates t <> ""))
  /\ exists p,
       networking.Server_Port server = Some p
       /\ ParseProtocol (networking.Port_Protocol p) <> ProtocolUnsupported
       /\ networking.Port_Number p <= 65535
       /\ networking.Port_Name p <> "".
Proof.
  unfold validateServer. rewrite appendErrors2_None.
  rewrite <- validateTLSOptions_None, <- validateServerPort_None.
  set (hostOk := fun host =>
                   match ValidateWildcardDomain host, ValidateIPv4Subnet host with
                   | Some _, Some _ => false
                   | _, _ => true
                   end).
  assert (Hhosts : forallb hostOk (networking.Server_Hosts server) = true <->
            Forall (fun host => ValidateWildcardDomain host = None
                                \/ ValidateIPv4Subnet host = None)
              (networking.Server_Hosts server)).
  { rewrite forallb_forall, List.Forall_forall. split; intros H host Hin.
    - specialize (H host Hin). unfold hostOk in H.
      destruct (ValidateWildcardDomain host); [| left; reflexivity].
      destruct (ValidateIPv4Subnet host); [discriminate H | right; reflexivity].
    - unfold hostOk. destruct (H host Hin) as [-> | E]; [reflexivity |].
      rewrite E. destruct (ValidateWildcardDomain host); reflexivity. }
  rewrite <- Hhosts.
  apply and_iff_front.
  destruct (isEmpty (networking.Server_Hosts server)) eqn:Hempty.
  - rewrite appendErrors1_None. split.
    + intros [_ H]. discriminate H.
    + intros [H _]. destruct (networking.Server_Hosts server); [contradiction | discriminate].
  - rewrite (fold_left_None _ hostOk (networking.Server_Hosts server) None).
    + split.
      * intros [_ H]. split; [| exact H].
        destruct (networking.Server_Hosts server); [discriminate Hempty | discriminate].
      * intros [_ H]. split; [reflexivity | exact H].
    + intros errs h. unfold hostOk.
      destruct (ValidateWildcardDomain h);
        [destruct (ValidateIPv4Subnet h) |].
      * rewrite appendErrors2_None. split; [| intros [_ E]; discriminate E].
        intros (_ & E & _). discriminate E.
      * split; [intros E; split; [exact E | reflexivity] | intros [E _]; exact E].
      * split; [intros E; split; [exact E | reflexivity] | intros [E _]; exact E].
Qed.

(** [ValidateGateway] returns without a failure iff the gateway has a
    server, every server is accepted by [validateServer], and no two
    servers have ports of the same name. *)
Theorem ValidateGateway_accepts (name namespace : string) (gateway : networking.Gateway) :
  ValidateGateway name namespace (MsgGateway gateway) = Returns None <->
  networking.Gateway_Servers gateway <> []
  /\ Forall (fun server => validateServer server = None) (networking.Gateway_Servers gateway)
  /\ NoDup (map serverPortName (networking.Gateway_Servers gateway)).
Proof.
  unfold ValidateGateway.
  match goal with
  | |- context [foldM ?f ?l (?e, ∅)] =>
      set (body := f); set (errs0 := e);
      transitivity (exists st, foldM body l (errs0, ∅) = Returns st /\ fst st = None)
  end.
  { destruct (foldM body (networking.Gateway_Servers gateway) (errs0, ∅)) as [st | p];
      cbn [bind].
    - split.
      + intros H. injection H as H. exists st. split; [reflexivity | exact H].
      + intros (st' & Hst & H). injection Hst as <-. rewrite H. reflexivity.
    - split; [discriminate |]. intros (st' & Hst & _). discriminate Hst. }
  rewrite (foldM_passesAll fst snd body
             (fun (seen : gset string) s => {[ serverPortName s ]} ∪ seen)
             (fun seen s => negb (bool_decide (serverPortName s ∈ seen)))
             (fun s => match networking.Server_Port s with Some _ => true | None => false end)).
  - cbn [fst snd]. rewrite passesAll_fresh_all.
    assert (Hservers : errs0 = None <->
              networking.Gateway_Servers gateway <> []
              /\ Forall (fun server => validateServer server = None)
                   (networking.Gateway_Servers gateway)).
    { unfold errs0.
      destruct (networking.Gateway_Servers gateway) as [| s servers]; cbn [isEmpty].
      - rewrite appendErrors1_None. split; [intros [_ H]; discriminate H |].
        intros [H _]. contradiction.
      - rewrite (fold_left_None _
                   (fun server => bool_decide (validateServer server = None))
                   (s :: servers) None).
        + rewrite forallb_forall, List.Forall_forall. split.
          * intros [_ H]. split; [discriminate |]. intros x Hin.
            specialize (H x Hin). apply bool_decide_eq_true in H. exact H.
          * intros [_ H]. split; [reflexivity |]. intros x Hin.
            apply bool_decide_eq_true. exact (H x Hin).
        + intros errs server. rewrite appendErrors1_None, bool_decide_eq_true. reflexivity. }
    rewrite Hservers. split.
    + intros (_ & [Hne Hall] & Hnd). split; [exact Hne |]. split; [exact Hall | exact Hnd].
    + intros (Hne & Hall & Hnd). split; [| split; [split; [exact Hne | exact Hall] | exact Hnd]].
      apply forallb_forall. intros s Hin. rewrite List.Forall_forall in Hall.
      pose proof (proj1 (appendErrors_None _ _) (Hall s Hin)) as H.
      apply List.Forall_inv_tail, List.Forall_inv_tail, List.Forall_inv in H.
      apply validateServerPort_None in H as (p & -> & _). reflexivity.
  - intros [errs seen] s Hdef. unfold body.
    destruct (networking.Server_Port s); [discriminate Hdef |]. exists NilDereference.
    reflexivity.
  - intros [errs seen] s Hdef. unfold body, serverPortName.
    destruct (networking.Server_Port s) as [port |]; [| discriminate Hdef].
    eexists. split; [reflexivity |]. cbn [fst snd]. split; [reflexivity |].
    rewrite if_appendErrors_None, negb_true_iff. reflexivity.
Qed.

(** ** HTTP routes *)

Lemma ValidatePercent_None (val : Z) : ValidatePercent val = None <-> 0 <= val <= 100.
Proof.
  unfold ValidatePercent.
  destruct (Z.ltb_spec val 0), (Z.ltb_spec 100 val); cbn;
    split; try discriminate; try reflexivity; lia.
Qed.

Lemma match_appendErrors_None {A : Type} (o : option A) (errs : option error)
    (check : A -> option error) :
  match o with Some t => appendErrors errs [check t] | None => errs end = None
  <-> errs = None /\ forall t, o = Some t -> check t = None.
Proof.
  destruct o as [t |].
  - rewrite appendErrors1_None. split.
    + intros [H1 H2]. split; [exact H1 |]. intros t' Ht. injection Ht as <-. exact H2.
    + intros [H1 H2]. split; [exact H1 | exact (H2 t eq_refl)].
  - split; [intros H; split; [exact H | discriminate] | intros [H _]; exact H].
Qed.

Lemma match_Some_appendErrors_None {A : Type} (o : option A) (errs : option error) (e : error) :
  match o with Some _ => appendErrors errs [Some e] | None => errs end = None
  <-> errs = None /\ o = None.
Proof.
  destruct o as [t |].
  - rewrite appendErrors1_None. split; intros [_ H]; discriminate H.
  - split; [intros H; split; [exact H | reflexivity] | intros [H _]; exact H].
Qed.

(** [validateHTTPRoute] accepts a route iff it has a redirect and then no
    destination, fault, rewrite or WebSocket upgrade, or no redirect and
    then a destination; the header names, the CORS policy, the fault, the
    matches, the mirror, the redirect, the retries, the rewrite and the
    timeout are accepted; every destination entry has its destination set
    and accepted and a weight in 0..100; and, with more than one entry, the
    [int32] total of the weights is at most 100.  The total need not be
    100. *)
Theorem validateHTTPRoute_accepts (http : networking.HTTPRoute) :
  validateHTTPRoute http = None <->
  match networking.HTTPRoute_Redirect http with
  | Some _ =>
      networking.HTTPRoute_Route http = []
      /\ networking.HTTPRoute_Fault http = None
      /\ networking.HTTPRoute_Rewrite http = None
      /\ networking.HTTPRoute_WebsocketUpgrade http = false
  | None => networking.HTTPRoute_Route http <> []
  end
  /\ (forall name value,
        networking.HTTPRoute_AppendHeaders http !! name = Some value ->
        ValidateHTTPHeaderName name = None)
  /\ validateCORSPolicy (networking.HTTPRoute_CorsPolicy http) = None
  /\ validateHTTPFaultInjection (networking.HTTPRoute_Fault http) = None
  /\ Forall (fun m =>
               (forall name, name ∈ networking.HTTPMatchRequest_Headers m ->
                             ValidateHTTPHeaderName name = None)
               /\ Labels_Validate (networking.HTTPMatchRequest_SourceLabels m) = None)
       (networking.HTTPRoute_Match http)
  /\ validateDestination (networking.HTTPRoute_Mirror http) = None
  /\ validateHTTPRedirect (networking.HTTPRoute_Redirect http) = None
  /\ validateHTTPRetry (networking.HTTPRoute_Retries http) = None
  /\ validateHTTPRewrite (networking.HTTPRoute_Rewrite http) = None
  /\ Forall (fun route =>
               networking.DestinationWeight_Destination route <> None
               /\ validateDestination (networking.DestinationWeight_Destination route) = None
               /\ 0 <= networking.DestinationWeight_Weight route <= 100)
       (networking.HTTPRoute_Route http)
  /\ (1 < Z.of_nat (List.length (networking.HTTPRoute_Route http)) ->
      totalWeight (networking.HTTPRoute_Route http) <= 100)
  /\ (forall t, networking.HTTPRoute_Timeout http = Some t ->
                ValidateDurationGogo (Some t) = None).
Proof.
  unfold validateHTTPRoute.
  match goal with
  | |- context [fold_left _ (networking.HTTPRoute_Route http) (?e, 0)] => set (pre := e)
  end.
  rewrite route_loop_split. cbv beta iota.
  change (fold_left
            (fun total route => wrap32 (total + networking.DestinationWeight_Weight route))
            (networking.HTTPRoute_Route http) 0)
    with (totalWeight (networking.HTTPRoute_Route http)).
  rewrite (match_appendErrors_None (networking.HTTPRoute_Timeout http) _
             (fun t => ValidateDurationGogo (Some t))).
  rewrite if_appendErrors_None.
  rewrite (fold_left_None _
             (fun route =>
                bool_decide (networking.DestinationWeight_Destination route <> None)
                && bool_decide
                     (validateDestination (networking.DestinationWeight_Destination route) = None)
                && bool_decide (0 <= networking.DestinationWeight_Weight route <= 100))).
  2: { intros errs route. rewrite !appendErrors1_None, ValidatePercent_None.
       rewrite !andb_true_iff, !bool_decide_eq_true.
       destruct (networking.DestinationWeight_Destination route) as [d |].
       - split.
         + intros [[H1 H2] H3]. split; [exact H1 |]. split; [split; [discriminate | exact H2] |].
           exact H3.
         + intros [H1 [[_ H2] H3]]. split; [split; [exact H1 | exact H2] | exact H3].
       - split.
         + intros [[H1 _] _]. discriminate H1.
         + intros [_ [[H1 _] _]]. contradiction. }
  subst pre. rewrite !appendErrors1_None.
  rewrite (fold_left_None _
             (fun m =>
                forallb (fun name => bool_decide (ValidateHTTPHeaderName name = None))
                  (elements (networking.HTTPMatchRequest_Headers m))
                && bool_decide
                     (Labels_Validate (networking.HTTPMatchRequest_SourceLabels m) = None))).
  2: { intros errs m. rewrite appendErrors1_None, andb_true_iff, bool_decide_eq_true.
       rewrite (fold_left_None _ (fun name => bool_decide (ValidateHTTPHeaderName name = None))).
       - split; [intros [[H1 H2] H3] | intros [H1 [H2 H3]]]; repeat split; assumption.
       - intros errs' name. rewrite appendErrors1_None, bool_decide_eq_true. reflexivity. }
  rewrite !appendErrors1_None.
  rewrite (fold_left_None _
             (fun kv : string * string => bool_decide (ValidateHTTPHeaderName (fst kv) = None))).
  2: { intros errs [name value]. rewrite appendErrors1_None, bool_decide_eq_true.
       reflexivity. }
  match goal with
  | |- context [match networking.HTTPRoute_Redirect http with Some _ => ?a | None => ?b end
                = None] =>
      assert (Hconflicts :
                match networking.HTTPRoute_Redirect http with Some _ => a | None => b end = None
                <-> match networking.HTTPRoute_Redirect http with
                    | Some _ =>
                        networking.HTTPRoute_Route http = []
                        /\ networking.HTTPRoute_Fault http = None
                        /\ networking.HTTPRoute_Rewrite http = None
                        /\ networking.HTTPRoute_WebsocketUpgrade http = false
                    | None => networking.HTTPRoute_Route http <> []
                    end)
  end.
  { destruct (networking.HTTPRoute_Redirect http);
      [ destruct (networking.HTTPRoute_WebsocketUpgrade http),
          (networking.HTTPRoute_Rewrite http), (networking.HTTPRoute_Fault http),
          (networking.HTTPRoute_Route http)
      | destruct (networking.HTTPRoute_Route http) ];
      cbn [isEmpty negb]; rewrite ?appendErrors1_None; split; intros H;
      repeat match goal with
             | H : _ /\ _ |- _ => destruct H
             end;
      try discriminate; try contradiction; repeat split; try reflexivity; discriminate. }
  rewrite Hconflicts. clear Hconflicts.
  assert (Hheaders :
            forallb (fun kv : string * string =>
                       bool_decide (ValidateHTTPHeaderName (fst kv) = None))
              (map_to_list (networking.HTTPRoute_AppendHeaders http)) = true
            <-> forall name value,
                  networking.HTTPRoute_AppendHeaders http !! name = Some value ->
                  ValidateHTTPHeaderName name = None).
  { rewrite forallb_forall. split.
    - intros H name value Hl. apply elem_of_map_to_list, list_elem_of_In in Hl.
      specialize (H _ Hl). apply bool_decide_eq_true in H. exact H.
    - intros H [name value] Hin. apply list_elem_of_In, elem_of_map_to_list in Hin.
      apply bool_decide_eq_true. exact (H name value Hin). }
  rewrite Hheaders. clear Hheaders.
  assert (Hmatches :
            forallb
              (fun m =>
                 forallb (fun name => bool_decide (ValidateHTTPHeaderName name = None))
                   (elements (networking.HTTPMatchRequest_Headers m))
                 && bool_decide
                      (Labels_Validate (networking.HTTPMatchRequest_SourceLabels m) = None))
              (networking.HTTPRoute_Match http) = true
            <-> Forall (fun m =>
                          (forall name, name ∈ networking.HTTPMatchRequest_Headers m ->
                                        ValidateHTTPHeaderName name = None)
                          /\ Labels_Validate (networking.HTTPMatchRequest_SourceLabels m) = None)
                  (networking.HTTPRoute_Match http)).
  { rewrite forallb_forall, List.Forall_forall. split.
    - intros H m Hin. specialize (H m Hin). apply andb_true_iff in H as [H1 H2].
      apply bool_decide_eq_true in H2. split; [| exact H2].
      intros name Hname. rewrite forallb_forall in H1.
      apply elem_of_elements, list_elem_of_In in Hname. specialize (H1 name Hname).
      apply bool_decide_eq_true in H1. exact H1.
    - intros H m Hin. destruct (H m Hin) as [H1 H2]. apply andb_true_iff.
      split; [| apply bool_decide_eq_true; exact H2].
      apply forallb_forall. intros name Hname. apply bool_decide_eq_true, H1.
      apply elem_of_elements, list_elem_of_In. exact Hname. }
  rewrite Hmatches. clear Hmatches.
  assert (Hroutes :
            forallb
              (fun route =>
                 bool_decide (networking.DestinationWeight_Destination route <> None)
                 && bool_decide
                      (validateDestination (networking.DestinationWeight_Destination route)
                       = None)
                 && bool_decide (0 <= networking.DestinationWeight_Weight route <= 100))
              (networking.HTTPRoute_Route http) = true
            <-> Forall (fun route =>
                          networking.DestinationWeight_Destination route <> None
                          /\ validateDestination (networking.DestinationWeight_Destination route)
                             = None
                          /\ 0 <= networking.DestinationWeight_Weight route <= 100)
                  (networking.HTTPRoute_Route http)).
  { rewrite forallb_forall, List.Forall_forall. split.
    - intros H route Hin. specialize (H route Hin).
      rewrite !andb_true_iff, !bool_decide_eq_true in H. destruct H as [[H1 H2] H3].
      split; [exact H1 | split; [exact H2 | exact H3]].
    - intros H route Hin. destruct (H route Hin) as (H1 & H2 & H3).
      rewrite !andb_true_iff, !bool_decide_eq_true.
      split; [split; [exact H1 | exact H2] | exact H3]. }
  rewrite Hroutes. clear Hroutes.
  assert (Htotal :
            (1 <? Z.of_nat (List.length (networking.HTTPRoute_Route http)))
            && (100 <? totalWeight (networking.HTTPRoute_Route http)) = false
            <-> (1 < Z.of_nat (List.length (networking.HTTPRoute_Route http)) ->
                 totalWeight (networking.HTTPRoute_Route http) <= 100)).
  { destruct (Z.ltb_spec 1 (Z.of_nat (List.length (networking.HTTPRoute_Route http)))),
      (Z.ltb_spec 100 (totalWeight (networking.HTTPRoute_Route http))); cbn [andb];
      split; try discriminate; try reflexivity; intros; lia. }
  rewrite Htotal. clear Htotal.
  split.
  - intros [[[[[[[[[[[H1 H2] H3] H4] H5] H6] H7] H8] H9] H10] H11] H12].
    split; [exact H1 |]. split; [exact H2 |]. split; [exact H3 |]. split; [exact H4 |].
    split; [exact H5 |]. split; [exact H6 |]. split; [exact H7 |]. split; [exact H8 |].
    split; [exact H9 |]. split; [exact H10 |]. split; [exact H11 | exact H12].
  - intros (H1 & H2 & H3 & H4 & H5 & H6 & H7 & H8 & H9 & H10 & H11 & H12).
    split; [| exact H12]. split; [| exact H11]. split; [| exact H10]. split; [| exact H9].
    split; [| exact H8]. split; [| exact H7]. split; [| exact H6]. split; [| exact H5].
    split; [| exact H4]. split; [| exact H3]. split; [exact H1 | exact H2].
Qed.

(** ** Virtual services *)

(** [ValidateVirtualService] accepts a virtual service iff its gateways
    are DNS-1123 labels, it has a host, every host is accepted by
    [validateHost], no host is [*] when the service applies to the mesh
    gateway, which it does when it names no gateway or names the mesh
    gateway, no two hosts match one another, it has an HTTP or a TCP route,
    and every HTTP route is accepted by [validateHTTPRoute]. *)
Theorem ValidateVirtualService_accepts (name namespace : string)
    (virtualService : networking.VirtualService) :
  ValidateVirtualService name namespace (MsgVirtualService virtualService) = None <->
  Forall (fun gateway => IsDNS1123Label gateway = true)
    (networking.VirtualService_Gateways virtualService)
  /\ networking.VirtualService_Hosts virtualService <> []
  /\ Forall (fun host => validateHost host = None) (networking.VirtualService_Hosts virtualService)
  /\ (networking.VirtualService_Gateways virtualService = []
      \/ In IstioMeshGateway (networking.VirtualService_Gateways virtualService) ->
      ~ In "*" (networking.VirtualService_Hosts virtualService))
  /\ Forall (fun pair => Hostname_Matches (fst pair) (snd pair) = false)
       (hostPairs (networking.VirtualService_Hosts virtualService))
  /\ (networking.VirtualService_Http virtualService <> []
      \/ networking.VirtualService_Tcp virtualService <> 0%nat)
  /\ Forall (fun route => validateHTTPRoute route = None)
       (networking.VirtualService_Http virtualService).
Proof.
  unfold ValidateVirtualService.
  set (gateways := networking.VirtualService_Gateways virtualService).
  set (hosts := networking.VirtualService_Hosts virtualService).
  match goal with
  | |- context [fold_left ?f gateways (?e, ?b)] =>
      assert (Hgateways : forall l e' b',
                fold_left f l (e', b')
                = (fold_left (fun errs gateway =>
                                if negb (IsDNS1123Label gateway)
                                then appendErrors errs
                                       [Some (Errorf "gateway is not a valid DNS1123 label: %v"
                                                [AString gateway])]
                                else errs) l e',
                   b' || existsb (fun gateway => bool_decide (gateway = IstioMeshGateway)) l))
  end.
  { induction l as [| g l IH]; intros e' b'; cbn [fold_left existsb].
    - rewrite orb_false_r. reflexivity.
    - rewrite IH. f_equal. destruct (bool_decide (g = IstioMeshGateway)), b'; reflexivity. }
  rewrite Hgateways. clear Hgateways. cbv beta iota.
  set (appliesToMesh := isEmpty gateways
                        || existsb (fun gateway => bool_decide (gateway = IstioMeshGateway))
                             gateways).
  set (hostOk := fun host : string =>
                   bool_decide (validateHost host = None)
                   && negb (appliesToMesh && bool_decide (host = "*"))).
  match goal with
  | |- context [fold_left ?f hosts (?e, true)] =>
      set (errs1 := e);
      assert (Hhosts : forall l e' b',
                exists e2, fold_left f l (e', b') = (e2, b' && forallb hostOk l)
                           /\ (e2 = None <-> e' = None /\ forallb hostOk l = true))
  end.
  { induction l as [| h l IH]; intros e' b'; cbn [fold_left forallb].
    - exists e'. rewrite andb_true_r. split; [reflexivity |].
      split; [intros H; split; [exact H | reflexivity] | intros [H _]; exact H].
    - unfold hostOk at 1 3. destruct (validateHost h) as [err |] eqn:Hh.
      + destruct (IH (appendErrors e' [Some err]) false) as (e2 & -> & He2).
        exists e2. rewrite andb_false_r. split; [reflexivity |].
        rewrite He2, appendErrors1_None. cbn. split.
        * intros [[_ H] _]. discriminate H.
        * intros [_ H]. discriminate H.
      + destruct (appliesToMesh && bool_decide (h = "*")).
        * match goal with
          | |- context [fold_left _ l (?x, false)] =>
              destruct (IH x false) as (e2 & -> & He2)
          end.
          exists e2. rewrite andb_false_r. split; [reflexivity |].
          rewrite He2, appendErrors1_None. cbn. split.
          -- intros [[_ H] _]. discriminate H.
          -- intros [_ H]. discriminate H.
        * destruct (IH e' b') as (e2 & -> & He2).
          exists e2. cbn. split; [reflexivity | exact He2]. }
  destruct (Hhosts hosts errs1 true) as (e2 & -> & He2).
  clear Hhosts. cbv beta iota. cbn [andb].
  rewrite (fold_left_None _ (fun route => bool_decide (validateHTTPRoute route = None))).
  2: { intros errs route. rewrite appendErrors1_None, bool_decide_eq_true. reflexivity. }
  rewrite if_appendErrors_None.
  set (pairOk := fun pair : string * string => negb (Hostname_Matches (fst pair) (snd pair))).
  match goal with
  | |- context [if forallb hostOk hosts then ?a else e2] =>
      assert (Hpairs : (if forallb hostOk hosts then a else e2) = None
                       <-> e2 = None /\ forallb pairOk (hostPairs hosts) = true)
  end.
  { destruct (forallb hostOk hosts).
    - apply fold_left_None. intros errs [hostI hostJ]. unfold pairOk. cbn [fst snd].
      rewrite if_appendErrors_None, negb_true_iff. reflexivity.
    - split.
      + intros H. apply He2 in H as [_ H]. discriminate H.
      + intros [H _]. apply He2 in H as [_ H]. discriminate H. }
  rewrite Hpairs, He2. clear Hpairs He2.
  assert (Herrs1 : errs1 = None <->
            Forall (fun gateway => IsDNS1123Label gateway = true) gateways /\ hosts <> []).
  { unfold errs1.
    rewrite if_appendErrors_None.
    rewrite (fold_left_None _ IsDNS1123Label).
    - rewrite forallb_forall, List.Forall_forall. split.
      + intros [[_ H1] H2]. split; [exact H1 |]. intros E. rewrite E in H2. discriminate H2.
      + intros [H1 H2]. split; [split; [reflexivity | exact H1] |].
        destruct hosts; [contradiction | reflexivity].
    - intros errs gateway. rewrite if_appendErrors_None, negb_false_iff. reflexivity. }
  rewrite Herrs1. clear Herrs1.
  assert (Hmesh : appliesToMesh = true <-> gateways = [] \/ In IstioMeshGateway gateways).
  { unfold appliesToMesh. rewrite orb_true_iff, existsb_exists. split.
    - intros [H | (g & Hin & Hg)].
      + left. destruct gateways; [reflexivity | discriminate H].
      + right. apply bool_decide_eq_true in Hg. rewrite <- Hg. exact Hin.
    - intros [H | H].
      + left. rewrite H. reflexivity.
      + right. exists IstioMeshGateway. split; [exact H |]. apply bool_decide_eq_true.
        reflexivity. }
  assert (HhostOk : forallb hostOk hosts = true <->
            Forall (fun host => validateHost host = None) hosts
            /\ (gateways = [] \/ In IstioMeshGateway gateways -> ~ In "*" hosts)).
  { rewrite <- Hmesh, forallb_forall, List.Forall_forall. unfold hostOk. split.
    - intros H. split.
      + intros host Hin. specialize (H host Hin). apply andb_true_iff in H as [H _].
        apply bool_decide_eq_true in H. exact H.
      + intros Hm Hin. specialize (H "*" Hin). apply andb_true_iff in H as [_ H].
        rewrite Hm in H. cbn in H. discriminate H.
    - intros [H1 H2] host Hin. apply andb_true_iff. split.
      + apply bool_decide_eq_true. exact (H1 host Hin).
      + apply negb_true_iff. destruct appliesToMesh; [| reflexivity]. cbn [andb].
        apply bool_decide_eq_false. intros ->. exact (H2 eq_refl Hin). }
  rewrite HhostOk. clear HhostOk Hmesh.
  assert (HpairOk : forallb pairOk (hostPairs hosts) = true <->
            Forall (fun pair => Hostname_Matches (fst pair) (snd pair) = false)
              (hostPairs hosts)).
  { rewrite forallb_forall, List.Forall_forall. unfold pairOk. split; intros H pair Hin.
    - apply negb_true_iff. exact (H pair Hin).
    - apply negb_true_iff. exact (H pair Hin). }
  rewrite HpairOk. clear HpairOk.
  assert (Hroutes : forallb (fun route => bool_decide (validateHTTPRoute route = None))
                      (networking.VirtualService_Http virtualService) = true <->
            Forall (fun route => validateHTTPRoute route = None)
              (networking.VirtualService_Http virtualService)).
  { rewrite forallb_forall, List.Forall_forall. split; intros H route Hin.
    - specialize (H route Hin). apply bool_decide_eq_true in H. exact H.
    - apply bool_decide_eq_true. exact (H route Hin). }
  rewrite Hroutes. clear Hroutes.
  assert (Hany : isEmpty (networking.VirtualService_Http virtualService)
                 && (networking.VirtualService_Tcp virtualService =? 0)%nat = false <->
            networking.VirtualService_Http virtualService <> []
            \/ networking.VirtualService_Tcp virtualService <> 0%nat).
  { destruct (networking.VirtualService_Http virtualService) as [| r l]; cbn [isEmpty andb].
    - destruct (Nat.eqb_spec (networking.VirtualService_Tcp virtualService) 0) as [E | E].
      + split; [discriminate |]. intros [H | H]; contradiction.
      + split; [intros _; right; exact E | reflexivity].
    - split; [intros _; left; discriminate | reflexivity]. }
  rewrite Hany. clear Hany.
  split.
  - intros [[[[[H1 H2] [H3 H4]] H5] H6] H7].
    split; [exact H1 |]. split; [exact H2 |]. split; [exact H3 |]. split; [exact H4 |].
    split; [exact H5 |]. split; [exact H6 | exact H7].
  - intros (H1 & H2 & H3 & H4 & H5 & H6 & H7).
    split; [| exact H7]. split; [| exact H6]. split; [| exact H5].
    split; [split; [exact H1 | exact H2] | split; [exact H3 | exact H4]].
Qed.

(** ** Mixer attributes *)

Lemma forallb_exists_false {A : Type} (p : A -> bool) (l : list A) :
  forallb p l = false -> exists x, In x l /\ p x = false.
Proof.
  induction l as [| x l IH]; cbn [forallb]; [discriminate |].
  destruct (p x) eqn:Hx; cbn [andb].
  - intros H. destruct (IH H) as (y & Hin & Hy). exists y. split; [right; exact Hin | exact Hy].
  - intros _. exists x. split; [left; reflexivity | exact Hx].
Qed.

Lemma foldM_defined {A S : Type} (body : S -> A -> result S) (defined : A -> bool)
  (p : panic) (l : list A) (s : S) :
  (forall s a, defined a = true -> exists s', body s a = Returns s') ->
  (forall s a, defined a = false -> body s a = Panics p) ->
  if forallb defined l then exists s', foldM body l s = Returns s'
  else foldM body l s = Panics p.
Proof.
  intros Hreturns Hpanics. revert s.
  induction l as [| a l IH]; intros s; cbn [forallb foldM].
  - exists s. reflexivity.
  - destruct (defined a) eqn:Hdef; cbn [andb].
    + destruct (Hreturns s a Hdef) as (s' & ->). cbn [bind]. apply IH.
    + rewrite (Hpanics s a Hdef). reflexivity.
Qed.

(** [ValidateMixerAttributes] panics exactly on the attribute lists that
    hold a duration attribute whose value is nil: the loop reports the nil
    value and then hands it to [ValidateGogoDuration], which reads its
    fields.  On every other list it returns. *)
Theorem ValidateMixerAttributes_panics_exactly (in_ : mpb.Attributes) :
  (ValidateMixerAttributes (MsgAttributes (Some in_)) = Panics NilDereference
   /\ exists k v, mpb.Attributes_Attributes in_ !! k = Some v /\ holdsNilDuration v = true)
  \/ ((exists errs, ValidateMixerAttributes (MsgAttributes (Some in_)) = Returns errs)
      /\ forall k v, mpb.Attributes_Attributes in_ !! k = Some v -> holdsNilDuration v = false).
Proof.
  unfold ValidateMixerAttributes.
  destruct (bool_decide (mpb.Attributes_Attributes in_ = ∅)) eqn:Hempty.
  - right. split; [eexists; reflexivity |]. apply bool_decide_eq_true in Hempty.
    intros k v Hk. rewrite Hempty in Hk. rewrite lookup_empty in Hk. discriminate Hk.
  - clear Hempty.
    match goal with
    | |- context [foldM ?f ?l None] =>
        pose proof (foldM_defined f (fun kv => negb (holdsNilDuration (snd kv)))
                      NilDereference l None) as Hloop
    end.
    destruct (forallb (fun kv => negb (holdsNilDuration (snd kv)))
                (map_to_list (mpb.Attributes_Attributes in_))) eqn:Hall.
    + right. split.
      * apply Hloop.
        -- intros errs [k v] Hdef. unfold holdsNilDuration in Hdef. cbn [snd] in Hdef.
           destruct (mpb.AttributeValue_Value v) as [[| | | | | | [d |] |] |];
             try (eexists; reflexivity).
           discriminate Hdef.
        -- intros errs [k v] Hdef. unfold holdsNilDuration in Hdef. cbn [snd] in Hdef.
           destruct (mpb.AttributeValue_Value v) as [[| | | | | | [d |] |] |];
             try discriminate Hdef.
           reflexivity.
      * intros k v Hk. rewrite forallb_forall in Hall.
        apply elem_of_map_to_list, list_elem_of_In in Hk.
        specialize (Hall _ Hk). apply negb_true_iff in Hall. exact Hall.
    + left. split.
      * apply Hloop.
        -- intros errs [k v] Hdef. unfold holdsNilDuration in Hdef. cbn [snd] in Hdef.
           destruct (mpb.AttributeValue_Value v) as [[| | | | | | [d |] |] |];
             try (eexists; reflexivity).
           discriminate Hdef.
        -- intros errs [k v] Hdef. unfold holdsNilDuration in Hdef. cbn [snd] in Hdef.
           destruct (mpb.AttributeValue_Value v) as [[| | | | | | [d |] |] |];
             try discriminate Hdef.
           reflexivity.
      * destruct (forallb_exists_false _ _ Hall) as ([k v] & Hin & Hv).
        exists k, v. split.
        -- apply elem_of_map_to_list, list_elem_of_In. exact Hin.
        -- apply negb_false_iff in Hv. exact Hv.
Qed.

(** ** Service entries *)

Lemma fold_left_seen {A X K : Type} `{Countable K} (seenOf : X -> gset K) (f : X -> A -> X)
  (key : A -> K) (l : list A) (x0 : X) :
  (forall x a, seenOf (f x a) = {[ key a ]} ∪ seenOf x) ->
  forall k, k ∈ seenOf (fold_left f l x0) <-> In k (map key l) \/ k ∈ seenOf x0.
Proof.
  intros Hf. revert x0. induction l as [| a l IH]; intros x0 k; cbn [fold_left map In].
  - split; [intros Hk; right; exact Hk | intros [[] | Hk]; exact Hk].
  - rewrite IH, Hf, elem_of_union, elem_of_singleton. split.
    + intros [Hk | [Hk | Hk]].
      * left. right. exact Hk.
      * left. left. symmetry. exact Hk.
      * right. exact Hk.
    + intros [[Hk | Hk] | Hk].
      * right. left. symmetry. exact Hk.
      * left. exact Hk.
      * right. right. exact Hk.
Qed.

(** [ValidateServiceEntry] accepts a service entry iff it has a host; no
    host is [*], every host has a dot and is a valid wildcard domain; the
    addresses are CIDR blocks; no two ports have the same name or the same
    number, and the name, protocol and number of every port are valid; and
    the endpoints fit the resolution: none for NONE; for STATIC at least
    one, each a valid Unix address without ports or a valid IPv4 address
    whose port names are declared by the entry, with exactly one declared
    port when some endpoint is a Unix address; for DNS, FQDN hosts when
    there is no endpoint, and every endpoint an FQDN whose ports are
    declared by the entry and have a valid name and number.  An entry
    without ports is accepted. *)
Theorem ValidateServiceEntry_accepts (name namespace : string)
    (serviceEntry : networking.ServiceEntry) :
  let declared (portName : string) :=
    In portName (map networking.Port_Name (networking.ServiceEntry_Ports serviceEntry)) in
  let isUnix (endpoint : networking.ServiceEntry_Endpoint) :=
    GoStrings.HasPrefix (networking.Endpoint_Address endpoint) UnixAddressPrefix in
  ValidateServiceEntry name namespace (MsgServiceEntry serviceEntry) = None <->
  networking.ServiceEntry_Hosts serviceEntry <> []
  /\ Forall (fun host => host <> "*" /\ GoStrings.Contains host "." = true
                         /\ ValidateWildcardDomain host = None)
       (networking.ServiceEntry_Hosts serviceEntry)
  /\ Forall (fun address => validateCIDR address = None)
       (networking.ServiceEntry_Addresses serviceEntry)
  /\ NoDup (map networking.Port_Name (networking.ServiceEntry_Ports serviceEntry))
  /\ NoDup (map networking.Port_Number (networking.ServiceEntry_Ports serviceEntry))
  /\ Forall (fun port => validatePortName (networking.Port_Name port) = None
                         /\ validateProtocol (networking.Port_Protocol port) = None
                         /\ ValidatePort (networking.Port_Number port) = None)
       (networking.ServiceEntry_Ports serviceEntry)
  /\ ((networking.ServiceEntry_Resolution serviceEntry = networking.ServiceEntry_NONE
       /\ networking.ServiceEntry_Endpoints serviceEntry = [])
      \/ (networking.ServiceEntry_Resolution serviceEntry = networking.ServiceEntry_STATIC
          /\ networking.ServiceEntry_Endpoints serviceEntry <> []
          /\ Forall (fun endpoint =>
                       (if isUnix endpoint
                        then ValidateUnixAddress
                               (GoStrings.TrimPrefix (networking.Endpoint_Address endpoint)
                                  UnixAddressPrefix) = None
                             /\ networking.Endpoint_Ports endpoint = ∅
                        else ValidateIPv4Address (networking.Endpoint_Address endpoint) = None
                             /\ forall portName port,
                                  networking.Endpoint_Ports endpoint !! portName = Some port ->
                                  declared portName)
                       /\ Labels_Validate (networking.Endpoint_Labels endpoint) = None)
               (networking.ServiceEntry_Endpoints serviceEntry)
          /\ ((exists endpoint,
                  In endpoint (networking.ServiceEntry_Endpoints serviceEntry)
                  /\ isUnix endpoint = true) ->
              List.length (networking.ServiceEntry_Ports serviceEntry) = 1%nat))
      \/ (networking.ServiceEntry_Resolution serviceEntry = networking.ServiceEntry_DNS
          /\ (networking.ServiceEntry_Endpoints serviceEntry = [] ->
              Forall (fun host => ValidateFQDN host = None)
                (networking.ServiceEntry_Hosts serviceEntry))
          /\ Forall (fun endpoint =>
                       ValidateFQDN (networking.Endpoint_Address endpoint) = None
                       /\ Labels_Validate (networking.Endpoint_Labels endpoint) = None
                       /\ forall portName port,
                            networking.Endpoint_Ports endpoint !! portName = Some port ->
                            declared portName
                            /\ validatePortName portName = None
                            /\ ValidatePort port = None)
               (networking.ServiceEntry_Endpoints serviceEntry))).
Proof.
  intros declared isUnix. unfold ValidateServiceEntry.
  set (ports := networking.ServiceEntry_Ports serviceEntry) in *.
  set (hosts := networking.ServiceEntry_Hosts serviceEntry).
  set (endpoints := networking.ServiceEntry_Endpoints serviceEntry).
  match goal with
  | |- context [fold_left ?f ports (?e, ∅, ∅)] =>
      set (pre := e);
      assert (Herrs : (fold_left f ports (pre, ∅, ∅)).1.1 = None
                      <-> pre = None
                          /\ NoDup (map networking.Port_Name ports)
                          /\ NoDup (map networking.Port_Number ports));
      [| assert (Hnames : forall portName,
                   portName ∈ (fold_left f ports (pre, ∅, ∅)).1.2 <-> declared portName);
         [| destruct (fold_left f ports (pre, ∅, ∅)) as [[errs0 servicePorts] servicePortNumbers];
            cbn [fst snd] in Herrs, Hnames; cbv beta iota ] ]
  end.
  - set (okName := fun (seen : gset string) port =>
                     negb (bool_decide (networking.Port_Name port ∈ seen))).
    set (okNumber := fun (seen : gset Z) port =>
                       negb (bool_decide (networking.Port_Number port ∈ seen))).
    set (next := fun (st : gset string * gset Z) port =>
                   ({[ networking.Port_Name port ]} ∪ st.1,
                    {[ networking.Port_Number port ]} ∪ st.2)).
    match goal with
    | |- context [fold_left ?f ports _] =>
        rewrite (fold_left_passesAll
                   (fun x : option error * gset string * gset Z => x.1.1)
                   (fun x => (x.1.2, x.2))
                   f next (fun st port => okName st.1 port && okNumber st.2 port))
    end.
    + cbn [fst snd]. rewrite passesAll_and.
      rewrite (passesAll_part (fun st : gset string * gset Z => st.1) next
                 (fun seen port => {[ networking.Port_Name port ]} ∪ seen) okName)
        by reflexivity.
      rewrite (passesAll_part (fun st : gset string * gset Z => st.2) next
                 (fun seen port => {[ networking.Port_Number port ]} ∪ seen) okNumber)
        by reflexivity.
      cbn [fst snd]. unfold okName, okNumber.
      rewrite andb_true_iff, !passesAll_fresh_all. reflexivity.
    + intros [[e T] M] port. reflexivity.
    + intros [[e T] M] port. cbn [fst snd]. unfold okName, okNumber.
      rewrite !if_appendErrors_None, andb_true_iff, !negb_true_iff. split.
      * intros [[H1 H2] H3]. split; [exact H1 | split; [exact H2 | exact H3]].
      * intros [H1 [H2 H3]]. split; [split; [exact H1 | exact H2] | exact H3].
  - intros portName.
    match goal with
    | |- context [fold_left ?f ports _] =>
        rewrite (fold_left_seen (fun x : option error * gset string * gset Z => x.1.2)
                   f networking.Port_Name)
    end.
    + cbn [fst snd]. split; [intros [H | H]; [exact H | exact (False_ind _ (not_elem_of_empty _ H))]
                            | intros H; left; exact H].
    + intros [[e T] M] port. reflexivity.
  - rewrite (fold_left_None _
               (fun port =>
                  bool_decide (validatePortName (networking.Port_Name port) = None)
                  && bool_decide (validateProtocol (networking.Port_Protocol port) = None)
                  && bool_decide (ValidatePort (networking.Port_Number port) = None))).
    2: { intros errs port. rewrite appendErrors_None, !andb_true_iff, !bool_decide_eq_true.
         split.
         - intros H. split; [exact (List.Forall_inv H) |].
           apply List.Forall_inv_tail in H. split; [split |].
           + exact (List.Forall_inv H).
           + exact (List.Forall_inv (List.Forall_inv_tail H)).
           + exact (List.Forall_inv (List.Forall_inv_tail (List.Forall_inv_tail H))).
         - intros [H1 [[H2 H3] H4]]. repeat constructor; assumption. }
    assert (Hports :
              forallb
                (fun port =>
                   bool_decide (validatePortName (networking.Port_Name port) = None)
                   && bool_decide (validateProtocol (networking.Port_Protocol port) = None)
                   && bool_decide (ValidatePort (networking.Port_Number port) = None)) ports
              = true
              <-> Forall (fun port => validatePortName (networking.Port_Name port) = None
                                      /\ validateProtocol (networking.Port_Protocol port) = None
                                      /\ ValidatePort (networking.Port_Number port) = None)
                    ports).
    { rewrite forallb_forall, List.Forall_forall. split; intros H port Hin.
      - specialize (H port Hin). rewrite !andb_true_iff, !bool_decide_eq_true in H.
        destruct H as [[H1 H2] H3]. split; [exact H1 | split; [exact H2 | exact H3]].
      - destruct (H port Hin) as (H1 & H2 & H3). rewrite !andb_true_iff, !bool_decide_eq_true.
        split; [split; [exact H1 | exact H2] | exact H3]. }
    rewrite Hports. clear Hports.
    assert (Hpre : pre = None <->
              hosts <> []
              /\ Forall (fun host => host <> "*" /\ GoStrings.Contains host "." = true
                                     /\ ValidateWildcardDomain host = None) hosts
              /\ Forall (fun address => validateCIDR address = None)
                   (networking.ServiceEntry_Addresses serviceEntry)).
    { unfold pre.
      rewrite (fold_left_None _ (fun address => bool_decide (validateCIDR address = None))).
      2: { intros errs address. rewrite appendErrors1_None, bool_decide_eq_true.
           reflexivity. }
      rewrite (fold_left_None _
                 (fun host => negb (bool_decide (host = "*")) && GoStrings.Contains host "."
                              && bool_decide (ValidateWildcardDomain host = None))).
      2: { intros errs host. rewrite !andb_true_iff, negb_true_iff, bool_decide_eq_true.
           destruct (bool_decide (host = "*")); cbn [orb].
           - rewrite appendErrors1_None. split.
             + intros [_ H]. discriminate H.
             + intros [_ [[H _] _]]. discriminate H.
           - destruct (GoStrings.Contains host "."); cbn [negb].
             + rewrite appendErrors1_None. split.
               * intros [H1 H2]. repeat split; assumption.
               * intros [H1 [_ H2]]. split; assumption.
             + rewrite appendErrors1_None. split.
               * intros [_ H]. discriminate H.
               * intros [_ [[_ H] _]]. discriminate H. }
      rewrite (if_appendErrors_None _ None).
      rewrite !forallb_forall, !List.Forall_forall. split.
      - intros [[[_ H1] H2] H3]. split; [destruct hosts; [discriminate H1 | discriminate] |].
        split.
        + intros host Hin. specialize (H2 host Hin).
          rewrite !andb_true_iff, negb_true_iff, bool_decide_eq_false, bool_decide_eq_true in H2.
          destruct H2 as [[Ha Hb] Hc]. split; [exact Ha | split; [exact Hb | exact Hc]].
        + intros address Hin. specialize (H3 address Hin). apply bool_decide_eq_true in H3.
          exact H3.
      - intros (H1 & H2 & H3). split; [split; [split; [reflexivity |] |] |].
        + destruct hosts; [contradiction | reflexivity].
        + intros host Hin. destruct (H2 host Hin) as (Ha & Hb & Hc).
          rewrite !andb_true_iff, negb_true_iff, bool_decide_eq_false, bool_decide_eq_true.
          split; [split; [exact Ha | exact Hb] | exact Hc].
        + intros address Hin. apply bool_decide_eq_true. exact (H3 address Hin). }
    match goal with
    | |- ?r = None /\ _ <-> _ => set (R := r)
    end.
    assert (Hres : R = None <->
              errs0 = None
              /\ ((networking.ServiceEntry_Resolution serviceEntry = networking.ServiceEntry_NONE
                   /\ endpoints = [])
                  \/ (networking.ServiceEntry_Resolution serviceEntry
                      = networking.ServiceEntry_STATIC
                      /\ endpoints <> []
                      /\ Forall (fun endpoint =>
                                   (if isUnix endpoint
                                    then ValidateUnixAddress
                                           (GoStrings.TrimPrefix
                                              (networking.Endpoint_Address endpoint)
                                              UnixAddressPrefix) = None
                                         /\ networking.Endpoint_Ports endpoint = ∅
                                    else ValidateIPv4Address
                                           (networking.Endpoint_Address endpoint) = None
                                         /\ forall portName port,
                                              networking.Endpoint_Ports endpoint !! portName
                                              = Some port ->
                                              declared portName)
                                   /\ Labels_Validate (networking.Endpoint_Labels endpoint)
                                      = None)
                           endpoints
                      /\ ((exists endpoint, In endpoint endpoints /\ isUnix endpoint = true) ->
                          List.length ports = 1%nat))
                  \/ (networking.ServiceEntry_Resolution serviceEntry = networking.ServiceEntry_DNS
                      /\ (endpoints = [] -> Forall (fun host => ValidateFQDN host = None) hosts)
                      /\ Forall (fun endpoint =>
                                   ValidateFQDN (networking.Endpoint_Address endpoint) = None
                                   /\ Labels_Validate (networking.Endpoint_Labels endpoint)
                                      = None
                                   /\ forall portName port,
                                        networking.Endpoint_Ports endpoint !! portName
                                        = Some port ->
                                        declared portName
                                        /\ validatePortName portName = None
                                        /\ ValidatePort port = None)
                           endpoints))).
    { unfold R. clear R.
      unfold networking.ServiceEntry_NONE, networking.ServiceEntry_STATIC,
        networking.ServiceEntry_DNS.
      destruct (Z.eqb_spec (networking.ServiceEntry_Resolution serviceEntry) 0) as [E0 | E0];
        [| destruct (Z.eqb_spec (networking.ServiceEntry_Resolution serviceEntry) 1)
             as [E1 | E1];
           [| destruct (Z.eqb_spec (networking.ServiceEntry_Resolution serviceEntry) 2)
                as [E2 | E2] ] ].
      - (* NONE *)
        rewrite if_appendErrors_None, negb_false_iff. split.
        + intros [H1 H2]. split; [exact H1 |]. left. split; [exact E0 |].
          destruct endpoints; [reflexivity | discriminate H2].
        + intros [H1 [[_ H2] | [[H2 _] | [H2 _]]]].
          * split; [exact H1 |]. rewrite H2. reflexivity.
          * lia.
          * lia.
      - (* STATIC *)
        set (okPort := fun kv : string * Z => bool_decide (kv.1 ∈ servicePorts)).
        set (okEndpoint := fun endpoint =>
                             (if isUnix endpoint
                              then bool_decide
                                     (ValidateUnixAddress
                                        (GoStrings.TrimPrefix
                                           (networking.Endpoint_Address endpoint)
                                           UnixAddressPrefix) = None)
                                   && bool_decide (networking.Endpoint_Ports endpoint = ∅)
                              else bool_decide
                                     (ValidateIPv4Address
                                        (networking.Endpoint_Address endpoint) = None)
                                   && forallb okPort
                                        (map_to_list (networking.Endpoint_Ports endpoint)))
                             && bool_decide
                                  (Labels_Validate (networking.Endpoint_Labels endpoint)
                                   = None)).
        match goal with
        | |- context [fold_left ?f endpoints (?e, false)] =>
            set (errs1 := e);
            assert (Hloop : forall l e' b',
                      exists e2,
                        fold_left f l (e', b') = (e2, b' || existsb isUnix l)
                        /\ (e2 = None <-> e' = None /\ forallb okEndpoint l = true))
        end.
        { induction l as [| endpoint l IH]; intros e' b'; cbn [fold_left existsb forallb].
          - exists e'. rewrite orb_false_r. split; [reflexivity |].
            split; [intros H; split; [exact H | reflexivity] | intros [H _]; exact H].
          - unfold okEndpoint at 1. unfold isUnix at 1 3.
            destruct (GoStrings.HasPrefix (networking.Endpoint_Address endpoint)
                        UnixAddressPrefix); cbv beta iota.
            + match goal with
              | |- context [fold_left _ l (?x, true)] =>
                  destruct (IH x true) as (e2 & -> & He2)
              end.
              exists e2. split; [f_equal; destruct b'; reflexivity |].
              rewrite He2, appendErrors1_None, if_appendErrors_None, appendErrors1_None.
              rewrite negb_false_iff, !andb_true_iff, !bool_decide_eq_true. split.
              * intros [[[[H1 H2] H3] H4] H5]. repeat split; assumption.
              * intros [H1 [[[H2 H3] H4] H5]]. repeat split; assumption.
            + match goal with
              | |- context [fold_left _ l (?x, b')] =>
                  destruct (IH x b') as (e2 & -> & He2)
              end.
              exists e2. split; [f_equal |].
              rewrite He2, appendErrors1_None.
              rewrite (fold_left_None _ okPort).
              * rewrite appendErrors1_None, !andb_true_iff, !bool_decide_eq_true. split.
                -- intros [[[[H1 H2] H3] H4] H5]. repeat split; assumption.
                -- intros [H1 [[[H2 H3] H4] H5]]. repeat split; assumption.
              * intros errs' [portName port]. unfold okPort. cbn [fst].
                rewrite if_appendErrors_None, negb_false_iff. reflexivity. }
        destruct (Hloop endpoints errs1 false) as (e2 & -> & He2). clear Hloop.
        cbv beta iota. cbn [orb].
        rewrite if_appendErrors_None, He2. clear He2. unfold errs1. clear errs1.
        rewrite if_appendErrors_None.
        assert (Hends : forallb okEndpoint endpoints = true <->
                  Forall (fun endpoint =>
                            (if isUnix endpoint
                             then ValidateUnixAddress
                                    (GoStrings.TrimPrefix
                                       (networking.Endpoint_Address endpoint)
                                       UnixAddressPrefix) = None
                                  /\ networking.Endpoint_Ports endpoint = ∅
                             else ValidateIPv4Address
                                    (networking.Endpoint_Address endpoint) = None
                                  /\ forall portName port,
                                       networking.Endpoint_Ports endpoint !! portName
                                       = Some port ->
                                       declared portName)
                            /\ Labels_Validate (networking.Endpoint_Labels endpoint) = None)
                    endpoints).
        { rewrite forallb_forall, List.Forall_forall. unfold okEndpoint, okPort.
          split; intros H endpoint Hin.
          - specialize (H endpoint Hin). apply andb_true_iff in H as [H Hl].
            apply bool_decide_eq_true in Hl. split; [| exact Hl].
            destruct (isUnix endpoint).
            + rewrite andb_true_iff, !bool_decide_eq_true in H. exact H.
            + rewrite andb_true_iff, bool_decide_eq_true, forallb_forall in H.
              destruct H as [H1 H2]. split; [exact H1 |].
              intros portName port Hp. apply elem_of_map_to_list, list_elem_of_In in Hp.
              specialize (H2 _ Hp). cbn [fst] in H2. apply bool_decide_eq_true in H2.
              apply Hnames. exact H2.
          - destruct (H endpoint Hin) as [H1 Hl]. apply andb_true_iff.
            split; [| apply bool_decide_eq_true; exact Hl].
            destruct (isUnix endpoint).
            + rewrite andb_true_iff, !bool_decide_eq_true. exact H1.
            + rewrite andb_true_iff, bool_decide_eq_true, forallb_forall.
              destruct H1 as [H1 H2]. split; [exact H1 |].
              intros [portName port] Hp. apply list_elem_of_In, elem_of_map_to_list in Hp.
              cbn [fst]. apply bool_decide_eq_true, Hnames. exact (H2 portName port Hp). }
        rewrite Hends. clear Hends.
        assert (Hunix : existsb isUnix endpoints
                        && negb (Z.of_nat (List.length ports) =? 1) = false
                        <-> ((exists endpoint, In endpoint endpoints /\ isUnix endpoint = true)
                             -> List.length ports = 1%nat)).
        { destruct (existsb isUnix endpoints) eqn:Hex; cbn [andb].
          - apply existsb_exists in Hex. rewrite negb_false_iff, Z.eqb_eq. split.
            + intros H _. lia.
            + intros H. rewrite (H Hex). reflexivity.
          - split; [| reflexivity]. intros _ Hsome. apply existsb_exists in Hsome.
            rewrite Hsome in Hex. discriminate Hex. }
        rewrite Hunix. clear Hunix. split.
        + intros [[[H1 H2] H3] H4]. split; [exact H1 |]. right. left.
          split; [exact E1 |]. split; [| split; [exact H3 | exact H4]].
          intros E. rewrite E in H2. discriminate H2.
        + intros [H1 [[H2 _] | [[_ [H2 [H3 H4]]] | [H2 _]]]].
          * lia.
          * split; [split; [split; [exact H1 |] | exact H3] | exact H4].
            destruct endpoints; [contradiction | reflexivity].
          * lia.
      - (* DNS *)
        set (okPort := fun kv : string * Z =>
                         bool_decide (kv.1 ∈ servicePorts)
                         && bool_decide (validatePortName kv.1 = None)
                         && bool_decide (ValidatePort kv.2 = None)).
        set (okEndpoint := fun endpoint =>
                             bool_decide
                               (ValidateFQDN (networking.Endpoint_Address endpoint) = None)
                             && bool_decide
                                  (Labels_Validate (networking.Endpoint_Labels endpoint) = None)
                             && forallb okPort
                                  (map_to_list (networking.Endpoint_Ports endpoint))).
        rewrite (fold_left_None _ okEndpoint).
        2: { intros errs endpoint. rewrite (fold_left_None _ okPort).
             - rewrite appendErrors2_None. unfold okEndpoint.
               rewrite !andb_true_iff, !bool_decide_eq_true. split.
               + intros [[H1 [H2 H3]] H4]. repeat split; assumption.
               + intros [H1 [[H2 H3] H4]]. repeat split; assumption.
             - intros errs' [portName port]. unfold okPort. cbn [fst snd].
               rewrite appendErrors2_None, if_appendErrors_None, negb_false_iff.
               rewrite !andb_true_iff, !bool_decide_eq_true. split.
               + intros [[H1 H2] [H3 H4]]. repeat split; assumption.
               + intros [H1 [[H2 H3] H4]]. repeat split; assumption. }
        assert (Hinit : (if isEmpty endpoints
                         then fold_left
                                (fun errs host =>
                                   match ValidateFQDN host with
                                   | Some _ =>
                                       appendErrors errs
                                         [Some (Errorf "hosts must be FQDN if no endpoints are provided for discovery mode DNS" [])]
                                   | None => errs
                                   end) hosts errs0
                         else errs0) = None
                        <-> errs0 = None
                            /\ (endpoints = [] ->
                                Forall (fun host => ValidateFQDN host = None) hosts)).
        { destruct endpoints as [| endpoint rest]; cbn [isEmpty].
          - rewrite (fold_left_None _ (fun host => bool_decide (ValidateFQDN host = None))).
            + rewrite forallb_forall, List.Forall_forall. split.
              * intros [H1 H2]. split; [exact H1 |]. intros _ host Hin.
                specialize (H2 host Hin). apply bool_decide_eq_true in H2. exact H2.
              * intros [H1 H2]. split; [exact H1 |]. intros host Hin.
                apply bool_decide_eq_true. exact (H2 eq_refl host Hin).
            + intros errs host. rewrite bool_decide_eq_true.
              destruct (ValidateFQDN host).
              * rewrite appendErrors1_None. split; intros [_ H]; discriminate H.
              * split; [intros H; split; [exact H | reflexivity] | intros [H _]; exact H].
          - split; [intros H; split; [exact H | discriminate] | intros [H _]; exact H]. }
        rewrite Hinit. clear Hinit.
        assert (Hends : forallb okEndpoint endpoints = true <->
                  Forall (fun endpoint =>
                            ValidateFQDN (networking.Endpoint_Address endpoint) = None
                            /\ Labels_Validate (networking.Endpoint_Labels endpoint) = None
                            /\ forall portName port,
                                 networking.Endpoint_Ports endpoint !! portName = Some port ->
                                 declared portName
                                 /\ validatePortName portName = None
                                 /\ ValidatePort port = None)
                    endpoints).
        { rewrite forallb_forall, List.Forall_forall. unfold okEndpoint, okPort.
          split; intros H endpoint Hin.
          - specialize (H endpoint Hin).
            rewrite !andb_true_iff, !bool_decide_eq_true, forallb_forall in H.
            destruct H as [[H1 H2] H3]. split; [exact H1 |]. split; [exact H2 |].
            intros portName port Hl. apply elem_of_map_to_list, list_elem_of_In in Hl.
            specialize (H3 _ Hl). cbn [fst snd] in H3.
            rewrite !andb_true_iff, !bool_decide_eq_true in H3.
            destruct H3 as [[Ha Hb] Hc]. split; [apply Hnames; exact Ha |].
            split; [exact Hb | exact Hc].
          - destruct (H endpoint Hin) as (H1 & H2 & H3).
            rewrite !andb_true_iff, !bool_decide_eq_true, forallb_forall.
            split; [split; [exact H1 | exact H2] |].
            intros [portName port] Hl. apply list_elem_of_In, elem_of_map_to_list in Hl.
            destruct (H3 portName port Hl) as (Ha & Hb & Hc). cbn [fst snd].
            rewrite !andb_true_iff, !bool_decide_eq_true.
            split; [split; [apply Hnames; exact Ha | exact Hb] | exact Hc]. }
        rewrite Hends. clear Hends. split.
        + intros [[H1 H2] H3]. split; [exact H1 |]. right. right.
          split; [exact E2 |]. split; [exact H2 | exact H3].
        + intros [H1 [[H2 _] | [[H2 _] | [_ [H2 H3]]]]].
          * lia.
          * lia.
          * split; [split; [exact H1 | exact H2] | exact H3].
      - rewrite appendErrors1_None. split.
        + intros [_ H]. discriminate H.
        + intros [_ [[H _] | [[H _] | [H _]]]]; contradiction. }
    rewrite Hres, Herrs, Hpre. clear Hres Herrs Hpre. split.
    + intros [[[(H1 & H2 & H3) [H4 H5]] H6] H7].
      split; [exact H1 |]. split; [exact H2 |]. split; [exact H3 |]. split; [exact H4 |].
      split; [exact H5 |]. split; [exact H7 | exact H6].
    + intros (H1 & H2 & H3 & H4 & H5 & H7 & H6).
      split; [| exact H7]. split; [| exact H6].
      split; [split; [exact H1 | split; [exact H2 | exact H3]] | split; [exact H4 | exact H5]].
Qed.

(** ** Authentication policies *)

Lemma fold_left_state {A X S : Type} (stateOf : X -> S) (f : X -> A -> X) (next : S -> A -> S)
  (l : list A) (x0 : X) :
  (forall x a, stateOf (f x a) = next (stateOf x) a) ->
  stateOf (fold_left f l x0) = fold_left next l (stateOf x0).
Proof.
  intros Hf. revert x0. induction l as [| a l IH]; intros x0; cbn [fold_left]; [reflexivity |].
  rewrite IH, Hf. reflexivity.
Qed.

Lemma fold_left_insert_selected {A K : Type} `{Countable K} (key : A -> K) (sel : A -> bool)
  (l : list A) (seen : gset K) (k : K) :
  k ∈ fold_left (fun seen x => if sel x then {[ key x ]} ∪ seen else seen) l seen
  <-> In k (map key (List.filter sel l)) \/ k ∈ seen.
Proof.
  revert seen. induction l as [| a l IH]; intros seen; cbn [fold_left List.filter map In].
  - split; [intros Hk; right; exact Hk | intros [[] | Hk]; exact Hk].
  - rewrite IH. destruct (sel a); cbn [map In]; [| reflexivity].
    rewrite elem_of_union, elem_of_singleton. split.
    + intros [Hk | [Hk | Hk]].
      * left. right. exact Hk.
      * left. left. symmetry. exact Hk.
      * right. exact Hk.
    + intros [[Hk | Hk] | Hk].
      * right. left. symmetry. exact Hk.
      * left. exact Hk.
      * right. right. exact Hk.
Qed.

Lemma omap_selected {A : Type} (h : A -> option string) (l : list A) :
  omap h l
  = map (fun x => match h x with Some s => s | None => "" end)
      (List.filter (fun x => match h x with Some _ => true | None => false end) l).
Proof.
  induction l as [| x l IH]; [reflexivity |]. cbn [List.filter].
  change (omap h (x :: l)) with (match h x with Some y => y :: omap h l | None => omap h l end).
  destruct (h x) eqn:E; cbn [map]; rewrite ?E, IH; reflexivity.
Qed.

Lemma insert_seen {K : Type} `{Countable K} (k : K) (seen : gset K) :
  k ∈ seen -> {[ k ]} ∪ seen = seen.
Proof. intros Hk. apply subseteq_union_1_L, singleton_subseteq_l. exact Hk. Qed.

(** [ValidateAuthenticationPolicy] returns without a failure iff a
    cluster-scoped policy (empty namespace) has the default name and no
    target, a namespaced policy has the default name exactly when it has no
    target and its targets are valid; every JWT of a peer method is valid;
    every origin method has a JWT, which is valid; and no issuer occurs
    twice among the JWTs of the peer and the origin methods. *)
Theorem ValidateAuthenticationPolicy_accepts (name namespace : string) (in_ : authn.Policy) :
  ValidateAuthenticationPolicy name namespace (MsgPolicy in_) = Returns None <->
  (if bool_decide (namespace = "")
   then name = DefaultAuthenticationPolicyName /\ authn.Policy_Targets in_ = []
   else (authn.Policy_Targets in_ = [] <-> name = DefaultAuthenticationPolicyName)
        /\ Forall (fun target => validateAuthNPolicyTarget (Some target) = None)
             (authn.Policy_Targets in_))
  /\ Forall (fun method =>
               forall jwt, authn.PeerAuthenticationMethod_GetJwt method = Some jwt ->
                           validateJwt (Some jwt) = None)
       (authn.Policy_Peers in_)
  /\ Forall (fun method =>
               exists jwt, authn.OriginAuthenticationMethod_Jwt method = Some jwt
                           /\ validateJwt (Some jwt) = None)
       (authn.Policy_Origins in_)
  /\ NoDup (peerIssuers (authn.Policy_Peers in_) ++ originIssuers (authn.Policy_Origins in_)).
Proof.
  unfold ValidateAuthenticationPolicy.
  set (hP := fun method => authn.Jwt_Issuer <$> authn.PeerAuthenticationMethod_GetJwt method).
  set (hO := fun method => authn.Jwt_Issuer <$> authn.OriginAuthenticationMethod_Jwt method).
  set (keyP := fun method => match hP method with Some s => s | None => "" end).
  set (selP := fun method => match hP method with Some _ => true | None => false end).
  set (keyO := fun method => match hO method with Some s => s | None => "" end).
  set (selO := fun method => match hO method with Some _ => true | None => false end).
  set (jwtOkP := fun method =>
                   match authn.PeerAuthenticationMethod_GetJwt method with
                   | Some jwt => bool_decide (validateJwt (Some jwt) = None)
                   | None => true
                   end).
  set (jwtOkO := fun method =>
                   match authn.OriginAuthenticationMethod_Jwt method with
                   | Some jwt => bool_decide (validateJwt (Some jwt) = None)
                   | None => true
                   end).
  set (nextP := fun (seen : gset string) method =>
                  if selP method then {[ keyP method ]} ∪ seen else seen).
  set (freshP := fun (seen : gset string) method =>
                   if selP method then negb (bool_decide (keyP method ∈ seen)) else true).
  set (nextO := fun (seen : gset string) method =>
                  if selO method then {[ keyO method ]} ∪ seen else seen).
  set (freshO := fun (seen : gset string) method =>
                   if selO method then negb (bool_decide (keyO method ∈ seen)) else true).
  match goal with
  | |- context [fold_left ?f (authn.Policy_Peers in_) (?e, ∅)] =>
      set (errs0 := e);
      assert (HnextP : forall x a, snd (f x a) = nextP (snd x) a);
      [| assert (HokP : forall x a,
                   fst (f x a) = None
                   <-> fst x = None /\ freshP (snd x) a && jwtOkP a = true);
         [| pose proof (fold_left_passesAll fst snd f nextP
                          (fun seen a => freshP seen a && jwtOkP a)
                          (authn.Policy_Peers in_) (errs0, ∅) HnextP HokP) as Hpeers;
            pose proof (fold_left_state snd f nextP (authn.Policy_Peers in_) (errs0, ∅) HnextP)
              as Hseen;
            clear HnextP HokP;
            destruct (fold_left f (authn.Policy_Peers in_) (errs0, ∅)) as [errs1 seen1];
            cbn [fst snd] in Hpeers, Hseen; cbv beta iota ] ]
  end.
  - intros [errs seen] method. unfold nextP, selP, keyP, hP. cbn [snd].
    destruct (authn.PeerAuthenticationMethod_GetJwt method) as [jwt |];
      cbn [fmap option_fmap option_map]; [| reflexivity].
    destruct (bool_decide (authn.Jwt_Issuer jwt ∈ seen)) eqn:Hdup; cbn [snd]; [| reflexivity].
    apply bool_decide_eq_true in Hdup. symmetry. apply insert_seen. exact Hdup.
  - intros [errs seen] method. unfold freshP, jwtOkP, selP, keyP, hP. cbn [fst snd].
    destruct (authn.PeerAuthenticationMethod_GetJwt method) as [jwt |];
      cbn [fmap option_fmap option_map].
    + destruct (bool_decide (authn.Jwt_Issuer jwt ∈ seen)); cbn [fst negb andb].
      * rewrite !appendErrors1_None. split.
        -- intros [[_ H] _]. discriminate H.
        -- intros [_ H]. discriminate H.
      * rewrite appendErrors1_None, bool_decide_eq_true. reflexivity.
    + split; [intros H; split; [exact H | reflexivity] | intros [H _]; exact H].
  - match goal with
    | |- context [foldM ?f ?l (errs1, seen1)] =>
        set (body := f);
        transitivity (exists st, foldM body l (errs1, seen1) = Returns st /\ fst st = None)
    end.
    { destruct (foldM body (authn.Policy_Origins in_) (errs1, seen1)) as [st | p];
        cbn [bind].
      - split.
        + intros H. injection H as H. exists st. split; [reflexivity | exact H].
        + intros (st' & Hst & H). injection Hst as <-. rewrite H. reflexivity.
      - split; [discriminate |]. intros (st' & Hst & _). discriminate Hst. }
    rewrite (foldM_passesAll fst snd body nextO (fun seen a => freshO seen a && jwtOkO a) selO).
    2: { intros [errs seen] method Hdef. unfold body. unfold selO, hO in Hdef.
         destruct (authn.OriginAuthenticationMethod_Jwt method); [discriminate Hdef |].
         exists NilDereference. reflexivity. }
    2: { intros [errs seen] method Hdef. unfold body, nextO, freshO, jwtOkO, selO, keyO, hO.
         unfold selO, hO in Hdef.
         destruct (authn.OriginAuthenticationMethod_Jwt method) as [jwt |];
           [| discriminate Hdef].
         cbn [fmap option_fmap option_map fst snd].
         destruct (bool_decide (authn.Jwt_Issuer jwt ∈ seen)) eqn:Hdup.
         - eexists. split; [reflexivity |]. cbn [fst snd negb andb]. split.
           + apply bool_decide_eq_true in Hdup. symmetry. apply insert_seen. exact Hdup.
           + rewrite !appendErrors1_None. split.
             * intros [[_ H] _]. discriminate H.
             * intros [_ H]. discriminate H.
         - eexists. split; [reflexivity |]. cbn [fst snd negb andb]. split; [reflexivity |].
           rewrite appendErrors1_None, bool_decide_eq_true. reflexivity. }
    cbn [fst snd]. rewrite Hpeers. clear Hpeers.
    rewrite !passesAll_and, !passesAll_stateless, !andb_true_iff.
    unfold freshP, nextP, freshO, nextO.
    rewrite (passesAll_fresh keyP selP), (passesAll_fresh keyO selO).
    assert (Hnaming : errs0 = None <->
              if bool_decide (namespace = "")
              then name = DefaultAuthenticationPolicyName /\ authn.Policy_Targets in_ = []
              else (authn.Policy_Targets in_ = [] <-> name = DefaultAuthenticationPolicyName)
                   /\ Forall (fun target => validateAuthNPolicyTarget (Some target) = None)
                        (authn.Policy_Targets in_)).
    { unfold errs0. destruct (bool_decide (namespace = "")); cbn [negb].
      - rewrite !if_appendErrors_None, !negb_false_iff, bool_decide_eq_true. split.
        + intros [[_ H1] H2]. split; [exact H1 |].
          destruct (authn.Policy_Targets in_); [reflexivity | discriminate H2].
        + intros [H1 H2]. split; [split; [reflexivity | exact H1] |]. rewrite H2. reflexivity.
      - rewrite (fold_left_None _
                   (fun target => bool_decide (validateAuthNPolicyTarget (Some target) = None))).
        2: { intros errs target. rewrite appendErrors1_None, bool_decide_eq_true.
             reflexivity. }
        rewrite !if_appendErrors_None, forallb_forall, List.Forall_forall.
        destruct (authn.Policy_Targets in_) as [| target targets] eqn:Htargets;
          cbn [isEmpty negb andb].
        + rewrite negb_false_iff, bool_decide_eq_true. split.
          * intros [[[_ H1] _] _]. split; [split; [intros _; exact H1 | reflexivity] |].
            intros x [].
          * intros [[H1 _] _]. split; [| intros x []].
            split; [split; [reflexivity | exact (H1 eq_refl)] | reflexivity].
        + rewrite bool_decide_eq_false. split.
          * intros [[[_ _] H1] H2]. split.
            -- split; [discriminate | intros E; contradiction].
            -- intros x Hin. specialize (H2 x Hin). apply bool_decide_eq_true in H2. exact H2.
          * intros [[_ H1] H2]. split.
            -- split; [split; reflexivity |]. intros E. discriminate (H1 E).
            -- intros x Hin. apply bool_decide_eq_true. exact (H2 x Hin). }
    rewrite Hnaming. clear Hnaming.
    assert (HpeersOk : forallb jwtOkP (authn.Policy_Peers in_) = true <->
              Forall (fun method =>
                        forall jwt, authn.PeerAuthenticationMethod_GetJwt method = Some jwt ->
                                    validateJwt (Some jwt) = None)
                (authn.Policy_Peers in_)).
    { rewrite forallb_forall, List.Forall_forall. unfold jwtOkP. split; intros H method Hin.
      - intros jwt Hjwt. specialize (H method Hin). rewrite Hjwt in H.
        apply bool_decide_eq_true in H. exact H.
      - destruct (authn.PeerAuthenticationMethod_GetJwt method) as [jwt |] eqn:Hjwt;
          [| reflexivity].
        apply bool_decide_eq_true. exact (H method Hin jwt Hjwt). }
    rewrite HpeersOk. clear HpeersOk.
    assert (HoriginsOk : forallb selO (authn.Policy_Origins in_) = true
                         /\ forallb jwtOkO (authn.Policy_Origins in_) = true <->
              Forall (fun method =>
                        exists jwt, authn.OriginAuthenticationMethod_Jwt method = Some jwt
                                    /\ validateJwt (Some jwt) = None)
                (authn.Policy_Origins in_)).
    { rewrite !forallb_forall, List.Forall_forall. unfold selO, jwtOkO, hO. split.
      - intros [H1 H2] method Hin. specialize (H1 method Hin). specialize (H2 method Hin).
        destruct (authn.OriginAuthenticationMethod_Jwt method) as [jwt |];
          [| discriminate H1].
        exists jwt. split; [reflexivity |]. apply bool_decide_eq_true in H2. exact H2.
      - intros H. split; intros method Hin; destruct (H method Hin) as (jwt & -> & Hjwt).
        + reflexivity.
        + apply bool_decide_eq_true. exact Hjwt. }
    assert (Hissuers :
              (NoDup (map keyP (List.filter selP (authn.Policy_Peers in_)))
               /\ NoDup (map keyO (List.filter selO (authn.Policy_Origins in_)))
               /\ forall x, In x (authn.Policy_Origins in_) -> selO x = true -> keyO x ∉ seen1)
              <-> NoDup (peerIssuers (authn.Policy_Peers in_)
                         ++ originIssuers (authn.Policy_Origins in_))).
    { change (peerIssuers (authn.Policy_Peers in_)) with (omap hP (authn.Policy_Peers in_)).
      change (originIssuers (authn.Policy_Origins in_))
        with (omap hO (authn.Policy_Origins in_)).
      rewrite (omap_selected hP), (omap_selected hO).
      change (map (fun x => match hP x with Some s => s | None => "" end)
                (List.filter (fun x => match hP x with Some _ => true | None => false end)
                   (authn.Policy_Peers in_)))
        with (map keyP (List.filter selP (authn.Policy_Peers in_))).
      change (map (fun x => match hO x with Some s => s | None => "" end)
                (List.filter (fun x => match hO x with Some _ => true | None => false end)
                   (authn.Policy_Origins in_)))
        with (map keyO (List.filter selO (authn.Policy_Origins in_))).
      rewrite NoDup_app. split.
      - intros (H1 & H2 & H3). split; [exact H1 |]. split; [| exact H2].
        intros k Hk Hk'. apply list_elem_of_In, in_map_iff in Hk' as (x & Hx & Hin).
        apply List.filter_In in Hin as [Hin Hsel].
        apply (H3 x Hin Hsel). rewrite Hseen. apply fold_left_insert_selected.
        left. rewrite Hx. apply list_elem_of_In. exact Hk.
      - intros (H1 & H2 & H3). split; [exact H1 |]. split; [exact H3 |].
        intros x Hin Hsel Hk. rewrite Hseen in Hk.
        apply (fold_left_insert_selected keyP selP) in Hk as [Hk | Hk].
        + apply (H2 (keyO x)); [apply list_elem_of_In; exact Hk |].
          apply list_elem_of_In, in_map. apply List.filter_In. split; assumption.
        + exact (not_elem_of_empty _ Hk). }
    rewrite <- Hissuers, <- HoriginsOk. clear Hissuers HoriginsOk. split.
    + intros (H1 & (H2 & (H3 & _) & H4) & (H5 & H6) & H7).
      split; [exact H2 |]. split; [exact H4 |]. split; [split; [exact H1 | exact H7] |].
      split; [exact H3 | split; [exact H5 | exact H6]].
    + intros (H2 & H4 & (H1 & H7) & H3 & H5 & H6).
      split; [exact H1 |]. split; [split; [exact H2 |] |].
      * split; [| exact H4]. split; [exact H3 |]. intros x _ _. apply not_elem_of_empty.
      * split; [split; [exact H5 | exact H6] | exact H7].
Qed.

(** ** Service references and destinations *)

Lemma match_multierrorAppend1_None (x errs : option error) :
  match x with Some err => multierrorAppend1 errs err | None => errs end = None
  <-> errs = None /\ x = None.
Proof. exact (appendIfError_None errs x). Qed.

Lemma IsDNS1123Label_empty : IsDNS1123Label "" = false.
Proof. reflexivity. Qed.

(** [ValidateIstioService] accepts a service reference iff its labels are
    valid and either it has a name and no service, the name is a DNS-1123
    label, the namespace is empty or a DNS-1123 label and the domain is
    empty or a fully-qualified domain name; or it has a service and no
    name, the service is valid, and the namespace and the domain are
    empty. *)
Theorem ValidateIstioService_accepts (svc : routing.IstioService) :
  ValidateIstioService svc = None <->
  ((routing.IstioService_Name svc <> ""
    /\ routing.IstioService_Service svc = ""
    /\ IsDNS1123Label (routing.IstioService_Name svc) = true
    /\ (routing.IstioService_Namespace svc = ""
        \/ IsDNS1123Label (routing.IstioService_Namespace svc) = true)
    /\ (routing.IstioService_Domain svc = ""
        \/ ValidateFQDN (routing.IstioService_Domain svc) = None))
   \/ (routing.IstioService_Name svc = ""
       /\ routing.IstioService_Service svc <> ""
       /\ ValidateEgressRuleService (routing.IstioService_Service svc) = None
       /\ routing.IstioService_Namespace svc = ""
       /\ routing.IstioService_Domain svc = ""))
  /\ Labels_Validate (routing.IstioService_Labels svc) = None.
Proof.
  unfold ValidateIstioService. cbv zeta.
  rewrite match_multierrorAppend1_None. apply and_iff_compat_r.
  destruct (bool_decide (routing.IstioService_Name svc = "")) eqn:HN;
    [apply bool_decide_eq_true in HN | apply bool_decide_eq_false in HN];
    (destruct (bool_decide (routing.IstioService_Service svc = "")) eqn:HS;
     [apply bool_decide_eq_true in HS | apply bool_decide_eq_false in HS]);
    cbn [andb negb].
  - (* neither a name nor a service *)
    split.
    + intros H.
      destruct (negb (bool_decide (routing.IstioService_Domain svc = "")));
        [destruct (ValidateFQDN (routing.IstioService_Domain svc)) |];
        destruct (negb (bool_decide (routing.IstioService_Namespace svc = ""))
                  && negb (IsDNS1123Label (routing.IstioService_Namespace svc)));
        discriminate H.
    + intros [(H & _) | (_ & H & _)]; contradiction.
  - (* a service *)
    destruct (bool_decide (routing.IstioService_Namespace svc = "")) eqn:HNs;
      [apply bool_decide_eq_true in HNs | apply bool_decide_eq_false in HNs];
      (destruct (bool_decide (routing.IstioService_Domain svc = "")) eqn:HD;
       [apply bool_decide_eq_true in HD | apply bool_decide_eq_false in HD]);
      cbn [andb negb].
    + rewrite match_multierrorAppend1_None. split.
      * intros [_ H]. right. repeat split; assumption.
      * intros [(H & _) | (_ & _ & H & _)]; [contradiction |]. split; [reflexivity | exact H].
    + split.
      * intros H. destruct (ValidateFQDN (routing.IstioService_Domain svc)); discriminate H.
      * intros [(H & _) | (_ & _ & _ & _ & H)]; contradiction.
    + split.
      * intros H.
        destruct (negb (IsDNS1123Label (routing.IstioService_Namespace svc))); discriminate H.
      * intros [(H & _) | (_ & _ & _ & H & _)]; contradiction.
    + split.
      * intros H. destruct (ValidateFQDN (routing.IstioService_Domain svc));
          destruct (negb (IsDNS1123Label (routing.IstioService_Namespace svc)));
          discriminate H.
      * intros [(H & _) | (_ & _ & _ & H & _)]; contradiction.
  - (* a name *)
    assert (Hns : negb (bool_decide (routing.IstioService_Namespace svc = ""))
                  && negb (IsDNS1123Label (routing.IstioService_Namespace svc)) = false
                  <-> routing.IstioService_Namespace svc = ""
                      \/ IsDNS1123Label (routing.IstioService_Namespace svc) = true).
    { destruct (bool_decide (routing.IstioService_Namespace svc = "")) eqn:HNs;
        [apply bool_decide_eq_true in HNs | apply bool_decide_eq_false in HNs];
        cbn [andb negb].
      - split; [intros _; left; exact HNs | reflexivity].
      - rewrite negb_false_iff. split; [intros H; right; exact H |].
        intros [H | H]; [contradiction | exact H]. }
    assert (Hd : (if negb (bool_decide (routing.IstioService_Domain svc = ""))
                  then ValidateFQDN (routing.IstioService_Domain svc) else None) = None
                 <-> routing.IstioService_Domain svc = ""
                     \/ ValidateFQDN (routing.IstioService_Domain svc) = None).
    { destruct (bool_decide (routing.IstioService_Domain svc = "")) eqn:HD;
        [apply bool_decide_eq_true in HD | apply bool_decide_eq_false in HD];
        cbn [negb].
      - split; [intros _; left; exact HD | reflexivity].
      - split; [intros H; right; exact H | intros [H | H]; [contradiction | exact H]]. }
    transitivity
      ((IsDNS1123Label (routing.IstioService_Name svc) = true
        /\ negb (bool_decide (routing.IstioService_Namespace svc = ""))
           && negb (IsDNS1123Label (routing.IstioService_Namespace svc)) = false)
       /\ (if negb (bool_decide (routing.IstioService_Domain svc = ""))
           then ValidateFQDN (routing.IstioService_Domain svc) else None) = None).
    + destruct (negb (bool_decide (routing.IstioService_Domain svc = ""))).
      * rewrite match_multierrorAppend1_None, !if_multierrorAppend1_None, negb_false_iff.
        split.
        -- intros [[[_ H1] H2] H3]. split; [split; [exact H1 | exact H2] | exact H3].
        -- intros [[H1 H2] H3]. split; [split; [split; [reflexivity | exact H1] | exact H2] |].
           exact H3.
      * rewrite !if_multierrorAppend1_None, negb_false_iff. split.
        -- intros [[_ H1] H2]. split; [split; [exact H1 | exact H2] | reflexivity].
        -- intros [[H1 H2] _]. split; [split; [reflexivity | exact H1] | exact H2].
    + rewrite Hns, Hd. split.
      * intros [[H1 H2] H3]. left. repeat split; assumption.
      * intros [(_ & _ & H1 & H2 & H3) | (H & _)]; [| contradiction].
        split; [split; [exact H1 | exact H2] | exact H3].
  - (* both a name and a service *)
    split.
    + intros H.
      destruct (negb (bool_decide (routing.IstioService_Domain svc = "")));
        [destruct (ValidateFQDN (routing.IstioService_Domain svc)) |];
        destruct (negb (bool_decide (routing.IstioService_Namespace svc = ""))
                  && negb (IsDNS1123Label (routing.IstioService_Namespace svc)));
        discriminate H.
    + intros [(_ & H & _) | (H & _)]; contradiction.
Qed.

Lemma validateHost_None (host : string) :
  validateHost host = None
  <-> ValidateWildcardDomain host = None \/ ValidateIPv4Subnet host = None.
Proof.
  unfold validateHost. destruct (ValidateWildcardDomain host) as [err |].
  - destruct (ValidateIPv4Subnet host) as [err2 |].
    + rewrite appendErrors1_None. split.
      * intros [H _]. discriminate H.
      * intros [H | H]; discriminate H.
    + split; [intros _; right; reflexivity | reflexivity].
  - split; [intros _; left; reflexivity | reflexivity].
Qed.

(** [validateDestination] accepts a destination iff its host is a valid
    wildcard domain or a valid IPv4 address or subnet, its subset is empty
    or a DNS-1123 label, and its port selector, when given, holds a number
    in 1..65535 or a name that is a DNS-1123 label: a selector that holds
    neither, the number 0 or the empty name is rejected. *)
Theorem validateDestination_accepts (destination : networking.Destination) :
  validateDestination (Some destination) = None <->
  (ValidateWildcardDomain (networking.Destination_Host destination) = None
   \/ ValidateIPv4Subnet (networking.Destination_Host destination) = None)
  /\ (networking.Destination_Subset destination = ""
      \/ IsDNS1123Label (networking.Destination_Subset destination) = true)
  /\ forall selector,
       networking.Destination_Port destination = Some selector ->
       match networking.PortSelector_Port selector with
       | Some (networking.PortSelector_Number number) => 1 <= number <= 65535
       | Some (networking.PortSelector_Name portName) => IsDNS1123Label portName = true
       | None => False
       end.
Proof.
  unfold validateDestination. rewrite <- validateHost_None.
  assert (Hsubset : forall subset,
             subset <> "" ->
             validateSubsetName subset = None <-> IsDNS1123Label subset = true).
  { intros subset Hne. unfold validateSubsetName, GoStrings.len.
    destruct subset as [| c rest]; [contradiction |]. cbn [String.length].
    destruct (Z.eqb_spec (Z.of_nat (S (String.length rest))) 0) as [E | _]; [lia |].
    destruct (IsDNS1123Label (String c rest)); cbn [negb].
    - split; reflexivity.
    - split; discriminate. }
  assert (Hselector : forall selector,
             validatePortSelector (Some selector) = None <->
             match networking.PortSelector_Port selector with
             | Some (networking.PortSelector_Number number) => 1 <= number <= 65535
             | Some (networking.PortSelector_Name portName) => IsDNS1123Label portName = true
             | None => False
             end).
  { intros selector. unfold validatePortSelector, networking.PortSelector_GetName,
      networking.PortSelector_GetNumber.
    destruct (networking.PortSelector_Port selector) as [[number | portName] |].
    - change (bool_decide ("" = "")) with true. cbn [andb].
      destruct (Z.eqb_spec number 0) as [E | E]; cbn [negb].
      + rewrite appendErrors1_None, ValidatePort_None. split; [intros [_ H]; exact H | lia].
      + apply ValidatePort_None.
    - change (0 =? 0) with true. rewrite andb_true_r. cbn [negb].
      destruct (bool_decide (portName = "")) eqn:Hname.
      + apply bool_decide_eq_true in Hname. subst portName.
        rewrite appendErrors1_None, IsDNS1123Label_empty. split.
        * intros [H _]. discriminate H.
        * discriminate.
      + apply bool_decide_eq_false in Hname. apply Hsubset. exact Hname.
    - change (bool_decide ("" = "")) with true. change (0 =? 0) with true. cbn [andb].
      rewrite appendErrors1_None. split; [intros [H _]; discriminate H | contradiction]. }
  rewrite (match_appendErrors_None (networking.Destination_Port destination) _
             (fun port => validatePortSelector (Some port))).
  destruct (bool_decide (networking.Destination_Subset destination = "")) eqn:Hs;
    [apply bool_decide_eq_true in Hs | apply bool_decide_eq_false in Hs]; cbn [negb].
  - rewrite appendErrors1_None. split.
    + intros [[_ H1] H2]. split; [exact H1 |]. split; [left; exact Hs |].
      intros selector Hsel. apply Hselector. exact (H2 selector Hsel).
    + intros (H1 & _ & H2). split; [split; [reflexivity | exact H1] |].
      intros selector Hsel. apply Hselector. exact (H2 selector Hsel).
  - rewrite !appendErrors1_None, (Hsubset _ Hs). split.
    + intros [[[_ H1] H2] H3]. split; [exact H1 |]. split; [right; exact H2 |].
      intros selector Hsel. apply Hselector. exact (H3 selector Hsel).
    + intros (H1 & [H2 | H2] & H3); [contradiction |].
      split; [split; [split; [reflexivity | exact H1] | exact H2] |].
      intros selector Hsel. apply Hselector. exact (H3 selector Hsel).
Qed.

End Validators.

(** * Examples

    The properties at concrete inputs, with the protocol table and the
    addresses of [Example]. *)

(** C1 at the outcomes nil, "a", nil, merged in two orders. *)
Lemma appendErrors_aggregates_every_failure_witness :
  Permutation [None; Some (errors_New "a"); None] [Some (errors_New "a"); None; None]
  /\ (appendErrors None [Some (errors_New "a"); None] = None
      <-> appendErrors (Some (errors_New "a")) [None; None] = None).
Proof.
  split; [apply perm_swap |].
  apply (proj2 (proj2 (proj2 (proj2 (proj2
           (appendErrors_aggregates_every_failure None [Some (errors_New "a"); None])))))).
  apply perm_swap.
Defined.

(** C2, amended, at the label "foo" and the domain "*.foo.com". *)
Lemma ValidateWildcardDomain_wildcard_first_label_witness :
  IsDNS1123Label "foo" = true
  /\ (String.length "foo" <= 61)%nat
  /\ IsWildcardDNS1123Label "*-foo" = true
  /\ GoStrings.SplitN2 "*.foo.com" "." = ("*", Some "foo.com")
  /\ ValidateWildcardDomain "*.foo.com" = None
  /\ (In "*"%char (GoStrings.bytes "foo.com") <-> False).
Proof.
  assert (Hlabel : IsDNS1123Label "foo" = true) by (vm_compute; reflexivity).
  assert (Hlen : (String.length "foo" <= 61)%nat) by (simpl; lia).
  assert (Hsplit : GoStrings.SplitN2 "*.foo.com" "." = ("*", Some "foo.com"))
    by (vm_compute; reflexivity).
  assert (Hvalid : ValidateWildcardDomain "*.foo.com" = None) by (vm_compute; reflexivity).
  split; [exact Hlabel |]. split; [exact Hlen |].
  split;
    [exact (proj2 (proj2 (proj1 (proj2 (proj2 (proj2
              ValidateWildcardDomain_wildcard_first_label))) "foo" Hlabel)) Hlen) |].
  split; [exact Hsplit |]. split; [exact Hvalid |].
  split; [| intros []].
  exact (proj2 (proj2 (proj2 (proj2 ValidateWildcardDomain_wildcard_first_label)))
           "*.foo.com" "*" "foo.com" Hsplit Hvalid).
Defined.

(** C3 at the service entry of the scenario: one endpoint at
    unix:///var/run/sock and the two ports http-1 and http-2. *)
Lemma ValidateServiceEntry_resolution_gates_endpoints_witness :
  networking.ServiceEntry_Resolution Example.unixServiceEntry = networking.ServiceEntry_STATIC
  /\ networking.ServiceEntry_Endpoints Example.unixServiceEntry = [unixSocketEndpoint]
  /\ List.length (networking.ServiceEntry_Ports Example.unixServiceEntry) = 2%nat
  /\ ValidateServiceEntry (EqDecision0 := Example.Protocol_eq_dec)
       Example.ProtocolUnsupported Example.ParseProtocol
       Example.IP Example.net_ParseIP Example.net_ParseCIDR Example.IP_To4
       "entry" "default" (MsgServiceEntry Example.unixServiceEntry)
     = Some onePortForUnixError.
Proof.
  split; [reflexivity |]. split; [reflexivity |]. split; [reflexivity |].
  refine (proj2 (proj2
            (ValidateServiceEntry_resolution_gates_endpoints
               (EqDecision0 := Example.Protocol_eq_dec)
               Example.ProtocolUnsupported Example.ParseProtocol
               Example.IP Example.net_ParseIP Example.net_ParseCIDR Example.IP_To4
               "entry" "default" Example.unixServiceEntry))
            {| networking.Port_Number := 80; networking.Port_Protocol := "HTTP";
               networking.Port_Name := "http-1" |}
            {| networking.Port_Number := 8080; networking.Port_Protocol := "HTTP";
               networking.Port_Name := "http-2" |}
            _ _ _ _ _ _ _ _ _).
  all: try reflexivity.
  all: try (simpl; discriminate).
  all: repeat constructor; try (vm_compute; reflexivity); try (simpl; discriminate).
Defined.

(** C4 at the weights 60 and 30. *)
Lemma ValidateWeights_sum_rule_witness :
  Forall (fun r => int32_range (routing.DestinationWeight_Weight r))
    [ {| routing.DestinationWeight_Labels := ∅; routing.DestinationWeight_Weight := 60 |};
      {| routing.DestinationWeight_Labels := ∅; routing.DestinationWeight_Weight := 30 |} ]
  /\ ValidateWeights
       [ {| routing.DestinationWeight_Labels := ∅; routing.DestinationWeight_Weight := 60 |};
         {| routing.DestinationWeight_Labels := ∅; routing.DestinationWeight_Weight := 30 |} ]
     = Some (MultiError [weightSumError 90]).
Proof.
  assert (Hrange : Forall (fun r => int32_range (routing.DestinationWeight_Weight r))
                     [ {| routing.DestinationWeight_Labels := ∅;
                          routing.DestinationWeight_Weight := 60 |};
                       {| routing.DestinationWeight_Labels := ∅;
                          routing.DestinationWeight_Weight := 30 |} ])
    by (repeat constructor; vm_compute; discriminate).
  split; [exact Hrange |].
  refine (proj2 (proj1 (proj1 (proj2 (ValidateWeights_sum_rule _ Hrange _)) _)) _).
  - vm_compute. discriminate.
  - intros (r & Hr & _). discriminate Hr.
  - vm_compute. discriminate.
Defined.

(** C6, as the claim states it, fails: an egress rule whose one port has a
    number out of range and a protocol that is not supported is reported
    with the failure of the number only; the check of the protocol is not
    made. *)
Lemma ValidateEgressRule_reports_first_port_failure_only :
  Example.IsEgressRulesSupportedProtocol
    (Example.ParseProtocol (routing.EgressRule_Port_Protocol Example.badPort)) = false
  /\ failuresOf
       (ValidateEgressRule Example.ParseProtocol Example.IsEgressRulesSupportedProtocol
          Example.IsEgressRulesSupportedTCPProtocol Example.egressRulesSupportedProtocols
          Example.egressRulesSupportedTCPProtocols
          Example.IP Example.net_ParseCIDR Example.IP_To4
          "rule" "default" (MsgEgressRule Example.badPortRule))
     = [Errorf "port number %d must be in the range 1..65535" [AInt 0]].
Proof. split; vm_compute; reflexivity. Qed.

(** C6, amended, at a message of another kind. *)
Lemma wrong_kind_is_fatal_and_own_checks_accumulate_witness :
  ValidateRouteRule Example.IP Example.net_ParseIP Example.net_ParseCIDR Example.IP_To4
    Example.strings_ToLower Example.HeaderURI
    "rule" "default" (MsgEgressRule Example.badPortRule)
  = Some (Errorf "cannot cast to routing rule" []).
Proof.
  refine (proj1
            (wrong_kind_is_fatal_and_own_checks_accumulate
               (EqDecision0 := Example.Protocol_eq_dec)
               Example.ProtocolUnsupported Example.ParseProtocol
               Example.IsEgressRulesSupportedProtocol Example.IsEgressRulesSupportedTCPProtocol
               Example.egressRulesSupportedProtocols Example.egressRulesSupportedTCPProtocols
               Example.IP Example.net_ParseIP Example.net_ParseCIDR Example.IP_To4
               Example.strings_ToLower Example.ParseJwksURI Example.Hostname_Matches
               Example.DefaultAuthenticationPolicyName Example.IstioMeshGateway
               Example.types_TimestampFromProto Example.mixerToProxyIstioService
               Example.HeaderURI
               "rule" "default" (MsgEgressRule Example.badPortRule)) _).
  intros v. discriminate.
Defined.

(** C7, as the claim states it, fails: an endpoint whose family is neither
    TCP nor Unix makes [ValidateNetworkEndpointAddress] panic. *)
Lemma ValidateNetworkEndpointAddress_panics_on_other_family :
  ValidateNetworkEndpointAddress Example.IP Example.net_ParseIP
    Example.AddressFamilyTCP Example.AddressFamilyUnix
    {| NetworkEndpoint_Family := 2; NetworkEndpoint_Address := "10.0.0.1" |}
  = Panics (PanicValue "unhandled Family %v" [AInt 2]).
Proof. reflexivity. Qed.

(** The two other inputs: a server without a port and an origin method
    without a JWT are read through the nil pointer. *)
Lemma ValidateGateway_panics_on_nil_port :
  ValidateGateway (EqDecision0 := Example.Protocol_eq_dec)
    Example.ProtocolUnsupported Example.ParseProtocol
    Example.IP Example.net_ParseIP Example.net_ParseCIDR Example.IP_To4
    "gateway" "default"
    (MsgGateway {| networking.Gateway_Servers :=
                     [ {| networking.Server_Port := None;
                          networking.Server_Hosts := ["foo.bar.com"];
                          networking.Server_Tls := None |} ] |})
  = Panics NilDereference.
Proof. vm_compute. reflexivity. Qed.

Lemma ValidateAuthenticationPolicy_panics_on_nil_jwt :
  ValidateAuthenticationPolicy Example.ParseJwksURI Example.DefaultAuthenticationPolicyName
    "default" "default"
    (MsgPolicy {| authn.Policy_Targets := [];
                  authn.Policy_Peers := [];
                  authn.Policy_Origins := [ {| authn.OriginAuthenticationMethod_Jwt := None |} ] |})
  = Panics NilDereference.
Proof. vm_compute. reflexivity. Qed.

(** C7, amended, at a gateway with one server, whose port is set. *)
Lemma validators_return_where_they_do_not_panic_witness :
  Forall (fun s => networking.Server_Port s <> None)
    (networking.Gateway_Servers Example.oneServerGateway)
  /\ exists errs,
      ValidateGateway (EqDecision0 := Example.Protocol_eq_dec)
        Example.ProtocolUnsupported Example.ParseProtocol
        Example.IP Example.net_ParseIP Example.net_ParseCIDR Example.IP_To4
        "gateway" "default" (MsgGateway Example.oneServerGateway)
      = Returns errs.
Proof.
  assert (Hports : Forall (fun s => networking.Server_Port s <> None)
                     (networking.Gateway_Servers Example.oneServerGateway))
    by (repeat constructor; simpl; discriminate).
  split; [exact Hports |].
  exact (proj1 (proj2
           (validators_return_where_they_do_not_panic
              (EqDecision0 := Example.Protocol_eq_dec)
              Example.ProtocolUnsupported Example.ParseProtocol
              Example.IP Example.net_ParseIP Example.net_ParseCIDR Example.IP_To4
              Example.ParseJwksURI Example.DefaultAuthenticationPolicyName
              Example.AddressFamilyTCP Example.AddressFamilyUnix))
           "gateway" "default" Example.oneServerGateway Hports).
Defined.

(** C9, amended, at an abort of 50 percent whose error type is not set. *)
Lemma oneof_without_variant_witness :
  validateHTTPFaultInjectionAbort
    (Some {| networking.Abort_Percent := 50; networking.Abort_ErrorType := None |})
  = ValidatePercent 50.
Proof.
  exact (proj1 (proj2 oneof_without_variant)
           {| networking.Abort_Percent := 50; networking.Abort_ErrorType := None |} eq_refl).
Defined.

(** C10 at a spec with one pattern and no top-level attributes. *)
Lemma ValidateHTTPAPISpec_nil_attributes_per_pattern_witness :
  mccpb.HTTPAPISpec_Attributes Example.onePatternSpec = None
  /\ exists errs,
      ValidateHTTPAPISpec Example.types_TimestampFromProto "spec" "default"
        (MsgHTTPAPISpec Example.onePatternSpec) = Returns errs
      /\ countNilAttributesErrors (failuresOf errs) = 1%nat.
Proof.
  split; [reflexivity |].
  destruct (proj2 (ValidateHTTPAPISpec_nil_attributes_per_pattern
                     Example.types_TimestampFromProto "spec" "default"
                     Example.onePatternSpec eq_refl))
    as (errs & Hreturns & Hcount & _).
  exists errs. split; [exact Hreturns | exact Hcount].
Defined.

(** ** Further examples *)

(** A drain duration that is nil and a parent shutdown duration of five
    seconds: the one failure is that of the drain duration, with its
    prefix. *)
Lemma ValidateParentAndDrain_malformed_witness :
  failuresOf (ValidateParentAndDrain Example.time_Duration_String None
                (Some {| Seconds := 5; Nanos := 0 |}))
  = (prefixed "invalid drain duration:" (ValidateDuration None)
     ++ prefixed "invalid parent shutdown duration:"
          (ValidateDuration (Some {| Seconds := 5; Nanos := 0 |})))%list.
Proof.
  apply (ValidateParentAndDrain_malformed Example.time_Duration_String None
           (Some {| Seconds := 5; Nanos := 0 |})).
  left. vm_compute. discriminate.
Defined.

(** The fully-qualified name foo.bar.com is a wildcard domain. *)
Lemma ValidateFQDN_ValidateWildcardDomain_witness :
  ValidateFQDN "foo.bar.com" = None /\ ValidateWildcardDomain "foo.bar.com" = None.
Proof.
  assert (H : ValidateFQDN "foo.bar.com" = None) by (vm_compute; reflexivity).
  split; [exact H | exact (ValidateFQDN_ValidateWildcardDomain "foo.bar.com" H)].
Defined.

(** Two destinations with the weights 60 and 50: the total-weight failure
    is reported, with the total 110. *)
Lemma validateHTTPRoute_total_weight_in_range_witness :
  let routes := [weighted "foo.com" 60; weighted "foo.com" 50] in
  Forall (fun r => 0 <= networking.DestinationWeight_Weight r <= 100) routes
  /\ Z.of_nat (List.length routes) <= 2 ^ 24
  /\ In (totalWeightError 110)
       (failuresOf (validateHTTPRoute Example.IP Example.net_ParseIP Example.net_ParseCIDR
                      Example.IP_To4 Example.strings_ToLower (routeTo routes))).
Proof.
  cbv zeta.
  assert (Hrange : Forall (fun r => 0 <= networking.DestinationWeight_Weight r <= 100)
                     [weighted "foo.com" 60; weighted "foo.com" 50])
    by (repeat constructor; simpl; lia).
  assert (Hlen : Z.of_nat (List.length [weighted "foo.com" 60; weighted "foo.com" 50])
                 <= 2 ^ 24) by (vm_compute; discriminate).
  split; [exact Hrange |]. split; [exact Hlen |].
  apply (proj2 (validateHTTPRoute_total_weight_in_range
                  Example.IP Example.net_ParseIP Example.net_ParseCIDR Example.IP_To4
                  Example.strings_ToLower
                  (routeTo [weighted "foo.com" 60; weighted "foo.com" 50]) Hrange Hlen)).
  split; vm_compute; reflexivity.
Defined.
